(** * Wildfire predictor: the computational core of [src/App.jsx]

    A shallow embedding of the helpers of [src/App.jsx] (numeric coercion,
    region resolution, aggregation, marker scaling, wind heading, geodesic
    destination) and the properties stated about them.

    ECMAScript Numbers are IEEE-754 binary64 values: they are modelled by
    Rocq's primitive [float], whose operations are specified bit for bit by
    [SpecFloat].  ECMAScript strings are sequences of UTF-16 code units. *)

From Stdlib Require Import Reals Lra.
From Stdlib Require Import String Ascii.
From Stdlib Require Import ZArith NArith List Bool Lia Floats Permutation.
Import ListNotations.

Local Open Scope Z_scope.
Set Warnings "-inexact-float".

(** ** Numbers *)

Module Num.

Definition number := float.

(** [𝔽(z * 2^e)]: the Number nearest to a dyadic value (ties to even). *)
Definition of_dyadic (z e : Z) (szero : bool) : float :=
  SF2Prim (binary_normalize prec emax z e szero).

Definition of_Z (z : Z) : float := of_dyadic z 0 false.

(** [𝔽(n / d)] for positive integers [n] and [d]: the quotient is computed
    with a sticky remainder and rounded once. *)
Definition of_ratio (s : bool) (n d : positive) : float :=
  SF2Prim (SFdiv prec emax (S754_finite s n 0) (S754_finite false d 0)).

(** [Number.isFinite] on a Number. *)
Definition isFinite (x : float) : bool := is_finite x.

(** ToBoolean on a Number: [+0], [-0] and [NaN] are falsy. *)
Definition truthy (x : float) : bool := negb (is_zero x || is_nan x).

(** Number::remainder, the [%] operator: the result has the sign of the
    dividend and is exact. *)
Definition rem (n d : float) : float :=
  match Prim2SF n, Prim2SF d with
  | S754_nan, _ | _, S754_nan => nan
  | S754_infinity _, _ => nan
  | _, S754_zero _ => nan
  | _, S754_infinity _ => n
  | S754_zero _, _ => n
  | S754_finite sn mn en, S754_finite _ md ed =>
      let e := Z.min en ed in
      let N := Z.shiftl (Zpos mn) (en - e) in
      let D := Z.shiftl (Zpos md) (ed - e) in
      let r := Z.rem N D in
      if r =? 0 then (if sn then neg_zero else zero)
      else of_dyadic (if sn then - r else r) e false
  end.

(** [Math.round]: the nearest integer, ties towards +∞; the sign of a zero
    result is the sign of the argument. *)
Definition round (x : float) : float :=
  match Prim2SF x with
  | S754_finite s m e =>
      if 0 <=? e then x
      else
        let v := if s then Zneg m else Zpos m in
        let n := Z.shiftr (2 * v + 2 ^ (- e)) (1 - e) in
        if n =? 0 then (if s then neg_zero else zero) else of_Z n
  | _ => x
  end.

(** [Math.max] and [Math.min] of two Numbers: NaN is contagious and
    [+0] is larger than [-0]. *)
Definition max (a b : float) : float :=
  if is_nan a || is_nan b then nan
  else if (a <? b)%float then b
  else if (b <? a)%float then a
  else if is_zero a then (if get_sign a then b else a)
  else a.

Definition min (a b : float) : float :=
  if is_nan a || is_nan b then nan
  else if (a <? b)%float then a
  else if (b <? a)%float then b
  else if is_zero a then (if get_sign a then a else b)
  else a.

(** [Math.PI] *)
Definition PI : float := 0x1.921fb54442d18p+1%float.

End Num.

(** ** Strings *)

Module Str.

(** A UTF-16 code unit. *)
Definition char := N.

(** An ECMAScript string. *)
Definition jsstring := list char.

(** The code units of an ASCII literal. *)
Fixpoint str (s : string) : jsstring :=
  match s with
  | EmptyString => []
  | String a r => N_of_ascii a :: str r
  end.

Definition char_eqb (a b : char) : bool := N.eqb a b.

Fixpoint eqb (s t : jsstring) : bool :=
  match s, t with
  | [], [] => true
  | a :: s', b :: t' => char_eqb a b && eqb s' t'
  | _, _ => false
  end.

Definition mem (s : jsstring) (l : list jsstring) : bool := existsb (eqb s) l.

Definition in_range (lo hi c : char) : bool := (N.leb lo c && N.leb c hi)%N.

(** WhiteSpace and LineTerminator code points, as [String.prototype.trim]
    and StringToNumber strip them. *)
Definition is_whitespace (c : char) : bool :=
  (in_range 0x09 0x0D c || (c =? 0x20) || (c =? 0xA0) || (c =? 0x1680)
   || in_range 0x2000 0x200A c || (c =? 0x2028) || (c =? 0x2029)
   || (c =? 0x202F) || (c =? 0x205F) || (c =? 0x3000) || (c =? 0xFEFF))%N.

Fixpoint drop_while (p : char -> bool) (s : jsstring) : jsstring :=
  match s with
  | [] => []
  | c :: r => if p c then drop_while p r else s
  end.

(** [String.prototype.trim] *)
Definition trim (s : jsstring) : jsstring :=
  rev (drop_while is_whitespace (rev (drop_while is_whitespace s))).

(** The longest prefix whose code units satisfy [p], and the rest. *)
Fixpoint span (p : char -> bool) (s : jsstring) : jsstring * jsstring :=
  match s with
  | [] => ([], [])
  | c :: r => if p c then let '(a, b) := span p r in (c :: a, b) else ([], s)
  end.

Definition is_digit (c : char) : bool := in_range 0x30%N 0x39%N c.

(** [s.split(sep)] for a separator of one code unit: the pieces between the
    separators, one more than there are separators. *)
Fixpoint split (sep : char) (s : jsstring) : list jsstring :=
  match s with
  | [] => [[]]
  | c :: r =>
      if char_eqb c sep then [] :: split sep r
      else match split sep r with
           | x :: xs => (c :: x) :: xs
           | [] => [[c]]
           end
  end.

End Str.

(** ** Number to string and string to number *)

Module Conv.

Import Str.

(** *** StringToNumber, the conversion behind [Number(s)] *)

Definition digit_val (c : char) : Z := Z.of_N c - 48.

Definition hex_val (c : char) : option Z :=
  if in_range 0x30%N 0x39%N c then Some (Z.of_N c - 48)
  else if in_range 0x41%N 0x46%N c then Some (Z.of_N c - 55)
  else if in_range 0x61%N 0x66%N c then Some (Z.of_N c - 87)
  else None.

(** The value of a digit string in the given radix; [None] when a code unit
    is not a digit of that radix or the string is empty. *)
Fixpoint radix_digits (radix acc : Z) (s : jsstring) : option Z :=
  match s with
  | [] => Some acc
  | c :: r =>
      match hex_val c with
      | Some d => if d <? radix then radix_digits radix (radix * acc + d) r else None
      | None => None
      end
  end.

Definition radix_literal (radix : Z) (s : jsstring) : option Z :=
  match s with
  | [] => None
  | _ => radix_digits radix 0 s
  end.

Definition decimal_digits (s : jsstring) : Z :=
  fold_left (fun acc c => 10 * acc + digit_val c) s 0.

(** [𝔽(m * 10^p)] for a non-negative integer [m]: the mathematical value of
    a decimal literal rounded to the nearest Number.  Magnitudes beyond the
    binary64 range are decided before any power is computed. *)
Definition of_decimal (s : bool) (m p : Z) : float :=
  match m with
  | Zpos mp =>
      let mag := Z.of_nat (Decimal.nb_digits (Pos.to_uint mp)) + p in
      if 400 <? mag then (if s then neg_infinity else infinity)
      else if mag <? -400 then (if s then neg_zero else PrimFloat.zero)
      else if 0 <=? p
           then Num.of_dyadic (if s then - (m * 10 ^ p) else m * 10 ^ p) 0 false
           else Num.of_ratio s mp (Z.to_pos (10 ^ (- p)))
  | _ => if s then neg_zero else PrimFloat.zero
  end.

Definition is_char (a : string) (c : char) : bool := eqb [c] (str a).

(** ExponentPart_opt up to the end of the string: the decimal exponent. *)
Definition exponent_part (s : jsstring) : option Z :=
  match s with
  | [] => Some 0
  | c :: r =>
      if is_char "e" c || is_char "E" c then
        let '(sg, ds) :=
          match r with
          | d :: r' => if is_char "+" d then (false, r')
                       else if is_char "-" d then (true, r') else (false, r)
          | [] => (false, r)
          end in
        match ds with
        | [] => None
        | _ => if forallb is_digit ds
               then Some (if sg then - decimal_digits ds else decimal_digits ds)
               else None
        end
      else None
  end.

(** StrUnsignedDecimalLiteral with the sign read before it; NaN when the
    string is not such a literal. *)
Definition unsigned_decimal (sg : bool) (s : jsstring) : float :=
  if eqb s (str "Infinity") then (if sg then neg_infinity else infinity)
  else
    let '(ip, r1) := span is_digit s in
    match r1 with
    | c :: r2 =>
        if is_char "." c then
          let '(fp, r3) := span is_digit r2 in
          match ip ++ fp, exponent_part r3 with
          | _ :: _, Some ex =>
              of_decimal sg (decimal_digits (ip ++ fp)) (ex - Z.of_nat (List.length fp))
          | _, _ => nan
          end
        else
          match ip, exponent_part r1 with
          | _ :: _, Some ex => of_decimal sg (decimal_digits ip) ex
          | _, _ => nan
          end
    | [] =>
        match ip with
        | _ :: _ => of_decimal sg (decimal_digits ip) 0
        | [] => nan
        end
    end.

Definition non_decimal (radix : Z) (ds : jsstring) : float :=
  match radix_literal radix ds with
  | Some z => Num.of_Z z
  | None => nan
  end.

(** StringToNumber: surrounding white space is ignored, the empty string is
    [+0], and anything outside the StringNumericLiteral grammar is NaN. *)
Definition StringToNumber (s : jsstring) : float :=
  let t := trim s in
  match t with
  | [] => PrimFloat.zero
  | c :: r =>
      if is_char "+" c then unsigned_decimal false r
      else if is_char "-" c then unsigned_decimal true r
      else
        match r with
        | x :: ds =>
            if is_char "0" c && (is_char "x" x || is_char "X" x) then non_decimal 16 ds
            else if is_char "0" c && (is_char "o" x || is_char "O" x) then non_decimal 8 ds
            else if is_char "0" c && (is_char "b" x || is_char "B" x) then non_decimal 2 ds
            else unsigned_decimal false t
        | [] => unsigned_decimal false t
        end
  end.

(** *** Number::toString (radix 10), the conversion behind [String(x)] *)

Fixpoint uint_chars (u : Decimal.uint) : jsstring :=
  match u with
  | Decimal.Nil => []
  | Decimal.D0 r => 48%N :: uint_chars r
  | Decimal.D1 r => 49%N :: uint_chars r
  | Decimal.D2 r => 50%N :: uint_chars r
  | Decimal.D3 r => 51%N :: uint_chars r
  | Decimal.D4 r => 52%N :: uint_chars r
  | Decimal.D5 r => 53%N :: uint_chars r
  | Decimal.D6 r => 54%N :: uint_chars r
  | Decimal.D7 r => 55%N :: uint_chars r
  | Decimal.D8 r => 56%N :: uint_chars r
  | Decimal.D9 r => 57%N :: uint_chars r
  end.

(** The decimal digits of a non-negative integer. *)
Definition Z_chars (z : Z) : jsstring :=
  match z with
  | Zpos p => uint_chars (Pos.to_uint p)
  | _ => str "0"
  end.

(** [v * 10^d] for [v = num / den], as a fraction. *)
Definition scale10 (num den d : Z) : Z * Z :=
  if 0 <=? d then (num * 10 ^ d, den) else (num, den * 10 ^ (- d)).

(** The first [n >= n0] with [num / den < 10^n], looking at [fuel] candidates. *)
Fixpoint dec_exponent (fuel : nat) (num den n0 : Z) : Z :=
  match fuel with
  | O => n0
  | S f =>
      let '(P, Q) := scale10 num den (- n0) in
      if P <? Q then n0 else dec_exponent f num den (n0 + 1)
  end.

(** The digits [s] and the exponent [n] of Number::toString for the positive
    Number [x = num / den]: the least [k] (tried from [k] upwards) for which a
    [k]-digit [s] has [𝔽(s * 10^(n-k)) = x]; of two such [s] the one nearer to
    [x], and the even one in a tie. *)
Fixpoint shortest (fuel : nat) (x : float) (num den n k : Z) : Z * Z :=
  let '(P, Q) := scale10 num den (k - n) in
  let lo := P / Q in
  let rm := P mod Q in
  let ok c := (0 <? c) && (of_decimal false c (n - k) =? x)%float in
  let hi := if lo + 1 =? 10 ^ k then (10 ^ (k - 1), n + 1) else (lo + 1, n) in
  let pick_lo := (lo, n) in
  match ok lo, ok (lo + 1) with
  | true, true =>
      if 2 * rm <? Q then pick_lo
      else if Q <? 2 * rm then hi
      else if Z.even lo then pick_lo else hi
  | true, false => pick_lo
  | false, true => hi
  | false, false =>
      match fuel with
      | O => pick_lo
      | S f => shortest f x num den n (k + 1)
      end
  end.

Definition zeros (n : Z) : jsstring := repeat 48%N (Z.to_nat n).

Definition format_digits (ds : jsstring) (n : Z) : jsstring :=
  let k := Z.of_nat (List.length ds) in
  if (k <=? n) && (n <=? 21) then ds ++ zeros (n - k)
  else if (0 <? n) && (n <=? 21)
       then firstn (Z.to_nat n) ds ++ str "." ++ skipn (Z.to_nat n) ds
  else if (-6 <? n) && (n <=? 0) then str "0." ++ zeros (- n) ++ ds
  else
    let e := n - 1 in
    let es := (if e <? 0 then str "-" else str "+") ++ Z_chars (Z.abs e) in
    match ds with
    | [d] => [d] ++ str "e" ++ es
    | d :: r => [d] ++ str "." ++ r ++ str "e" ++ es
    | [] => []
    end.

Definition NumberToString (x : float) : jsstring :=
  match Prim2SF x with
  | S754_nan => str "NaN"
  | S754_zero _ => str "0"
  | S754_infinity s => if s then str "-Infinity" else str "Infinity"
  | S754_finite s m e =>
      let '(num, den) := if 0 <=? e then (Zpos m * 2 ^ e, 1) else (Zpos m, 2 ^ (- e)) in
      let bits := Z.log2 (Zpos m) + 1 + e in
      let n := dec_exponent 4 num den (((bits - 1) * 30103) / 100000) in
      let '(sd, n') := shortest 17 (abs x) num den n 1 in
      (if s then str "-" else []) ++ format_digits (Z_chars sd) n'
  end.

End Conv.

(** ** Unicode operations of [String.prototype]

    [normalize], the property escape [\p{Diacritic}] and the case
    conversions work on the code points of a string and follow the Unicode
    Character Database; the tables below are those of Unicode 14.0. *)

Module Unicode.

Import Str.
Local Open Scope N_scope.

(** *** Code points *)

Definition is_lead (c : char) : bool := in_range 0xD800 0xDBFF c.
Definition is_trail (c : char) : bool := in_range 0xDC00 0xDFFF c.

(** StringToCodePoints: a leading surrogate followed by a trailing one is
    one code point, every other code unit is a code point by itself. *)
Fixpoint code_points (s : jsstring) : list N :=
  match s with
  | [] => []
  | c :: r =>
      match r with
      | d :: r' =>
          if is_lead c && is_trail d
          then (0x10000 + (c - 0xD800) * 0x400 + (d - 0xDC00)) :: code_points r'
          else c :: code_points r
      | [] => [c]
      end
  end.

(** The code units of a code point, and CodePointsToString. *)
Definition encode (p : N) : jsstring :=
  if p <? 0x10000 then [p]
  else [0xD800 + (p - 0x10000) / 0x400; 0xDC00 + (p - 0x10000) mod 0x400].

Definition utf16 (ps : list N) : jsstring := flat_map encode ps.

(** *** The tables *)

Fixpoint assoc {A} (c : N) (l : list (N * A)) : option A :=
  match l with
  | [] => None
  | (k, v) :: r => if k =? c then Some v else assoc c r
  end.

Definition in_ranges (c : N) (l : list (N * N)) : bool :=
  existsb (fun r => (fst r <=? c) && (c <=? snd r)) l.

(** The full canonical decomposition of every code point that has one,
    the Hangul syllables apart (UnicodeData.txt, field 5, mappings without
    a tag, applied until nothing decomposes). *)
Definition decompositions : list (N * list N) :=
  [
    (0xC0, [0x41; 0x300]); (0xC1, [0x41; 0x301]); (0xC2, [0x41; 0x302]); (0xC3, [0x41; 0x303]);
    (0xC4, [0x41; 0x308]); (0xC5, [0x41; 0x30A]); (0xC7, [0x43; 0x327]); (0xC8, [0x45; 0x300]);
    (0xC9, [0x45; 0x301]); (0xCA, [0x45; 0x302]); (0xCB, [0x45; 0x308]); (0xCC, [0x49; 0x300]);
    (0xCD, [0x49; 0x301]); (0xCE, [0x49; 0x302]); (0xCF, [0x49; 0x308]); (0xD1, [0x4E; 0x303]);
    (0xD2, [0x4F; 0x300]); (0xD3, [0x4F; 0x301]); (0xD4, [0x4F; 0x302]); (0xD5, [0x4F; 0x303]);
    (0xD6, [0x4F; 0x308]); (0xD9, [0x55; 0x300]); (0xDA, [0x55; 0x301]); (0xDB, [0x55; 0x302]);
    (0xDC, [0x55; 0x308]); (0xDD, [0x59; 0x301]); (0xE0, [0x61; 0x300]); (0xE1, [0x61; 0x301]);
    (0xE2, [0x61; 0x302]); (0xE3, [0x61; 0x303]); (0xE4, [0x61; 0x308]); (0xE5, [0x61; 0x30A]);
    (0xE7, [0x63; 0x327]); (0xE8, [0x65; 0x300]); (0xE9, [0x65; 0x301]); (0xEA, [0x65; 0x302]);
    (0xEB, [0x65; 0x308]); (0xEC, [0x69; 0x300]); (0xED, [0x69; 0x301]); (0xEE, [0x69; 0x302]);
    (0xEF, [0x69; 0x308]); (0xF1, [0x6E; 0x303]); (0xF2, [0x6F; 0x300]); (0xF3, [0x6F; 0x301]);
    (0xF4, [0x6F; 0x302]); (0xF5, [0x6F; 0x303]); (0xF6, [0x6F; 0x308]); (0xF9, [0x75; 0x300]);
    (0xFA, [0x75; 0x301]); (0xFB, [0x75; 0x302]); (0xFC, [0x75; 0x308]); (0xFD, [0x79; 0x301]);
    (0xFF, [0x79; 0x308]); (0x100, [0x41; 0x304]); (0x101, [0x61; 0x304]);
    (0x102, [0x41; 0x306]); (0x103, [0x61; 0x306]); (0x104, [0x41; 0x328]);
    (0x105, [0x61; 0x328]); (0x106, [0x43; 0x301]); (0x107, [0x63; 0x301]);
    (0x108, [0x43; 0x302]); (0x109, [0x63; 0x302]); (0x10A, [0x43; 0x307]);
    (0x10B, [0x63; 0x307]); (0x10C, [0x43; 0x30C]); (0x10D, [0x63; 0x30C]);
    (0x10E, [0x44; 0x30C]); (0x10F, [0x64; 0x30C]); (0x112, [0x45; 0x304]);
    (0x113, [0x65; 0x304]); (0x114, [0x45; 0x306]); (0x115, [0x65; 0x306]);
    (0x116, [0x45; 0x307]); (0x117, [0x65; 0x307]); (0x118, [0x45; 0x328]);
    (0x119, [0x65; 0x328]); (0x11A, [0x45; 0x30C]); (0x11B, [0x65; 0x30C]);
    (0x11C, [0x47; 0x302]); (0x11D, [0x67; 0x302]); (0x11E, [0x47; 0x306]);
    (0x11F, [0x67; 0x306]); (0x120, [0x47; 0x307]); (0x121, [0x67; 0x307]);
    (0x122, [0x47; 0x327]); (0x123, [0x67; 0x327]); (0x124, [0x48; 0x302]);
    (0x125, [0x68; 0x302]); (0x128, [0x49; 0x303]); (0x129, [0x69; 0x303]);
    (0x12A, [0x49; 0x304]); (0x12B, [0x69; 0x304]); (0x12C, [0x49; 0x306]);
    (0x12D, [0x69; 0x306]); (0x12E, [0x49; 0x328]); (0x12F, [0x69; 0x328]);
    (0x130, [0x49; 0x307]); (0x134, [0x4A; 0x302]); (0x135, [0x6A; 0x302]);
    (0x136, [0x4B; 0x327]); (0x137, [0x6B; 0x327]); (0x139, [0x4C; 0x301]);
    (0x13A, [0x6C; 0x301]); (0x13B, [0x4C; 0x327]); (0x13C, [0x6C; 0x327]);
    (0x13D, [0x4C; 0x30C]); (0x13E, [0x6C; 0x30C]); (0x143, [0x4E; 0x301]);
    (0x144, [0x6E; 0x301]); (0x145, [0x4E; 0x327]); (0x146, [0x6E; 0x327]);
    (0x147, [0x4E; 0x30C]); (0x148, [0x6E; 0x30C]); (0x14C, [0x4F; 0x304]);
    (0x14D, [0x6F; 0x304]); (0x14E, [0x4F; 0x306]); (0x14F, [0x6F; 0x306]);
    (0x150, [0x4F; 0x30B]); (0x151, [0x6F; 0x30B]); (0x154, [0x52; 0x301]);
    (0x155, [0x72; 0x301]); (0x156, [0x52; 0x327]); (0x157, [0x72; 0x327]);
    (0x158, [0x52; 0x30C]); (0x159, [0x72; 0x30C]); (0x15A, [0x53; 0x301]);
    (0x15B, [0x73; 0x301]); (0x15C, [0x53; 0x302]); (0x15D, [0x73; 0x302]);
    (0x15E, [0x53; 0x327]); (0x15F, [0x73; 0x327]); (0x160, [0x53; 0x30C]);
    (0x161, [0x73; 0x30C]); (0x162, [0x54; 0x327]); (0x163, [0x74; 0x327]);
    (0x164, [0x54; 0x30C]); (0x165, [0x74; 0x30C]); (0x168, [0x55; 0x303]);
    (0x169, [0x75; 0x303]); (0x16A, [0x55; 0x304]); (0x16B, [0x75; 0x304]);
    (0x16C, [0x55; 0x306]); (0x16D, [0x75; 0x306]); (0x16E, [0x55; 0x30A]);
    (0x16F, [0x75; 0x30A]); (0x170, [0x55; 0x30B]); (0x171, [0x75; 0x30B]);
    (0x172, [0x55; 0x328]); (0x173, [0x75; 0x328]); (0x174, [0x57; 0x302]);
    (0x175, [0x77; 0x302]); (0x176, [0x59; 0x302]); (0x177, [0x79; 0x302]);
    (0x178, [0x59; 0x308]); (0x179, [0x5A; 0x301]); (0x17A, [0x7A; 0x301]);
    (0x17B, [0x5A; 0x307]); (0x17C, [0x7A; 0x307]); (0x17D, [0x5A; 0x30C]);
    (0x17E, [0x7A; 0x30C]); (0x1A0, [0x4F; 0x31B]); (0x1A1, [0x6F; 0x31B]);
    (0x1AF, [0x55; 0x31B]); (0x1B0, [0x75; 0x31B]); (0x1CD, [0x41; 0x30C]);
    (0x1CE, [0x61; 0x30C]); (0x1CF, [0x49; 0x30C]); (0x1D0, [0x69; 0x30C]);
    (0x1D1, [0x4F; 0x30C]); (0x1D2, [0x6F; 0x30C]); (0x1D3, [0x55; 0x30C]);
    (0x1D4, [0x75; 0x30C]); (0x1D5, [0x55; 0x308; 0x304]); (0x1D6, [0x75; 0x308; 0x304]);
    (0x1D7, [0x55; 0x308; 0x301]); (0x1D8, [0x75; 0x308; 0x301]); (0x1D9, [0x55; 0x308; 0x30C]);
    (0x1DA, [0x75; 0x308; 0x30C]); (0x1DB, [0x55; 0x308; 0x300]); (0x1DC, [0x75; 0x308; 0x300]);
    (0x1DE, [0x41; 0x308; 0x304]); (0x1DF, [0x61; 0x308; 0x304]); (0x1E0, [0x41; 0x307; 0x304]);
    (0x1E1, [0x61; 0x307; 0x304]); (0x1E2, [0xC6; 0x304]); (0x1E3, [0xE6; 0x304]);
    (0x1E6, [0x47; 0x30C]); (0x1E7, [0x67; 0x30C]); (0x1E8, [0x4B; 0x30C]);
    (0x1E9, [0x6B; 0x30C]); (0x1EA, [0x4F; 0x328]); (0x1EB, [0x6F; 0x328]);
    (0x1EC, [0x4F; 0x328; 0x304]); (0x1ED, [0x6F; 0x328; 0x304]); (0x1EE, [0x1B7; 0x30C]);
    (0x1EF, [0x292; 0x30C]); (0x1F0, [0x6A; 0x30C]); (0x1F4, [0x47; 0x301]);
    (0x1F5, [0x67; 0x301]); (0x1F8, [0x4E; 0x300]); (0x1F9, [0x6E; 0x300]);
    (0x1FA, [0x41; 0x30A; 0x301]); (0x1FB, [0x61; 0x30A; 0x301]); (0x1FC, [0xC6; 0x301]);
    (0x1FD, [0xE6; 0x301]); (0x1FE, [0xD8; 0x301]); (0x1FF, [0xF8; 0x301]);
    (0x200, [0x41; 0x30F]); (0x201, [0x61; 0x30F]); (0x202, [0x41; 0x311]);
    (0x203, [0x61; 0x311]); (0x204, [0x45; 0x30F]); (0x205, [0x65; 0x30F]);
    (0x206, [0x45; 0x311]); (0x207, [0x65; 0x311]); (0x208, [0x49; 0x30F]);
    (0x209, [0x69; 0x30F]); (0x20A, [0x49; 0x311]); (0x20B, [0x69; 0x311]);
    (0x20C, [0x4F; 0x30F]); (0x20D, [0x6F; 0x30F]); (0x20E, [0x4F; 0x311]);
    (0x20F, [0x6F; 0x311]); (0x210, [0x52; 0x30F]); (0x211, [0x72; 0x30F]);
    (0x212, [0x52; 0x311]); (0x213, [0x72; 0x311]); (0x214, [0x55; 0x30F]);
    (0x215, [0x75; 0x30F]); (0x216, [0x55; 0x311]); (0x217, [0x75; 0x311]);
    (0x218, [0x53; 0x326]); (0x219, [0x73; 0x326]); (0x21A, [0x54; 0x326]);
    (0x21B, [0x74; 0x326]); (0x21E, [0x48; 0x30C]); (0x21F, [0x68; 0x30C]);
    (0x226, [0x41; 0x307]); (0x227, [0x61; 0x307]); (0x228, [0x45; 0x327]);
    (0x229, [0x65; 0x327]); (0x22A, [0x4F; 0x308; 0x304]); (0x22B, [0x6F; 0x308; 0x304]);
    (0x22C, [0x4F; 0x303; 0x304]); (0x22D, [0x6F; 0x303; 0x304]); (0x22E, [0x4F; 0x307]);
    (0x22F, [0x6F; 0x307]); (0x230, [0x4F; 0x307; 0x304]); (0x231, [0x6F; 0x307; 0x304]);
    (0x232, [0x59; 0x304]); (0x233, [0x79; 0x304]); (0x340, [0x300]); (0x341, [0x301]);
    (0x343, [0x313]); (0x344, [0x308; 0x301]); (0x374, [0x2B9]); (0x37E, [0x3B]);
    (0x385, [0xA8; 0x301]); (0x386, [0x391; 0x301]); (0x387, [0xB7]); (0x388, [0x395; 0x301]);
    (0x389, [0x397; 0x301]); (0x38A, [0x399; 0x301]); (0x38C, [0x39F; 0x301]);
    (0x38E, [0x3A5; 0x301]); (0x38F, [0x3A9; 0x301]); (0x390, [0x3B9; 0x308; 0x301]);
    (0x3AA, [0x399; 0x308]); (0x3AB, [0x3A5; 0x308]); (0x3AC, [0x3B1; 0x301]);
    (0x3AD, [0x3B5; 0x301]); (0x3AE, [0x3B7; 0x301]); (0x3AF, [0x3B9; 0x301]);
    (0x3B0, [0x3C5; 0x308; 0x301]); (0x3CA, [0x3B9; 0x308]); (0x3CB, [0x3C5; 0x308]);
    (0x3CC, [0x3BF; 0x301]); (0x3CD, [0x3C5; 0x301]); (0x3CE, [0x3C9; 0x301]);
    (0x3D3, [0x3D2; 0x301]); (0x3D4, [0x3D2; 0x308]); (0x400, [0x415; 0x300]);
    (0x401, [0x415; 0x308]); (0x403, [0x413; 0x301]); (0x407, [0x406; 0x308]);
    (0x40C, [0x41A; 0x301]); (0x40D, [0x418; 0x300]); (0x40E, [0x423; 0x306]);
    (0x419, [0x418; 0x306]); (0x439, [0x438; 0x306]); (0x450, [0x435; 0x300]);
    (0x451, [0x435; 0x308]); (0x453, [0x433; 0x301]); (0x457, [0x456; 0x308]);
    (0x45C, [0x43A; 0x301]); (0x45D, [0x438; 0x300]); (0x45E, [0x443; 0x306]);
    (0x476, [0x474; 0x30F]); (0x477, [0x475; 0x30F]); (0x4C1, [0x416; 0x306]);
    (0x4C2, [0x436; 0x306]); (0x4D0, [0x410; 0x306]); (0x4D1, [0x430; 0x306]);
    (0x4D2, [0x410; 0x308]); (0x4D3, [0x430; 0x308]); (0x4D6, [0x415; 0x306]);
    (0x4D7, [0x435; 0x306]); (0x4DA, [0x4D8; 0x308]); (0x4DB, [0x4D9; 0x308]);
    (0x4DC, [0x416; 0x308]); (0x4DD, [0x436; 0x308]); (0x4DE, [0x417; 0x308]);
    (0x4DF, [0x437; 0x308]); (0x4E2, [0x418; 0x304]); (0x4E3, [0x438; 0x304]);
    (0x4E4, [0x418; 0x308]); (0x4E5, [0x438; 0x308]); (0x4E6, [0x41E; 0x308]);
    (0x4E7, [0x43E; 0x308]); (0x4EA, [0x4E8; 0x308]); (0x4EB, [0x4E9; 0x308]);
    (0x4EC, [0x42D; 0x308]); (0x4ED, [0x44D; 0x308]); (0x4EE, [0x423; 0x304]);
    (0x4EF, [0x443; 0x304]); (0x4F0, [0x423; 0x308]); (0x4F1, [0x443; 0x308]);
    (0x4F2, [0x423; 0x30B]); (0x4F3, [0x443; 0x30B]); (0x4F4, [0x427; 0x308]);
    (0x4F5, [0x447; 0x308]); (0x4F8, [0x42B; 0x308]); (0x4F9, [0x44B; 0x308]);
    (0x622, [0x627; 0x653]); (0x623, [0x627; 0x654]); (0x624, [0x648; 0x654]);
    (0x625, [0x627; 0x655]); (0x626, [0x64A; 0x654]); (0x6C0, [0x6D5; 0x654]);
    (0x6C2, [0x6C1; 0x654]); (0x6D3, [0x6D2; 0x654]); (0x929, [0x928; 0x93C]);
    (0x931, [0x930; 0x93C]); (0x934, [0x933; 0x93C]); (0x958, [0x915; 0x93C]);
    (0x959, [0x916; 0x93C]); (0x95A, [0x917; 0x93C]); (0x95B, [0x91C; 0x93C]);
    (0x95C, [0x921; 0x93C]); (0x95D, [0x922; 0x93C]); (0x95E, [0x92B; 0x93C]);
    (0x95F, [0x92F; 0x93C]); (0x9CB, [0x9C7; 0x9BE]); (0x9CC, [0x9C7; 0x9D7]);
    (0x9DC, [0x9A1; 0x9BC]); (0x9DD, [0x9A2; 0x9BC]); (0x9DF, [0x9AF; 0x9BC]);
    (0xA33, [0xA32; 0xA3C]); (0xA36, [0xA38; 0xA3C]); (0xA59, [0xA16; 0xA3C]);
    (0xA5A, [0xA17; 0xA3C]); (0xA5B, [0xA1C; 0xA3C]); (0xA5E, [0xA2B; 0xA3C]);
    (0xB48, [0xB47; 0xB56]); (0xB4B, [0xB47; 0xB3E]); (0xB4C, [0xB47; 0xB57]);
    (0xB5C, [0xB21; 0xB3C]); (0xB5D, [0xB22; 0xB3C]); (0xB94, [0xB92; 0xBD7]);
    (0xBCA, [0xBC6; 0xBBE]); (0xBCB, [0xBC7; 0xBBE]); (0xBCC, [0xBC6; 0xBD7]);
    (0xC48, [0xC46; 0xC56]); (0xCC0, [0xCBF; 0xCD5]); (0xCC7, [0xCC6; 0xCD5]);
    (0xCC8, [0xCC6; 0xCD6]); (0xCCA, [0xCC6; 0xCC2]); (0xCCB, [0xCC6; 0xCC2; 0xCD5]);
    (0xD4A, [0xD46; 0xD3E]); (0xD4B, [0xD47; 0xD3E]); (0xD4C, [0xD46; 0xD57]);
    (0xDDA, [0xDD9; 0xDCA]); (0xDDC, [0xDD9; 0xDCF]); (0xDDD, [0xDD9; 0xDCF; 0xDCA]);
    (0xDDE, [0xDD9; 0xDDF]); (0xF43, [0xF42; 0xFB7]); (0xF4D, [0xF4C; 0xFB7]);
    (0xF52, [0xF51; 0xFB7]); (0xF57, [0xF56; 0xFB7]); (0xF5C, [0xF5B; 0xFB7]);
    (0xF69, [0xF40; 0xFB5]); (0xF73, [0xF71; 0xF72]); (0xF75, [0xF71; 0xF74]);
    (0xF76, [0xFB2; 0xF80]); (0xF78, [0xFB3; 0xF80]); (0xF81, [0xF71; 0xF80]);
    (0xF93, [0xF92; 0xFB7]); (0xF9D, [0xF9C; 0xFB7]); (0xFA2, [0xFA1; 0xFB7]);
    (0xFA7, [0xFA6; 0xFB7]); (0xFAC, [0xFAB; 0xFB7]); (0xFB9, [0xF90; 0xFB5]);
    (0x1026, [0x1025; 0x102E]); (0x1B06, [0x1B05; 0x1B35]); (0x1B08, [0x1B07; 0x1B35]);
    (0x1B0A, [0x1B09; 0x1B35]); (0x1B0C, [0x1B0B; 0x1B35]); (0x1B0E, [0x1B0D; 0x1B35]);
    (0x1B12, [0x1B11; 0x1B35]); (0x1B3B, [0x1B3A; 0x1B35]); (0x1B3D, [0x1B3C; 0x1B35]);
    (0x1B40, [0x1B3E; 0x1B35]); (0x1B41, [0x1B3F; 0x1B35]); (0x1B43, [0x1B42; 0x1B35]);
    (0x1E00, [0x41; 0x325]); (0x1E01, [0x61; 0x325]); (0x1E02, [0x42; 0x307]);
    (0x1E03, [0x62; 0x307]); (0x1E04, [0x42; 0x323]); (0x1E05, [0x62; 0x323]);
    (0x1E06, [0x42; 0x331]); (0x1E07, [0x62; 0x331]); (0x1E08, [0x43; 0x327; 0x301]);
    (0x1E09, [0x63; 0x327; 0x301]); (0x1E0A, [0x44; 0x307]); (0x1E0B, [0x64; 0x307]);
    (0x1E0C, [0x44; 0x323]); (0x1E0D, [0x64; 0x323]); (0x1E0E, [0x44; 0x331]);
    (0x1E0F, [0x64; 0x331]); (0x1E10, [0x44; 0x327]); (0x1E11, [0x64; 0x327]);
    (0x1E12, [0x44; 0x32D]); (0x1E13, [0x64; 0x32D]); (0x1E14, [0x45; 0x304; 0x300]);
    (0x1E15, [0x65; 0x304; 0x300]); (0x1E16, [0x45; 0x304; 0x301]);
    (0x1E17, [0x65; 0x304; 0x301]); (0x1E18, [0x45; 0x32D]); (0x1E19, [0x65; 0x32D]);
    (0x1E1A, [0x45; 0x330]); (0x1E1B, [0x65; 0x330]); (0x1E1C, [0x45; 0x327; 0x306]);
    (0x1E1D, [0x65; 0x327; 0x306]); (0x1E1E, [0x46; 0x307]); (0x1E1F, [0x66; 0x307]);
    (0x1E20, [0x47; 0x304]); (0x1E21, [0x67; 0x304]); (0x1E22, [0x48; 0x307]);
    (0x1E23, [0x68; 0x307]); (0x1E24, [0x48; 0x323]); (0x1E25, [0x68; 0x323]);
    (0x1E26, [0x48; 0x308]); (0x1E27, [0x68; 0x308]); (0x1E28, [0x48; 0x327]);
    (0x1E29, [0x68; 0x327]); (0x1E2A, [0x48; 0x32E]); (0x1E2B, [0x68; 0x32E]);
    (0x1E2C, [0x49; 0x330]); (0x1E2D, [0x69; 0x330]); (0x1E2E, [0x49; 0x308; 0x301]);
    (0x1E2F, [0x69; 0x308; 0x301]); (0x1E30, [0x4B; 0x301]); (0x1E31, [0x6B; 0x301]);
    (0x1E32, [0x4B; 0x323]); (0x1E33, [0x6B; 0x323]); (0x1E34, [0x4B; 0x331]);
    (0x1E35, [0x6B; 0x331]); (0x1E36, [0x4C; 0x323]); (0x1E37, [0x6C; 0x323]);
    (0x1E38, [0x4C; 0x323; 0x304]); (0x1E39, [0x6C; 0x323; 0x304]); (0x1E3A, [0x4C; 0x331]);
    (0x1E3B, [0x6C; 0x331]); (0x1E3C, [0x4C; 0x32D]); (0x1E3D, [0x6C; 0x32D]);
    (0x1E3E, [0x4D; 0x301]); (0x1E3F, [0x6D; 0x301]); (0x1E40, [0x4D; 0x307]);
    (0x1E41, [0x6D; 0x307]); (0x1E42, [0x4D; 0x323]); (0x1E43, [0x6D; 0x323]);
    (0x1E44, [0x4E; 0x307]); (0x1E45, [0x6E; 0x307]); (0x1E46, [0x4E; 0x323]);
    (0x1E47, [0x6E; 0x323]); (0x1E48, [0x4E; 0x331]); (0x1E49, [0x6E; 0x331]);
    (0x1E4A, [0x4E; 0x32D]); (0x1E4B, [0x6E; 0x32D]); (0x1E4C, [0x4F; 0x303; 0x301]);
    (0x1E4D, [0x6F; 0x303; 0x301]); (0x1E4E, [0x4F; 0x303; 0x308]);
    (0x1E4F, [0x6F; 0x303; 0x308]); (0x1E50, [0x4F; 0x304; 0x300]);
    (0x1E51, [0x6F; 0x304; 0x300]); (0x1E52, [0x4F; 0x304; 0x301]);
    (0x1E53, [0x6F; 0x304; 0x301]); (0x1E54, [0x50; 0x301]); (0x1E55, [0x70; 0x301]);
    (0x1E56, [0x50; 0x307]); (0x1E57, [0x70; 0x307]); (0x1E58, [0x52; 0x307]);
    (0x1E59, [0x72; 0x307]); (0x1E5A, [0x52; 0x323]); (0x1E5B, [0x72; 0x323]);
    (0x1E5C, [0x52; 0x323; 0x304]); (0x1E5D, [0x72; 0x323; 0x304]); (0x1E5E, [0x52; 0x331]);
    (0x1E5F, [0x72; 0x331]); (0x1E60, [0x53; 0x307]); (0x1E61, [0x73; 0x307]);
    (0x1E62, [0x53; 0x323]); (0x1E63, [0x73; 0x323]); (0x1E64, [0x53; 0x301; 0x307]);
    (0x1E65, [0x73; 0x301; 0x307]); (0x1E66, [0x53; 0x30C; 0x307]);
    (0x1E67, [0x73; 0x30C; 0x307]); (0x1E68, [0x53; 0x323; 0x307]);
    (0x1E69, [0x73; 0x323; 0x307]); (0x1E6A, [0x54; 0x307]); (0x1E6B, [0x74; 0x307]);
    (0x1E6C, [0x54; 0x323]); (0x1E6D, [0x74; 0x323]); (0x1E6E, [0x54; 0x331]);
    (0x1E6F, [0x74; 0x331]); (0x1E70, [0x54; 0x32D]); (0x1E71, [0x74; 0x32D]);
    (0x1E72, [0x55; 0x324]); (0x1E73, [0x75; 0x324]); (0x1E74, [0x55; 0x330]);
    (0x1E75, [0x75; 0x330]); (0x1E76, [0x55; 0x32D]); (0x1E77, [0x75; 0x32D]);
    (0x1E78, [0x55; 0x303; 0x301]); (0x1E79, [0x75; 0x303; 0x301]);
    (0x1E7A, [0x55; 0x304; 0x308]); (0x1E7B, [0x75; 0x304; 0x308]); (0x1E7C, [0x56; 0x303]);
    (0x1E7D, [0x76; 0x303]); (0x1E7E, [0x56; 0x323]); (0x1E7F, [0x76; 0x323]);
    (0x1E80, [0x57; 0x300]); (0x1E81, [0x77; 0x300]); (0x1E82, [0x57; 0x301]);
    (0x1E83, [0x77; 0x301]); (0x1E84, [0x57; 0x308]); (0x1E85, [0x77; 0x308]);
    (0x1E86, [0x57; 0x307]); (0x1E87, [0x77; 0x307]); (0x1E88, [0x57; 0x323]);
    (0x1E89, [0x77; 0x323]); (0x1E8A, [0x58; 0x307]); (0x1E8B, [0x78; 0x307]);
    (0x1E8C, [0x58; 0x308]); (0x1E8D, [0x78; 0x308]); (0x1E8E, [0x59; 0x307]);
    (0x1E8F, [0x79; 0x307]); (0x1E90, [0x5A; 0x302]); (0x1E91, [0x7A; 0x302]);
    (0x1E92, [0x5A; 0x323]); (0x1E93, [0x7A; 0x323]); (0x1E94, [0x5A; 0x331]);
    (0x1E95, [0x7A; 0x331]); (0x1E96, [0x68; 0x331]); (0x1E97, [0x74; 0x308]);
    (0x1E98, [0x77; 0x30A]); (0x1E99, [0x79; 0x30A]); (0x1E9B, [0x17F; 0x307]);
    (0x1EA0, [0x41; 0x323]); (0x1EA1, [0x61; 0x323]); (0x1EA2, [0x41; 0x309]);
    (0x1EA3, [0x61; 0x309]); (0x1EA4, [0x41; 0x302; 0x301]); (0x1EA5, [0x61; 0x302; 0x301]);
    (0x1EA6, [0x41; 0x302; 0x300]); (0x1EA7, [0x61; 0x302; 0x300]);
    (0x1EA8, [0x41; 0x302; 0x309]); (0x1EA9, [0x61; 0x302; 0x309]);
    (0x1EAA, [0x41; 0x302; 0x303]); (0x1EAB, [0x61; 0x302; 0x303]);
    (0x1EAC, [0x41; 0x323; 0x302]); (0x1EAD, [0x61; 0x323; 0x302]);
    (0x1EAE, [0x41; 0x306; 0x301]); (0x1EAF, [0x61; 0x306; 0x301]);
    (0x1EB0, [0x41; 0x306; 0x300]); (0x1EB1, [0x61; 0x306; 0x300]);
    (0x1EB2, [0x41; 0x306; 0x309]); (0x1EB3, [0x61; 0x306; 0x309]);
    (0x1EB4, [0x41; 0x306; 0x303]); (0x1EB5, [0x61; 0x306; 0x303]);
    (0x1EB6, [0x41; 0x323; 0x306]); (0x1EB7, [0x61; 0x323; 0x306]); (0x1EB8, [0x45; 0x323]);
    (0x1EB9, [0x65; 0x323]); (0x1EBA, [0x45; 0x309]); (0x1EBB, [0x65; 0x309]);
    (0x1EBC, [0x45; 0x303]); (0x1EBD, [0x65; 0x303]); (0x1EBE, [0x45; 0x302; 0x301]);
    (0x1EBF, [0x65; 0x302; 0x301]); (0x1EC0, [0x45; 0x302; 0x300]);
    (0x1EC1, [0x65; 0x302; 0x300]); (0x1EC2, [0x45; 0x302; 0x309]);
    (0x1EC3, [0x65; 0x302; 0x309]); (0x1EC4, [0x45; 0x302; 0x303]);
    (0x1EC5, [0x65; 0x302; 0x303]); (0x1EC6, [0x45; 0x323; 0x302]);
    (0x1EC7, [0x65; 0x323; 0x302]); (0x1EC8, [0x49; 0x309]); (0x1EC9, [0x69; 0x309]);
    (0x1ECA, [0x49; 0x323]); (0x1ECB, [0x69; 0x323]); (0x1ECC, [0x4F; 0x323]);
    (0x1ECD, [0x6F; 0x323]); (0x1ECE, [0x4F; 0x309]); (0x1ECF, [0x6F; 0x309]);
    (0x1ED0, [0x4F; 0x302; 0x301]); (0x1ED1, [0x6F; 0x302; 0x301]);
    (0x1ED2, [0x4F; 0x302; 0x300]); (0x1ED3, [0x6F; 0x302; 0x300]);
    (0x1ED4, [0x4F; 0x302; 0x309]); (0x1ED5, [0x6F; 0x302; 0x309]);
    (0x1ED6, [0x4F; 0x302; 0x303]); (0x1ED7, [0x6F; 0x302; 0x303]);
    (0x1ED8, [0x4F; 0x323; 0x302]); (0x1ED9, [0x6F; 0x323; 0x302]);
    (0x1EDA, [0x4F; 0x31B; 0x301]); (0x1EDB, [0x6F; 0x31B; 0x301]);
    (0x1EDC, [0x4F; 0x31B; 0x300]); (0x1EDD, [0x6F; 0x31B; 0x300]);
    (0x1EDE, [0x4F; 0x31B; 0x309]); (0x1EDF, [0x6F; 0x31B; 0x309]);
    (0x1EE0, [0x4F; 0x31B; 0x303]); (0x1EE1, [0x6F; 0x31B; 0x303]);
    (0x1EE2, [0x4F; 0x31B; 0x323]); (0x1EE3, [0x6F; 0x31B; 0x323]); (0x1EE4, [0x55; 0x323]);
    (0x1EE5, [0x75; 0x323]); (0x1EE6, [0x55; 0x309]); (0x1EE7, [0x75; 0x309]);
    (0x1EE8, [0x55; 0x31B; 0x301]); (0x1EE9, [0x75; 0x31B; 0x301]);
    (0x1EEA, [0x55; 0x31B; 0x300]); (0x1EEB, [0x75; 0x31B; 0x300]);
    (0x1EEC, [0x55; 0x31B; 0x309]); (0x1EED, [0x75; 0x31B; 0x309]);
    (0x1EEE, [0x55; 0x31B; 0x303]); (0x1EEF, [0x75; 0x31B; 0x303]);
    (0x1EF0, [0x55; 0x31B; 0x323]); (0x1EF1, [0x75; 0x31B; 0x323]); (0x1EF2, [0x59; 0x300]);
    (0x1EF3, [0x79; 0x300]); (0x1EF4, [0x59; 0x323]); (0x1EF5, [0x79; 0x323]);
    (0x1EF6, [0x59; 0x309]); (0x1EF7, [0x79; 0x309]); (0x1EF8, [0x59; 0x303]);
    (0x1EF9, [0x79; 0x303]); (0x1F00, [0x3B1; 0x313]); (0x1F01, [0x3B1; 0x314]);
    (0x1F02, [0x3B1; 0x313; 0x300]); (0x1F03, [0x3B1; 0x314; 0x300]);
    (0x1F04, [0x3B1; 0x313; 0x301]); (0x1F05, [0x3B1; 0x314; 0x301]);
    (0x1F06, [0x3B1; 0x313; 0x342]); (0x1F07, [0x3B1; 0x314; 0x342]); (0x1F08, [0x391; 0x313]);
    (0x1F09, [0x391; 0x314]); (0x1F0A, [0x391; 0x313; 0x300]); (0x1F0B, [0x391; 0x314; 0x300]);
    (0x1F0C, [0x391; 0x313; 0x301]); (0x1F0D, [0x391; 0x314; 0x301]);
    (0x1F0E, [0x391; 0x313; 0x342]); (0x1F0F, [0x391; 0x314; 0x342]); (0x1F10, [0x3B5; 0x313]);
    (0x1F11, [0x3B5; 0x314]); (0x1F12, [0x3B5; 0x313; 0x300]); (0x1F13, [0x3B5; 0x314; 0x300]);
    (0x1F14, [0x3B5; 0x313; 0x301]); (0x1F15, [0x3B5; 0x314; 0x301]); (0x1F18, [0x395; 0x313]);
    (0x1F19, [0x395; 0x314]); (0x1F1A, [0x395; 0x313; 0x300]); (0x1F1B, [0x395; 0x314; 0x300]);
    (0x1F1C, [0x395; 0x313; 0x301]); (0x1F1D, [0x395; 0x314; 0x301]); (0x1F20, [0x3B7; 0x313]);
    (0x1F21, [0x3B7; 0x314]); (0x1F22, [0x3B7; 0x313; 0x300]); (0x1F23, [0x3B7; 0x314; 0x300]);
    (0x1F24, [0x3B7; 0x313; 0x301]); (0x1F25, [0x3B7; 0x314; 0x301]);
    (0x1F26, [0x3B7; 0x313; 0x342]); (0x1F27, [0x3B7; 0x314; 0x342]); (0x1F28, [0x397; 0x313]);
    (0x1F29, [0x397; 0x314]); (0x1F2A, [0x397; 0x313; 0x300]); (0x1F2B, [0x397; 0x314; 0x300]);
    (0x1F2C, [0x397; 0x313; 0x301]); (0x1F2D, [0x397; 0x314; 0x301]);
    (0x1F2E, [0x397; 0x313; 0x342]); (0x1F2F, [0x397; 0x314; 0x342]); (0x1F30, [0x3B9; 0x313]);
    (0x1F31, [0x3B9; 0x314]); (0x1F32, [0x3B9; 0x313; 0x300]); (0x1F33, [0x3B9; 0x314; 0x300]);
    (0x1F34, [0x3B9; 0x313; 0x301]); (0x1F35, [0x3B9; 0x314; 0x301]);
    (0x1F36, [0x3B9; 0x313; 0x342]); (0x1F37, [0x3B9; 0x314; 0x342]); (0x1F38, [0x399; 0x313]);
    (0x1F39, [0x399; 0x314]); (0x1F3A, [0x399; 0x313; 0x300]); (0x1F3B, [0x399; 0x314; 0x300]);
    (0x1F3C, [0x399; 0x313; 0x301]); (0x1F3D, [0x399; 0x314; 0x301]);
    (0x1F3E, [0x399; 0x313; 0x342]); (0x1F3F, [0x399; 0x314; 0x342]); (0x1F40, [0x3BF; 0x313]);
    (0x1F41, [0x3BF; 0x314]); (0x1F42, [0x3BF; 0x313; 0x300]); (0x1F43, [0x3BF; 0x314; 0x300]);
    (0x1F44, [0x3BF; 0x313; 0x301]); (0x1F45, [0x3BF; 0x314; 0x301]); (0x1F48, [0x39F; 0x313]);
    (0x1F49, [0x39F; 0x314]); (0x1F4A, [0x39F; 0x313; 0x300]); (0x1F4B, [0x39F; 0x314; 0x300]);
    (0x1F4C, [0x39F; 0x313; 0x301]); (0x1F4D, [0x39F; 0x314; 0x301]); (0x1F50, [0x3C5; 0x313]);
    (0x1F51, [0x3C5; 0x314]); (0x1F52, [0x3C5; 0x313; 0x300]); (0x1F53, [0x3C5; 0x314; 0x300]);
    (0x1F54, [0x3C5; 0x313; 0x301]); (0x1F55, [0x3C5; 0x314; 0x301]);
    (0x1F56, [0x3C5; 0x313; 0x342]); (0x1F57, [0x3C5; 0x314; 0x342]); (0x1F59, [0x3A5; 0x314]);
    (0x1F5B, [0x3A5; 0x314; 0x300]); (0x1F5D, [0x3A5; 0x314; 0x301]);
    (0x1F5F, [0x3A5; 0x314; 0x342]); (0x1F60, [0x3C9; 0x313]); (0x1F61, [0x3C9; 0x314]);
    (0x1F62, [0x3C9; 0x313; 0x300]); (0x1F63, [0x3C9; 0x314; 0x300]);
    (0x1F64, [0x3C9; 0x313; 0x301]); (0x1F65, [0x3C9; 0x314; 0x301]);
    (0x1F66, [0x3C9; 0x313; 0x342]); (0x1F67, [0x3C9; 0x314; 0x342]); (0x1F68, [0x3A9; 0x313]);
    (0x1F69, [0x3A9; 0x314]); (0x1F6A, [0x3A9; 0x313; 0x300]); (0x1F6B, [0x3A9; 0x314; 0x300]);
    (0x1F6C, [0x3A9; 0x313; 0x301]); (0x1F6D, [0x3A9; 0x314; 0x301]);
    (0x1F6E, [0x3A9; 0x313; 0x342]); (0x1F6F, [0x3A9; 0x314; 0x342]); (0x1F70, [0x3B1; 0x300]);
    (0x1F71, [0x3B1; 0x301]); (0x1F72, [0x3B5; 0x300]); (0x1F73, [0x3B5; 0x301]);
    (0x1F74, [0x3B7; 0x300]); (0x1F75, [0x3B7; 0x301]); (0x1F76, [0x3B9; 0x300]);
    (0x1F77, [0x3B9; 0x301]); (0x1F78, [0x3BF; 0x300]); (0x1F79, [0x3BF; 0x301]);
    (0x1F7A, [0x3C5; 0x300]); (0x1F7B, [0x3C5; 0x301]); (0x1F7C, [0x3C9; 0x300]);
    (0x1F7D, [0x3C9; 0x301]); (0x1F80, [0x3B1; 0x313; 0x345]); (0x1F81, [0x3B1; 0x314; 0x345]);
    (0x1F82, [0x3B1; 0x313; 0x300; 0x345]); (0x1F83, [0x3B1; 0x314; 0x300; 0x345]);
    (0x1F84, [0x3B1; 0x313; 0x301; 0x345]); (0x1F85, [0x3B1; 0x314; 0x301; 0x345]);
    (0x1F86, [0x3B1; 0x313; 0x342; 0x345]); (0x1F87, [0x3B1; 0x314; 0x342; 0x345]);
    (0x1F88, [0x391; 0x313; 0x345]); (0x1F89, [0x391; 0x314; 0x345]);
    (0x1F8A, [0x391; 0x313; 0x300; 0x345]); (0x1F8B, [0x391; 0x314; 0x300; 0x345]);
    (0x1F8C, [0x391; 0x313; 0x301; 0x345]); (0x1F8D, [0x391; 0x314; 0x301; 0x345]);
    (0x1F8E, [0x391; 0x313; 0x342; 0x345]); (0x1F8F, [0x391; 0x314; 0x342; 0x345]);
    (0x1F90, [0x3B7; 0x313; 0x345]); (0x1F91, [0x3B7; 0x314; 0x345]);
    (0x1F92, [0x3B7; 0x313; 0x300; 0x345]); (0x1F93, [0x3B7; 0x314; 0x300; 0x345]);
    (0x1F94, [0x3B7; 0x313; 0x301; 0x345]); (0x1F95, [0x3B7; 0x314; 0x301; 0x345]);
    (0x1F96, [0x3B7; 0x313; 0x342; 0x345]); (0x1F97, [0x3B7; 0x314; 0x342; 0x345]);
    (0x1F98, [0x397; 0x313; 0x345]); (0x1F99, [0x397; 0x314; 0x345]);
    (0x1F9A, [0x397; 0x313; 0x300; 0x345]); (0x1F9B, [0x397; 0x314; 0x300; 0x345]);
    (0x1F9C, [0x397; 0x313; 0x301; 0x345]); (0x1F9D, [0x397; 0x314; 0x301; 0x345]);
    (0x1F9E, [0x397; 0x313; 0x342; 0x345]); (0x1F9F, [0x397; 0x314; 0x342; 0x345]);
    (0x1FA0, [0x3C9; 0x313; 0x345]); (0x1FA1, [0x3C9; 0x314; 0x345]);
    (0x1FA2, [0x3C9; 0x313; 0x300; 0x345]); (0x1FA3, [0x3C9; 0x314; 0x300; 0x345]);
    (0x1FA4, [0x3C9; 0x313; 0x301; 0x345]); (0x1FA5, [0x3C9; 0x314; 0x301; 0x345]);
    (0x1FA6, [0x3C9; 0x313; 0x342; 0x345]); (0x1FA7, [0x3C9; 0x314; 0x342; 0x345]);
    (0x1FA8, [0x3A9; 0x313; 0x345]); (0x1FA9, [0x3A9; 0x314; 0x345]);
    (0x1FAA, [0x3A9; 0x313; 0x300; 0x345]); (0x1FAB, [0x3A9; 0x314; 0x300; 0x345]);
    (0x1FAC, [0x3A9; 0x313; 0x301; 0x345]); (0x1FAD, [0x3A9; 0x314; 0x301; 0x345]);
    (0x1FAE, [0x3A9; 0x313; 0x342; 0x345]); (0x1FAF, [0x3A9; 0x314; 0x342; 0x345]);
    (0x1FB0, [0x3B1; 0x306]); (0x1FB1, [0x3B1; 0x304]); (0x1FB2, [0x3B1; 0x300; 0x345]);
    (0x1FB3, [0x3B1; 0x345]); (0x1FB4, [0x3B1; 0x301; 0x345]); (0x1FB6, [0x3B1; 0x342]);
    (0x1FB7, [0x3B1; 0x342; 0x345]); (0x1FB8, [0x391; 0x306]); (0x1FB9, [0x391; 0x304]);
    (0x1FBA, [0x391; 0x300]); (0x1FBB, [0x391; 0x301]); (0x1FBC, [0x391; 0x345]);
    (0x1FBE, [0x3B9]); (0x1FC1, [0xA8; 0x342]); (0x1FC2, [0x3B7; 0x300; 0x345]);
    (0x1FC3, [0x3B7; 0x345]); (0x1FC4, [0x3B7; 0x301; 0x345]); (0x1FC6, [0x3B7; 0x342]);
    (0x1FC7, [0x3B7; 0x342; 0x345]); (0x1FC8, [0x395; 0x300]); (0x1FC9, [0x395; 0x301]);
    (0x1FCA, [0x397; 0x300]); (0x1FCB, [0x397; 0x301]); (0x1FCC, [0x397; 0x345]);
    (0x1FCD, [0x1FBF; 0x300]); (0x1FCE, [0x1FBF; 0x301]); (0x1FCF, [0x1FBF; 0x342]);
    (0x1FD0, [0x3B9; 0x306]); (0x1FD1, [0x3B9; 0x304]); (0x1FD2, [0x3B9; 0x308; 0x300]);
    (0x1FD3, [0x3B9; 0x308; 0x301]); (0x1FD6, [0x3B9; 0x342]); (0x1FD7, [0x3B9; 0x308; 0x342]);
    (0x1FD8, [0x399; 0x306]); (0x1FD9, [0x399; 0x304]); (0x1FDA, [0x399; 0x300]);
    (0x1FDB, [0x399; 0x301]); (0x1FDD, [0x1FFE; 0x300]); (0x1FDE, [0x1FFE; 0x301]);
    (0x1FDF, [0x1FFE; 0x342]); (0x1FE0, [0x3C5; 0x306]); (0x1FE1, [0x3C5; 0x304]);
    (0x1FE2, [0x3C5; 0x308; 0x300]); (0x1FE3, [0x3C5; 0x308; 0x301]); (0x1FE4, [0x3C1; 0x313]);
    (0x1FE5, [0x3C1; 0x314]); (0x1FE6, [0x3C5; 0x342]); (0x1FE7, [0x3C5; 0x308; 0x342]);
    (0x1FE8, [0x3A5; 0x306]); (0x1FE9, [0x3A5; 0x304]); (0x1FEA, [0x3A5; 0x300]);
    (0x1FEB, [0x3A5; 0x301]); (0x1FEC, [0x3A1; 0x314]); (0x1FED, [0xA8; 0x300]);
    (0x1FEE, [0xA8; 0x301]); (0x1FEF, [0x60]); (0x1FF2, [0x3C9; 0x300; 0x345]);
    (0x1FF3, [0x3C9; 0x345]); (0x1FF4, [0x3C9; 0x301; 0x345]); (0x1FF6, [0x3C9; 0x342]);
    (0x1FF7, [0x3C9; 0x342; 0x345]); (0x1FF8, [0x39F; 0x300]); (0x1FF9, [0x39F; 0x301]);
    (0x1FFA, [0x3A9; 0x300]); (0x1FFB, [0x3A9; 0x301]); (0x1FFC, [0x3A9; 0x345]);
    (0x1FFD, [0xB4]); (0x2000, [0x2002]); (0x2001, [0x2003]); (0x2126, [0x3A9]);
    (0x212A, [0x4B]); (0x212B, [0x41; 0x30A]); (0x219A, [0x2190; 0x338]);
    (0x219B, [0x2192; 0x338]); (0x21AE, [0x2194; 0x338]); (0x21CD, [0x21D0; 0x338]);
    (0x21CE, [0x21D4; 0x338]); (0x21CF, [0x21D2; 0x338]); (0x2204, [0x2203; 0x338]);
    (0x2209, [0x2208; 0x338]); (0x220C, [0x220B; 0x338]); (0x2224, [0x2223; 0x338]);
    (0x2226, [0x2225; 0x338]); (0x2241, [0x223C; 0x338]); (0x2244, [0x2243; 0x338]);
    (0x2247, [0x2245; 0x338]); (0x2249, [0x2248; 0x338]); (0x2260, [0x3D; 0x338]);
    (0x2262, [0x2261; 0x338]); (0x226D, [0x224D; 0x338]); (0x226E, [0x3C; 0x338]);
    (0x226F, [0x3E; 0x338]); (0x2270, [0x2264; 0x338]); (0x2271, [0x2265; 0x338]);
    (0x2274, [0x2272; 0x338]); (0x2275, [0x2273; 0x338]); (0x2278, [0x2276; 0x338]);
    (0x2279, [0x2277; 0x338]); (0x2280, [0x227A; 0x338]); (0x2281, [0x227B; 0x338]);
    (0x2284, [0x2282; 0x338]); (0x2285, [0x2283; 0x338]); (0x2288, [0x2286; 0x338]);
    (0x2289, [0x2287; 0x338]); (0x22AC, [0x22A2; 0x338]); (0x22AD, [0x22A8; 0x338]);
    (0x22AE, [0x22A9; 0x338]); (0x22AF, [0x22AB; 0x338]); (0x22E0, [0x227C; 0x338]);
    (0x22E1, [0x227D; 0x338]); (0x22E2, [0x2291; 0x338]); (0x22E3, [0x2292; 0x338]);
    (0x22EA, [0x22B2; 0x338]); (0x22EB, [0x22B3; 0x338]); (0x22EC, [0x22B4; 0x338]);
    (0x22ED, [0x22B5; 0x338]); (0x2329, [0x3008]); (0x232A, [0x3009]);
    (0x2ADC, [0x2ADD; 0x338]); (0x304C, [0x304B; 0x3099]); (0x304E, [0x304D; 0x3099]);
    (0x3050, [0x304F; 0x3099]); (0x3052, [0x3051; 0x3099]); (0x3054, [0x3053; 0x3099]);
    (0x3056, [0x3055; 0x3099]); (0x3058, [0x3057; 0x3099]); (0x305A, [0x3059; 0x3099]);
    (0x305C, [0x305B; 0x3099]); (0x305E, [0x305D; 0x3099]); (0x3060, [0x305F; 0x3099]);
    (0x3062, [0x3061; 0x3099]); (0x3065, [0x3064; 0x3099]); (0x3067, [0x3066; 0x3099]);
    (0x3069, [0x3068; 0x3099]); (0x3070, [0x306F; 0x3099]); (0x3071, [0x306F; 0x309A]);
    (0x3073, [0x3072; 0x3099]); (0x3074, [0x3072; 0x309A]); (0x3076, [0x3075; 0x3099]);
    (0x3077, [0x3075; 0x309A]); (0x3079, [0x3078; 0x3099]); (0x307A, [0x3078; 0x309A]);
    (0x307C, [0x307B; 0x3099]); (0x307D, [0x307B; 0x309A]); (0x3094, [0x3046; 0x3099]);
    (0x309E, [0x309D; 0x3099]); (0x30AC, [0x30AB; 0x3099]); (0x30AE, [0x30AD; 0x3099]);
    (0x30B0, [0x30AF; 0x3099]); (0x30B2, [0x30B1; 0x3099]); (0x30B4, [0x30B3; 0x3099]);
    (0x30B6, [0x30B5; 0x3099]); (0x30B8, [0x30B7; 0x3099]); (0x30BA, [0x30B9; 0x3099]);
    (0x30BC, [0x30BB; 0x3099]); (0x30BE, [0x30BD; 0x3099]); (0x30C0, [0x30BF; 0x3099]);
    (0x30C2, [0x30C1; 0x3099]); (0x30C5, [0x30C4; 0x3099]); (0x30C7, [0x30C6; 0x3099]);
    (0x30C9, [0x30C8; 0x3099]); (0x30D0, [0x30CF; 0x3099]); (0x30D1, [0x30CF; 0x309A]);
    (0x30D3, [0x30D2; 0x3099]); (0x30D4, [0x30D2; 0x309A]); (0x30D6, [0x30D5; 0x3099]);
    (0x30D7, [0x30D5; 0x309A]); (0x30D9, [0x30D8; 0x3099]); (0x30DA, [0x30D8; 0x309A]);
    (0x30DC, [0x30DB; 0x3099]); (0x30DD, [0x30DB; 0x309A]); (0x30F4, [0x30A6; 0x3099]);
    (0x30F7, [0x30EF; 0x3099]); (0x30F8, [0x30F0; 0x3099]); (0x30F9, [0x30F1; 0x3099]);
    (0x30FA, [0x30F2; 0x3099]); (0x30FE, [0x30FD; 0x3099]); (0xF900, [0x8C48]);
    (0xF901, [0x66F4]); (0xF902, [0x8ECA]); (0xF903, [0x8CC8]); (0xF904, [0x6ED1]);
    (0xF905, [0x4E32]); (0xF906, [0x53E5]); (0xF907, [0x9F9C]); (0xF908, [0x9F9C]);
    (0xF909, [0x5951]); (0xF90A, [0x91D1]); (0xF90B, [0x5587]); (0xF90C, [0x5948]);
    (0xF90D, [0x61F6]); (0xF90E, [0x7669]); (0xF90F, [0x7F85]); (0xF910, [0x863F]);
    (0xF911, [0x87BA]); (0xF912, [0x88F8]); (0xF913, [0x908F]); (0xF914, [0x6A02]);
    (0xF915, [0x6D1B]); (0xF916, [0x70D9]); (0xF917, [0x73DE]); (0xF918, [0x843D]);
    (0xF919, [0x916A]); (0xF91A, [0x99F1]); (0xF91B, [0x4E82]); (0xF91C, [0x5375]);
    (0xF91D, [0x6B04]); (0xF91E, [0x721B]); (0xF91F, [0x862D]); (0xF920, [0x9E1E]);
    (0xF921, [0x5D50]); (0xF922, [0x6FEB]); (0xF923, [0x85CD]); (0xF924, [0x8964]);
    (0xF925, [0x62C9]); (0xF926, [0x81D8]); (0xF927, [0x881F]); (0xF928, [0x5ECA]);
    (0xF929, [0x6717]); (0xF92A, [0x6D6A]); (0xF92B, [0x72FC]); (0xF92C, [0x90CE]);
    (0xF92D, [0x4F86]); (0xF92E, [0x51B7]); (0xF92F, [0x52DE]); (0xF930, [0x64C4]);
    (0xF931, [0x6AD3]); (0xF932, [0x7210]); (0xF933, [0x76E7]); (0xF934, [0x8001]);
    (0xF935, [0x8606]); (0xF936, [0x865C]); (0xF937, [0x8DEF]); (0xF938, [0x9732]);
    (0xF939, [0x9B6F]); (0xF93A, [0x9DFA]); (0xF93B, [0x788C]); (0xF93C, [0x797F]);
    (0xF93D, [0x7DA0]); (0xF93E, [0x83C9]); (0xF93F, [0x9304]); (0xF940, [0x9E7F]);
    (0xF941, [0x8AD6]); (0xF942, [0x58DF]); (0xF943, [0x5F04]); (0xF944, [0x7C60]);
    (0xF945, [0x807E]); (0xF946, [0x7262]); (0xF947, [0x78CA]); (0xF948, [0x8CC2]);
    (0xF949, [0x96F7]); (0xF94A, [0x58D8]); (0xF94B, [0x5C62]); (0xF94C, [0x6A13]);
    (0xF94D, [0x6DDA]); (0xF94E, [0x6F0F]); (0xF94F, [0x7D2F]); (0xF950, [0x7E37]);
    (0xF951, [0x964B]); (0xF952, [0x52D2]); (0xF953, [0x808B]); (0xF954, [0x51DC]);
    (0xF955, [0x51CC]); (0xF956, [0x7A1C]); (0xF957, [0x7DBE]); (0xF958, [0x83F1]);
    (0xF959, [0x9675]); (0xF95A, [0x8B80]); (0xF95B, [0x62CF]); (0xF95C, [0x6A02]);
    (0xF95D, [0x8AFE]); (0xF95E, [0x4E39]); (0xF95F, [0x5BE7]); (0xF960, [0x6012]);
    (0xF961, [0x7387]); (0xF962, [0x7570]); (0xF963, [0x5317]); (0xF964, [0x78FB]);
    (0xF965, [0x4FBF]); (0xF966, [0x5FA9]); (0xF967, [0x4E0D]); (0xF968, [0x6CCC]);
    (0xF969, [0x6578]); (0xF96A, [0x7D22]); (0xF96B, [0x53C3]); (0xF96C, [0x585E]);
    (0xF96D, [0x7701]); (0xF96E, [0x8449]); (0xF96F, [0x8AAA]); (0xF970, [0x6BBA]);
    (0xF971, [0x8FB0]); (0xF972, [0x6C88]); (0xF973, [0x62FE]); (0xF974, [0x82E5]);
    (0xF975, [0x63A0]); (0xF976, [0x7565]); (0xF977, [0x4EAE]); (0xF978, [0x5169]);
    (0xF979, [0x51C9]); (0xF97A, [0x6881]); (0xF97B, [0x7CE7]); (0xF97C, [0x826F]);
    (0xF97D, [0x8AD2]); (0xF97E, [0x91CF]); (0xF97F, [0x52F5]); (0xF980, [0x5442]);
    (0xF981, [0x5973]); (0xF982, [0x5EEC]); (0xF983, [0x65C5]); (0xF984, [0x6FFE]);
    (0xF985, [0x792A]); (0xF986, [0x95AD]); (0xF987, [0x9A6A]); (0xF988, [0x9E97]);
    (0xF989, [0x9ECE]); (0xF98A, [0x529B]); (0xF98B, [0x66C6]); (0xF98C, [0x6B77]);
    (0xF98D, [0x8F62]); (0xF98E, [0x5E74]); (0xF98F, [0x6190]); (0xF990, [0x6200]);
    (0xF991, [0x649A]); (0xF992, [0x6F23]); (0xF993, [0x7149]); (0xF994, [0x7489]);
    (0xF995, [0x79CA]); (0xF996, [0x7DF4]); (0xF997, [0x806F]); (0xF998, [0x8F26]);
    (0xF999, [0x84EE]); (0xF99A, [0x9023]); (0xF99B, [0x934A]); (0xF99C, [0x5217]);
    (0xF99D, [0x52A3]); (0xF99E, [0x54BD]); (0xF99F, [0x70C8]); (0xF9A0, [0x88C2]);
    (0xF9A1, [0x8AAA]); (0xF9A2, [0x5EC9]); (0xF9A3, [0x5FF5]); (0xF9A4, [0x637B]);
    (0xF9A5, [0x6BAE]); (0xF9A6, [0x7C3E]); (0xF9A7, [0x7375]); (0xF9A8, [0x4EE4]);
    (0xF9A9, [0x56F9]); (0xF9AA, [0x5BE7]); (0xF9AB, [0x5DBA]); (0xF9AC, [0x601C]);
    (0xF9AD, [0x73B2]); (0xF9AE, [0x7469]); (0xF9AF, [0x7F9A]); (0xF9B0, [0x8046]);
    (0xF9B1, [0x9234]); (0xF9B2, [0x96F6]); (0xF9B3, [0x9748]); (0xF9B4, [0x9818]);
    (0xF9B5, [0x4F8B]); (0xF9B6, [0x79AE]); (0xF9B7, [0x91B4]); (0xF9B8, [0x96B8]);
    (0xF9B9, [0x60E1]); (0xF9BA, [0x4E86]); (0xF9BB, [0x50DA]); (0xF9BC, [0x5BEE]);
    (0xF9BD, [0x5C3F]); (0xF9BE, [0x6599]); (0xF9BF, [0x6A02]); (0xF9C0, [0x71CE]);
    (0xF9C1, [0x7642]); (0xF9C2, [0x84FC]); (0xF9C3, [0x907C]); (0xF9C4, [0x9F8D]);
    (0xF9C5, [0x6688]); (0xF9C6, [0x962E]); (0xF9C7, [0x5289]); (0xF9C8, [0x677B]);
    (0xF9C9, [0x67F3]); (0xF9CA, [0x6D41]); (0xF9CB, [0x6E9C]); (0xF9CC, [0x7409]);
    (0xF9CD, [0x7559]); (0xF9CE, [0x786B]); (0xF9CF, [0x7D10]); (0xF9D0, [0x985E]);
    (0xF9D1, [0x516D]); (0xF9D2, [0x622E]); (0xF9D3, [0x9678]); (0xF9D4, [0x502B]);
    (0xF9D5, [0x5D19]); (0xF9D6, [0x6DEA]); (0xF9D7, [0x8F2A]); (0xF9D8, [0x5F8B]);
    (0xF9D9, [0x6144]); (0xF9DA, [0x6817]); (0xF9DB, [0x7387]); (0xF9DC, [0x9686]);
    (0xF9DD, [0x5229]); (0xF9DE, [0x540F]); (0xF9DF, [0x5C65]); (0xF9E0, [0x6613]);
    (0xF9E1, [0x674E]); (0xF9E2, [0x68A8]); (0xF9E3, [0x6CE5]); (0xF9E4, [0x7406]);
    (0xF9E5, [0x75E2]); (0xF9E6, [0x7F79]); (0xF9E7, [0x88CF]); (0xF9E8, [0x88E1]);
    (0xF9E9, [0x91CC]); (0xF9EA, [0x96E2]); (0xF9EB, [0x533F]); (0xF9EC, [0x6EBA]);
    (0xF9ED, [0x541D]); (0xF9EE, [0x71D0]); (0xF9EF, [0x7498]); (0xF9F0, [0x85FA]);
    (0xF9F1, [0x96A3]); (0xF9F2, [0x9C57]); (0xF9F3, [0x9E9F]); (0xF9F4, [0x6797]);
    (0xF9F5, [0x6DCB]); (0xF9F6, [0x81E8]); (0xF9F7, [0x7ACB]); (0xF9F8, [0x7B20]);
    (0xF9F9, [0x7C92]); (0xF9FA, [0x72C0]); (0xF9FB, [0x7099]); (0xF9FC, [0x8B58]);
    (0xF9FD, [0x4EC0]); (0xF9FE, [0x8336]); (0xF9FF, [0x523A]); (0xFA00, [0x5207]);
    (0xFA01, [0x5EA6]); (0xFA02, [0x62D3]); (0xFA03, [0x7CD6]); (0xFA04, [0x5B85]);
    (0xFA05, [0x6D1E]); (0xFA06, [0x66B4]); (0xFA07, [0x8F3B]); (0xFA08, [0x884C]);
    (0xFA09, [0x964D]); (0xFA0A, [0x898B]); (0xFA0B, [0x5ED3]); (0xFA0C, [0x5140]);
    (0xFA0D, [0x55C0]); (0xFA10, [0x585A]); (0xFA12, [0x6674]); (0xFA15, [0x51DE]);
    (0xFA16, [0x732A]); (0xFA17, [0x76CA]); (0xFA18, [0x793C]); (0xFA19, [0x795E]);
    (0xFA1A, [0x7965]); (0xFA1B, [0x798F]); (0xFA1C, [0x9756]); (0xFA1D, [0x7CBE]);
    (0xFA1E, [0x7FBD]); (0xFA20, [0x8612]); (0xFA22, [0x8AF8]); (0xFA25, [0x9038]);
    (0xFA26, [0x90FD]); (0xFA2A, [0x98EF]); (0xFA2B, [0x98FC]); (0xFA2C, [0x9928]);
    (0xFA2D, [0x9DB4]); (0xFA2E, [0x90DE]); (0xFA2F, [0x96B7]); (0xFA30, [0x4FAE]);
    (0xFA31, [0x50E7]); (0xFA32, [0x514D]); (0xFA33, [0x52C9]); (0xFA34, [0x52E4]);
    (0xFA35, [0x5351]); (0xFA36, [0x559D]); (0xFA37, [0x5606]); (0xFA38, [0x5668]);
    (0xFA39, [0x5840]); (0xFA3A, [0x58A8]); (0xFA3B, [0x5C64]); (0xFA3C, [0x5C6E]);
    (0xFA3D, [0x6094]); (0xFA3E, [0x6168]); (0xFA3F, [0x618E]); (0xFA40, [0x61F2]);
    (0xFA41, [0x654F]); (0xFA42, [0x65E2]); (0xFA43, [0x6691]); (0xFA44, [0x6885]);
    (0xFA45, [0x6D77]); (0xFA46, [0x6E1A]); (0xFA47, [0x6F22]); (0xFA48, [0x716E]);
    (0xFA49, [0x722B]); (0xFA4A, [0x7422]); (0xFA4B, [0x7891]); (0xFA4C, [0x793E]);
    (0xFA4D, [0x7949]); (0xFA4E, [0x7948]); (0xFA4F, [0x7950]); (0xFA50, [0x7956]);
    (0xFA51, [0x795D]); (0xFA52, [0x798D]); (0xFA53, [0x798E]); (0xFA54, [0x7A40]);
    (0xFA55, [0x7A81]); (0xFA56, [0x7BC0]); (0xFA57, [0x7DF4]); (0xFA58, [0x7E09]);
    (0xFA59, [0x7E41]); (0xFA5A, [0x7F72]); (0xFA5B, [0x8005]); (0xFA5C, [0x81ED]);
    (0xFA5D, [0x8279]); (0xFA5E, [0x8279]); (0xFA5F, [0x8457]); (0xFA60, [0x8910]);
    (0xFA61, [0x8996]); (0xFA62, [0x8B01]); (0xFA63, [0x8B39]); (0xFA64, [0x8CD3]);
    (0xFA65, [0x8D08]); (0xFA66, [0x8FB6]); (0xFA67, [0x9038]); (0xFA68, [0x96E3]);
    (0xFA69, [0x97FF]); (0xFA6A, [0x983B]); (0xFA6B, [0x6075]); (0xFA6C, [0x242EE]);
    (0xFA6D, [0x8218]); (0xFA70, [0x4E26]); (0xFA71, [0x51B5]); (0xFA72, [0x5168]);
    (0xFA73, [0x4F80]); (0xFA74, [0x5145]); (0xFA75, [0x5180]); (0xFA76, [0x52C7]);
    (0xFA77, [0x52FA]); (0xFA78, [0x559D]); (0xFA79, [0x5555]); (0xFA7A, [0x5599]);
    (0xFA7B, [0x55E2]); (0xFA7C, [0x585A]); (0xFA7D, [0x58B3]); (0xFA7E, [0x5944]);
    (0xFA7F, [0x5954]); (0xFA80, [0x5A62]); (0xFA81, [0x5B28]); (0xFA82, [0x5ED2]);
    (0xFA83, [0x5ED9]); (0xFA84, [0x5F69]); (0xFA85, [0x5FAD]); (0xFA86, [0x60D8]);
    (0xFA87, [0x614E]); (0xFA88, [0x6108]); (0xFA89, [0x618E]); (0xFA8A, [0x6160]);
    (0xFA8B, [0x61F2]); (0xFA8C, [0x6234]); (0xFA8D, [0x63C4]); (0xFA8E, [0x641C]);
    (0xFA8F, [0x6452]); (0xFA90, [0x6556]); (0xFA91, [0x6674]); (0xFA92, [0x6717]);
    (0xFA93, [0x671B]); (0xFA94, [0x6756]); (0xFA95, [0x6B79]); (0xFA96, [0x6BBA]);
    (0xFA97, [0x6D41]); (0xFA98, [0x6EDB]); (0xFA99, [0x6ECB]); (0xFA9A, [0x6F22]);
    (0xFA9B, [0x701E]); (0xFA9C, [0x716E]); (0xFA9D, [0x77A7]); (0xFA9E, [0x7235]);
    (0xFA9F, [0x72AF]); (0xFAA0, [0x732A]); (0xFAA1, [0x7471]); (0xFAA2, [0x7506]);
    (0xFAA3, [0x753B]); (0xFAA4, [0x761D]); (0xFAA5, [0x761F]); (0xFAA6, [0x76CA]);
    (0xFAA7, [0x76DB]); (0xFAA8, [0x76F4]); (0xFAA9, [0x774A]); (0xFAAA, [0x7740]);
    (0xFAAB, [0x78CC]); (0xFAAC, [0x7AB1]); (0xFAAD, [0x7BC0]); (0xFAAE, [0x7C7B]);
    (0xFAAF, [0x7D5B]); (0xFAB0, [0x7DF4]); (0xFAB1, [0x7F3E]); (0xFAB2, [0x8005]);
    (0xFAB3, [0x8352]); (0xFAB4, [0x83EF]); (0xFAB5, [0x8779]); (0xFAB6, [0x8941]);
    (0xFAB7, [0x8986]); (0xFAB8, [0x8996]); (0xFAB9, [0x8ABF]); (0xFABA, [0x8AF8]);
    (0xFABB, [0x8ACB]); (0xFABC, [0x8B01]); (0xFABD, [0x8AFE]); (0xFABE, [0x8AED]);
    (0xFABF, [0x8B39]); (0xFAC0, [0x8B8A]); (0xFAC1, [0x8D08]); (0xFAC2, [0x8F38]);
    (0xFAC3, [0x9072]); (0xFAC4, [0x9199]); (0xFAC5, [0x9276]); (0xFAC6, [0x967C]);
    (0xFAC7, [0x96E3]); (0xFAC8, [0x9756]); (0xFAC9, [0x97DB]); (0xFACA, [0x97FF]);
    (0xFACB, [0x980B]); (0xFACC, [0x983B]); (0xFACD, [0x9B12]); (0xFACE, [0x9F9C]);
    (0xFACF, [0x2284A]); (0xFAD0, [0x22844]); (0xFAD1, [0x233D5]); (0xFAD2, [0x3B9D]);
    (0xFAD3, [0x4018]); (0xFAD4, [0x4039]); (0xFAD5, [0x25249]); (0xFAD6, [0x25CD0]);
    (0xFAD7, [0x27ED3]); (0xFAD8, [0x9F43]); (0xFAD9, [0x9F8E]); (0xFB1D, [0x5D9; 0x5B4]);
    (0xFB1F, [0x5F2; 0x5B7]); (0xFB2A, [0x5E9; 0x5C1]); (0xFB2B, [0x5E9; 0x5C2]);
    (0xFB2C, [0x5E9; 0x5BC; 0x5C1]); (0xFB2D, [0x5E9; 0x5BC; 0x5C2]); (0xFB2E, [0x5D0; 0x5B7]);
    (0xFB2F, [0x5D0; 0x5B8]); (0xFB30, [0x5D0; 0x5BC]); (0xFB31, [0x5D1; 0x5BC]);
    (0xFB32, [0x5D2; 0x5BC]); (0xFB33, [0x5D3; 0x5BC]); (0xFB34, [0x5D4; 0x5BC]);
    (0xFB35, [0x5D5; 0x5BC]); (0xFB36, [0x5D6; 0x5BC]); (0xFB38, [0x5D8; 0x5BC]);
    (0xFB39, [0x5D9; 0x5BC]); (0xFB3A, [0x5DA; 0x5BC]); (0xFB3B, [0x5DB; 0x5BC]);
    (0xFB3C, [0x5DC; 0x5BC]); (0xFB3E, [0x5DE; 0x5BC]); (0xFB40, [0x5E0; 0x5BC]);
    (0xFB41, [0x5E1; 0x5BC]); (0xFB43, [0x5E3; 0x5BC]); (0xFB44, [0x5E4; 0x5BC]);
    (0xFB46, [0x5E6; 0x5BC]); (0xFB47, [0x5E7; 0x5BC]); (0xFB48, [0x5E8; 0x5BC]);
    (0xFB49, [0x5E9; 0x5BC]); (0xFB4A, [0x5EA; 0x5BC]); (0xFB4B, [0x5D5; 0x5B9]);
    (0xFB4C, [0x5D1; 0x5BF]); (0xFB4D, [0x5DB; 0x5BF]); (0xFB4E, [0x5E4; 0x5BF]);
    (0x1109A, [0x11099; 0x110BA]); (0x1109C, [0x1109B; 0x110BA]); (0x110AB, [0x110A5; 0x110BA]);
    (0x1112E, [0x11131; 0x11127]); (0x1112F, [0x11132; 0x11127]); (0x1134B, [0x11347; 0x1133E]);
    (0x1134C, [0x11347; 0x11357]); (0x114BB, [0x114B9; 0x114BA]); (0x114BC, [0x114B9; 0x114B0]);
    (0x114BE, [0x114B9; 0x114BD]); (0x115BA, [0x115B8; 0x115AF]); (0x115BB, [0x115B9; 0x115AF]);
    (0x11938, [0x11935; 0x11930]); (0x1D15E, [0x1D157; 0x1D165]); (0x1D15F, [0x1D158; 0x1D165]);
    (0x1D160, [0x1D158; 0x1D165; 0x1D16E]); (0x1D161, [0x1D158; 0x1D165; 0x1D16F]);
    (0x1D162, [0x1D158; 0x1D165; 0x1D170]); (0x1D163, [0x1D158; 0x1D165; 0x1D171]);
    (0x1D164, [0x1D158; 0x1D165; 0x1D172]); (0x1D1BB, [0x1D1B9; 0x1D165]);
    (0x1D1BC, [0x1D1BA; 0x1D165]); (0x1D1BD, [0x1D1B9; 0x1D165; 0x1D16E]);
    (0x1D1BE, [0x1D1BA; 0x1D165; 0x1D16E]); (0x1D1BF, [0x1D1B9; 0x1D165; 0x1D16F]);
    (0x1D1C0, [0x1D1BA; 0x1D165; 0x1D16F]); (0x2F800, [0x4E3D]); (0x2F801, [0x4E38]);
    (0x2F802, [0x4E41]); (0x2F803, [0x20122]); (0x2F804, [0x4F60]); (0x2F805, [0x4FAE]);
    (0x2F806, [0x4FBB]); (0x2F807, [0x5002]); (0x2F808, [0x507A]); (0x2F809, [0x5099]);
    (0x2F80A, [0x50E7]); (0x2F80B, [0x50CF]); (0x2F80C, [0x349E]); (0x2F80D, [0x2063A]);
    (0x2F80E, [0x514D]); (0x2F80F, [0x5154]); (0x2F810, [0x5164]); (0x2F811, [0x5177]);
    (0x2F812, [0x2051C]); (0x2F813, [0x34B9]); (0x2F814, [0x5167]); (0x2F815, [0x518D]);
    (0x2F816, [0x2054B]); (0x2F817, [0x5197]); (0x2F818, [0x51A4]); (0x2F819, [0x4ECC]);
    (0x2F81A, [0x51AC]); (0x2F81B, [0x51B5]); (0x2F81C, [0x291DF]); (0x2F81D, [0x51F5]);
    (0x2F81E, [0x5203]); (0x2F81F, [0x34DF]); (0x2F820, [0x523B]); (0x2F821, [0x5246]);
    (0x2F822, [0x5272]); (0x2F823, [0x5277]); (0x2F824, [0x3515]); (0x2F825, [0x52C7]);
    (0x2F826, [0x52C9]); (0x2F827, [0x52E4]); (0x2F828, [0x52FA]); (0x2F829, [0x5305]);
    (0x2F82A, [0x5306]); (0x2F82B, [0x5317]); (0x2F82C, [0x5349]); (0x2F82D, [0x5351]);
    (0x2F82E, [0x535A]); (0x2F82F, [0x5373]); (0x2F830, [0x537D]); (0x2F831, [0x537F]);
    (0x2F832, [0x537F]); (0x2F833, [0x537F]); (0x2F834, [0x20A2C]); (0x2F835, [0x7070]);
    (0x2F836, [0x53CA]); (0x2F837, [0x53DF]); (0x2F838, [0x20B63]); (0x2F839, [0x53EB]);
    (0x2F83A, [0x53F1]); (0x2F83B, [0x5406]); (0x2F83C, [0x549E]); (0x2F83D, [0x5438]);
    (0x2F83E, [0x5448]); (0x2F83F, [0x5468]); (0x2F840, [0x54A2]); (0x2F841, [0x54F6]);
    (0x2F842, [0x5510]); (0x2F843, [0x5553]); (0x2F844, [0x5563]); (0x2F845, [0x5584]);
    (0x2F846, [0x5584]); (0x2F847, [0x5599]); (0x2F848, [0x55AB]); (0x2F849, [0x55B3]);
    (0x2F84A, [0x55C2]); (0x2F84B, [0x5716]); (0x2F84C, [0x5606]); (0x2F84D, [0x5717]);
    (0x2F84E, [0x5651]); (0x2F84F, [0x5674]); (0x2F850, [0x5207]); (0x2F851, [0x58EE]);
    (0x2F852, [0x57CE]); (0x2F853, [0x57F4]); (0x2F854, [0x580D]); (0x2F855, [0x578B]);
    (0x2F856, [0x5832]); (0x2F857, [0x5831]); (0x2F858, [0x58AC]); (0x2F859, [0x214E4]);
    (0x2F85A, [0x58F2]); (0x2F85B, [0x58F7]); (0x2F85C, [0x5906]); (0x2F85D, [0x591A]);
    (0x2F85E, [0x5922]); (0x2F85F, [0x5962]); (0x2F860, [0x216A8]); (0x2F861, [0x216EA]);
    (0x2F862, [0x59EC]); (0x2F863, [0x5A1B]); (0x2F864, [0x5A27]); (0x2F865, [0x59D8]);
    (0x2F866, [0x5A66]); (0x2F867, [0x36EE]); (0x2F868, [0x36FC]); (0x2F869, [0x5B08]);
    (0x2F86A, [0x5B3E]); (0x2F86B, [0x5B3E]); (0x2F86C, [0x219C8]); (0x2F86D, [0x5BC3]);
    (0x2F86E, [0x5BD8]); (0x2F86F, [0x5BE7]); (0x2F870, [0x5BF3]); (0x2F871, [0x21B18]);
    (0x2F872, [0x5BFF]); (0x2F873, [0x5C06]); (0x2F874, [0x5F53]); (0x2F875, [0x5C22]);
    (0x2F876, [0x3781]); (0x2F877, [0x5C60]); (0x2F878, [0x5C6E]); (0x2F879, [0x5CC0]);
    (0x2F87A, [0x5C8D]); (0x2F87B, [0x21DE4]); (0x2F87C, [0x5D43]); (0x2F87D, [0x21DE6]);
    (0x2F87E, [0x5D6E]); (0x2F87F, [0x5D6B]); (0x2F880, [0x5D7C]); (0x2F881, [0x5DE1]);
    (0x2F882, [0x5DE2]); (0x2F883, [0x382F]); (0x2F884, [0x5DFD]); (0x2F885, [0x5E28]);
    (0x2F886, [0x5E3D]); (0x2F887, [0x5E69]); (0x2F888, [0x3862]); (0x2F889, [0x22183]);
    (0x2F88A, [0x387C]); (0x2F88B, [0x5EB0]); (0x2F88C, [0x5EB3]); (0x2F88D, [0x5EB6]);
    (0x2F88E, [0x5ECA]); (0x2F88F, [0x2A392]); (0x2F890, [0x5EFE]); (0x2F891, [0x22331]);
    (0x2F892, [0x22331]); (0x2F893, [0x8201]); (0x2F894, [0x5F22]); (0x2F895, [0x5F22]);
    (0x2F896, [0x38C7]); (0x2F897, [0x232B8]); (0x2F898, [0x261DA]); (0x2F899, [0x5F62]);
    (0x2F89A, [0x5F6B]); (0x2F89B, [0x38E3]); (0x2F89C, [0x5F9A]); (0x2F89D, [0x5FCD]);
    (0x2F89E, [0x5FD7]); (0x2F89F, [0x5FF9]); (0x2F8A0, [0x6081]); (0x2F8A1, [0x393A]);
    (0x2F8A2, [0x391C]); (0x2F8A3, [0x6094]); (0x2F8A4, [0x226D4]); (0x2F8A5, [0x60C7]);
    (0x2F8A6, [0x6148]); (0x2F8A7, [0x614C]); (0x2F8A8, [0x614E]); (0x2F8A9, [0x614C]);
    (0x2F8AA, [0x617A]); (0x2F8AB, [0x618E]); (0x2F8AC, [0x61B2]); (0x2F8AD, [0x61A4]);
    (0x2F8AE, [0x61AF]); (0x2F8AF, [0x61DE]); (0x2F8B0, [0x61F2]); (0x2F8B1, [0x61F6]);
    (0x2F8B2, [0x6210]); (0x2F8B3, [0x621B]); (0x2F8B4, [0x625D]); (0x2F8B5, [0x62B1]);
    (0x2F8B6, [0x62D4]); (0x2F8B7, [0x6350]); (0x2F8B8, [0x22B0C]); (0x2F8B9, [0x633D]);
    (0x2F8BA, [0x62FC]); (0x2F8BB, [0x6368]); (0x2F8BC, [0x6383]); (0x2F8BD, [0x63E4]);
    (0x2F8BE, [0x22BF1]); (0x2F8BF, [0x6422]); (0x2F8C0, [0x63C5]); (0x2F8C1, [0x63A9]);
    (0x2F8C2, [0x3A2E]); (0x2F8C3, [0x6469]); (0x2F8C4, [0x647E]); (0x2F8C5, [0x649D]);
    (0x2F8C6, [0x6477]); (0x2F8C7, [0x3A6C]); (0x2F8C8, [0x654F]); (0x2F8C9, [0x656C]);
    (0x2F8CA, [0x2300A]); (0x2F8CB, [0x65E3]); (0x2F8CC, [0x66F8]); (0x2F8CD, [0x6649]);
    (0x2F8CE, [0x3B19]); (0x2F8CF, [0x6691]); (0x2F8D0, [0x3B08]); (0x2F8D1, [0x3AE4]);
    (0x2F8D2, [0x5192]); (0x2F8D3, [0x5195]); (0x2F8D4, [0x6700]); (0x2F8D5, [0x669C]);
    (0x2F8D6, [0x80AD]); (0x2F8D7, [0x43D9]); (0x2F8D8, [0x6717]); (0x2F8D9, [0x671B]);
    (0x2F8DA, [0x6721]); (0x2F8DB, [0x675E]); (0x2F8DC, [0x6753]); (0x2F8DD, [0x233C3]);
    (0x2F8DE, [0x3B49]); (0x2F8DF, [0x67FA]); (0x2F8E0, [0x6785]); (0x2F8E1, [0x6852]);
    (0x2F8E2, [0x6885]); (0x2F8E3, [0x2346D]); (0x2F8E4, [0x688E]); (0x2F8E5, [0x681F]);
    (0x2F8E6, [0x6914]); (0x2F8E7, [0x3B9D]); (0x2F8E8, [0x6942]); (0x2F8E9, [0x69A3]);
    (0x2F8EA, [0x69EA]); (0x2F8EB, [0x6AA8]); (0x2F8EC, [0x236A3]); (0x2F8ED, [0x6ADB]);
    (0x2F8EE, [0x3C18]); (0x2F8EF, [0x6B21]); (0x2F8F0, [0x238A7]); (0x2F8F1, [0x6B54]);
    (0x2F8F2, [0x3C4E]); (0x2F8F3, [0x6B72]); (0x2F8F4, [0x6B9F]); (0x2F8F5, [0x6BBA]);
    (0x2F8F6, [0x6BBB]); (0x2F8F7, [0x23A8D]); (0x2F8F8, [0x21D0B]); (0x2F8F9, [0x23AFA]);
    (0x2F8FA, [0x6C4E]); (0x2F8FB, [0x23CBC]); (0x2F8FC, [0x6CBF]); (0x2F8FD, [0x6CCD]);
    (0x2F8FE, [0x6C67]); (0x2F8FF, [0x6D16]); (0x2F900, [0x6D3E]); (0x2F901, [0x6D77]);
    (0x2F902, [0x6D41]); (0x2F903, [0x6D69]); (0x2F904, [0x6D78]); (0x2F905, [0x6D85]);
    (0x2F906, [0x23D1E]); (0x2F907, [0x6D34]); (0x2F908, [0x6E2F]); (0x2F909, [0x6E6E]);
    (0x2F90A, [0x3D33]); (0x2F90B, [0x6ECB]); (0x2F90C, [0x6EC7]); (0x2F90D, [0x23ED1]);
    (0x2F90E, [0x6DF9]); (0x2F90F, [0x6F6E]); (0x2F910, [0x23F5E]); (0x2F911, [0x23F8E]);
    (0x2F912, [0x6FC6]); (0x2F913, [0x7039]); (0x2F914, [0x701E]); (0x2F915, [0x701B]);
    (0x2F916, [0x3D96]); (0x2F917, [0x704A]); (0x2F918, [0x707D]); (0x2F919, [0x7077]);
    (0x2F91A, [0x70AD]); (0x2F91B, [0x20525]); (0x2F91C, [0x7145]); (0x2F91D, [0x24263]);
    (0x2F91E, [0x719C]); (0x2F91F, [0x243AB]); (0x2F920, [0x7228]); (0x2F921, [0x7235]);
    (0x2F922, [0x7250]); (0x2F923, [0x24608]); (0x2F924, [0x7280]); (0x2F925, [0x7295]);
    (0x2F926, [0x24735]); (0x2F927, [0x24814]); (0x2F928, [0x737A]); (0x2F929, [0x738B]);
    (0x2F92A, [0x3EAC]); (0x2F92B, [0x73A5]); (0x2F92C, [0x3EB8]); (0x2F92D, [0x3EB8]);
    (0x2F92E, [0x7447]); (0x2F92F, [0x745C]); (0x2F930, [0x7471]); (0x2F931, [0x7485]);
    (0x2F932, [0x74CA]); (0x2F933, [0x3F1B]); (0x2F934, [0x7524]); (0x2F935, [0x24C36]);
    (0x2F936, [0x753E]); (0x2F937, [0x24C92]); (0x2F938, [0x7570]); (0x2F939, [0x2219F]);
    (0x2F93A, [0x7610]); (0x2F93B, [0x24FA1]); (0x2F93C, [0x24FB8]); (0x2F93D, [0x25044]);
    (0x2F93E, [0x3FFC]); (0x2F93F, [0x4008]); (0x2F940, [0x76F4]); (0x2F941, [0x250F3]);
    (0x2F942, [0x250F2]); (0x2F943, [0x25119]); (0x2F944, [0x25133]); (0x2F945, [0x771E]);
    (0x2F946, [0x771F]); (0x2F947, [0x771F]); (0x2F948, [0x774A]); (0x2F949, [0x4039]);
    (0x2F94A, [0x778B]); (0x2F94B, [0x4046]); (0x2F94C, [0x4096]); (0x2F94D, [0x2541D]);
    (0x2F94E, [0x784E]); (0x2F94F, [0x788C]); (0x2F950, [0x78CC]); (0x2F951, [0x40E3]);
    (0x2F952, [0x25626]); (0x2F953, [0x7956]); (0x2F954, [0x2569A]); (0x2F955, [0x256C5]);
    (0x2F956, [0x798F]); (0x2F957, [0x79EB]); (0x2F958, [0x412F]); (0x2F959, [0x7A40]);
    (0x2F95A, [0x7A4A]); (0x2F95B, [0x7A4F]); (0x2F95C, [0x2597C]); (0x2F95D, [0x25AA7]);
    (0x2F95E, [0x25AA7]); (0x2F95F, [0x7AEE]); (0x2F960, [0x4202]); (0x2F961, [0x25BAB]);
    (0x2F962, [0x7BC6]); (0x2F963, [0x7BC9]); (0x2F964, [0x4227]); (0x2F965, [0x25C80]);
    (0x2F966, [0x7CD2]); (0x2F967, [0x42A0]); (0x2F968, [0x7CE8]); (0x2F969, [0x7CE3]);
    (0x2F96A, [0x7D00]); (0x2F96B, [0x25F86]); (0x2F96C, [0x7D63]); (0x2F96D, [0x4301]);
    (0x2F96E, [0x7DC7]); (0x2F96F, [0x7E02]); (0x2F970, [0x7E45]); (0x2F971, [0x4334]);
    (0x2F972, [0x26228]); (0x2F973, [0x26247]); (0x2F974, [0x4359]); (0x2F975, [0x262D9]);
    (0x2F976, [0x7F7A]); (0x2F977, [0x2633E]); (0x2F978, [0x7F95]); (0x2F979, [0x7FFA]);
    (0x2F97A, [0x8005]); (0x2F97B, [0x264DA]); (0x2F97C, [0x26523]); (0x2F97D, [0x8060]);
    (0x2F97E, [0x265A8]); (0x2F97F, [0x8070]); (0x2F980, [0x2335F]); (0x2F981, [0x43D5]);
    (0x2F982, [0x80B2]); (0x2F983, [0x8103]); (0x2F984, [0x440B]); (0x2F985, [0x813E]);
    (0x2F986, [0x5AB5]); (0x2F987, [0x267A7]); (0x2F988, [0x267B5]); (0x2F989, [0x23393]);
    (0x2F98A, [0x2339C]); (0x2F98B, [0x8201]); (0x2F98C, [0x8204]); (0x2F98D, [0x8F9E]);
    (0x2F98E, [0x446B]); (0x2F98F, [0x8291]); (0x2F990, [0x828B]); (0x2F991, [0x829D]);
    (0x2F992, [0x52B3]); (0x2F993, [0x82B1]); (0x2F994, [0x82B3]); (0x2F995, [0x82BD]);
    (0x2F996, [0x82E6]); (0x2F997, [0x26B3C]); (0x2F998, [0x82E5]); (0x2F999, [0x831D]);
    (0x2F99A, [0x8363]); (0x2F99B, [0x83AD]); (0x2F99C, [0x8323]); (0x2F99D, [0x83BD]);
    (0x2F99E, [0x83E7]); (0x2F99F, [0x8457]); (0x2F9A0, [0x8353]); (0x2F9A1, [0x83CA]);
    (0x2F9A2, [0x83CC]); (0x2F9A3, [0x83DC]); (0x2F9A4, [0x26C36]); (0x2F9A5, [0x26D6B]);
    (0x2F9A6, [0x26CD5]); (0x2F9A7, [0x452B]); (0x2F9A8, [0x84F1]); (0x2F9A9, [0x84F3]);
    (0x2F9AA, [0x8516]); (0x2F9AB, [0x273CA]); (0x2F9AC, [0x8564]); (0x2F9AD, [0x26F2C]);
    (0x2F9AE, [0x455D]); (0x2F9AF, [0x4561]); (0x2F9B0, [0x26FB1]); (0x2F9B1, [0x270D2]);
    (0x2F9B2, [0x456B]); (0x2F9B3, [0x8650]); (0x2F9B4, [0x865C]); (0x2F9B5, [0x8667]);
    (0x2F9B6, [0x8669]); (0x2F9B7, [0x86A9]); (0x2F9B8, [0x8688]); (0x2F9B9, [0x870E]);
    (0x2F9BA, [0x86E2]); (0x2F9BB, [0x8779]); (0x2F9BC, [0x8728]); (0x2F9BD, [0x876B]);
    (0x2F9BE, [0x8786]); (0x2F9BF, [0x45D7]); (0x2F9C0, [0x87E1]); (0x2F9C1, [0x8801]);
    (0x2F9C2, [0x45F9]); (0x2F9C3, [0x8860]); (0x2F9C4, [0x8863]); (0x2F9C5, [0x27667]);
    (0x2F9C6, [0x88D7]); (0x2F9C7, [0x88DE]); (0x2F9C8, [0x4635]); (0x2F9C9, [0x88FA]);
    (0x2F9CA, [0x34BB]); (0x2F9CB, [0x278AE]); (0x2F9CC, [0x27966]); (0x2F9CD, [0x46BE]);
    (0x2F9CE, [0x46C7]); (0x2F9CF, [0x8AA0]); (0x2F9D0, [0x8AED]); (0x2F9D1, [0x8B8A]);
    (0x2F9D2, [0x8C55]); (0x2F9D3, [0x27CA8]); (0x2F9D4, [0x8CAB]); (0x2F9D5, [0x8CC1]);
    (0x2F9D6, [0x8D1B]); (0x2F9D7, [0x8D77]); (0x2F9D8, [0x27F2F]); (0x2F9D9, [0x20804]);
    (0x2F9DA, [0x8DCB]); (0x2F9DB, [0x8DBC]); (0x2F9DC, [0x8DF0]); (0x2F9DD, [0x208DE]);
    (0x2F9DE, [0x8ED4]); (0x2F9DF, [0x8F38]); (0x2F9E0, [0x285D2]); (0x2F9E1, [0x285ED]);
    (0x2F9E2, [0x9094]); (0x2F9E3, [0x90F1]); (0x2F9E4, [0x9111]); (0x2F9E5, [0x2872E]);
    (0x2F9E6, [0x911B]); (0x2F9E7, [0x9238]); (0x2F9E8, [0x92D7]); (0x2F9E9, [0x92D8]);
    (0x2F9EA, [0x927C]); (0x2F9EB, [0x93F9]); (0x2F9EC, [0x9415]); (0x2F9ED, [0x28BFA]);
    (0x2F9EE, [0x958B]); (0x2F9EF, [0x4995]); (0x2F9F0, [0x95B7]); (0x2F9F1, [0x28D77]);
    (0x2F9F2, [0x49E6]); (0x2F9F3, [0x96C3]); (0x2F9F4, [0x5DB2]); (0x2F9F5, [0x9723]);
    (0x2F9F6, [0x29145]); (0x2F9F7, [0x2921A]); (0x2F9F8, [0x4A6E]); (0x2F9F9, [0x4A76]);
    (0x2F9FA, [0x97E0]); (0x2F9FB, [0x2940A]); (0x2F9FC, [0x4AB2]); (0x2F9FD, [0x29496]);
    (0x2F9FE, [0x980B]); (0x2F9FF, [0x980B]); (0x2FA00, [0x9829]); (0x2FA01, [0x295B6]);
    (0x2FA02, [0x98E2]); (0x2FA03, [0x4B33]); (0x2FA04, [0x9929]); (0x2FA05, [0x99A7]);
    (0x2FA06, [0x99C2]); (0x2FA07, [0x99FE]); (0x2FA08, [0x4BCE]); (0x2FA09, [0x29B30]);
    (0x2FA0A, [0x9B12]); (0x2FA0B, [0x9C40]); (0x2FA0C, [0x9CFD]); (0x2FA0D, [0x4CCE]);
    (0x2FA0E, [0x4CED]); (0x2FA0F, [0x9D67]); (0x2FA10, [0x2A0CE]); (0x2FA11, [0x4CF8]);
    (0x2FA12, [0x2A105]); (0x2FA13, [0x2A20E]); (0x2FA14, [0x2A291]); (0x2FA15, [0x9EBB]);
    (0x2FA16, [0x4D56]); (0x2FA17, [0x9EF9]); (0x2FA18, [0x9EFE]); (0x2FA19, [0x9F05]);
    (0x2FA1A, [0x9F0F]); (0x2FA1B, [0x9F16]); (0x2FA1C, [0x9F3B]); (0x2FA1D, [0x2A600])
  ].

(** The code points whose canonical combining class is not zero, as
    ranges with their class (UnicodeData.txt, field 3). *)
Definition combining_classes : list (N * N * N) :=
  [
    (0x300, 0x314, 230); (0x315, 0x315, 232); (0x316, 0x319, 220); (0x31A, 0x31A, 232);
    (0x31B, 0x31B, 216); (0x31C, 0x320, 220); (0x321, 0x322, 202); (0x323, 0x326, 220);
    (0x327, 0x328, 202); (0x329, 0x333, 220); (0x334, 0x338, 1); (0x339, 0x33C, 220);
    (0x33D, 0x344, 230); (0x345, 0x345, 240); (0x346, 0x346, 230); (0x347, 0x349, 220);
    (0x34A, 0x34C, 230); (0x34D, 0x34E, 220); (0x350, 0x352, 230); (0x353, 0x356, 220);
    (0x357, 0x357, 230); (0x358, 0x358, 232); (0x359, 0x35A, 220); (0x35B, 0x35B, 230);
    (0x35C, 0x35C, 233); (0x35D, 0x35E, 234); (0x35F, 0x35F, 233); (0x360, 0x361, 234);
    (0x362, 0x362, 233); (0x363, 0x36F, 230); (0x483, 0x487, 230); (0x591, 0x591, 220);
    (0x592, 0x595, 230); (0x596, 0x596, 220); (0x597, 0x599, 230); (0x59A, 0x59A, 222);
    (0x59B, 0x59B, 220); (0x59C, 0x5A1, 230); (0x5A2, 0x5A7, 220); (0x5A8, 0x5A9, 230);
    (0x5AA, 0x5AA, 220); (0x5AB, 0x5AC, 230); (0x5AD, 0x5AD, 222); (0x5AE, 0x5AE, 228);
    (0x5AF, 0x5AF, 230); (0x5B0, 0x5B0, 10); (0x5B1, 0x5B1, 11); (0x5B2, 0x5B2, 12);
    (0x5B3, 0x5B3, 13); (0x5B4, 0x5B4, 14); (0x5B5, 0x5B5, 15); (0x5B6, 0x5B6, 16);
    (0x5B7, 0x5B7, 17); (0x5B8, 0x5B8, 18); (0x5B9, 0x5BA, 19); (0x5BB, 0x5BB, 20);
    (0x5BC, 0x5BC, 21); (0x5BD, 0x5BD, 22); (0x5BF, 0x5BF, 23); (0x5C1, 0x5C1, 24);
    (0x5C2, 0x5C2, 25); (0x5C4, 0x5C4, 230); (0x5C5, 0x5C5, 220); (0x5C7, 0x5C7, 18);
    (0x610, 0x617, 230); (0x618, 0x618, 30); (0x619, 0x619, 31); (0x61A, 0x61A, 32);
    (0x64B, 0x64B, 27); (0x64C, 0x64C, 28); (0x64D, 0x64D, 29); (0x64E, 0x64E, 30);
    (0x64F, 0x64F, 31); (0x650, 0x650, 32); (0x651, 0x651, 33); (0x652, 0x652, 34);
    (0x653, 0x654, 230); (0x655, 0x656, 220); (0x657, 0x65B, 230); (0x65C, 0x65C, 220);
    (0x65D, 0x65E, 230); (0x65F, 0x65F, 220); (0x670, 0x670, 35); (0x6D6, 0x6DC, 230);
    (0x6DF, 0x6E2, 230); (0x6E3, 0x6E3, 220); (0x6E4, 0x6E4, 230); (0x6E7, 0x6E8, 230);
    (0x6EA, 0x6EA, 220); (0x6EB, 0x6EC, 230); (0x6ED, 0x6ED, 220); (0x711, 0x711, 36);
    (0x730, 0x730, 230); (0x731, 0x731, 220); (0x732, 0x733, 230); (0x734, 0x734, 220);
    (0x735, 0x736, 230); (0x737, 0x739, 220); (0x73A, 0x73A, 230); (0x73B, 0x73C, 220);
    (0x73D, 0x73D, 230); (0x73E, 0x73E, 220); (0x73F, 0x741, 230); (0x742, 0x742, 220);
    (0x743, 0x743, 230); (0x744, 0x744, 220); (0x745, 0x745, 230); (0x746, 0x746, 220);
    (0x747, 0x747, 230); (0x748, 0x748, 220); (0x749, 0x74A, 230); (0x7EB, 0x7F1, 230);
    (0x7F2, 0x7F2, 220); (0x7F3, 0x7F3, 230); (0x7FD, 0x7FD, 220); (0x816, 0x819, 230);
    (0x81B, 0x823, 230); (0x825, 0x827, 230); (0x829, 0x82D, 230); (0x859, 0x85B, 220);
    (0x898, 0x898, 230); (0x899, 0x89B, 220); (0x89C, 0x89F, 230); (0x8CA, 0x8CE, 230);
    (0x8CF, 0x8D3, 220); (0x8D4, 0x8E1, 230); (0x8E3, 0x8E3, 220); (0x8E4, 0x8E5, 230);
    (0x8E6, 0x8E6, 220); (0x8E7, 0x8E8, 230); (0x8E9, 0x8E9, 220); (0x8EA, 0x8EC, 230);
    (0x8ED, 0x8EF, 220); (0x8F0, 0x8F0, 27); (0x8F1, 0x8F1, 28); (0x8F2, 0x8F2, 29);
    (0x8F3, 0x8F5, 230); (0x8F6, 0x8F6, 220); (0x8F7, 0x8F8, 230); (0x8F9, 0x8FA, 220);
    (0x8FB, 0x8FF, 230); (0x93C, 0x93C, 7); (0x94D, 0x94D, 9); (0x951, 0x951, 230);
    (0x952, 0x952, 220); (0x953, 0x954, 230); (0x9BC, 0x9BC, 7); (0x9CD, 0x9CD, 9);
    (0x9FE, 0x9FE, 230); (0xA3C, 0xA3C, 7); (0xA4D, 0xA4D, 9); (0xABC, 0xABC, 7);
    (0xACD, 0xACD, 9); (0xB3C, 0xB3C, 7); (0xB4D, 0xB4D, 9); (0xBCD, 0xBCD, 9);
    (0xC3C, 0xC3C, 7); (0xC4D, 0xC4D, 9); (0xC55, 0xC55, 84); (0xC56, 0xC56, 91);
    (0xCBC, 0xCBC, 7); (0xCCD, 0xCCD, 9); (0xD3B, 0xD3C, 9); (0xD4D, 0xD4D, 9);
    (0xDCA, 0xDCA, 9); (0xE38, 0xE39, 103); (0xE3A, 0xE3A, 9); (0xE48, 0xE4B, 107);
    (0xEB8, 0xEB9, 118); (0xEBA, 0xEBA, 9); (0xEC8, 0xECB, 122); (0xF18, 0xF19, 220);
    (0xF35, 0xF35, 220); (0xF37, 0xF37, 220); (0xF39, 0xF39, 216); (0xF71, 0xF71, 129);
    (0xF72, 0xF72, 130); (0xF74, 0xF74, 132); (0xF7A, 0xF7D, 130); (0xF80, 0xF80, 130);
    (0xF82, 0xF83, 230); (0xF84, 0xF84, 9); (0xF86, 0xF87, 230); (0xFC6, 0xFC6, 220);
    (0x1037, 0x1037, 7); (0x1039, 0x103A, 9); (0x108D, 0x108D, 220); (0x135D, 0x135F, 230);
    (0x1714, 0x1715, 9); (0x1734, 0x1734, 9); (0x17D2, 0x17D2, 9); (0x17DD, 0x17DD, 230);
    (0x18A9, 0x18A9, 228); (0x1939, 0x1939, 222); (0x193A, 0x193A, 230); (0x193B, 0x193B, 220);
    (0x1A17, 0x1A17, 230); (0x1A18, 0x1A18, 220); (0x1A60, 0x1A60, 9); (0x1A75, 0x1A7C, 230);
    (0x1A7F, 0x1A7F, 220); (0x1AB0, 0x1AB4, 230); (0x1AB5, 0x1ABA, 220); (0x1ABB, 0x1ABC, 230);
    (0x1ABD, 0x1ABD, 220); (0x1ABF, 0x1AC0, 220); (0x1AC1, 0x1AC2, 230); (0x1AC3, 0x1AC4, 220);
    (0x1AC5, 0x1AC9, 230); (0x1ACA, 0x1ACA, 220); (0x1ACB, 0x1ACE, 230); (0x1B34, 0x1B34, 7);
    (0x1B44, 0x1B44, 9); (0x1B6B, 0x1B6B, 230); (0x1B6C, 0x1B6C, 220); (0x1B6D, 0x1B73, 230);
    (0x1BAA, 0x1BAB, 9); (0x1BE6, 0x1BE6, 7); (0x1BF2, 0x1BF3, 9); (0x1C37, 0x1C37, 7);
    (0x1CD0, 0x1CD2, 230); (0x1CD4, 0x1CD4, 1); (0x1CD5, 0x1CD9, 220); (0x1CDA, 0x1CDB, 230);
    (0x1CDC, 0x1CDF, 220); (0x1CE0, 0x1CE0, 230); (0x1CE2, 0x1CE8, 1); (0x1CED, 0x1CED, 220);
    (0x1CF4, 0x1CF4, 230); (0x1CF8, 0x1CF9, 230); (0x1DC0, 0x1DC1, 230); (0x1DC2, 0x1DC2, 220);
    (0x1DC3, 0x1DC9, 230); (0x1DCA, 0x1DCA, 220); (0x1DCB, 0x1DCC, 230); (0x1DCD, 0x1DCD, 234);
    (0x1DCE, 0x1DCE, 214); (0x1DCF, 0x1DCF, 220); (0x1DD0, 0x1DD0, 202); (0x1DD1, 0x1DF5, 230);
    (0x1DF6, 0x1DF6, 232); (0x1DF7, 0x1DF8, 228); (0x1DF9, 0x1DF9, 220); (0x1DFA, 0x1DFA, 218);
    (0x1DFB, 0x1DFB, 230); (0x1DFC, 0x1DFC, 233); (0x1DFD, 0x1DFD, 220); (0x1DFE, 0x1DFE, 230);
    (0x1DFF, 0x1DFF, 220); (0x20D0, 0x20D1, 230); (0x20D2, 0x20D3, 1); (0x20D4, 0x20D7, 230);
    (0x20D8, 0x20DA, 1); (0x20DB, 0x20DC, 230); (0x20E1, 0x20E1, 230); (0x20E5, 0x20E6, 1);
    (0x20E7, 0x20E7, 230); (0x20E8, 0x20E8, 220); (0x20E9, 0x20E9, 230); (0x20EA, 0x20EB, 1);
    (0x20EC, 0x20EF, 220); (0x20F0, 0x20F0, 230); (0x2CEF, 0x2CF1, 230); (0x2D7F, 0x2D7F, 9);
    (0x2DE0, 0x2DFF, 230); (0x302A, 0x302A, 218); (0x302B, 0x302B, 228); (0x302C, 0x302C, 232);
    (0x302D, 0x302D, 222); (0x302E, 0x302F, 224); (0x3099, 0x309A, 8); (0xA66F, 0xA66F, 230);
    (0xA674, 0xA67D, 230); (0xA69E, 0xA69F, 230); (0xA6F0, 0xA6F1, 230); (0xA806, 0xA806, 9);
    (0xA82C, 0xA82C, 9); (0xA8C4, 0xA8C4, 9); (0xA8E0, 0xA8F1, 230); (0xA92B, 0xA92D, 220);
    (0xA953, 0xA953, 9); (0xA9B3, 0xA9B3, 7); (0xA9C0, 0xA9C0, 9); (0xAAB0, 0xAAB0, 230);
    (0xAAB2, 0xAAB3, 230); (0xAAB4, 0xAAB4, 220); (0xAAB7, 0xAAB8, 230); (0xAABE, 0xAABF, 230);
    (0xAAC1, 0xAAC1, 230); (0xAAF6, 0xAAF6, 9); (0xABED, 0xABED, 9); (0xFB1E, 0xFB1E, 26);
    (0xFE20, 0xFE26, 230); (0xFE27, 0xFE2D, 220); (0xFE2E, 0xFE2F, 230);
    (0x101FD, 0x101FD, 220); (0x102E0, 0x102E0, 220); (0x10376, 0x1037A, 230);
    (0x10A0D, 0x10A0D, 220); (0x10A0F, 0x10A0F, 230); (0x10A38, 0x10A38, 230);
    (0x10A39, 0x10A39, 1); (0x10A3A, 0x10A3A, 220); (0x10A3F, 0x10A3F, 9);
    (0x10AE5, 0x10AE5, 230); (0x10AE6, 0x10AE6, 220); (0x10D24, 0x10D27, 230);
    (0x10EAB, 0x10EAC, 230); (0x10F46, 0x10F47, 220); (0x10F48, 0x10F4A, 230);
    (0x10F4B, 0x10F4B, 220); (0x10F4C, 0x10F4C, 230); (0x10F4D, 0x10F50, 220);
    (0x10F82, 0x10F82, 230); (0x10F83, 0x10F83, 220); (0x10F84, 0x10F84, 230);
    (0x10F85, 0x10F85, 220); (0x11046, 0x11046, 9); (0x11070, 0x11070, 9);
    (0x1107F, 0x1107F, 9); (0x110B9, 0x110B9, 9); (0x110BA, 0x110BA, 7);
    (0x11100, 0x11102, 230); (0x11133, 0x11134, 9); (0x11173, 0x11173, 7);
    (0x111C0, 0x111C0, 9); (0x111CA, 0x111CA, 7); (0x11235, 0x11235, 9); (0x11236, 0x11236, 7);
    (0x112E9, 0x112E9, 7); (0x112EA, 0x112EA, 9); (0x1133B, 0x1133C, 7); (0x1134D, 0x1134D, 9);
    (0x11366, 0x1136C, 230); (0x11370, 0x11374, 230); (0x11442, 0x11442, 9);
    (0x11446, 0x11446, 7); (0x1145E, 0x1145E, 230); (0x114C2, 0x114C2, 9);
    (0x114C3, 0x114C3, 7); (0x115BF, 0x115BF, 9); (0x115C0, 0x115C0, 7); (0x1163F, 0x1163F, 9);
    (0x116B6, 0x116B6, 9); (0x116B7, 0x116B7, 7); (0x1172B, 0x1172B, 9); (0x11839, 0x11839, 9);
    (0x1183A, 0x1183A, 7); (0x1193D, 0x1193E, 9); (0x11943, 0x11943, 7); (0x119E0, 0x119E0, 9);
    (0x11A34, 0x11A34, 9); (0x11A47, 0x11A47, 9); (0x11A99, 0x11A99, 9); (0x11C3F, 0x11C3F, 9);
    (0x11D42, 0x11D42, 7); (0x11D44, 0x11D45, 9); (0x11D97, 0x11D97, 9); (0x16AF0, 0x16AF4, 1);
    (0x16B30, 0x16B36, 230); (0x16FF0, 0x16FF1, 6); (0x1BC9E, 0x1BC9E, 1);
    (0x1D165, 0x1D166, 216); (0x1D167, 0x1D169, 1); (0x1D16D, 0x1D16D, 226);
    (0x1D16E, 0x1D172, 216); (0x1D17B, 0x1D182, 220); (0x1D185, 0x1D189, 230);
    (0x1D18A, 0x1D18B, 220); (0x1D1AA, 0x1D1AD, 230); (0x1D242, 0x1D244, 230);
    (0x1E000, 0x1E006, 230); (0x1E008, 0x1E018, 230); (0x1E01B, 0x1E021, 230);
    (0x1E023, 0x1E024, 230); (0x1E026, 0x1E02A, 230); (0x1E130, 0x1E136, 230);
    (0x1E2AE, 0x1E2AE, 230); (0x1E2EC, 0x1E2EF, 230); (0x1E8D0, 0x1E8D6, 220);
    (0x1E944, 0x1E949, 230); (0x1E94A, 0x1E94A, 7)
  ].

(** The property [Diacritic] (PropList.txt). *)
Definition diacritic_ranges : list (N * N) :=
  [
    (0x5E, 0x5E); (0x60, 0x60); (0xA8, 0xA8); (0xAF, 0xAF); (0xB4, 0xB4); (0xB7, 0xB8);
    (0x2B0, 0x34E); (0x350, 0x357); (0x35D, 0x362); (0x374, 0x375); (0x37A, 0x37A);
    (0x384, 0x385); (0x483, 0x487); (0x559, 0x559); (0x591, 0x5A1); (0x5A3, 0x5BD);
    (0x5BF, 0x5BF); (0x5C1, 0x5C2); (0x5C4, 0x5C4); (0x64B, 0x652); (0x657, 0x658);
    (0x6DF, 0x6E0); (0x6E5, 0x6E6); (0x6EA, 0x6EC); (0x730, 0x74A); (0x7A6, 0x7B0);
    (0x7EB, 0x7F5); (0x818, 0x819); (0x898, 0x89F); (0x8C9, 0x8D2); (0x8E3, 0x8FE);
    (0x93C, 0x93C); (0x94D, 0x94D); (0x951, 0x954); (0x971, 0x971); (0x9BC, 0x9BC);
    (0x9CD, 0x9CD); (0xA3C, 0xA3C); (0xA4D, 0xA4D); (0xABC, 0xABC); (0xACD, 0xACD);
    (0xAFD, 0xAFF); (0xB3C, 0xB3C); (0xB4D, 0xB4D); (0xB55, 0xB55); (0xBCD, 0xBCD);
    (0xC3C, 0xC3C); (0xC4D, 0xC4D); (0xCBC, 0xCBC); (0xCCD, 0xCCD); (0xD3B, 0xD3C);
    (0xD4D, 0xD4D); (0xDCA, 0xDCA); (0xE47, 0xE4C); (0xE4E, 0xE4E); (0xEBA, 0xEBA);
    (0xEC8, 0xECC); (0xF18, 0xF19); (0xF35, 0xF35); (0xF37, 0xF37); (0xF39, 0xF39);
    (0xF3E, 0xF3F); (0xF82, 0xF84); (0xF86, 0xF87); (0xFC6, 0xFC6); (0x1037, 0x1037);
    (0x1039, 0x103A); (0x1063, 0x1064); (0x1069, 0x106D); (0x1087, 0x108D); (0x108F, 0x108F);
    (0x109A, 0x109B); (0x135D, 0x135F); (0x1714, 0x1715); (0x17C9, 0x17D3); (0x17DD, 0x17DD);
    (0x1939, 0x193B); (0x1A75, 0x1A7C); (0x1A7F, 0x1A7F); (0x1AB0, 0x1ABE); (0x1AC1, 0x1ACB);
    (0x1B34, 0x1B34); (0x1B44, 0x1B44); (0x1B6B, 0x1B73); (0x1BAA, 0x1BAB); (0x1C36, 0x1C37);
    (0x1C78, 0x1C7D); (0x1CD0, 0x1CE8); (0x1CED, 0x1CED); (0x1CF4, 0x1CF4); (0x1CF7, 0x1CF9);
    (0x1D2C, 0x1D6A); (0x1DC4, 0x1DCF); (0x1DF5, 0x1DFF); (0x1FBD, 0x1FBD); (0x1FBF, 0x1FC1);
    (0x1FCD, 0x1FCF); (0x1FDD, 0x1FDF); (0x1FED, 0x1FEF); (0x1FFD, 0x1FFE); (0x2CEF, 0x2CF1);
    (0x2E2F, 0x2E2F); (0x302A, 0x302F); (0x3099, 0x309C); (0x30FC, 0x30FC); (0xA66F, 0xA66F);
    (0xA67C, 0xA67D); (0xA67F, 0xA67F); (0xA69C, 0xA69D); (0xA6F0, 0xA6F1); (0xA700, 0xA721);
    (0xA788, 0xA78A); (0xA7F8, 0xA7F9); (0xA8C4, 0xA8C4); (0xA8E0, 0xA8F1); (0xA92B, 0xA92E);
    (0xA953, 0xA953); (0xA9B3, 0xA9B3); (0xA9C0, 0xA9C0); (0xA9E5, 0xA9E5); (0xAA7B, 0xAA7D);
    (0xAABF, 0xAAC2); (0xAAF6, 0xAAF6); (0xAB5B, 0xAB5F); (0xAB69, 0xAB6B); (0xABEC, 0xABED);
    (0xFB1E, 0xFB1E); (0xFE20, 0xFE2F); (0xFF3E, 0xFF3E); (0xFF40, 0xFF40); (0xFF70, 0xFF70);
    (0xFF9E, 0xFF9F); (0xFFE3, 0xFFE3); (0x102E0, 0x102E0); (0x10780, 0x10785);
    (0x10787, 0x107B0); (0x107B2, 0x107BA); (0x10AE5, 0x10AE6); (0x10D22, 0x10D27);
    (0x10F46, 0x10F50); (0x10F82, 0x10F85); (0x11046, 0x11046); (0x11070, 0x11070);
    (0x110B9, 0x110BA); (0x11133, 0x11134); (0x11173, 0x11173); (0x111C0, 0x111C0);
    (0x111CA, 0x111CC); (0x11235, 0x11236); (0x112E9, 0x112EA); (0x1133C, 0x1133C);
    (0x1134D, 0x1134D); (0x11366, 0x1136C); (0x11370, 0x11374); (0x11442, 0x11442);
    (0x11446, 0x11446); (0x114C2, 0x114C3); (0x115BF, 0x115C0); (0x1163F, 0x1163F);
    (0x116B6, 0x116B7); (0x1172B, 0x1172B); (0x11839, 0x1183A); (0x1193D, 0x1193E);
    (0x11943, 0x11943); (0x119E0, 0x119E0); (0x11A34, 0x11A34); (0x11A47, 0x11A47);
    (0x11A99, 0x11A99); (0x11C3F, 0x11C3F); (0x11D42, 0x11D42); (0x11D44, 0x11D45);
    (0x11D97, 0x11D97); (0x16AF0, 0x16AF4); (0x16B30, 0x16B36); (0x16F8F, 0x16F9F);
    (0x16FF0, 0x16FF1); (0x1AFF0, 0x1AFF3); (0x1AFF5, 0x1AFFB); (0x1AFFD, 0x1AFFE);
    (0x1CF00, 0x1CF2D); (0x1CF30, 0x1CF46); (0x1D167, 0x1D169); (0x1D16D, 0x1D172);
    (0x1D17B, 0x1D182); (0x1D185, 0x1D18B); (0x1D1AA, 0x1D1AD); (0x1E130, 0x1E136);
    (0x1E2AE, 0x1E2AE); (0x1E2EC, 0x1E2EF); (0x1E8D0, 0x1E8D6); (0x1E944, 0x1E946);
    (0x1E948, 0x1E94A)
  ].

(** The lower-case mapping of every code point that has one: the simple
    mapping of UnicodeData.txt (field 13), or the unconditional mapping of
    SpecialCasing.txt where there is one. *)
Definition lowercase : list (N * list N) :=
  [
    (0x41, [0x61]); (0x42, [0x62]); (0x43, [0x63]); (0x44, [0x64]); (0x45, [0x65]);
    (0x46, [0x66]); (0x47, [0x67]); (0x48, [0x68]); (0x49, [0x69]); (0x4A, [0x6A]);
    (0x4B, [0x6B]); (0x4C, [0x6C]); (0x4D, [0x6D]); (0x4E, [0x6E]); (0x4F, [0x6F]);
    (0x50, [0x70]); (0x51, [0x71]); (0x52, [0x72]); (0x53, [0x73]); (0x54, [0x74]);
    (0x55, [0x75]); (0x56, [0x76]); (0x57, [0x77]); (0x58, [0x78]); (0x59, [0x79]);
    (0x5A, [0x7A]); (0xC0, [0xE0]); (0xC1, [0xE1]); (0xC2, [0xE2]); (0xC3, [0xE3]);
    (0xC4, [0xE4]); (0xC5, [0xE5]); (0xC6, [0xE6]); (0xC7, [0xE7]); (0xC8, [0xE8]);
    (0xC9, [0xE9]); (0xCA, [0xEA]); (0xCB, [0xEB]); (0xCC, [0xEC]); (0xCD, [0xED]);
    (0xCE, [0xEE]); (0xCF, [0xEF]); (0xD0, [0xF0]); (0xD1, [0xF1]); (0xD2, [0xF2]);
    (0xD3, [0xF3]); (0xD4, [0xF4]); (0xD5, [0xF5]); (0xD6, [0xF6]); (0xD8, [0xF8]);
    (0xD9, [0xF9]); (0xDA, [0xFA]); (0xDB, [0xFB]); (0xDC, [0xFC]); (0xDD, [0xFD]);
    (0xDE, [0xFE]); (0x100, [0x101]); (0x102, [0x103]); (0x104, [0x105]); (0x106, [0x107]);
    (0x108, [0x109]); (0x10A, [0x10B]); (0x10C, [0x10D]); (0x10E, [0x10F]); (0x110, [0x111]);
    (0x112, [0x113]); (0x114, [0x115]); (0x116, [0x117]); (0x118, [0x119]); (0x11A, [0x11B]);
    (0x11C, [0x11D]); (0x11E, [0x11F]); (0x120, [0x121]); (0x122, [0x123]); (0x124, [0x125]);
    (0x126, [0x127]); (0x128, [0x129]); (0x12A, [0x12B]); (0x12C, [0x12D]); (0x12E, [0x12F]);
    (0x130, [0x69; 0x307]); (0x132, [0x133]); (0x134, [0x135]); (0x136, [0x137]);
    (0x139, [0x13A]); (0x13B, [0x13C]); (0x13D, [0x13E]); (0x13F, [0x140]); (0x141, [0x142]);
    (0x143, [0x144]); (0x145, [0x146]); (0x147, [0x148]); (0x14A, [0x14B]); (0x14C, [0x14D]);
    (0x14E, [0x14F]); (0x150, [0x151]); (0x152, [0x153]); (0x154, [0x155]); (0x156, [0x157]);
    (0x158, [0x159]); (0x15A, [0x15B]); (0x15C, [0x15D]); (0x15E, [0x15F]); (0x160, [0x161]);
    (0x162, [0x163]); (0x164, [0x165]); (0x166, [0x167]); (0x168, [0x169]); (0x16A, [0x16B]);
    (0x16C, [0x16D]); (0x16E, [0x16F]); (0x170, [0x171]); (0x172, [0x173]); (0x174, [0x175]);
    (0x176, [0x177]); (0x178, [0xFF]); (0x179, [0x17A]); (0x17B, [0x17C]); (0x17D, [0x17E]);
    (0x181, [0x253]); (0x182, [0x183]); (0x184, [0x185]); (0x186, [0x254]); (0x187, [0x188]);
    (0x189, [0x256]); (0x18A, [0x257]); (0x18B, [0x18C]); (0x18E, [0x1DD]); (0x18F, [0x259]);
    (0x190, [0x25B]); (0x191, [0x192]); (0x193, [0x260]); (0x194, [0x263]); (0x196, [0x269]);
    (0x197, [0x268]); (0x198, [0x199]); (0x19C, [0x26F]); (0x19D, [0x272]); (0x19F, [0x275]);
    (0x1A0, [0x1A1]); (0x1A2, [0x1A3]); (0x1A4, [0x1A5]); (0x1A6, [0x280]); (0x1A7, [0x1A8]);
    (0x1A9, [0x283]); (0x1AC, [0x1AD]); (0x1AE, [0x288]); (0x1AF, [0x1B0]); (0x1B1, [0x28A]);
    (0x1B2, [0x28B]); (0x1B3, [0x1B4]); (0x1B5, [0x1B6]); (0x1B7, [0x292]); (0x1B8, [0x1B9]);
    (0x1BC, [0x1BD]); (0x1C4, [0x1C6]); (0x1C5, [0x1C6]); (0x1C7, [0x1C9]); (0x1C8, [0x1C9]);
    (0x1CA, [0x1CC]); (0x1CB, [0x1CC]); (0x1CD, [0x1CE]); (0x1CF, [0x1D0]); (0x1D1, [0x1D2]);
    (0x1D3, [0x1D4]); (0x1D5, [0x1D6]); (0x1D7, [0x1D8]); (0x1D9, [0x1DA]); (0x1DB, [0x1DC]);
    (0x1DE, [0x1DF]); (0x1E0, [0x1E1]); (0x1E2, [0x1E3]); (0x1E4, [0x1E5]); (0x1E6, [0x1E7]);
    (0x1E8, [0x1E9]); (0x1EA, [0x1EB]); (0x1EC, [0x1ED]); (0x1EE, [0x1EF]); (0x1F1, [0x1F3]);
    (0x1F2, [0x1F3]); (0x1F4, [0x1F5]); (0x1F6, [0x195]); (0x1F7, [0x1BF]); (0x1F8, [0x1F9]);
    (0x1FA, [0x1FB]); (0x1FC, [0x1FD]); (0x1FE, [0x1FF]); (0x200, [0x201]); (0x202, [0x203]);
    (0x204, [0x205]); (0x206, [0x207]); (0x208, [0x209]); (0x20A, [0x20B]); (0x20C, [0x20D]);
    (0x20E, [0x20F]); (0x210, [0x211]); (0x212, [0x213]); (0x214, [0x215]); (0x216, [0x217]);
    (0x218, [0x219]); (0x21A, [0x21B]); (0x21C, [0x21D]); (0x21E, [0x21F]); (0x220, [0x19E]);
    (0x222, [0x223]); (0x224, [0x225]); (0x226, [0x227]); (0x228, [0x229]); (0x22A, [0x22B]);
    (0x22C, [0x22D]); (0x22E, [0x22F]); (0x230, [0x231]); (0x232, [0x233]); (0x23A, [0x2C65]);
    (0x23B, [0x23C]); (0x23D, [0x19A]); (0x23E, [0x2C66]); (0x241, [0x242]); (0x243, [0x180]);
    (0x244, [0x289]); (0x245, [0x28C]); (0x246, [0x247]); (0x248, [0x249]); (0x24A, [0x24B]);
    (0x24C, [0x24D]); (0x24E, [0x24F]); (0x370, [0x371]); (0x372, [0x373]); (0x376, [0x377]);
    (0x37F, [0x3F3]); (0x386, [0x3AC]); (0x388, [0x3AD]); (0x389, [0x3AE]); (0x38A, [0x3AF]);
    (0x38C, [0x3CC]); (0x38E, [0x3CD]); (0x38F, [0x3CE]); (0x391, [0x3B1]); (0x392, [0x3B2]);
    (0x393, [0x3B3]); (0x394, [0x3B4]); (0x395, [0x3B5]); (0x396, [0x3B6]); (0x397, [0x3B7]);
    (0x398, [0x3B8]); (0x399, [0x3B9]); (0x39A, [0x3BA]); (0x39B, [0x3BB]); (0x39C, [0x3BC]);
    (0x39D, [0x3BD]); (0x39E, [0x3BE]); (0x39F, [0x3BF]); (0x3A0, [0x3C0]); (0x3A1, [0x3C1]);
    (0x3A3, [0x3C3]); (0x3A4, [0x3C4]); (0x3A5, [0x3C5]); (0x3A6, [0x3C6]); (0x3A7, [0x3C7]);
    (0x3A8, [0x3C8]); (0x3A9, [0x3C9]); (0x3AA, [0x3CA]); (0x3AB, [0x3CB]); (0x3CF, [0x3D7]);
    (0x3D8, [0x3D9]); (0x3DA, [0x3DB]); (0x3DC, [0x3DD]); (0x3DE, [0x3DF]); (0x3E0, [0x3E1]);
    (0x3E2, [0x3E3]); (0x3E4, [0x3E5]); (0x3E6, [0x3E7]); (0x3E8, [0x3E9]); (0x3EA, [0x3EB]);
    (0x3EC, [0x3ED]); (0x3EE, [0x3EF]); (0x3F4, [0x3B8]); (0x3F7, [0x3F8]); (0x3F9, [0x3F2]);
    (0x3FA, [0x3FB]); (0x3FD, [0x37B]); (0x3FE, [0x37C]); (0x3FF, [0x37D]); (0x400, [0x450]);
    (0x401, [0x451]); (0x402, [0x452]); (0x403, [0x453]); (0x404, [0x454]); (0x405, [0x455]);
    (0x406, [0x456]); (0x407, [0x457]); (0x408, [0x458]); (0x409, [0x459]); (0x40A, [0x45A]);
    (0x40B, [0x45B]); (0x40C, [0x45C]); (0x40D, [0x45D]); (0x40E, [0x45E]); (0x40F, [0x45F]);
    (0x410, [0x430]); (0x411, [0x431]); (0x412, [0x432]); (0x413, [0x433]); (0x414, [0x434]);
    (0x415, [0x435]); (0x416, [0x436]); (0x417, [0x437]); (0x418, [0x438]); (0x419, [0x439]);
    (0x41A, [0x43A]); (0x41B, [0x43B]); (0x41C, [0x43C]); (0x41D, [0x43D]); (0x41E, [0x43E]);
    (0x41F, [0x43F]); (0x420, [0x440]); (0x421, [0x441]); (0x422, [0x442]); (0x423, [0x443]);
    (0x424, [0x444]); (0x425, [0x445]); (0x426, [0x446]); (0x427, [0x447]); (0x428, [0x448]);
    (0x429, [0x449]); (0x42A, [0x44A]); (0x42B, [0x44B]); (0x42C, [0x44C]); (0x42D, [0x44D]);
    (0x42E, [0x44E]); (0x42F, [0x44F]); (0x460, [0x461]); (0x462, [0x463]); (0x464, [0x465]);
    (0x466, [0x467]); (0x468, [0x469]); (0x46A, [0x46B]); (0x46C, [0x46D]); (0x46E, [0x46F]);
    (0x470, [0x471]); (0x472, [0x473]); (0x474, [0x475]); (0x476, [0x477]); (0x478, [0x479]);
    (0x47A, [0x47B]); (0x47C, [0x47D]); (0x47E, [0x47F]); (0x480, [0x481]); (0x48A, [0x48B]);
    (0x48C, [0x48D]); (0x48E, [0x48F]); (0x490, [0x491]); (0x492, [0x493]); (0x494, [0x495]);
    (0x496, [0x497]); (0x498, [0x499]); (0x49A, [0x49B]); (0x49C, [0x49D]); (0x49E, [0x49F]);
    (0x4A0, [0x4A1]); (0x4A2, [0x4A3]); (0x4A4, [0x4A5]); (0x4A6, [0x4A7]); (0x4A8, [0x4A9]);
    (0x4AA, [0x4AB]); (0x4AC, [0x4AD]); (0x4AE, [0x4AF]); (0x4B0, [0x4B1]); (0x4B2, [0x4B3]);
    (0x4B4, [0x4B5]); (0x4B6, [0x4B7]); (0x4B8, [0x4B9]); (0x4BA, [0x4BB]); (0x4BC, [0x4BD]);
    (0x4BE, [0x4BF]); (0x4C0, [0x4CF]); (0x4C1, [0x4C2]); (0x4C3, [0x4C4]); (0x4C5, [0x4C6]);
    (0x4C7, [0x4C8]); (0x4C9, [0x4CA]); (0x4CB, [0x4CC]); (0x4CD, [0x4CE]); (0x4D0, [0x4D1]);
    (0x4D2, [0x4D3]); (0x4D4, [0x4D5]); (0x4D6, [0x4D7]); (0x4D8, [0x4D9]); (0x4DA, [0x4DB]);
    (0x4DC, [0x4DD]); (0x4DE, [0x4DF]); (0x4E0, [0x4E1]); (0x4E2, [0x4E3]); (0x4E4, [0x4E5]);
    (0x4E6, [0x4E7]); (0x4E8, [0x4E9]); (0x4EA, [0x4EB]); (0x4EC, [0x4ED]); (0x4EE, [0x4EF]);
    (0x4F0, [0x4F1]); (0x4F2, [0x4F3]); (0x4F4, [0x4F5]); (0x4F6, [0x4F7]); (0x4F8, [0x4F9]);
    (0x4FA, [0x4FB]); (0x4FC, [0x4FD]); (0x4FE, [0x4FF]); (0x500, [0x501]); (0x502, [0x503]);
    (0x504, [0x505]); (0x506, [0x507]); (0x508, [0x509]); (0x50A, [0x50B]); (0x50C, [0x50D]);
    (0x50E, [0x50F]); (0x510, [0x511]); (0x512, [0x513]); (0x514, [0x515]); (0x516, [0x517]);
    (0x518, [0x519]); (0x51A, [0x51B]); (0x51C, [0x51D]); (0x51E, [0x51F]); (0x520, [0x521]);
    (0x522, [0x523]); (0x524, [0x525]); (0x526, [0x527]); (0x528, [0x529]); (0x52A, [0x52B]);
    (0x52C, [0x52D]); (0x52E, [0x52F]); (0x531, [0x561]); (0x532, [0x562]); (0x533, [0x563]);
    (0x534, [0x564]); (0x535, [0x565]); (0x536, [0x566]); (0x537, [0x567]); (0x538, [0x568]);
    (0x539, [0x569]); (0x53A, [0x56A]); (0x53B, [0x56B]); (0x53C, [0x56C]); (0x53D, [0x56D]);
    (0x53E, [0x56E]); (0x53F, [0x56F]); (0x540, [0x570]); (0x541, [0x571]); (0x542, [0x572]);
    (0x543, [0x573]); (0x544, [0x574]); (0x545, [0x575]); (0x546, [0x576]); (0x547, [0x577]);
    (0x548, [0x578]); (0x549, [0x579]); (0x54A, [0x57A]); (0x54B, [0x57B]); (0x54C, [0x57C]);
    (0x54D, [0x57D]); (0x54E, [0x57E]); (0x54F, [0x57F]); (0x550, [0x580]); (0x551, [0x581]);
    (0x552, [0x582]); (0x553, [0x583]); (0x554, [0x584]); (0x555, [0x585]); (0x556, [0x586]);
    (0x10A0, [0x2D00]); (0x10A1, [0x2D01]); (0x10A2, [0x2D02]); (0x10A3, [0x2D03]);
    (0x10A4, [0x2D04]); (0x10A5, [0x2D05]); (0x10A6, [0x2D06]); (0x10A7, [0x2D07]);
    (0x10A8, [0x2D08]); (0x10A9, [0x2D09]); (0x10AA, [0x2D0A]); (0x10AB, [0x2D0B]);
    (0x10AC, [0x2D0C]); (0x10AD, [0x2D0D]); (0x10AE, [0x2D0E]); (0x10AF, [0x2D0F]);
    (0x10B0, [0x2D10]); (0x10B1, [0x2D11]); (0x10B2, [0x2D12]); (0x10B3, [0x2D13]);
    (0x10B4, [0x2D14]); (0x10B5, [0x2D15]); (0x10B6, [0x2D16]); (0x10B7, [0x2D17]);
    (0x10B8, [0x2D18]); (0x10B9, [0x2D19]); (0x10BA, [0x2D1A]); (0x10BB, [0x2D1B]);
    (0x10BC, [0x2D1C]); (0x10BD, [0x2D1D]); (0x10BE, [0x2D1E]); (0x10BF, [0x2D1F]);
    (0x10C0, [0x2D20]); (0x10C1, [0x2D21]); (0x10C2, [0x2D22]); (0x10C3, [0x2D23]);
    (0x10C4, [0x2D24]); (0x10C5, [0x2D25]); (0x10C7, [0x2D27]); (0x10CD, [0x2D2D]);
    (0x13A0, [0xAB70]); (0x13A1, [0xAB71]); (0x13A2, [0xAB72]); (0x13A3, [0xAB73]);
    (0x13A4, [0xAB74]); (0x13A5, [0xAB75]); (0x13A6, [0xAB76]); (0x13A7, [0xAB77]);
    (0x13A8, [0xAB78]); (0x13A9, [0xAB79]); (0x13AA, [0xAB7A]); (0x13AB, [0xAB7B]);
    (0x13AC, [0xAB7C]); (0x13AD, [0xAB7D]); (0x13AE, [0xAB7E]); (0x13AF, [0xAB7F]);
    (0x13B0, [0xAB80]); (0x13B1, [0xAB81]); (0x13B2, [0xAB82]); (0x13B3, [0xAB83]);
    (0x13B4, [0xAB84]); (0x13B5, [0xAB85]); (0x13B6, [0xAB86]); (0x13B7, [0xAB87]);
    (0x13B8, [0xAB88]); (0x13B9, [0xAB89]); (0x13BA, [0xAB8A]); (0x13BB, [0xAB8B]);
    (0x13BC, [0xAB8C]); (0x13BD, [0xAB8D]); (0x13BE, [0xAB8E]); (0x13BF, [0xAB8F]);
    (0x13C0, [0xAB90]); (0x13C1, [0xAB91]); (0x13C2, [0xAB92]); (0x13C3, [0xAB93]);
    (0x13C4, [0xAB94]); (0x13C5, [0xAB95]); (0x13C6, [0xAB96]); (0x13C7, [0xAB97]);
    (0x13C8, [0xAB98]); (0x13C9, [0xAB99]); (0x13CA, [0xAB9A]); (0x13CB, [0xAB9B]);
    (0x13CC, [0xAB9C]); (0x13CD, [0xAB9D]); (0x13CE, [0xAB9E]); (0x13CF, [0xAB9F]);
    (0x13D0, [0xABA0]); (0x13D1, [0xABA1]); (0x13D2, [0xABA2]); (0x13D3, [0xABA3]);
    (0x13D4, [0xABA4]); (0x13D5, [0xABA5]); (0x13D6, [0xABA6]); (0x13D7, [0xABA7]);
    (0x13D8, [0xABA8]); (0x13D9, [0xABA9]); (0x13DA, [0xABAA]); (0x13DB, [0xABAB]);
    (0x13DC, [0xABAC]); (0x13DD, [0xABAD]); (0x13DE, [0xABAE]); (0x13DF, [0xABAF]);
    (0x13E0, [0xABB0]); (0x13E1, [0xABB1]); (0x13E2, [0xABB2]); (0x13E3, [0xABB3]);
    (0x13E4, [0xABB4]); (0x13E5, [0xABB5]); (0x13E6, [0xABB6]); (0x13E7, [0xABB7]);
    (0x13E8, [0xABB8]); (0x13E9, [0xABB9]); (0x13EA, [0xABBA]); (0x13EB, [0xABBB]);
    (0x13EC, [0xABBC]); (0x13ED, [0xABBD]); (0x13EE, [0xABBE]); (0x13EF, [0xABBF]);
    (0x13F0, [0x13F8]); (0x13F1, [0x13F9]); (0x13F2, [0x13FA]); (0x13F3, [0x13FB]);
    (0x13F4, [0x13FC]); (0x13F5, [0x13FD]); (0x1C90, [0x10D0]); (0x1C91, [0x10D1]);
    (0x1C92, [0x10D2]); (0x1C93, [0x10D3]); (0x1C94, [0x10D4]); (0x1C95, [0x10D5]);
    (0x1C96, [0x10D6]); (0x1C97, [0x10D7]); (0x1C98, [0x10D8]); (0x1C99, [0x10D9]);
    (0x1C9A, [0x10DA]); (0x1C9B, [0x10DB]); (0x1C9C, [0x10DC]); (0x1C9D, [0x10DD]);
    (0x1C9E, [0x10DE]); (0x1C9F, [0x10DF]); (0x1CA0, [0x10E0]); (0x1CA1, [0x10E1]);
    (0x1CA2, [0x10E2]); (0x1CA3, [0x10E3]); (0x1CA4, [0x10E4]); (0x1CA5, [0x10E5]);
    (0x1CA6, [0x10E6]); (0x1CA7, [0x10E7]); (0x1CA8, [0x10E8]); (0x1CA9, [0x10E9]);
    (0x1CAA, [0x10EA]); (0x1CAB, [0x10EB]); (0x1CAC, [0x10EC]); (0x1CAD, [0x10ED]);
    (0x1CAE, [0x10EE]); (0x1CAF, [0x10EF]); (0x1CB0, [0x10F0]); (0x1CB1, [0x10F1]);
    (0x1CB2, [0x10F2]); (0x1CB3, [0x10F3]); (0x1CB4, [0x10F4]); (0x1CB5, [0x10F5]);
    (0x1CB6, [0x10F6]); (0x1CB7, [0x10F7]); (0x1CB8, [0x10F8]); (0x1CB9, [0x10F9]);
    (0x1CBA, [0x10FA]); (0x1CBD, [0x10FD]); (0x1CBE, [0x10FE]); (0x1CBF, [0x10FF]);
    (0x1E00, [0x1E01]); (0x1E02, [0x1E03]); (0x1E04, [0x1E05]); (0x1E06, [0x1E07]);
    (0x1E08, [0x1E09]); (0x1E0A, [0x1E0B]); (0x1E0C, [0x1E0D]); (0x1E0E, [0x1E0F]);
    (0x1E10, [0x1E11]); (0x1E12, [0x1E13]); (0x1E14, [0x1E15]); (0x1E16, [0x1E17]);
    (0x1E18, [0x1E19]); (0x1E1A, [0x1E1B]); (0x1E1C, [0x1E1D]); (0x1E1E, [0x1E1F]);
    (0x1E20, [0x1E21]); (0x1E22, [0x1E23]); (0x1E24, [0x1E25]); (0x1E26, [0x1E27]);
    (0x1E28, [0x1E29]); (0x1E2A, [0x1E2B]); (0x1E2C, [0x1E2D]); (0x1E2E, [0x1E2F]);
    (0x1E30, [0x1E31]); (0x1E32, [0x1E33]); (0x1E34, [0x1E35]); (0x1E36, [0x1E37]);
    (0x1E38, [0x1E39]); (0x1E3A, [0x1E3B]); (0x1E3C, [0x1E3D]); (0x1E3E, [0x1E3F]);
    (0x1E40, [0x1E41]); (0x1E42, [0x1E43]); (0x1E44, [0x1E45]); (0x1E46, [0x1E47]);
    (0x1E48, [0x1E49]); (0x1E4A, [0x1E4B]); (0x1E4C, [0x1E4D]); (0x1E4E, [0x1E4F]);
    (0x1E50, [0x1E51]); (0x1E52, [0x1E53]); (0x1E54, [0x1E55]); (0x1E56, [0x1E57]);
    (0x1E58, [0x1E59]); (0x1E5A, [0x1E5B]); (0x1E5C, [0x1E5D]); (0x1E5E, [0x1E5F]);
    (0x1E60, [0x1E61]); (0x1E62, [0x1E63]); (0x1E64, [0x1E65]); (0x1E66, [0x1E67]);
    (0x1E68, [0x1E69]); (0x1E6A, [0x1E6B]); (0x1E6C, [0x1E6D]); (0x1E6E, [0x1E6F]);
    (0x1E70, [0x1E71]); (0x1E72, [0x1E73]); (0x1E74, [0x1E75]); (0x1E76, [0x1E77]);
    (0x1E78, [0x1E79]); (0x1E7A, [0x1E7B]); (0x1E7C, [0x1E7D]); (0x1E7E, [0x1E7F]);
    (0x1E80, [0x1E81]); (0x1E82, [0x1E83]); (0x1E84, [0x1E85]); (0x1E86, [0x1E87]);
    (0x1E88, [0x1E89]); (0x1E8A, [0x1E8B]); (0x1E8C, [0x1E8D]); (0x1E8E, [0x1E8F]);
    (0x1E90, [0x1E91]); (0x1E92, [0x1E93]); (0x1E94, [0x1E95]); (0x1E9E, [0xDF]);
    (0x1EA0, [0x1EA1]); (0x1EA2, [0x1EA3]); (0x1EA4, [0x1EA5]); (0x1EA6, [0x1EA7]);
    (0x1EA8, [0x1EA9]); (0x1EAA, [0x1EAB]); (0x1EAC, [0x1EAD]); (0x1EAE, [0x1EAF]);
    (0x1EB0, [0x1EB1]); (0x1EB2, [0x1EB3]); (0x1EB4, [0x1EB5]); (0x1EB6, [0x1EB7]);
    (0x1EB8, [0x1EB9]); (0x1EBA, [0x1EBB]); (0x1EBC, [0x1EBD]); (0x1EBE, [0x1EBF]);
    (0x1EC0, [0x1EC1]); (0x1EC2, [0x1EC3]); (0x1EC4, [0x1EC5]); (0x1EC6, [0x1EC7]);
    (0x1EC8, [0x1EC9]); (0x1ECA, [0x1ECB]); (0x1ECC, [0x1ECD]); (0x1ECE, [0x1ECF]);
    (0x1ED0, [0x1ED1]); (0x1ED2, [0x1ED3]); (0x1ED4, [0x1ED5]); (0x1ED6, [0x1ED7]);
    (0x1ED8, [0x1ED9]); (0x1EDA, [0x1EDB]); (0x1EDC, [0x1EDD]); (0x1EDE, [0x1EDF]);
    (0x1EE0, [0x1EE1]); (0x1EE2, [0x1EE3]); (0x1EE4, [0x1EE5]); (0x1EE6, [0x1EE7]);
    (0x1EE8, [0x1EE9]); (0x1EEA, [0x1EEB]); (0x1EEC, [0x1EED]); (0x1EEE, [0x1EEF]);
    (0x1EF0, [0x1EF1]); (0x1EF2, [0x1EF3]); (0x1EF4, [0x1EF5]); (0x1EF6, [0x1EF7]);
    (0x1EF8, [0x1EF9]); (0x1EFA, [0x1EFB]); (0x1EFC, [0x1EFD]); (0x1EFE, [0x1EFF]);
    (0x1F08, [0x1F00]); (0x1F09, [0x1F01]); (0x1F0A, [0x1F02]); (0x1F0B, [0x1F03]);
    (0x1F0C, [0x1F04]); (0x1F0D, [0x1F05]); (0x1F0E, [0x1F06]); (0x1F0F, [0x1F07]);
    (0x1F18, [0x1F10]); (0x1F19, [0x1F11]); (0x1F1A, [0x1F12]); (0x1F1B, [0x1F13]);
    (0x1F1C, [0x1F14]); (0x1F1D, [0x1F15]); (0x1F28, [0x1F20]); (0x1F29, [0x1F21]);
    (0x1F2A, [0x1F22]); (0x1F2B, [0x1F23]); (0x1F2C, [0x1F24]); (0x1F2D, [0x1F25]);
    (0x1F2E, [0x1F26]); (0x1F2F, [0x1F27]); (0x1F38, [0x1F30]); (0x1F39, [0x1F31]);
    (0x1F3A, [0x1F32]); (0x1F3B, [0x1F33]); (0x1F3C, [0x1F34]); (0x1F3D, [0x1F35]);
    (0x1F3E, [0x1F36]); (0x1F3F, [0x1F37]); (0x1F48, [0x1F40]); (0x1F49, [0x1F41]);
    (0x1F4A, [0x1F42]); (0x1F4B, [0x1F43]); (0x1F4C, [0x1F44]); (0x1F4D, [0x1F45]);
    (0x1F59, [0x1F51]); (0x1F5B, [0x1F53]); (0x1F5D, [0x1F55]); (0x1F5F, [0x1F57]);
    (0x1F68, [0x1F60]); (0x1F69, [0x1F61]); (0x1F6A, [0x1F62]); (0x1F6B, [0x1F63]);
    (0x1F6C, [0x1F64]); (0x1F6D, [0x1F65]); (0x1F6E, [0x1F66]); (0x1F6F, [0x1F67]);
    (0x1F88, [0x1F80]); (0x1F89, [0x1F81]); (0x1F8A, [0x1F82]); (0x1F8B, [0x1F83]);
    (0x1F8C, [0x1F84]); (0x1F8D, [0x1F85]); (0x1F8E, [0x1F86]); (0x1F8F, [0x1F87]);
    (0x1F98, [0x1F90]); (0x1F99, [0x1F91]); (0x1F9A, [0x1F92]); (0x1F9B, [0x1F93]);
    (0x1F9C, [0x1F94]); (0x1F9D, [0x1F95]); (0x1F9E, [0x1F96]); (0x1F9F, [0x1F97]);
    (0x1FA8, [0x1FA0]); (0x1FA9, [0x1FA1]); (0x1FAA, [0x1FA2]); (0x1FAB, [0x1FA3]);
    (0x1FAC, [0x1FA4]); (0x1FAD, [0x1FA5]); (0x1FAE, [0x1FA6]); (0x1FAF, [0x1FA7]);
    (0x1FB8, [0x1FB0]); (0x1FB9, [0x1FB1]); (0x1FBA, [0x1F70]); (0x1FBB, [0x1F71]);
    (0x1FBC, [0x1FB3]); (0x1FC8, [0x1F72]); (0x1FC9, [0x1F73]); (0x1FCA, [0x1F74]);
    (0x1FCB, [0x1F75]); (0x1FCC, [0x1FC3]); (0x1FD8, [0x1FD0]); (0x1FD9, [0x1FD1]);
    (0x1FDA, [0x1F76]); (0x1FDB, [0x1F77]); (0x1FE8, [0x1FE0]); (0x1FE9, [0x1FE1]);
    (0x1FEA, [0x1F7A]); (0x1FEB, [0x1F7B]); (0x1FEC, [0x1FE5]); (0x1FF8, [0x1F78]);
    (0x1FF9, [0x1F79]); (0x1FFA, [0x1F7C]); (0x1FFB, [0x1F7D]); (0x1FFC, [0x1FF3]);
    (0x2126, [0x3C9]); (0x212A, [0x6B]); (0x212B, [0xE5]); (0x2132, [0x214E]);
    (0x2160, [0x2170]); (0x2161, [0x2171]); (0x2162, [0x2172]); (0x2163, [0x2173]);
    (0x2164, [0x2174]); (0x2165, [0x2175]); (0x2166, [0x2176]); (0x2167, [0x2177]);
    (0x2168, [0x2178]); (0x2169, [0x2179]); (0x216A, [0x217A]); (0x216B, [0x217B]);
    (0x216C, [0x217C]); (0x216D, [0x217D]); (0x216E, [0x217E]); (0x216F, [0x217F]);
    (0x2183, [0x2184]); (0x24B6, [0x24D0]); (0x24B7, [0x24D1]); (0x24B8, [0x24D2]);
    (0x24B9, [0x24D3]); (0x24BA, [0x24D4]); (0x24BB, [0x24D5]); (0x24BC, [0x24D6]);
    (0x24BD, [0x24D7]); (0x24BE, [0x24D8]); (0x24BF, [0x24D9]); (0x24C0, [0x24DA]);
    (0x24C1, [0x24DB]); (0x24C2, [0x24DC]); (0x24C3, [0x24DD]); (0x24C4, [0x24DE]);
    (0x24C5, [0x24DF]); (0x24C6, [0x24E0]); (0x24C7, [0x24E1]); (0x24C8, [0x24E2]);
    (0x24C9, [0x24E3]); (0x24CA, [0x24E4]); (0x24CB, [0x24E5]); (0x24CC, [0x24E6]);
    (0x24CD, [0x24E7]); (0x24CE, [0x24E8]); (0x24CF, [0x24E9]); (0x2C00, [0x2C30]);
    (0x2C01, [0x2C31]); (0x2C02, [0x2C32]); (0x2C03, [0x2C33]); (0x2C04, [0x2C34]);
    (0x2C05, [0x2C35]); (0x2C06, [0x2C36]); (0x2C07, [0x2C37]); (0x2C08, [0x2C38]);
    (0x2C09, [0x2C39]); (0x2C0A, [0x2C3A]); (0x2C0B, [0x2C3B]); (0x2C0C, [0x2C3C]);
    (0x2C0D, [0x2C3D]); (0x2C0E, [0x2C3E]); (0x2C0F, [0x2C3F]); (0x2C10, [0x2C40]);
    (0x2C11, [0x2C41]); (0x2C12, [0x2C42]); (0x2C13, [0x2C43]); (0x2C14, [0x2C44]);
    (0x2C15, [0x2C45]); (0x2C16, [0x2C46]); (0x2C17, [0x2C47]); (0x2C18, [0x2C48]);
    (0x2C19, [0x2C49]); (0x2C1A, [0x2C4A]); (0x2C1B, [0x2C4B]); (0x2C1C, [0x2C4C]);
    (0x2C1D, [0x2C4D]); (0x2C1E, [0x2C4E]); (0x2C1F, [0x2C4F]); (0x2C20, [0x2C50]);
    (0x2C21, [0x2C51]); (0x2C22, [0x2C52]); (0x2C23, [0x2C53]); (0x2C24, [0x2C54]);
    (0x2C25, [0x2C55]); (0x2C26, [0x2C56]); (0x2C27, [0x2C57]); (0x2C28, [0x2C58]);
    (0x2C29, [0x2C59]); (0x2C2A, [0x2C5A]); (0x2C2B, [0x2C5B]); (0x2C2C, [0x2C5C]);
    (0x2C2D, [0x2C5D]); (0x2C2E, [0x2C5E]); (0x2C2F, [0x2C5F]); (0x2C60, [0x2C61]);
    (0x2C62, [0x26B]); (0x2C63, [0x1D7D]); (0x2C64, [0x27D]); (0x2C67, [0x2C68]);
    (0x2C69, [0x2C6A]); (0x2C6B, [0x2C6C]); (0x2C6D, [0x251]); (0x2C6E, [0x271]);
    (0x2C6F, [0x250]); (0x2C70, [0x252]); (0x2C72, [0x2C73]); (0x2C75, [0x2C76]);
    (0x2C7E, [0x23F]); (0x2C7F, [0x240]); (0x2C80, [0x2C81]); (0x2C82, [0x2C83]);
    (0x2C84, [0x2C85]); (0x2C86, [0x2C87]); (0x2C88, [0x2C89]); (0x2C8A, [0x2C8B]);
    (0x2C8C, [0x2C8D]); (0x2C8E, [0x2C8F]); (0x2C90, [0x2C91]); (0x2C92, [0x2C93]);
    (0x2C94, [0x2C95]); (0x2C96, [0x2C97]); (0x2C98, [0x2C99]); (0x2C9A, [0x2C9B]);
    (0x2C9C, [0x2C9D]); (0x2C9E, [0x2C9F]); (0x2CA0, [0x2CA1]); (0x2CA2, [0x2CA3]);
    (0x2CA4, [0x2CA5]); (0x2CA6, [0x2CA7]); (0x2CA8, [0x2CA9]); (0x2CAA, [0x2CAB]);
    (0x2CAC, [0x2CAD]); (0x2CAE, [0x2CAF]); (0x2CB0, [0x2CB1]); (0x2CB2, [0x2CB3]);
    (0x2CB4, [0x2CB5]); (0x2CB6, [0x2CB7]); (0x2CB8, [0x2CB9]); (0x2CBA, [0x2CBB]);
    (0x2CBC, [0x2CBD]); (0x2CBE, [0x2CBF]); (0x2CC0, [0x2CC1]); (0x2CC2, [0x2CC3]);
    (0x2CC4, [0x2CC5]); (0x2CC6, [0x2CC7]); (0x2CC8, [0x2CC9]); (0x2CCA, [0x2CCB]);
    (0x2CCC, [0x2CCD]); (0x2CCE, [0x2CCF]); (0x2CD0, [0x2CD1]); (0x2CD2, [0x2CD3]);
    (0x2CD4, [0x2CD5]); (0x2CD6, [0x2CD7]); (0x2CD8, [0x2CD9]); (0x2CDA, [0x2CDB]);
    (0x2CDC, [0x2CDD]); (0x2CDE, [0x2CDF]); (0x2CE0, [0x2CE1]); (0x2CE2, [0x2CE3]);
    (0x2CEB, [0x2CEC]); (0x2CED, [0x2CEE]); (0x2CF2, [0x2CF3]); (0xA640, [0xA641]);
    (0xA642, [0xA643]); (0xA644, [0xA645]); (0xA646, [0xA647]); (0xA648, [0xA649]);
    (0xA64A, [0xA64B]); (0xA64C, [0xA64D]); (0xA64E, [0xA64F]); (0xA650, [0xA651]);
    (0xA652, [0xA653]); (0xA654, [0xA655]); (0xA656, [0xA657]); (0xA658, [0xA659]);
    (0xA65A, [0xA65B]); (0xA65C, [0xA65D]); (0xA65E, [0xA65F]); (0xA660, [0xA661]);
    (0xA662, [0xA663]); (0xA664, [0xA665]); (0xA666, [0xA667]); (0xA668, [0xA669]);
    (0xA66A, [0xA66B]); (0xA66C, [0xA66D]); (0xA680, [0xA681]); (0xA682, [0xA683]);
    (0xA684, [0xA685]); (0xA686, [0xA687]); (0xA688, [0xA689]); (0xA68A, [0xA68B]);
    (0xA68C, [0xA68D]); (0xA68E, [0xA68F]); (0xA690, [0xA691]); (0xA692, [0xA693]);
    (0xA694, [0xA695]); (0xA696, [0xA697]); (0xA698, [0xA699]); (0xA69A, [0xA69B]);
    (0xA722, [0xA723]); (0xA724, [0xA725]); (0xA726, [0xA727]); (0xA728, [0xA729]);
    (0xA72A, [0xA72B]); (0xA72C, [0xA72D]); (0xA72E, [0xA72F]); (0xA732, [0xA733]);
    (0xA734, [0xA735]); (0xA736, [0xA737]); (0xA738, [0xA739]); (0xA73A, [0xA73B]);
    (0xA73C, [0xA73D]); (0xA73E, [0xA73F]); (0xA740, [0xA741]); (0xA742, [0xA743]);
    (0xA744, [0xA745]); (0xA746, [0xA747]); (0xA748, [0xA749]); (0xA74A, [0xA74B]);
    (0xA74C, [0xA74D]); (0xA74E, [0xA74F]); (0xA750, [0xA751]); (0xA752, [0xA753]);
    (0xA754, [0xA755]); (0xA756, [0xA757]); (0xA758, [0xA759]); (0xA75A, [0xA75B]);
    (0xA75C, [0xA75D]); (0xA75E, [0xA75F]); (0xA760, [0xA761]); (0xA762, [0xA763]);
    (0xA764, [0xA765]); (0xA766, [0xA767]); (0xA768, [0xA769]); (0xA76A, [0xA76B]);
    (0xA76C, [0xA76D]); (0xA76E, [0xA76F]); (0xA779, [0xA77A]); (0xA77B, [0xA77C]);
    (0xA77D, [0x1D79]); (0xA77E, [0xA77F]); (0xA780, [0xA781]); (0xA782, [0xA783]);
    (0xA784, [0xA785]); (0xA786, [0xA787]); (0xA78B, [0xA78C]); (0xA78D, [0x265]);
    (0xA790, [0xA791]); (0xA792, [0xA793]); (0xA796, [0xA797]); (0xA798, [0xA799]);
    (0xA79A, [0xA79B]); (0xA79C, [0xA79D]); (0xA79E, [0xA79F]); (0xA7A0, [0xA7A1]);
    (0xA7A2, [0xA7A3]); (0xA7A4, [0xA7A5]); (0xA7A6, [0xA7A7]); (0xA7A8, [0xA7A9]);
    (0xA7AA, [0x266]); (0xA7AB, [0x25C]); (0xA7AC, [0x261]); (0xA7AD, [0x26C]);
    (0xA7AE, [0x26A]); (0xA7B0, [0x29E]); (0xA7B1, [0x287]); (0xA7B2, [0x29D]);
    (0xA7B3, [0xAB53]); (0xA7B4, [0xA7B5]); (0xA7B6, [0xA7B7]); (0xA7B8, [0xA7B9]);
    (0xA7BA, [0xA7BB]); (0xA7BC, [0xA7BD]); (0xA7BE, [0xA7BF]); (0xA7C0, [0xA7C1]);
    (0xA7C2, [0xA7C3]); (0xA7C4, [0xA794]); (0xA7C5, [0x282]); (0xA7C6, [0x1D8E]);
    (0xA7C7, [0xA7C8]); (0xA7C9, [0xA7CA]); (0xA7D0, [0xA7D1]); (0xA7D6, [0xA7D7]);
    (0xA7D8, [0xA7D9]); (0xA7F5, [0xA7F6]); (0xFF21, [0xFF41]); (0xFF22, [0xFF42]);
    (0xFF23, [0xFF43]); (0xFF24, [0xFF44]); (0xFF25, [0xFF45]); (0xFF26, [0xFF46]);
    (0xFF27, [0xFF47]); (0xFF28, [0xFF48]); (0xFF29, [0xFF49]); (0xFF2A, [0xFF4A]);
    (0xFF2B, [0xFF4B]); (0xFF2C, [0xFF4C]); (0xFF2D, [0xFF4D]); (0xFF2E, [0xFF4E]);
    (0xFF2F, [0xFF4F]); (0xFF30, [0xFF50]); (0xFF31, [0xFF51]); (0xFF32, [0xFF52]);
    (0xFF33, [0xFF53]); (0xFF34, [0xFF54]); (0xFF35, [0xFF55]); (0xFF36, [0xFF56]);
    (0xFF37, [0xFF57]); (0xFF38, [0xFF58]); (0xFF39, [0xFF59]); (0xFF3A, [0xFF5A]);
    (0x10400, [0x10428]); (0x10401, [0x10429]); (0x10402, [0x1042A]); (0x10403, [0x1042B]);
    (0x10404, [0x1042C]); (0x10405, [0x1042D]); (0x10406, [0x1042E]); (0x10407, [0x1042F]);
    (0x10408, [0x10430]); (0x10409, [0x10431]); (0x1040A, [0x10432]); (0x1040B, [0x10433]);
    (0x1040C, [0x10434]); (0x1040D, [0x10435]); (0x1040E, [0x10436]); (0x1040F, [0x10437]);
    (0x10410, [0x10438]); (0x10411, [0x10439]); (0x10412, [0x1043A]); (0x10413, [0x1043B]);
    (0x10414, [0x1043C]); (0x10415, [0x1043D]); (0x10416, [0x1043E]); (0x10417, [0x1043F]);
    (0x10418, [0x10440]); (0x10419, [0x10441]); (0x1041A, [0x10442]); (0x1041B, [0x10443]);
    (0x1041C, [0x10444]); (0x1041D, [0x10445]); (0x1041E, [0x10446]); (0x1041F, [0x10447]);
    (0x10420, [0x10448]); (0x10421, [0x10449]); (0x10422, [0x1044A]); (0x10423, [0x1044B]);
    (0x10424, [0x1044C]); (0x10425, [0x1044D]); (0x10426, [0x1044E]); (0x10427, [0x1044F]);
    (0x104B0, [0x104D8]); (0x104B1, [0x104D9]); (0x104B2, [0x104DA]); (0x104B3, [0x104DB]);
    (0x104B4, [0x104DC]); (0x104B5, [0x104DD]); (0x104B6, [0x104DE]); (0x104B7, [0x104DF]);
    (0x104B8, [0x104E0]); (0x104B9, [0x104E1]); (0x104BA, [0x104E2]); (0x104BB, [0x104E3]);
    (0x104BC, [0x104E4]); (0x104BD, [0x104E5]); (0x104BE, [0x104E6]); (0x104BF, [0x104E7]);
    (0x104C0, [0x104E8]); (0x104C1, [0x104E9]); (0x104C2, [0x104EA]); (0x104C3, [0x104EB]);
    (0x104C4, [0x104EC]); (0x104C5, [0x104ED]); (0x104C6, [0x104EE]); (0x104C7, [0x104EF]);
    (0x104C8, [0x104F0]); (0x104C9, [0x104F1]); (0x104CA, [0x104F2]); (0x104CB, [0x104F3]);
    (0x104CC, [0x104F4]); (0x104CD, [0x104F5]); (0x104CE, [0x104F6]); (0x104CF, [0x104F7]);
    (0x104D0, [0x104F8]); (0x104D1, [0x104F9]); (0x104D2, [0x104FA]); (0x104D3, [0x104FB]);
    (0x10570, [0x10597]); (0x10571, [0x10598]); (0x10572, [0x10599]); (0x10573, [0x1059A]);
    (0x10574, [0x1059B]); (0x10575, [0x1059C]); (0x10576, [0x1059D]); (0x10577, [0x1059E]);
    (0x10578, [0x1059F]); (0x10579, [0x105A0]); (0x1057A, [0x105A1]); (0x1057C, [0x105A3]);
    (0x1057D, [0x105A4]); (0x1057E, [0x105A5]); (0x1057F, [0x105A6]); (0x10580, [0x105A7]);
    (0x10581, [0x105A8]); (0x10582, [0x105A9]); (0x10583, [0x105AA]); (0x10584, [0x105AB]);
    (0x10585, [0x105AC]); (0x10586, [0x105AD]); (0x10587, [0x105AE]); (0x10588, [0x105AF]);
    (0x10589, [0x105B0]); (0x1058A, [0x105B1]); (0x1058C, [0x105B3]); (0x1058D, [0x105B4]);
    (0x1058E, [0x105B5]); (0x1058F, [0x105B6]); (0x10590, [0x105B7]); (0x10591, [0x105B8]);
    (0x10592, [0x105B9]); (0x10594, [0x105BB]); (0x10595, [0x105BC]); (0x10C80, [0x10CC0]);
    (0x10C81, [0x10CC1]); (0x10C82, [0x10CC2]); (0x10C83, [0x10CC3]); (0x10C84, [0x10CC4]);
    (0x10C85, [0x10CC5]); (0x10C86, [0x10CC6]); (0x10C87, [0x10CC7]); (0x10C88, [0x10CC8]);
    (0x10C89, [0x10CC9]); (0x10C8A, [0x10CCA]); (0x10C8B, [0x10CCB]); (0x10C8C, [0x10CCC]);
    (0x10C8D, [0x10CCD]); (0x10C8E, [0x10CCE]); (0x10C8F, [0x10CCF]); (0x10C90, [0x10CD0]);
    (0x10C91, [0x10CD1]); (0x10C92, [0x10CD2]); (0x10C93, [0x10CD3]); (0x10C94, [0x10CD4]);
    (0x10C95, [0x10CD5]); (0x10C96, [0x10CD6]); (0x10C97, [0x10CD7]); (0x10C98, [0x10CD8]);
    (0x10C99, [0x10CD9]); (0x10C9A, [0x10CDA]); (0x10C9B, [0x10CDB]); (0x10C9C, [0x10CDC]);
    (0x10C9D, [0x10CDD]); (0x10C9E, [0x10CDE]); (0x10C9F, [0x10CDF]); (0x10CA0, [0x10CE0]);
    (0x10CA1, [0x10CE1]); (0x10CA2, [0x10CE2]); (0x10CA3, [0x10CE3]); (0x10CA4, [0x10CE4]);
    (0x10CA5, [0x10CE5]); (0x10CA6, [0x10CE6]); (0x10CA7, [0x10CE7]); (0x10CA8, [0x10CE8]);
    (0x10CA9, [0x10CE9]); (0x10CAA, [0x10CEA]); (0x10CAB, [0x10CEB]); (0x10CAC, [0x10CEC]);
    (0x10CAD, [0x10CED]); (0x10CAE, [0x10CEE]); (0x10CAF, [0x10CEF]); (0x10CB0, [0x10CF0]);
    (0x10CB1, [0x10CF1]); (0x10CB2, [0x10CF2]); (0x118A0, [0x118C0]); (0x118A1, [0x118C1]);
    (0x118A2, [0x118C2]); (0x118A3, [0x118C3]); (0x118A4, [0x118C4]); (0x118A5, [0x118C5]);
    (0x118A6, [0x118C6]); (0x118A7, [0x118C7]); (0x118A8, [0x118C8]); (0x118A9, [0x118C9]);
    (0x118AA, [0x118CA]); (0x118AB, [0x118CB]); (0x118AC, [0x118CC]); (0x118AD, [0x118CD]);
    (0x118AE, [0x118CE]); (0x118AF, [0x118CF]); (0x118B0, [0x118D0]); (0x118B1, [0x118D1]);
    (0x118B2, [0x118D2]); (0x118B3, [0x118D3]); (0x118B4, [0x118D4]); (0x118B5, [0x118D5]);
    (0x118B6, [0x118D6]); (0x118B7, [0x118D7]); (0x118B8, [0x118D8]); (0x118B9, [0x118D9]);
    (0x118BA, [0x118DA]); (0x118BB, [0x118DB]); (0x118BC, [0x118DC]); (0x118BD, [0x118DD]);
    (0x118BE, [0x118DE]); (0x118BF, [0x118DF]); (0x16E40, [0x16E60]); (0x16E41, [0x16E61]);
    (0x16E42, [0x16E62]); (0x16E43, [0x16E63]); (0x16E44, [0x16E64]); (0x16E45, [0x16E65]);
    (0x16E46, [0x16E66]); (0x16E47, [0x16E67]); (0x16E48, [0x16E68]); (0x16E49, [0x16E69]);
    (0x16E4A, [0x16E6A]); (0x16E4B, [0x16E6B]); (0x16E4C, [0x16E6C]); (0x16E4D, [0x16E6D]);
    (0x16E4E, [0x16E6E]); (0x16E4F, [0x16E6F]); (0x16E50, [0x16E70]); (0x16E51, [0x16E71]);
    (0x16E52, [0x16E72]); (0x16E53, [0x16E73]); (0x16E54, [0x16E74]); (0x16E55, [0x16E75]);
    (0x16E56, [0x16E76]); (0x16E57, [0x16E77]); (0x16E58, [0x16E78]); (0x16E59, [0x16E79]);
    (0x16E5A, [0x16E7A]); (0x16E5B, [0x16E7B]); (0x16E5C, [0x16E7C]); (0x16E5D, [0x16E7D]);
    (0x16E5E, [0x16E7E]); (0x16E5F, [0x16E7F]); (0x1E900, [0x1E922]); (0x1E901, [0x1E923]);
    (0x1E902, [0x1E924]); (0x1E903, [0x1E925]); (0x1E904, [0x1E926]); (0x1E905, [0x1E927]);
    (0x1E906, [0x1E928]); (0x1E907, [0x1E929]); (0x1E908, [0x1E92A]); (0x1E909, [0x1E92B]);
    (0x1E90A, [0x1E92C]); (0x1E90B, [0x1E92D]); (0x1E90C, [0x1E92E]); (0x1E90D, [0x1E92F]);
    (0x1E90E, [0x1E930]); (0x1E90F, [0x1E931]); (0x1E910, [0x1E932]); (0x1E911, [0x1E933]);
    (0x1E912, [0x1E934]); (0x1E913, [0x1E935]); (0x1E914, [0x1E936]); (0x1E915, [0x1E937]);
    (0x1E916, [0x1E938]); (0x1E917, [0x1E939]); (0x1E918, [0x1E93A]); (0x1E919, [0x1E93B]);
    (0x1E91A, [0x1E93C]); (0x1E91B, [0x1E93D]); (0x1E91C, [0x1E93E]); (0x1E91D, [0x1E93F]);
    (0x1E91E, [0x1E940]); (0x1E91F, [0x1E941]); (0x1E920, [0x1E942]); (0x1E921, [0x1E943])
  ].

(** The upper-case mapping of every code point that has one
    (UnicodeData.txt, field 12, and the unconditional mappings of
    SpecialCasing.txt). *)
Definition uppercase : list (N * list N) :=
  [
    (0x61, [0x41]); (0x62, [0x42]); (0x63, [0x43]); (0x64, [0x44]); (0x65, [0x45]);
    (0x66, [0x46]); (0x67, [0x47]); (0x68, [0x48]); (0x69, [0x49]); (0x6A, [0x4A]);
    (0x6B, [0x4B]); (0x6C, [0x4C]); (0x6D, [0x4D]); (0x6E, [0x4E]); (0x6F, [0x4F]);
    (0x70, [0x50]); (0x71, [0x51]); (0x72, [0x52]); (0x73, [0x53]); (0x74, [0x54]);
    (0x75, [0x55]); (0x76, [0x56]); (0x77, [0x57]); (0x78, [0x58]); (0x79, [0x59]);
    (0x7A, [0x5A]); (0xB5, [0x39C]); (0xDF, [0x53; 0x53]); (0xE0, [0xC0]); (0xE1, [0xC1]);
    (0xE2, [0xC2]); (0xE3, [0xC3]); (0xE4, [0xC4]); (0xE5, [0xC5]); (0xE6, [0xC6]);
    (0xE7, [0xC7]); (0xE8, [0xC8]); (0xE9, [0xC9]); (0xEA, [0xCA]); (0xEB, [0xCB]);
    (0xEC, [0xCC]); (0xED, [0xCD]); (0xEE, [0xCE]); (0xEF, [0xCF]); (0xF0, [0xD0]);
    (0xF1, [0xD1]); (0xF2, [0xD2]); (0xF3, [0xD3]); (0xF4, [0xD4]); (0xF5, [0xD5]);
    (0xF6, [0xD6]); (0xF8, [0xD8]); (0xF9, [0xD9]); (0xFA, [0xDA]); (0xFB, [0xDB]);
    (0xFC, [0xDC]); (0xFD, [0xDD]); (0xFE, [0xDE]); (0xFF, [0x178]); (0x101, [0x100]);
    (0x103, [0x102]); (0x105, [0x104]); (0x107, [0x106]); (0x109, [0x108]); (0x10B, [0x10A]);
    (0x10D, [0x10C]); (0x10F, [0x10E]); (0x111, [0x110]); (0x113, [0x112]); (0x115, [0x114]);
    (0x117, [0x116]); (0x119, [0x118]); (0x11B, [0x11A]); (0x11D, [0x11C]); (0x11F, [0x11E]);
    (0x121, [0x120]); (0x123, [0x122]); (0x125, [0x124]); (0x127, [0x126]); (0x129, [0x128]);
    (0x12B, [0x12A]); (0x12D, [0x12C]); (0x12F, [0x12E]); (0x131, [0x49]); (0x133, [0x132]);
    (0x135, [0x134]); (0x137, [0x136]); (0x13A, [0x139]); (0x13C, [0x13B]); (0x13E, [0x13D]);
    (0x140, [0x13F]); (0x142, [0x141]); (0x144, [0x143]); (0x146, [0x145]); (0x148, [0x147]);
    (0x149, [0x2BC; 0x4E]); (0x14B, [0x14A]); (0x14D, [0x14C]); (0x14F, [0x14E]);
    (0x151, [0x150]); (0x153, [0x152]); (0x155, [0x154]); (0x157, [0x156]); (0x159, [0x158]);
    (0x15B, [0x15A]); (0x15D, [0x15C]); (0x15F, [0x15E]); (0x161, [0x160]); (0x163, [0x162]);
    (0x165, [0x164]); (0x167, [0x166]); (0x169, [0x168]); (0x16B, [0x16A]); (0x16D, [0x16C]);
    (0x16F, [0x16E]); (0x171, [0x170]); (0x173, [0x172]); (0x175, [0x174]); (0x177, [0x176]);
    (0x17A, [0x179]); (0x17C, [0x17B]); (0x17E, [0x17D]); (0x17F, [0x53]); (0x180, [0x243]);
    (0x183, [0x182]); (0x185, [0x184]); (0x188, [0x187]); (0x18C, [0x18B]); (0x192, [0x191]);
    (0x195, [0x1F6]); (0x199, [0x198]); (0x19A, [0x23D]); (0x19E, [0x220]); (0x1A1, [0x1A0]);
    (0x1A3, [0x1A2]); (0x1A5, [0x1A4]); (0x1A8, [0x1A7]); (0x1AD, [0x1AC]); (0x1B0, [0x1AF]);
    (0x1B4, [0x1B3]); (0x1B6, [0x1B5]); (0x1B9, [0x1B8]); (0x1BD, [0x1BC]); (0x1BF, [0x1F7]);
    (0x1C5, [0x1C4]); (0x1C6, [0x1C4]); (0x1C8, [0x1C7]); (0x1C9, [0x1C7]); (0x1CB, [0x1CA]);
    (0x1CC, [0x1CA]); (0x1CE, [0x1CD]); (0x1D0, [0x1CF]); (0x1D2, [0x1D1]); (0x1D4, [0x1D3]);
    (0x1D6, [0x1D5]); (0x1D8, [0x1D7]); (0x1DA, [0x1D9]); (0x1DC, [0x1DB]); (0x1DD, [0x18E]);
    (0x1DF, [0x1DE]); (0x1E1, [0x1E0]); (0x1E3, [0x1E2]); (0x1E5, [0x1E4]); (0x1E7, [0x1E6]);
    (0x1E9, [0x1E8]); (0x1EB, [0x1EA]); (0x1ED, [0x1EC]); (0x1EF, [0x1EE]);
    (0x1F0, [0x4A; 0x30C]); (0x1F2, [0x1F1]); (0x1F3, [0x1F1]); (0x1F5, [0x1F4]);
    (0x1F9, [0x1F8]); (0x1FB, [0x1FA]); (0x1FD, [0x1FC]); (0x1FF, [0x1FE]); (0x201, [0x200]);
    (0x203, [0x202]); (0x205, [0x204]); (0x207, [0x206]); (0x209, [0x208]); (0x20B, [0x20A]);
    (0x20D, [0x20C]); (0x20F, [0x20E]); (0x211, [0x210]); (0x213, [0x212]); (0x215, [0x214]);
    (0x217, [0x216]); (0x219, [0x218]); (0x21B, [0x21A]); (0x21D, [0x21C]); (0x21F, [0x21E]);
    (0x223, [0x222]); (0x225, [0x224]); (0x227, [0x226]); (0x229, [0x228]); (0x22B, [0x22A]);
    (0x22D, [0x22C]); (0x22F, [0x22E]); (0x231, [0x230]); (0x233, [0x232]); (0x23C, [0x23B]);
    (0x23F, [0x2C7E]); (0x240, [0x2C7F]); (0x242, [0x241]); (0x247, [0x246]); (0x249, [0x248]);
    (0x24B, [0x24A]); (0x24D, [0x24C]); (0x24F, [0x24E]); (0x250, [0x2C6F]); (0x251, [0x2C6D]);
    (0x252, [0x2C70]); (0x253, [0x181]); (0x254, [0x186]); (0x256, [0x189]); (0x257, [0x18A]);
    (0x259, [0x18F]); (0x25B, [0x190]); (0x25C, [0xA7AB]); (0x260, [0x193]); (0x261, [0xA7AC]);
    (0x263, [0x194]); (0x265, [0xA78D]); (0x266, [0xA7AA]); (0x268, [0x197]); (0x269, [0x196]);
    (0x26A, [0xA7AE]); (0x26B, [0x2C62]); (0x26C, [0xA7AD]); (0x26F, [0x19C]);
    (0x271, [0x2C6E]); (0x272, [0x19D]); (0x275, [0x19F]); (0x27D, [0x2C64]); (0x280, [0x1A6]);
    (0x282, [0xA7C5]); (0x283, [0x1A9]); (0x287, [0xA7B1]); (0x288, [0x1AE]); (0x289, [0x244]);
    (0x28A, [0x1B1]); (0x28B, [0x1B2]); (0x28C, [0x245]); (0x292, [0x1B7]); (0x29D, [0xA7B2]);
    (0x29E, [0xA7B0]); (0x345, [0x399]); (0x371, [0x370]); (0x373, [0x372]); (0x377, [0x376]);
    (0x37B, [0x3FD]); (0x37C, [0x3FE]); (0x37D, [0x3FF]); (0x390, [0x399; 0x308; 0x301]);
    (0x3AC, [0x386]); (0x3AD, [0x388]); (0x3AE, [0x389]); (0x3AF, [0x38A]);
    (0x3B0, [0x3A5; 0x308; 0x301]); (0x3B1, [0x391]); (0x3B2, [0x392]); (0x3B3, [0x393]);
    (0x3B4, [0x394]); (0x3B5, [0x395]); (0x3B6, [0x396]); (0x3B7, [0x397]); (0x3B8, [0x398]);
    (0x3B9, [0x399]); (0x3BA, [0x39A]); (0x3BB, [0x39B]); (0x3BC, [0x39C]); (0x3BD, [0x39D]);
    (0x3BE, [0x39E]); (0x3BF, [0x39F]); (0x3C0, [0x3A0]); (0x3C1, [0x3A1]); (0x3C2, [0x3A3]);
    (0x3C3, [0x3A3]); (0x3C4, [0x3A4]); (0x3C5, [0x3A5]); (0x3C6, [0x3A6]); (0x3C7, [0x3A7]);
    (0x3C8, [0x3A8]); (0x3C9, [0x3A9]); (0x3CA, [0x3AA]); (0x3CB, [0x3AB]); (0x3CC, [0x38C]);
    (0x3CD, [0x38E]); (0x3CE, [0x38F]); (0x3D0, [0x392]); (0x3D1, [0x398]); (0x3D5, [0x3A6]);
    (0x3D6, [0x3A0]); (0x3D7, [0x3CF]); (0x3D9, [0x3D8]); (0x3DB, [0x3DA]); (0x3DD, [0x3DC]);
    (0x3DF, [0x3DE]); (0x3E1, [0x3E0]); (0x3E3, [0x3E2]); (0x3E5, [0x3E4]); (0x3E7, [0x3E6]);
    (0x3E9, [0x3E8]); (0x3EB, [0x3EA]); (0x3ED, [0x3EC]); (0x3EF, [0x3EE]); (0x3F0, [0x39A]);
    (0x3F1, [0x3A1]); (0x3F2, [0x3F9]); (0x3F3, [0x37F]); (0x3F5, [0x395]); (0x3F8, [0x3F7]);
    (0x3FB, [0x3FA]); (0x430, [0x410]); (0x431, [0x411]); (0x432, [0x412]); (0x433, [0x413]);
    (0x434, [0x414]); (0x435, [0x415]); (0x436, [0x416]); (0x437, [0x417]); (0x438, [0x418]);
    (0x439, [0x419]); (0x43A, [0x41A]); (0x43B, [0x41B]); (0x43C, [0x41C]); (0x43D, [0x41D]);
    (0x43E, [0x41E]); (0x43F, [0x41F]); (0x440, [0x420]); (0x441, [0x421]); (0x442, [0x422]);
    (0x443, [0x423]); (0x444, [0x424]); (0x445, [0x425]); (0x446, [0x426]); (0x447, [0x427]);
    (0x448, [0x428]); (0x449, [0x429]); (0x44A, [0x42A]); (0x44B, [0x42B]); (0x44C, [0x42C]);
    (0x44D, [0x42D]); (0x44E, [0x42E]); (0x44F, [0x42F]); (0x450, [0x400]); (0x451, [0x401]);
    (0x452, [0x402]); (0x453, [0x403]); (0x454, [0x404]); (0x455, [0x405]); (0x456, [0x406]);
    (0x457, [0x407]); (0x458, [0x408]); (0x459, [0x409]); (0x45A, [0x40A]); (0x45B, [0x40B]);
    (0x45C, [0x40C]); (0x45D, [0x40D]); (0x45E, [0x40E]); (0x45F, [0x40F]); (0x461, [0x460]);
    (0x463, [0x462]); (0x465, [0x464]); (0x467, [0x466]); (0x469, [0x468]); (0x46B, [0x46A]);
    (0x46D, [0x46C]); (0x46F, [0x46E]); (0x471, [0x470]); (0x473, [0x472]); (0x475, [0x474]);
    (0x477, [0x476]); (0x479, [0x478]); (0x47B, [0x47A]); (0x47D, [0x47C]); (0x47F, [0x47E]);
    (0x481, [0x480]); (0x48B, [0x48A]); (0x48D, [0x48C]); (0x48F, [0x48E]); (0x491, [0x490]);
    (0x493, [0x492]); (0x495, [0x494]); (0x497, [0x496]); (0x499, [0x498]); (0x49B, [0x49A]);
    (0x49D, [0x49C]); (0x49F, [0x49E]); (0x4A1, [0x4A0]); (0x4A3, [0x4A2]); (0x4A5, [0x4A4]);
    (0x4A7, [0x4A6]); (0x4A9, [0x4A8]); (0x4AB, [0x4AA]); (0x4AD, [0x4AC]); (0x4AF, [0x4AE]);
    (0x4B1, [0x4B0]); (0x4B3, [0x4B2]); (0x4B5, [0x4B4]); (0x4B7, [0x4B6]); (0x4B9, [0x4B8]);
    (0x4BB, [0x4BA]); (0x4BD, [0x4BC]); (0x4BF, [0x4BE]); (0x4C2, [0x4C1]); (0x4C4, [0x4C3]);
    (0x4C6, [0x4C5]); (0x4C8, [0x4C7]); (0x4CA, [0x4C9]); (0x4CC, [0x4CB]); (0x4CE, [0x4CD]);
    (0x4CF, [0x4C0]); (0x4D1, [0x4D0]); (0x4D3, [0x4D2]); (0x4D5, [0x4D4]); (0x4D7, [0x4D6]);
    (0x4D9, [0x4D8]); (0x4DB, [0x4DA]); (0x4DD, [0x4DC]); (0x4DF, [0x4DE]); (0x4E1, [0x4E0]);
    (0x4E3, [0x4E2]); (0x4E5, [0x4E4]); (0x4E7, [0x4E6]); (0x4E9, [0x4E8]); (0x4EB, [0x4EA]);
    (0x4ED, [0x4EC]); (0x4EF, [0x4EE]); (0x4F1, [0x4F0]); (0x4F3, [0x4F2]); (0x4F5, [0x4F4]);
    (0x4F7, [0x4F6]); (0x4F9, [0x4F8]); (0x4FB, [0x4FA]); (0x4FD, [0x4FC]); (0x4FF, [0x4FE]);
    (0x501, [0x500]); (0x503, [0x502]); (0x505, [0x504]); (0x507, [0x506]); (0x509, [0x508]);
    (0x50B, [0x50A]); (0x50D, [0x50C]); (0x50F, [0x50E]); (0x511, [0x510]); (0x513, [0x512]);
    (0x515, [0x514]); (0x517, [0x516]); (0x519, [0x518]); (0x51B, [0x51A]); (0x51D, [0x51C]);
    (0x51F, [0x51E]); (0x521, [0x520]); (0x523, [0x522]); (0x525, [0x524]); (0x527, [0x526]);
    (0x529, [0x528]); (0x52B, [0x52A]); (0x52D, [0x52C]); (0x52F, [0x52E]); (0x561, [0x531]);
    (0x562, [0x532]); (0x563, [0x533]); (0x564, [0x534]); (0x565, [0x535]); (0x566, [0x536]);
    (0x567, [0x537]); (0x568, [0x538]); (0x569, [0x539]); (0x56A, [0x53A]); (0x56B, [0x53B]);
    (0x56C, [0x53C]); (0x56D, [0x53D]); (0x56E, [0x53E]); (0x56F, [0x53F]); (0x570, [0x540]);
    (0x571, [0x541]); (0x572, [0x542]); (0x573, [0x543]); (0x574, [0x544]); (0x575, [0x545]);
    (0x576, [0x546]); (0x577, [0x547]); (0x578, [0x548]); (0x579, [0x549]); (0x57A, [0x54A]);
    (0x57B, [0x54B]); (0x57C, [0x54C]); (0x57D, [0x54D]); (0x57E, [0x54E]); (0x57F, [0x54F]);
    (0x580, [0x550]); (0x581, [0x551]); (0x582, [0x552]); (0x583, [0x553]); (0x584, [0x554]);
    (0x585, [0x555]); (0x586, [0x556]); (0x587, [0x535; 0x552]); (0x10D0, [0x1C90]);
    (0x10D1, [0x1C91]); (0x10D2, [0x1C92]); (0x10D3, [0x1C93]); (0x10D4, [0x1C94]);
    (0x10D5, [0x1C95]); (0x10D6, [0x1C96]); (0x10D7, [0x1C97]); (0x10D8, [0x1C98]);
    (0x10D9, [0x1C99]); (0x10DA, [0x1C9A]); (0x10DB, [0x1C9B]); (0x10DC, [0x1C9C]);
    (0x10DD, [0x1C9D]); (0x10DE, [0x1C9E]); (0x10DF, [0x1C9F]); (0x10E0, [0x1CA0]);
    (0x10E1, [0x1CA1]); (0x10E2, [0x1CA2]); (0x10E3, [0x1CA3]); (0x10E4, [0x1CA4]);
    (0x10E5, [0x1CA5]); (0x10E6, [0x1CA6]); (0x10E7, [0x1CA7]); (0x10E8, [0x1CA8]);
    (0x10E9, [0x1CA9]); (0x10EA, [0x1CAA]); (0x10EB, [0x1CAB]); (0x10EC, [0x1CAC]);
    (0x10ED, [0x1CAD]); (0x10EE, [0x1CAE]); (0x10EF, [0x1CAF]); (0x10F0, [0x1CB0]);
    (0x10F1, [0x1CB1]); (0x10F2, [0x1CB2]); (0x10F3, [0x1CB3]); (0x10F4, [0x1CB4]);
    (0x10F5, [0x1CB5]); (0x10F6, [0x1CB6]); (0x10F7, [0x1CB7]); (0x10F8, [0x1CB8]);
    (0x10F9, [0x1CB9]); (0x10FA, [0x1CBA]); (0x10FD, [0x1CBD]); (0x10FE, [0x1CBE]);
    (0x10FF, [0x1CBF]); (0x13F8, [0x13F0]); (0x13F9, [0x13F1]); (0x13FA, [0x13F2]);
    (0x13FB, [0x13F3]); (0x13FC, [0x13F4]); (0x13FD, [0x13F5]); (0x1C80, [0x412]);
    (0x1C81, [0x414]); (0x1C82, [0x41E]); (0x1C83, [0x421]); (0x1C84, [0x422]);
    (0x1C85, [0x422]); (0x1C86, [0x42A]); (0x1C87, [0x462]); (0x1C88, [0xA64A]);
    (0x1D79, [0xA77D]); (0x1D7D, [0x2C63]); (0x1D8E, [0xA7C6]); (0x1E01, [0x1E00]);
    (0x1E03, [0x1E02]); (0x1E05, [0x1E04]); (0x1E07, [0x1E06]); (0x1E09, [0x1E08]);
    (0x1E0B, [0x1E0A]); (0x1E0D, [0x1E0C]); (0x1E0F, [0x1E0E]); (0x1E11, [0x1E10]);
    (0x1E13, [0x1E12]); (0x1E15, [0x1E14]); (0x1E17, [0x1E16]); (0x1E19, [0x1E18]);
    (0x1E1B, [0x1E1A]); (0x1E1D, [0x1E1C]); (0x1E1F, [0x1E1E]); (0x1E21, [0x1E20]);
    (0x1E23, [0x1E22]); (0x1E25, [0x1E24]); (0x1E27, [0x1E26]); (0x1E29, [0x1E28]);
    (0x1E2B, [0x1E2A]); (0x1E2D, [0x1E2C]); (0x1E2F, [0x1E2E]); (0x1E31, [0x1E30]);
    (0x1E33, [0x1E32]); (0x1E35, [0x1E34]); (0x1E37, [0x1E36]); (0x1E39, [0x1E38]);
    (0x1E3B, [0x1E3A]); (0x1E3D, [0x1E3C]); (0x1E3F, [0x1E3E]); (0x1E41, [0x1E40]);
    (0x1E43, [0x1E42]); (0x1E45, [0x1E44]); (0x1E47, [0x1E46]); (0x1E49, [0x1E48]);
    (0x1E4B, [0x1E4A]); (0x1E4D, [0x1E4C]); (0x1E4F, [0x1E4E]); (0x1E51, [0x1E50]);
    (0x1E53, [0x1E52]); (0x1E55, [0x1E54]); (0x1E57, [0x1E56]); (0x1E59, [0x1E58]);
    (0x1E5B, [0x1E5A]); (0x1E5D, [0x1E5C]); (0x1E5F, [0x1E5E]); (0x1E61, [0x1E60]);
    (0x1E63, [0x1E62]); (0x1E65, [0x1E64]); (0x1E67, [0x1E66]); (0x1E69, [0x1E68]);
    (0x1E6B, [0x1E6A]); (0x1E6D, [0x1E6C]); (0x1E6F, [0x1E6E]); (0x1E71, [0x1E70]);
    (0x1E73, [0x1E72]); (0x1E75, [0x1E74]); (0x1E77, [0x1E76]); (0x1E79, [0x1E78]);
    (0x1E7B, [0x1E7A]); (0x1E7D, [0x1E7C]); (0x1E7F, [0x1E7E]); (0x1E81, [0x1E80]);
    (0x1E83, [0x1E82]); (0x1E85, [0x1E84]); (0x1E87, [0x1E86]); (0x1E89, [0x1E88]);
    (0x1E8B, [0x1E8A]); (0x1E8D, [0x1E8C]); (0x1E8F, [0x1E8E]); (0x1E91, [0x1E90]);
    (0x1E93, [0x1E92]); (0x1E95, [0x1E94]); (0x1E96, [0x48; 0x331]); (0x1E97, [0x54; 0x308]);
    (0x1E98, [0x57; 0x30A]); (0x1E99, [0x59; 0x30A]); (0x1E9A, [0x41; 0x2BE]);
    (0x1E9B, [0x1E60]); (0x1EA1, [0x1EA0]); (0x1EA3, [0x1EA2]); (0x1EA5, [0x1EA4]);
    (0x1EA7, [0x1EA6]); (0x1EA9, [0x1EA8]); (0x1EAB, [0x1EAA]); (0x1EAD, [0x1EAC]);
    (0x1EAF, [0x1EAE]); (0x1EB1, [0x1EB0]); (0x1EB3, [0x1EB2]); (0x1EB5, [0x1EB4]);
    (0x1EB7, [0x1EB6]); (0x1EB9, [0x1EB8]); (0x1EBB, [0x1EBA]); (0x1EBD, [0x1EBC]);
    (0x1EBF, [0x1EBE]); (0x1EC1, [0x1EC0]); (0x1EC3, [0x1EC2]); (0x1EC5, [0x1EC4]);
    (0x1EC7, [0x1EC6]); (0x1EC9, [0x1EC8]); (0x1ECB, [0x1ECA]); (0x1ECD, [0x1ECC]);
    (0x1ECF, [0x1ECE]); (0x1ED1, [0x1ED0]); (0x1ED3, [0x1ED2]); (0x1ED5, [0x1ED4]);
    (0x1ED7, [0x1ED6]); (0x1ED9, [0x1ED8]); (0x1EDB, [0x1EDA]); (0x1EDD, [0x1EDC]);
    (0x1EDF, [0x1EDE]); (0x1EE1, [0x1EE0]); (0x1EE3, [0x1EE2]); (0x1EE5, [0x1EE4]);
    (0x1EE7, [0x1EE6]); (0x1EE9, [0x1EE8]); (0x1EEB, [0x1EEA]); (0x1EED, [0x1EEC]);
    (0x1EEF, [0x1EEE]); (0x1EF1, [0x1EF0]); (0x1EF3, [0x1EF2]); (0x1EF5, [0x1EF4]);
    (0x1EF7, [0x1EF6]); (0x1EF9, [0x1EF8]); (0x1EFB, [0x1EFA]); (0x1EFD, [0x1EFC]);
    (0x1EFF, [0x1EFE]); (0x1F00, [0x1F08]); (0x1F01, [0x1F09]); (0x1F02, [0x1F0A]);
    (0x1F03, [0x1F0B]); (0x1F04, [0x1F0C]); (0x1F05, [0x1F0D]); (0x1F06, [0x1F0E]);
    (0x1F07, [0x1F0F]); (0x1F10, [0x1F18]); (0x1F11, [0x1F19]); (0x1F12, [0x1F1A]);
    (0x1F13, [0x1F1B]); (0x1F14, [0x1F1C]); (0x1F15, [0x1F1D]); (0x1F20, [0x1F28]);
    (0x1F21, [0x1F29]); (0x1F22, [0x1F2A]); (0x1F23, [0x1F2B]); (0x1F24, [0x1F2C]);
    (0x1F25, [0x1F2D]); (0x1F26, [0x1F2E]); (0x1F27, [0x1F2F]); (0x1F30, [0x1F38]);
    (0x1F31, [0x1F39]); (0x1F32, [0x1F3A]); (0x1F33, [0x1F3B]); (0x1F34, [0x1F3C]);
    (0x1F35, [0x1F3D]); (0x1F36, [0x1F3E]); (0x1F37, [0x1F3F]); (0x1F40, [0x1F48]);
    (0x1F41, [0x1F49]); (0x1F42, [0x1F4A]); (0x1F43, [0x1F4B]); (0x1F44, [0x1F4C]);
    (0x1F45, [0x1F4D]); (0x1F50, [0x3A5; 0x313]); (0x1F51, [0x1F59]);
    (0x1F52, [0x3A5; 0x313; 0x300]); (0x1F53, [0x1F5B]); (0x1F54, [0x3A5; 0x313; 0x301]);
    (0x1F55, [0x1F5D]); (0x1F56, [0x3A5; 0x313; 0x342]); (0x1F57, [0x1F5F]); (0x1F60, [0x1F68]);
    (0x1F61, [0x1F69]); (0x1F62, [0x1F6A]); (0x1F63, [0x1F6B]); (0x1F64, [0x1F6C]);
    (0x1F65, [0x1F6D]); (0x1F66, [0x1F6E]); (0x1F67, [0x1F6F]); (0x1F70, [0x1FBA]);
    (0x1F71, [0x1FBB]); (0x1F72, [0x1FC8]); (0x1F73, [0x1FC9]); (0x1F74, [0x1FCA]);
    (0x1F75, [0x1FCB]); (0x1F76, [0x1FDA]); (0x1F77, [0x1FDB]); (0x1F78, [0x1FF8]);
    (0x1F79, [0x1FF9]); (0x1F7A, [0x1FEA]); (0x1F7B, [0x1FEB]); (0x1F7C, [0x1FFA]);
    (0x1F7D, [0x1FFB]); (0x1F80, [0x1F08; 0x399]); (0x1F81, [0x1F09; 0x399]);
    (0x1F82, [0x1F0A; 0x399]); (0x1F83, [0x1F0B; 0x399]); (0x1F84, [0x1F0C; 0x399]);
    (0x1F85, [0x1F0D; 0x399]); (0x1F86, [0x1F0E; 0x399]); (0x1F87, [0x1F0F; 0x399]);
    (0x1F88, [0x1F08; 0x399]); (0x1F89, [0x1F09; 0x399]); (0x1F8A, [0x1F0A; 0x399]);
    (0x1F8B, [0x1F0B; 0x399]); (0x1F8C, [0x1F0C; 0x399]); (0x1F8D, [0x1F0D; 0x399]);
    (0x1F8E, [0x1F0E; 0x399]); (0x1F8F, [0x1F0F; 0x399]); (0x1F90, [0x1F28; 0x399]);
    (0x1F91, [0x1F29; 0x399]); (0x1F92, [0x1F2A; 0x399]); (0x1F93, [0x1F2B; 0x399]);
    (0x1F94, [0x1F2C; 0x399]); (0x1F95, [0x1F2D; 0x399]); (0x1F96, [0x1F2E; 0x399]);
    (0x1F97, [0x1F2F; 0x399]); (0x1F98, [0x1F28; 0x399]); (0x1F99, [0x1F29; 0x399]);
    (0x1F9A, [0x1F2A; 0x399]); (0x1F9B, [0x1F2B; 0x399]); (0x1F9C, [0x1F2C; 0x399]);
    (0x1F9D, [0x1F2D; 0x399]); (0x1F9E, [0x1F2E; 0x399]); (0x1F9F, [0x1F2F; 0x399]);
    (0x1FA0, [0x1F68; 0x399]); (0x1FA1, [0x1F69; 0x399]); (0x1FA2, [0x1F6A; 0x399]);
    (0x1FA3, [0x1F6B; 0x399]); (0x1FA4, [0x1F6C; 0x399]); (0x1FA5, [0x1F6D; 0x399]);
    (0x1FA6, [0x1F6E; 0x399]); (0x1FA7, [0x1F6F; 0x399]); (0x1FA8, [0x1F68; 0x399]);
    (0x1FA9, [0x1F69; 0x399]); (0x1FAA, [0x1F6A; 0x399]); (0x1FAB, [0x1F6B; 0x399]);
    (0x1FAC, [0x1F6C; 0x399]); (0x1FAD, [0x1F6D; 0x399]); (0x1FAE, [0x1F6E; 0x399]);
    (0x1FAF, [0x1F6F; 0x399]); (0x1FB0, [0x1FB8]); (0x1FB1, [0x1FB9]);
    (0x1FB2, [0x1FBA; 0x399]); (0x1FB3, [0x391; 0x399]); (0x1FB4, [0x386; 0x399]);
    (0x1FB6, [0x391; 0x342]); (0x1FB7, [0x391; 0x342; 0x399]); (0x1FBC, [0x391; 0x399]);
    (0x1FBE, [0x399]); (0x1FC2, [0x1FCA; 0x399]); (0x1FC3, [0x397; 0x399]);
    (0x1FC4, [0x389; 0x399]); (0x1FC6, [0x397; 0x342]); (0x1FC7, [0x397; 0x342; 0x399]);
    (0x1FCC, [0x397; 0x399]); (0x1FD0, [0x1FD8]); (0x1FD1, [0x1FD9]);
    (0x1FD2, [0x399; 0x308; 0x300]); (0x1FD3, [0x399; 0x308; 0x301]); (0x1FD6, [0x399; 0x342]);
    (0x1FD7, [0x399; 0x308; 0x342]); (0x1FE0, [0x1FE8]); (0x1FE1, [0x1FE9]);
    (0x1FE2, [0x3A5; 0x308; 0x300]); (0x1FE3, [0x3A5; 0x308; 0x301]); (0x1FE4, [0x3A1; 0x313]);
    (0x1FE5, [0x1FEC]); (0x1FE6, [0x3A5; 0x342]); (0x1FE7, [0x3A5; 0x308; 0x342]);
    (0x1FF2, [0x1FFA; 0x399]); (0x1FF3, [0x3A9; 0x399]); (0x1FF4, [0x38F; 0x399]);
    (0x1FF6, [0x3A9; 0x342]); (0x1FF7, [0x3A9; 0x342; 0x399]); (0x1FFC, [0x3A9; 0x399]);
    (0x214E, [0x2132]); (0x2170, [0x2160]); (0x2171, [0x2161]); (0x2172, [0x2162]);
    (0x2173, [0x2163]); (0x2174, [0x2164]); (0x2175, [0x2165]); (0x2176, [0x2166]);
    (0x2177, [0x2167]); (0x2178, [0x2168]); (0x2179, [0x2169]); (0x217A, [0x216A]);
    (0x217B, [0x216B]); (0x217C, [0x216C]); (0x217D, [0x216D]); (0x217E, [0x216E]);
    (0x217F, [0x216F]); (0x2184, [0x2183]); (0x24D0, [0x24B6]); (0x24D1, [0x24B7]);
    (0x24D2, [0x24B8]); (0x24D3, [0x24B9]); (0x24D4, [0x24BA]); (0x24D5, [0x24BB]);
    (0x24D6, [0x24BC]); (0x24D7, [0x24BD]); (0x24D8, [0x24BE]); (0x24D9, [0x24BF]);
    (0x24DA, [0x24C0]); (0x24DB, [0x24C1]); (0x24DC, [0x24C2]); (0x24DD, [0x24C3]);
    (0x24DE, [0x24C4]); (0x24DF, [0x24C5]); (0x24E0, [0x24C6]); (0x24E1, [0x24C7]);
    (0x24E2, [0x24C8]); (0x24E3, [0x24C9]); (0x24E4, [0x24CA]); (0x24E5, [0x24CB]);
    (0x24E6, [0x24CC]); (0x24E7, [0x24CD]); (0x24E8, [0x24CE]); (0x24E9, [0x24CF]);
    (0x2C30, [0x2C00]); (0x2C31, [0x2C01]); (0x2C32, [0x2C02]); (0x2C33, [0x2C03]);
    (0x2C34, [0x2C04]); (0x2C35, [0x2C05]); (0x2C36, [0x2C06]); (0x2C37, [0x2C07]);
    (0x2C38, [0x2C08]); (0x2C39, [0x2C09]); (0x2C3A, [0x2C0A]); (0x2C3B, [0x2C0B]);
    (0x2C3C, [0x2C0C]); (0x2C3D, [0x2C0D]); (0x2C3E, [0x2C0E]); (0x2C3F, [0x2C0F]);
    (0x2C40, [0x2C10]); (0x2C41, [0x2C11]); (0x2C42, [0x2C12]); (0x2C43, [0x2C13]);
    (0x2C44, [0x2C14]); (0x2C45, [0x2C15]); (0x2C46, [0x2C16]); (0x2C47, [0x2C17]);
    (0x2C48, [0x2C18]); (0x2C49, [0x2C19]); (0x2C4A, [0x2C1A]); (0x2C4B, [0x2C1B]);
    (0x2C4C, [0x2C1C]); (0x2C4D, [0x2C1D]); (0x2C4E, [0x2C1E]); (0x2C4F, [0x2C1F]);
    (0x2C50, [0x2C20]); (0x2C51, [0x2C21]); (0x2C52, [0x2C22]); (0x2C53, [0x2C23]);
    (0x2C54, [0x2C24]); (0x2C55, [0x2C25]); (0x2C56, [0x2C26]); (0x2C57, [0x2C27]);
    (0x2C58, [0x2C28]); (0x2C59, [0x2C29]); (0x2C5A, [0x2C2A]); (0x2C5B, [0x2C2B]);
    (0x2C5C, [0x2C2C]); (0x2C5D, [0x2C2D]); (0x2C5E, [0x2C2E]); (0x2C5F, [0x2C2F]);
    (0x2C61, [0x2C60]); (0x2C65, [0x23A]); (0x2C66, [0x23E]); (0x2C68, [0x2C67]);
    (0x2C6A, [0x2C69]); (0x2C6C, [0x2C6B]); (0x2C73, [0x2C72]); (0x2C76, [0x2C75]);
    (0x2C81, [0x2C80]); (0x2C83, [0x2C82]); (0x2C85, [0x2C84]); (0x2C87, [0x2C86]);
    (0x2C89, [0x2C88]); (0x2C8B, [0x2C8A]); (0x2C8D, [0x2C8C]); (0x2C8F, [0x2C8E]);
    (0x2C91, [0x2C90]); (0x2C93, [0x2C92]); (0x2C95, [0x2C94]); (0x2C97, [0x2C96]);
    (0x2C99, [0x2C98]); (0x2C9B, [0x2C9A]); (0x2C9D, [0x2C9C]); (0x2C9F, [0x2C9E]);
    (0x2CA1, [0x2CA0]); (0x2CA3, [0x2CA2]); (0x2CA5, [0x2CA4]); (0x2CA7, [0x2CA6]);
    (0x2CA9, [0x2CA8]); (0x2CAB, [0x2CAA]); (0x2CAD, [0x2CAC]); (0x2CAF, [0x2CAE]);
    (0x2CB1, [0x2CB0]); (0x2CB3, [0x2CB2]); (0x2CB5, [0x2CB4]); (0x2CB7, [0x2CB6]);
    (0x2CB9, [0x2CB8]); (0x2CBB, [0x2CBA]); (0x2CBD, [0x2CBC]); (0x2CBF, [0x2CBE]);
    (0x2CC1, [0x2CC0]); (0x2CC3, [0x2CC2]); (0x2CC5, [0x2CC4]); (0x2CC7, [0x2CC6]);
    (0x2CC9, [0x2CC8]); (0x2CCB, [0x2CCA]); (0x2CCD, [0x2CCC]); (0x2CCF, [0x2CCE]);
    (0x2CD1, [0x2CD0]); (0x2CD3, [0x2CD2]); (0x2CD5, [0x2CD4]); (0x2CD7, [0x2CD6]);
    (0x2CD9, [0x2CD8]); (0x2CDB, [0x2CDA]); (0x2CDD, [0x2CDC]); (0x2CDF, [0x2CDE]);
    (0x2CE1, [0x2CE0]); (0x2CE3, [0x2CE2]); (0x2CEC, [0x2CEB]); (0x2CEE, [0x2CED]);
    (0x2CF3, [0x2CF2]); (0x2D00, [0x10A0]); (0x2D01, [0x10A1]); (0x2D02, [0x10A2]);
    (0x2D03, [0x10A3]); (0x2D04, [0x10A4]); (0x2D05, [0x10A5]); (0x2D06, [0x10A6]);
    (0x2D07, [0x10A7]); (0x2D08, [0x10A8]); (0x2D09, [0x10A9]); (0x2D0A, [0x10AA]);
    (0x2D0B, [0x10AB]); (0x2D0C, [0x10AC]); (0x2D0D, [0x10AD]); (0x2D0E, [0x10AE]);
    (0x2D0F, [0x10AF]); (0x2D10, [0x10B0]); (0x2D11, [0x10B1]); (0x2D12, [0x10B2]);
    (0x2D13, [0x10B3]); (0x2D14, [0x10B4]); (0x2D15, [0x10B5]); (0x2D16, [0x10B6]);
    (0x2D17, [0x10B7]); (0x2D18, [0x10B8]); (0x2D19, [0x10B9]); (0x2D1A, [0x10BA]);
    (0x2D1B, [0x10BB]); (0x2D1C, [0x10BC]); (0x2D1D, [0x10BD]); (0x2D1E, [0x10BE]);
    (0x2D1F, [0x10BF]); (0x2D20, [0x10C0]); (0x2D21, [0x10C1]); (0x2D22, [0x10C2]);
    (0x2D23, [0x10C3]); (0x2D24, [0x10C4]); (0x2D25, [0x10C5]); (0x2D27, [0x10C7]);
    (0x2D2D, [0x10CD]); (0xA641, [0xA640]); (0xA643, [0xA642]); (0xA645, [0xA644]);
    (0xA647, [0xA646]); (0xA649, [0xA648]); (0xA64B, [0xA64A]); (0xA64D, [0xA64C]);
    (0xA64F, [0xA64E]); (0xA651, [0xA650]); (0xA653, [0xA652]); (0xA655, [0xA654]);
    (0xA657, [0xA656]); (0xA659, [0xA658]); (0xA65B, [0xA65A]); (0xA65D, [0xA65C]);
    (0xA65F, [0xA65E]); (0xA661, [0xA660]); (0xA663, [0xA662]); (0xA665, [0xA664]);
    (0xA667, [0xA666]); (0xA669, [0xA668]); (0xA66B, [0xA66A]); (0xA66D, [0xA66C]);
    (0xA681, [0xA680]); (0xA683, [0xA682]); (0xA685, [0xA684]); (0xA687, [0xA686]);
    (0xA689, [0xA688]); (0xA68B, [0xA68A]); (0xA68D, [0xA68C]); (0xA68F, [0xA68E]);
    (0xA691, [0xA690]); (0xA693, [0xA692]); (0xA695, [0xA694]); (0xA697, [0xA696]);
    (0xA699, [0xA698]); (0xA69B, [0xA69A]); (0xA723, [0xA722]); (0xA725, [0xA724]);
    (0xA727, [0xA726]); (0xA729, [0xA728]); (0xA72B, [0xA72A]); (0xA72D, [0xA72C]);
    (0xA72F, [0xA72E]); (0xA733, [0xA732]); (0xA735, [0xA734]); (0xA737, [0xA736]);
    (0xA739, [0xA738]); (0xA73B, [0xA73A]); (0xA73D, [0xA73C]); (0xA73F, [0xA73E]);
    (0xA741, [0xA740]); (0xA743, [0xA742]); (0xA745, [0xA744]); (0xA747, [0xA746]);
    (0xA749, [0xA748]); (0xA74B, [0xA74A]); (0xA74D, [0xA74C]); (0xA74F, [0xA74E]);
    (0xA751, [0xA750]); (0xA753, [0xA752]); (0xA755, [0xA754]); (0xA757, [0xA756]);
    (0xA759, [0xA758]); (0xA75B, [0xA75A]); (0xA75D, [0xA75C]); (0xA75F, [0xA75E]);
    (0xA761, [0xA760]); (0xA763, [0xA762]); (0xA765, [0xA764]); (0xA767, [0xA766]);
    (0xA769, [0xA768]); (0xA76B, [0xA76A]); (0xA76D, [0xA76C]); (0xA76F, [0xA76E]);
    (0xA77A, [0xA779]); (0xA77C, [0xA77B]); (0xA77F, [0xA77E]); (0xA781, [0xA780]);
    (0xA783, [0xA782]); (0xA785, [0xA784]); (0xA787, [0xA786]); (0xA78C, [0xA78B]);
    (0xA791, [0xA790]); (0xA793, [0xA792]); (0xA794, [0xA7C4]); (0xA797, [0xA796]);
    (0xA799, [0xA798]); (0xA79B, [0xA79A]); (0xA79D, [0xA79C]); (0xA79F, [0xA79E]);
    (0xA7A1, [0xA7A0]); (0xA7A3, [0xA7A2]); (0xA7A5, [0xA7A4]); (0xA7A7, [0xA7A6]);
    (0xA7A9, [0xA7A8]); (0xA7B5, [0xA7B4]); (0xA7B7, [0xA7B6]); (0xA7B9, [0xA7B8]);
    (0xA7BB, [0xA7BA]); (0xA7BD, [0xA7BC]); (0xA7BF, [0xA7BE]); (0xA7C1, [0xA7C0]);
    (0xA7C3, [0xA7C2]); (0xA7C8, [0xA7C7]); (0xA7CA, [0xA7C9]); (0xA7D1, [0xA7D0]);
    (0xA7D7, [0xA7D6]); (0xA7D9, [0xA7D8]); (0xA7F6, [0xA7F5]); (0xAB53, [0xA7B3]);
    (0xAB70, [0x13A0]); (0xAB71, [0x13A1]); (0xAB72, [0x13A2]); (0xAB73, [0x13A3]);
    (0xAB74, [0x13A4]); (0xAB75, [0x13A5]); (0xAB76, [0x13A6]); (0xAB77, [0x13A7]);
    (0xAB78, [0x13A8]); (0xAB79, [0x13A9]); (0xAB7A, [0x13AA]); (0xAB7B, [0x13AB]);
    (0xAB7C, [0x13AC]); (0xAB7D, [0x13AD]); (0xAB7E, [0x13AE]); (0xAB7F, [0x13AF]);
    (0xAB80, [0x13B0]); (0xAB81, [0x13B1]); (0xAB82, [0x13B2]); (0xAB83, [0x13B3]);
    (0xAB84, [0x13B4]); (0xAB85, [0x13B5]); (0xAB86, [0x13B6]); (0xAB87, [0x13B7]);
    (0xAB88, [0x13B8]); (0xAB89, [0x13B9]); (0xAB8A, [0x13BA]); (0xAB8B, [0x13BB]);
    (0xAB8C, [0x13BC]); (0xAB8D, [0x13BD]); (0xAB8E, [0x13BE]); (0xAB8F, [0x13BF]);
    (0xAB90, [0x13C0]); (0xAB91, [0x13C1]); (0xAB92, [0x13C2]); (0xAB93, [0x13C3]);
    (0xAB94, [0x13C4]); (0xAB95, [0x13C5]); (0xAB96, [0x13C6]); (0xAB97, [0x13C7]);
    (0xAB98, [0x13C8]); (0xAB99, [0x13C9]); (0xAB9A, [0x13CA]); (0xAB9B, [0x13CB]);
    (0xAB9C, [0x13CC]); (0xAB9D, [0x13CD]); (0xAB9E, [0x13CE]); (0xAB9F, [0x13CF]);
    (0xABA0, [0x13D0]); (0xABA1, [0x13D1]); (0xABA2, [0x13D2]); (0xABA3, [0x13D3]);
    (0xABA4, [0x13D4]); (0xABA5, [0x13D5]); (0xABA6, [0x13D6]); (0xABA7, [0x13D7]);
    (0xABA8, [0x13D8]); (0xABA9, [0x13D9]); (0xABAA, [0x13DA]); (0xABAB, [0x13DB]);
    (0xABAC, [0x13DC]); (0xABAD, [0x13DD]); (0xABAE, [0x13DE]); (0xABAF, [0x13DF]);
    (0xABB0, [0x13E0]); (0xABB1, [0x13E1]); (0xABB2, [0x13E2]); (0xABB3, [0x13E3]);
    (0xABB4, [0x13E4]); (0xABB5, [0x13E5]); (0xABB6, [0x13E6]); (0xABB7, [0x13E7]);
    (0xABB8, [0x13E8]); (0xABB9, [0x13E9]); (0xABBA, [0x13EA]); (0xABBB, [0x13EB]);
    (0xABBC, [0x13EC]); (0xABBD, [0x13ED]); (0xABBE, [0x13EE]); (0xABBF, [0x13EF]);
    (0xFB00, [0x46; 0x46]); (0xFB01, [0x46; 0x49]); (0xFB02, [0x46; 0x4C]);
    (0xFB03, [0x46; 0x46; 0x49]); (0xFB04, [0x46; 0x46; 0x4C]); (0xFB05, [0x53; 0x54]);
    (0xFB06, [0x53; 0x54]); (0xFB13, [0x544; 0x546]); (0xFB14, [0x544; 0x535]);
    (0xFB15, [0x544; 0x53B]); (0xFB16, [0x54E; 0x546]); (0xFB17, [0x544; 0x53D]);
    (0xFF41, [0xFF21]); (0xFF42, [0xFF22]); (0xFF43, [0xFF23]); (0xFF44, [0xFF24]);
    (0xFF45, [0xFF25]); (0xFF46, [0xFF26]); (0xFF47, [0xFF27]); (0xFF48, [0xFF28]);
    (0xFF49, [0xFF29]); (0xFF4A, [0xFF2A]); (0xFF4B, [0xFF2B]); (0xFF4C, [0xFF2C]);
    (0xFF4D, [0xFF2D]); (0xFF4E, [0xFF2E]); (0xFF4F, [0xFF2F]); (0xFF50, [0xFF30]);
    (0xFF51, [0xFF31]); (0xFF52, [0xFF32]); (0xFF53, [0xFF33]); (0xFF54, [0xFF34]);
    (0xFF55, [0xFF35]); (0xFF56, [0xFF36]); (0xFF57, [0xFF37]); (0xFF58, [0xFF38]);
    (0xFF59, [0xFF39]); (0xFF5A, [0xFF3A]); (0x10428, [0x10400]); (0x10429, [0x10401]);
    (0x1042A, [0x10402]); (0x1042B, [0x10403]); (0x1042C, [0x10404]); (0x1042D, [0x10405]);
    (0x1042E, [0x10406]); (0x1042F, [0x10407]); (0x10430, [0x10408]); (0x10431, [0x10409]);
    (0x10432, [0x1040A]); (0x10433, [0x1040B]); (0x10434, [0x1040C]); (0x10435, [0x1040D]);
    (0x10436, [0x1040E]); (0x10437, [0x1040F]); (0x10438, [0x10410]); (0x10439, [0x10411]);
    (0x1043A, [0x10412]); (0x1043B, [0x10413]); (0x1043C, [0x10414]); (0x1043D, [0x10415]);
    (0x1043E, [0x10416]); (0x1043F, [0x10417]); (0x10440, [0x10418]); (0x10441, [0x10419]);
    (0x10442, [0x1041A]); (0x10443, [0x1041B]); (0x10444, [0x1041C]); (0x10445, [0x1041D]);
    (0x10446, [0x1041E]); (0x10447, [0x1041F]); (0x10448, [0x10420]); (0x10449, [0x10421]);
    (0x1044A, [0x10422]); (0x1044B, [0x10423]); (0x1044C, [0x10424]); (0x1044D, [0x10425]);
    (0x1044E, [0x10426]); (0x1044F, [0x10427]); (0x104D8, [0x104B0]); (0x104D9, [0x104B1]);
    (0x104DA, [0x104B2]); (0x104DB, [0x104B3]); (0x104DC, [0x104B4]); (0x104DD, [0x104B5]);
    (0x104DE, [0x104B6]); (0x104DF, [0x104B7]); (0x104E0, [0x104B8]); (0x104E1, [0x104B9]);
    (0x104E2, [0x104BA]); (0x104E3, [0x104BB]); (0x104E4, [0x104BC]); (0x104E5, [0x104BD]);
    (0x104E6, [0x104BE]); (0x104E7, [0x104BF]); (0x104E8, [0x104C0]); (0x104E9, [0x104C1]);
    (0x104EA, [0x104C2]); (0x104EB, [0x104C3]); (0x104EC, [0x104C4]); (0x104ED, [0x104C5]);
    (0x104EE, [0x104C6]); (0x104EF, [0x104C7]); (0x104F0, [0x104C8]); (0x104F1, [0x104C9]);
    (0x104F2, [0x104CA]); (0x104F3, [0x104CB]); (0x104F4, [0x104CC]); (0x104F5, [0x104CD]);
    (0x104F6, [0x104CE]); (0x104F7, [0x104CF]); (0x104F8, [0x104D0]); (0x104F9, [0x104D1]);
    (0x104FA, [0x104D2]); (0x104FB, [0x104D3]); (0x10597, [0x10570]); (0x10598, [0x10571]);
    (0x10599, [0x10572]); (0x1059A, [0x10573]); (0x1059B, [0x10574]); (0x1059C, [0x10575]);
    (0x1059D, [0x10576]); (0x1059E, [0x10577]); (0x1059F, [0x10578]); (0x105A0, [0x10579]);
    (0x105A1, [0x1057A]); (0x105A3, [0x1057C]); (0x105A4, [0x1057D]); (0x105A5, [0x1057E]);
    (0x105A6, [0x1057F]); (0x105A7, [0x10580]); (0x105A8, [0x10581]); (0x105A9, [0x10582]);
    (0x105AA, [0x10583]); (0x105AB, [0x10584]); (0x105AC, [0x10585]); (0x105AD, [0x10586]);
    (0x105AE, [0x10587]); (0x105AF, [0x10588]); (0x105B0, [0x10589]); (0x105B1, [0x1058A]);
    (0x105B3, [0x1058C]); (0x105B4, [0x1058D]); (0x105B5, [0x1058E]); (0x105B6, [0x1058F]);
    (0x105B7, [0x10590]); (0x105B8, [0x10591]); (0x105B9, [0x10592]); (0x105BB, [0x10594]);
    (0x105BC, [0x10595]); (0x10CC0, [0x10C80]); (0x10CC1, [0x10C81]); (0x10CC2, [0x10C82]);
    (0x10CC3, [0x10C83]); (0x10CC4, [0x10C84]); (0x10CC5, [0x10C85]); (0x10CC6, [0x10C86]);
    (0x10CC7, [0x10C87]); (0x10CC8, [0x10C88]); (0x10CC9, [0x10C89]); (0x10CCA, [0x10C8A]);
    (0x10CCB, [0x10C8B]); (0x10CCC, [0x10C8C]); (0x10CCD, [0x10C8D]); (0x10CCE, [0x10C8E]);
    (0x10CCF, [0x10C8F]); (0x10CD0, [0x10C90]); (0x10CD1, [0x10C91]); (0x10CD2, [0x10C92]);
    (0x10CD3, [0x10C93]); (0x10CD4, [0x10C94]); (0x10CD5, [0x10C95]); (0x10CD6, [0x10C96]);
    (0x10CD7, [0x10C97]); (0x10CD8, [0x10C98]); (0x10CD9, [0x10C99]); (0x10CDA, [0x10C9A]);
    (0x10CDB, [0x10C9B]); (0x10CDC, [0x10C9C]); (0x10CDD, [0x10C9D]); (0x10CDE, [0x10C9E]);
    (0x10CDF, [0x10C9F]); (0x10CE0, [0x10CA0]); (0x10CE1, [0x10CA1]); (0x10CE2, [0x10CA2]);
    (0x10CE3, [0x10CA3]); (0x10CE4, [0x10CA4]); (0x10CE5, [0x10CA5]); (0x10CE6, [0x10CA6]);
    (0x10CE7, [0x10CA7]); (0x10CE8, [0x10CA8]); (0x10CE9, [0x10CA9]); (0x10CEA, [0x10CAA]);
    (0x10CEB, [0x10CAB]); (0x10CEC, [0x10CAC]); (0x10CED, [0x10CAD]); (0x10CEE, [0x10CAE]);
    (0x10CEF, [0x10CAF]); (0x10CF0, [0x10CB0]); (0x10CF1, [0x10CB1]); (0x10CF2, [0x10CB2]);
    (0x118C0, [0x118A0]); (0x118C1, [0x118A1]); (0x118C2, [0x118A2]); (0x118C3, [0x118A3]);
    (0x118C4, [0x118A4]); (0x118C5, [0x118A5]); (0x118C6, [0x118A6]); (0x118C7, [0x118A7]);
    (0x118C8, [0x118A8]); (0x118C9, [0x118A9]); (0x118CA, [0x118AA]); (0x118CB, [0x118AB]);
    (0x118CC, [0x118AC]); (0x118CD, [0x118AD]); (0x118CE, [0x118AE]); (0x118CF, [0x118AF]);
    (0x118D0, [0x118B0]); (0x118D1, [0x118B1]); (0x118D2, [0x118B2]); (0x118D3, [0x118B3]);
    (0x118D4, [0x118B4]); (0x118D5, [0x118B5]); (0x118D6, [0x118B6]); (0x118D7, [0x118B7]);
    (0x118D8, [0x118B8]); (0x118D9, [0x118B9]); (0x118DA, [0x118BA]); (0x118DB, [0x118BB]);
    (0x118DC, [0x118BC]); (0x118DD, [0x118BD]); (0x118DE, [0x118BE]); (0x118DF, [0x118BF]);
    (0x16E60, [0x16E40]); (0x16E61, [0x16E41]); (0x16E62, [0x16E42]); (0x16E63, [0x16E43]);
    (0x16E64, [0x16E44]); (0x16E65, [0x16E45]); (0x16E66, [0x16E46]); (0x16E67, [0x16E47]);
    (0x16E68, [0x16E48]); (0x16E69, [0x16E49]); (0x16E6A, [0x16E4A]); (0x16E6B, [0x16E4B]);
    (0x16E6C, [0x16E4C]); (0x16E6D, [0x16E4D]); (0x16E6E, [0x16E4E]); (0x16E6F, [0x16E4F]);
    (0x16E70, [0x16E50]); (0x16E71, [0x16E51]); (0x16E72, [0x16E52]); (0x16E73, [0x16E53]);
    (0x16E74, [0x16E54]); (0x16E75, [0x16E55]); (0x16E76, [0x16E56]); (0x16E77, [0x16E57]);
    (0x16E78, [0x16E58]); (0x16E79, [0x16E59]); (0x16E7A, [0x16E5A]); (0x16E7B, [0x16E5B]);
    (0x16E7C, [0x16E5C]); (0x16E7D, [0x16E5D]); (0x16E7E, [0x16E5E]); (0x16E7F, [0x16E5F]);
    (0x1E922, [0x1E900]); (0x1E923, [0x1E901]); (0x1E924, [0x1E902]); (0x1E925, [0x1E903]);
    (0x1E926, [0x1E904]); (0x1E927, [0x1E905]); (0x1E928, [0x1E906]); (0x1E929, [0x1E907]);
    (0x1E92A, [0x1E908]); (0x1E92B, [0x1E909]); (0x1E92C, [0x1E90A]); (0x1E92D, [0x1E90B]);
    (0x1E92E, [0x1E90C]); (0x1E92F, [0x1E90D]); (0x1E930, [0x1E90E]); (0x1E931, [0x1E90F]);
    (0x1E932, [0x1E910]); (0x1E933, [0x1E911]); (0x1E934, [0x1E912]); (0x1E935, [0x1E913]);
    (0x1E936, [0x1E914]); (0x1E937, [0x1E915]); (0x1E938, [0x1E916]); (0x1E939, [0x1E917]);
    (0x1E93A, [0x1E918]); (0x1E93B, [0x1E919]); (0x1E93C, [0x1E91A]); (0x1E93D, [0x1E91B]);
    (0x1E93E, [0x1E91C]); (0x1E93F, [0x1E91D]); (0x1E940, [0x1E91E]); (0x1E941, [0x1E91F]);
    (0x1E942, [0x1E920]); (0x1E943, [0x1E921])
  ].

(** The property [Cased] (DerivedCoreProperties.txt). *)
Definition cased_ranges : list (N * N) :=
  [
    (0x41, 0x5A); (0x61, 0x7A); (0xAA, 0xAA); (0xB5, 0xB5); (0xBA, 0xBA); (0xC0, 0xD6);
    (0xD8, 0xF6); (0xF8, 0x1BA); (0x1BC, 0x1BF); (0x1C4, 0x293); (0x295, 0x2B8); (0x2C0, 0x2C1);
    (0x2E0, 0x2E4); (0x345, 0x345); (0x370, 0x373); (0x376, 0x377); (0x37A, 0x37D);
    (0x37F, 0x37F); (0x386, 0x386); (0x388, 0x38A); (0x38C, 0x38C); (0x38E, 0x3A1);
    (0x3A3, 0x3F5); (0x3F7, 0x481); (0x48A, 0x52F); (0x531, 0x556); (0x560, 0x588);
    (0x10A0, 0x10C5); (0x10C7, 0x10C7); (0x10CD, 0x10CD); (0x10D0, 0x10FA); (0x10FD, 0x10FF);
    (0x13A0, 0x13F5); (0x13F8, 0x13FD); (0x1C80, 0x1C88); (0x1C90, 0x1CBA); (0x1CBD, 0x1CBF);
    (0x1D00, 0x1DBF); (0x1E00, 0x1F15); (0x1F18, 0x1F1D); (0x1F20, 0x1F45); (0x1F48, 0x1F4D);
    (0x1F50, 0x1F57); (0x1F59, 0x1F59); (0x1F5B, 0x1F5B); (0x1F5D, 0x1F5D); (0x1F5F, 0x1F7D);
    (0x1F80, 0x1FB4); (0x1FB6, 0x1FBC); (0x1FBE, 0x1FBE); (0x1FC2, 0x1FC4); (0x1FC6, 0x1FCC);
    (0x1FD0, 0x1FD3); (0x1FD6, 0x1FDB); (0x1FE0, 0x1FEC); (0x1FF2, 0x1FF4); (0x1FF6, 0x1FFC);
    (0x2071, 0x2071); (0x207F, 0x207F); (0x2090, 0x209C); (0x2102, 0x2102); (0x2107, 0x2107);
    (0x210A, 0x2113); (0x2115, 0x2115); (0x2119, 0x211D); (0x2124, 0x2124); (0x2126, 0x2126);
    (0x2128, 0x2128); (0x212A, 0x212D); (0x212F, 0x2134); (0x2139, 0x2139); (0x213C, 0x213F);
    (0x2145, 0x2149); (0x214E, 0x214E); (0x2160, 0x217F); (0x2183, 0x2184); (0x24B6, 0x24E9);
    (0x2C00, 0x2CE4); (0x2CEB, 0x2CEE); (0x2CF2, 0x2CF3); (0x2D00, 0x2D25); (0x2D27, 0x2D27);
    (0x2D2D, 0x2D2D); (0xA640, 0xA66D); (0xA680, 0xA69D); (0xA722, 0xA787); (0xA78B, 0xA78E);
    (0xA790, 0xA7CA); (0xA7D0, 0xA7D1); (0xA7D3, 0xA7D3); (0xA7D5, 0xA7D9); (0xA7F5, 0xA7F6);
    (0xA7F8, 0xA7FA); (0xAB30, 0xAB5A); (0xAB5C, 0xAB68); (0xAB70, 0xABBF); (0xFB00, 0xFB06);
    (0xFB13, 0xFB17); (0xFF21, 0xFF3A); (0xFF41, 0xFF5A); (0x10400, 0x1044F);
    (0x104B0, 0x104D3); (0x104D8, 0x104FB); (0x10570, 0x1057A); (0x1057C, 0x1058A);
    (0x1058C, 0x10592); (0x10594, 0x10595); (0x10597, 0x105A1); (0x105A3, 0x105B1);
    (0x105B3, 0x105B9); (0x105BB, 0x105BC); (0x10780, 0x10780); (0x10783, 0x10785);
    (0x10787, 0x107B0); (0x107B2, 0x107BA); (0x10C80, 0x10CB2); (0x10CC0, 0x10CF2);
    (0x118A0, 0x118DF); (0x16E40, 0x16E7F); (0x1D400, 0x1D454); (0x1D456, 0x1D49C);
    (0x1D49E, 0x1D49F); (0x1D4A2, 0x1D4A2); (0x1D4A5, 0x1D4A6); (0x1D4A9, 0x1D4AC);
    (0x1D4AE, 0x1D4B9); (0x1D4BB, 0x1D4BB); (0x1D4BD, 0x1D4C3); (0x1D4C5, 0x1D505);
    (0x1D507, 0x1D50A); (0x1D50D, 0x1D514); (0x1D516, 0x1D51C); (0x1D51E, 0x1D539);
    (0x1D53B, 0x1D53E); (0x1D540, 0x1D544); (0x1D546, 0x1D546); (0x1D54A, 0x1D550);
    (0x1D552, 0x1D6A5); (0x1D6A8, 0x1D6C0); (0x1D6C2, 0x1D6DA); (0x1D6DC, 0x1D6FA);
    (0x1D6FC, 0x1D714); (0x1D716, 0x1D734); (0x1D736, 0x1D74E); (0x1D750, 0x1D76E);
    (0x1D770, 0x1D788); (0x1D78A, 0x1D7A8); (0x1D7AA, 0x1D7C2); (0x1D7C4, 0x1D7CB);
    (0x1DF00, 0x1DF09); (0x1DF0B, 0x1DF1E); (0x1E900, 0x1E943); (0x1F130, 0x1F149);
    (0x1F150, 0x1F169); (0x1F170, 0x1F189)
  ].

(** The property [Case_Ignorable] (DerivedCoreProperties.txt). *)
Definition case_ignorable_ranges : list (N * N) :=
  [
    (0x27, 0x27); (0x2E, 0x2E); (0x3A, 0x3A); (0x5E, 0x5E); (0x60, 0x60); (0xA8, 0xA8);
    (0xAD, 0xAD); (0xAF, 0xAF); (0xB4, 0xB4); (0xB7, 0xB8); (0x2B0, 0x36F); (0x374, 0x375);
    (0x37A, 0x37A); (0x384, 0x385); (0x387, 0x387); (0x483, 0x489); (0x559, 0x559);
    (0x55F, 0x55F); (0x591, 0x5BD); (0x5BF, 0x5BF); (0x5C1, 0x5C2); (0x5C4, 0x5C5);
    (0x5C7, 0x5C7); (0x5F4, 0x5F4); (0x600, 0x605); (0x610, 0x61A); (0x61C, 0x61C);
    (0x640, 0x640); (0x64B, 0x65F); (0x670, 0x670); (0x6D6, 0x6DD); (0x6DF, 0x6E8);
    (0x6EA, 0x6ED); (0x70F, 0x70F); (0x711, 0x711); (0x730, 0x74A); (0x7A6, 0x7B0);
    (0x7EB, 0x7F5); (0x7FA, 0x7FA); (0x7FD, 0x7FD); (0x816, 0x82D); (0x859, 0x85B);
    (0x888, 0x888); (0x890, 0x891); (0x898, 0x89F); (0x8C9, 0x902); (0x93A, 0x93A);
    (0x93C, 0x93C); (0x941, 0x948); (0x94D, 0x94D); (0x951, 0x957); (0x962, 0x963);
    (0x971, 0x971); (0x981, 0x981); (0x9BC, 0x9BC); (0x9C1, 0x9C4); (0x9CD, 0x9CD);
    (0x9E2, 0x9E3); (0x9FE, 0x9FE); (0xA01, 0xA02); (0xA3C, 0xA3C); (0xA41, 0xA42);
    (0xA47, 0xA48); (0xA4B, 0xA4D); (0xA51, 0xA51); (0xA70, 0xA71); (0xA75, 0xA75);
    (0xA81, 0xA82); (0xABC, 0xABC); (0xAC1, 0xAC5); (0xAC7, 0xAC8); (0xACD, 0xACD);
    (0xAE2, 0xAE3); (0xAFA, 0xAFF); (0xB01, 0xB01); (0xB3C, 0xB3C); (0xB3F, 0xB3F);
    (0xB41, 0xB44); (0xB4D, 0xB4D); (0xB55, 0xB56); (0xB62, 0xB63); (0xB82, 0xB82);
    (0xBC0, 0xBC0); (0xBCD, 0xBCD); (0xC00, 0xC00); (0xC04, 0xC04); (0xC3C, 0xC3C);
    (0xC3E, 0xC40); (0xC46, 0xC48); (0xC4A, 0xC4D); (0xC55, 0xC56); (0xC62, 0xC63);
    (0xC81, 0xC81); (0xCBC, 0xCBC); (0xCBF, 0xCBF); (0xCC6, 0xCC6); (0xCCC, 0xCCD);
    (0xCE2, 0xCE3); (0xD00, 0xD01); (0xD3B, 0xD3C); (0xD41, 0xD44); (0xD4D, 0xD4D);
    (0xD62, 0xD63); (0xD81, 0xD81); (0xDCA, 0xDCA); (0xDD2, 0xDD4); (0xDD6, 0xDD6);
    (0xE31, 0xE31); (0xE34, 0xE3A); (0xE46, 0xE4E); (0xEB1, 0xEB1); (0xEB4, 0xEBC);
    (0xEC6, 0xEC6); (0xEC8, 0xECD); (0xF18, 0xF19); (0xF35, 0xF35); (0xF37, 0xF37);
    (0xF39, 0xF39); (0xF71, 0xF7E); (0xF80, 0xF84); (0xF86, 0xF87); (0xF8D, 0xF97);
    (0xF99, 0xFBC); (0xFC6, 0xFC6); (0x102D, 0x1030); (0x1032, 0x1037); (0x1039, 0x103A);
    (0x103D, 0x103E); (0x1058, 0x1059); (0x105E, 0x1060); (0x1071, 0x1074); (0x1082, 0x1082);
    (0x1085, 0x1086); (0x108D, 0x108D); (0x109D, 0x109D); (0x10FC, 0x10FC); (0x135D, 0x135F);
    (0x1712, 0x1714); (0x1732, 0x1733); (0x1752, 0x1753); (0x1772, 0x1773); (0x17B4, 0x17B5);
    (0x17B7, 0x17BD); (0x17C6, 0x17C6); (0x17C9, 0x17D3); (0x17D7, 0x17D7); (0x17DD, 0x17DD);
    (0x180B, 0x180F); (0x1843, 0x1843); (0x1885, 0x1886); (0x18A9, 0x18A9); (0x1920, 0x1922);
    (0x1927, 0x1928); (0x1932, 0x1932); (0x1939, 0x193B); (0x1A17, 0x1A18); (0x1A1B, 0x1A1B);
    (0x1A56, 0x1A56); (0x1A58, 0x1A5E); (0x1A60, 0x1A60); (0x1A62, 0x1A62); (0x1A65, 0x1A6C);
    (0x1A73, 0x1A7C); (0x1A7F, 0x1A7F); (0x1AA7, 0x1AA7); (0x1AB0, 0x1ACE); (0x1B00, 0x1B03);
    (0x1B34, 0x1B34); (0x1B36, 0x1B3A); (0x1B3C, 0x1B3C); (0x1B42, 0x1B42); (0x1B6B, 0x1B73);
    (0x1B80, 0x1B81); (0x1BA2, 0x1BA5); (0x1BA8, 0x1BA9); (0x1BAB, 0x1BAD); (0x1BE6, 0x1BE6);
    (0x1BE8, 0x1BE9); (0x1BED, 0x1BED); (0x1BEF, 0x1BF1); (0x1C2C, 0x1C33); (0x1C36, 0x1C37);
    (0x1C78, 0x1C7D); (0x1CD0, 0x1CD2); (0x1CD4, 0x1CE0); (0x1CE2, 0x1CE8); (0x1CED, 0x1CED);
    (0x1CF4, 0x1CF4); (0x1CF8, 0x1CF9); (0x1D2C, 0x1D6A); (0x1D78, 0x1D78); (0x1D9B, 0x1DFF);
    (0x1FBD, 0x1FBD); (0x1FBF, 0x1FC1); (0x1FCD, 0x1FCF); (0x1FDD, 0x1FDF); (0x1FED, 0x1FEF);
    (0x1FFD, 0x1FFE); (0x200B, 0x200F); (0x2018, 0x2019); (0x2024, 0x2024); (0x2027, 0x2027);
    (0x202A, 0x202E); (0x2060, 0x2064); (0x2066, 0x206F); (0x2071, 0x2071); (0x207F, 0x207F);
    (0x2090, 0x209C); (0x20D0, 0x20F0); (0x2C7C, 0x2C7D); (0x2CEF, 0x2CF1); (0x2D6F, 0x2D6F);
    (0x2D7F, 0x2D7F); (0x2DE0, 0x2DFF); (0x2E2F, 0x2E2F); (0x3005, 0x3005); (0x302A, 0x302D);
    (0x3031, 0x3035); (0x303B, 0x303B); (0x3099, 0x309E); (0x30FC, 0x30FE); (0xA015, 0xA015);
    (0xA4F8, 0xA4FD); (0xA60C, 0xA60C); (0xA66F, 0xA672); (0xA674, 0xA67D); (0xA67F, 0xA67F);
    (0xA69C, 0xA69F); (0xA6F0, 0xA6F1); (0xA700, 0xA721); (0xA770, 0xA770); (0xA788, 0xA78A);
    (0xA7F2, 0xA7F4); (0xA7F8, 0xA7F9); (0xA802, 0xA802); (0xA806, 0xA806); (0xA80B, 0xA80B);
    (0xA825, 0xA826); (0xA82C, 0xA82C); (0xA8C4, 0xA8C5); (0xA8E0, 0xA8F1); (0xA8FF, 0xA8FF);
    (0xA926, 0xA92D); (0xA947, 0xA951); (0xA980, 0xA982); (0xA9B3, 0xA9B3); (0xA9B6, 0xA9B9);
    (0xA9BC, 0xA9BD); (0xA9CF, 0xA9CF); (0xA9E5, 0xA9E6); (0xAA29, 0xAA2E); (0xAA31, 0xAA32);
    (0xAA35, 0xAA36); (0xAA43, 0xAA43); (0xAA4C, 0xAA4C); (0xAA70, 0xAA70); (0xAA7C, 0xAA7C);
    (0xAAB0, 0xAAB0); (0xAAB2, 0xAAB4); (0xAAB7, 0xAAB8); (0xAABE, 0xAABF); (0xAAC1, 0xAAC1);
    (0xAADD, 0xAADD); (0xAAEC, 0xAAED); (0xAAF3, 0xAAF4); (0xAAF6, 0xAAF6); (0xAB5B, 0xAB5F);
    (0xAB69, 0xAB6B); (0xABE5, 0xABE5); (0xABE8, 0xABE8); (0xABED, 0xABED); (0xFB1E, 0xFB1E);
    (0xFBB2, 0xFBC2); (0xFE00, 0xFE0F); (0xFE13, 0xFE13); (0xFE20, 0xFE2F); (0xFE52, 0xFE52);
    (0xFE55, 0xFE55); (0xFEFF, 0xFEFF); (0xFF07, 0xFF07); (0xFF0E, 0xFF0E); (0xFF1A, 0xFF1A);
    (0xFF3E, 0xFF3E); (0xFF40, 0xFF40); (0xFF70, 0xFF70); (0xFF9E, 0xFF9F); (0xFFE3, 0xFFE3);
    (0xFFF9, 0xFFFB); (0x101FD, 0x101FD); (0x102E0, 0x102E0); (0x10376, 0x1037A);
    (0x10780, 0x10785); (0x10787, 0x107B0); (0x107B2, 0x107BA); (0x10A01, 0x10A03);
    (0x10A05, 0x10A06); (0x10A0C, 0x10A0F); (0x10A38, 0x10A3A); (0x10A3F, 0x10A3F);
    (0x10AE5, 0x10AE6); (0x10D24, 0x10D27); (0x10EAB, 0x10EAC); (0x10F46, 0x10F50);
    (0x10F82, 0x10F85); (0x11001, 0x11001); (0x11038, 0x11046); (0x11070, 0x11070);
    (0x11073, 0x11074); (0x1107F, 0x11081); (0x110B3, 0x110B6); (0x110B9, 0x110BA);
    (0x110BD, 0x110BD); (0x110C2, 0x110C2); (0x110CD, 0x110CD); (0x11100, 0x11102);
    (0x11127, 0x1112B); (0x1112D, 0x11134); (0x11173, 0x11173); (0x11180, 0x11181);
    (0x111B6, 0x111BE); (0x111C9, 0x111CC); (0x111CF, 0x111CF); (0x1122F, 0x11231);
    (0x11234, 0x11234); (0x11236, 0x11237); (0x1123E, 0x1123E); (0x112DF, 0x112DF);
    (0x112E3, 0x112EA); (0x11300, 0x11301); (0x1133B, 0x1133C); (0x11340, 0x11340);
    (0x11366, 0x1136C); (0x11370, 0x11374); (0x11438, 0x1143F); (0x11442, 0x11444);
    (0x11446, 0x11446); (0x1145E, 0x1145E); (0x114B3, 0x114B8); (0x114BA, 0x114BA);
    (0x114BF, 0x114C0); (0x114C2, 0x114C3); (0x115B2, 0x115B5); (0x115BC, 0x115BD);
    (0x115BF, 0x115C0); (0x115DC, 0x115DD); (0x11633, 0x1163A); (0x1163D, 0x1163D);
    (0x1163F, 0x11640); (0x116AB, 0x116AB); (0x116AD, 0x116AD); (0x116B0, 0x116B5);
    (0x116B7, 0x116B7); (0x1171D, 0x1171F); (0x11722, 0x11725); (0x11727, 0x1172B);
    (0x1182F, 0x11837); (0x11839, 0x1183A); (0x1193B, 0x1193C); (0x1193E, 0x1193E);
    (0x11943, 0x11943); (0x119D4, 0x119D7); (0x119DA, 0x119DB); (0x119E0, 0x119E0);
    (0x11A01, 0x11A0A); (0x11A33, 0x11A38); (0x11A3B, 0x11A3E); (0x11A47, 0x11A47);
    (0x11A51, 0x11A56); (0x11A59, 0x11A5B); (0x11A8A, 0x11A96); (0x11A98, 0x11A99);
    (0x11C30, 0x11C36); (0x11C38, 0x11C3D); (0x11C3F, 0x11C3F); (0x11C92, 0x11CA7);
    (0x11CAA, 0x11CB0); (0x11CB2, 0x11CB3); (0x11CB5, 0x11CB6); (0x11D31, 0x11D36);
    (0x11D3A, 0x11D3A); (0x11D3C, 0x11D3D); (0x11D3F, 0x11D45); (0x11D47, 0x11D47);
    (0x11D90, 0x11D91); (0x11D95, 0x11D95); (0x11D97, 0x11D97); (0x11EF3, 0x11EF4);
    (0x13430, 0x13438); (0x16AF0, 0x16AF4); (0x16B30, 0x16B36); (0x16B40, 0x16B43);
    (0x16F4F, 0x16F4F); (0x16F8F, 0x16F9F); (0x16FE0, 0x16FE1); (0x16FE3, 0x16FE4);
    (0x1AFF0, 0x1AFF3); (0x1AFF5, 0x1AFFB); (0x1AFFD, 0x1AFFE); (0x1BC9D, 0x1BC9E);
    (0x1BCA0, 0x1BCA3); (0x1CF00, 0x1CF2D); (0x1CF30, 0x1CF46); (0x1D167, 0x1D169);
    (0x1D173, 0x1D182); (0x1D185, 0x1D18B); (0x1D1AA, 0x1D1AD); (0x1D242, 0x1D244);
    (0x1DA00, 0x1DA36); (0x1DA3B, 0x1DA6C); (0x1DA75, 0x1DA75); (0x1DA84, 0x1DA84);
    (0x1DA9B, 0x1DA9F); (0x1DAA1, 0x1DAAF); (0x1E000, 0x1E006); (0x1E008, 0x1E018);
    (0x1E01B, 0x1E021); (0x1E023, 0x1E024); (0x1E026, 0x1E02A); (0x1E130, 0x1E13D);
    (0x1E2AE, 0x1E2AE); (0x1E2EC, 0x1E2EF); (0x1E8D0, 0x1E8D6); (0x1E944, 0x1E94B);
    (0x1F3FB, 0x1F3FF); (0xE0001, 0xE0001); (0xE0020, 0xE007F); (0xE0100, 0xE01EF)
  ].

(** *** Normalization Form D *)

(** The decomposition of a Hangul syllable into its jamo. *)
Definition hangul (c : N) : list N :=
  let s := c - 0xAC00 in
  let l := 0x1100 + s / 588 in
  let v := 0x1161 + (s mod 588) / 28 in
  let t := s mod 28 in
  if t =? 0 then [l; v] else [l; v; 0x11A7 + t].

(** The full canonical decomposition of one code point. *)
Definition decompose (c : N) : list N :=
  if in_range 0xAC00 0xD7A3 c then hangul c
  else match assoc c decompositions with
       | Some d => d
       | None => [c]
       end.

(** Canonical combining class. *)
Fixpoint class_in (c : N) (l : list (N * N * N)) : N :=
  match l with
  | [] => 0
  | (lo, hi, k) :: r => if (lo <=? c) && (c <=? hi) then k else class_in c r
  end.

Definition ccc (c : N) : N := class_in c combining_classes.

(** Insert a mark into a run of marks ordered by combining class, after the
    marks whose class is not larger (the canonical ordering is stable). *)
Fixpoint insert_mark (c : N) (run : list N) : list N :=
  match run with
  | [] => [c]
  | d :: r => if ccc c <? ccc d then c :: run else d :: insert_mark c r
  end.

(** Canonical ordering: every run of marks between two starters is sorted
    by combining class. *)
Fixpoint reorder (s run : list N) : list N :=
  match s with
  | [] => run
  | c :: r => if ccc c =? 0 then run ++ c :: reorder r [] else reorder r (insert_mark c run)
  end.

(** [s.normalize("NFD")] *)
Definition normalizeNFD (s : jsstring) : jsstring :=
  utf16 (reorder (flat_map decompose (code_points s)) []).

(** *** Diacritics *)

(** The Unicode property [Diacritic]. *)
Definition is_diacritic (c : N) : bool := in_ranges c diacritic_ranges.

(** [s.replace(/\p{Diacritic}/gu, "")] *)
Definition stripDiacritics (s : jsstring) : jsstring :=
  utf16 (filter (fun c => negb (is_diacritic c)) (code_points s)).

(** *** Case conversion *)

Definition lower_point (c : N) : list N :=
  match assoc c lowercase with
  | Some l => l
  | None => [c]
  end.

Definition upper_point (c : N) : list N :=
  match assoc c uppercase with
  | Some l => l
  | None => [c]
  end.

Definition is_cased (c : N) : bool := in_ranges c cased_ranges.
Definition is_case_ignorable (c : N) : bool := in_ranges c case_ignorable_ranges.

(** Going away from a position: after the case-ignorable code points comes a
    cased letter. *)
Fixpoint cased_next (l : list N) : bool :=
  match l with
  | [] => false
  | c :: r => if is_case_ignorable c then cased_next r else is_cased c
  end.

(** The lower case of the code points [l] that follow the code points
    [before] (nearest first).  The one mapping that depends on the context
    is Final_Sigma of SpecialCasing.txt: a capital sigma that ends a word
    becomes the final small sigma. *)
Fixpoint lower_points (before l : list N) : list N :=
  match l with
  | [] => []
  | c :: r =>
      (if (c =? 0x3A3) && cased_next before && negb (cased_next r)
       then [0x3C2] else lower_point c)
      ++ lower_points (c :: before) r
  end.

(** [s.toLowerCase()] *)
Definition toLowerCase (s : jsstring) : jsstring :=
  utf16 (lower_points [] (code_points s)).

(** [s.toUpperCase()] *)
Definition toUpperCase (s : jsstring) : jsstring :=
  utf16 (flat_map upper_point (code_points s)).

Arguments decompose : simpl never.
Arguments ccc : simpl never.
Arguments is_diacritic : simpl never.
Arguments lower_point : simpl never.
Arguments upper_point : simpl never.
Arguments is_cased : simpl never.
Arguments is_case_ignorable : simpl never.

End Unicode.

(** ** ECMAScript values and plain objects *)

Module JS.

Import Str.

(** The values the helpers are applied to.  [VObject text] is an ordinary
    object or function whose conversion to a string is [text]. *)
Inductive value :=
| VUndefined
| VNull
| VString (s : jsstring)
| VNumber (x : float)
| VObject (text : jsstring).

(** The outcome of a computation that may throw. *)
Inductive completion (A : Type) :=
| Normal (a : A)
| Throw (error : jsstring).
Arguments Normal {A} a.
Arguments Throw {A} error.

(** ToString, as [String(v)] applies it. *)
Definition ToString (v : value) : jsstring :=
  match v with
  | VUndefined => str "undefined"
  | VNull => str "null"
  | VString s => s
  | VNumber x => Conv.NumberToString x
  | VObject text => text
  end.

(** ToNumber *)
Definition ToNumber (v : value) : float :=
  match v with
  | VUndefined => nan
  | VNull => PrimFloat.zero
  | VString s => Conv.StringToNumber s
  | VNumber x => x
  | VObject text => Conv.StringToNumber text
  end.

(** ToBoolean *)
Definition ToBoolean (v : value) : bool :=
  match v with
  | VUndefined | VNull => false
  | VString s => match s with [] => false | _ => true end
  | VNumber x => Num.truthy x
  | VObject _ => true
  end.

(** [a ?? b] *)
Definition coalesce (a b : value) : value :=
  match a with
  | VUndefined | VNull => b
  | _ => a
  end.

(** [a || b] *)
Definition or (a b : value) : value := if ToBoolean a then a else b.

(** [a + b]: string concatenation as soon as one operand converts to a
    string, the sum of the two Numbers otherwise. *)
Definition add (a b : value) : value :=
  match a, b with
  | (VString _ | VObject _), _ | _, (VString _ | VObject _) =>
      VString (ToString a ++ ToString b)
  | _, _ => VNumber (ToNumber a + ToNumber b)
  end.

(** The own properties of a plain object, in insertion order. *)
Definition object (A : Type) := list (jsstring * A).

Fixpoint own {A} (k : jsstring) (o : object A) : option A :=
  match o with
  | [] => None
  | (k', v) :: r => if eqb k k' then Some v else own k r
  end.

Definition native (name : string) : value :=
  VObject (str "function " ++ str name ++ str "() { [native code] }").

(** What every plain object inherits from [Object.prototype]. *)
Definition Object_prototype : object value :=
  [ (str "constructor", native "Object");
    (str "__defineGetter__", native "__defineGetter__");
    (str "__defineSetter__", native "__defineSetter__");
    (str "hasOwnProperty", native "hasOwnProperty");
    (str "__lookupGetter__", native "__lookupGetter__");
    (str "__lookupSetter__", native "__lookupSetter__");
    (str "isPrototypeOf", native "isPrototypeOf");
    (str "propertyIsEnumerable", native "propertyIsEnumerable");
    (str "toString", native "toString");
    (str "valueOf", native "valueOf");
    (str "__proto__", VObject (str "[object Object]"));
    (str "toLocaleString", native "toLocaleString") ].

Definition inherited (k : jsstring) : bool :=
  match own k Object_prototype with Some _ => true | None => false end.

(** [k in o] *)
Definition has {A} (k : jsstring) (o : object A) : bool :=
  match own k o with Some _ => true | None => inherited k end.

(** [o[k]] for an object whose own properties are values. *)
Definition get (o : object value) (k : jsstring) : value :=
  match own k o with
  | Some v => v
  | None => match own k Object_prototype with Some v => v | None => VUndefined end
  end.

Fixpoint put {A} (o : object A) (k : jsstring) (v : A) : object A :=
  match o with
  | [] => [(k, v)]
  | (k', v') :: r => if eqb k k' then (k', v) :: r else (k', v') :: put r k v
  end.

(** [o[k] = v] for a primitive [v]: an own property is written or appended;
    the inherited [__proto__] setter ignores a primitive. *)
Definition set (o : object value) (k : jsstring) (v : value) : object value :=
  if eqb k (str "__proto__") then o else put o k v.

(** [Object.values(o)] *)
Definition values {A} (o : object A) : list A := map snd o.

(** The integer a Number is, if it is a non-negative integer. *)
Definition as_index (i : float) : option Z :=
  match Prim2SF i with
  | S754_zero _ => Some 0
  | S754_finite false m e =>
      if 0 <=? e then Some (Zpos m * 2 ^ e)
      else if Z.land (Zpos m) (2 ^ (- e) - 1) =? 0 then Some (Z.shiftr (Zpos m) (- e))
      else None
  | _ => None
  end.

(** [arr[i]] for a Number [i]: the element when [i] is an index of the
    array, [undefined] otherwise. *)
Definition index (arr : list jsstring) (i : float) : value :=
  match as_index i with
  | Some z =>
      if z <? Z.of_nat (List.length arr)
      then match nth_error arr (Z.to_nat z) with
           | Some a => VString a
           | None => VUndefined
           end
      else VUndefined
  | None => VUndefined
  end.

(** [a.findIndex(p)]: the first index whose element satisfies [p], or -1. *)
Fixpoint findIndex {A} (p : A -> bool) (l : list A) : Z :=
  match l with
  | [] => -1
  | x :: r => if p x then 0 else let i := findIndex p r in if i <? 0 then -1 else i + 1
  end.

(** [a[i]] for an array of strings and an integer [i] that is not negative. *)
Definition element (a : list jsstring) (i : Z) : value :=
  match nth_error a (Z.to_nat i) with
  | Some x => VString x
  | None => VUndefined
  end.

(** [a.map(f)] for a callback that may throw: the first exception ends the
    traversal. *)
Fixpoint map_completion {A B} (f : A -> completion B) (l : list A) : completion (list B) :=
  match l with
  | [] => Normal []
  | x :: r =>
      match f x with
      | Throw e => Throw e
      | Normal y =>
          match map_completion f r with
          | Throw e => Throw e
          | Normal ys => Normal (y :: ys)
          end
      end
  end.

End JS.

(** ** The [Math] functions the source calls

    ECMAScript leaves [Math.cos], [Math.sin], [Math.atan2] and [Math.asin]
    implementation-approximated; the source is embedded over any such
    library. *)

Record MathLib := {
  cos : float -> float;
  sin : float -> float;
  atan2 : float -> float -> float;
  asin : float -> float
}.

(** ** The helpers of [src/App.jsx] *)

Module App.

Import Str JS.
Local Open Scope float_scope.
Set Warnings "-inexact-float".

(** [CENTROIDS] (lines 7-21) *)
Definition CENTROIDS : object (float * float) :=
  [ (str "AB", (53.9333, -116.5765));
    (str "BC", (53.7267, -127.6476));
    (str "MB", (53.7609, -98.8139));
    (str "NB", (46.5653, -66.4619));
    (str "NL", (53.1355, -57.6604));
    (str "NS", (44.682, -63.7443));
    (str "NT", (64.8255, -124.8457));
    (str "NU", (70.2998, -83.1076));
    (str "ON", (51.2538, -85.3232));
    (str "PE", (46.5107, -63.4168));
    (str "QC", (52.9399, -73.5491));
    (str "SK", (52.9399, -106.4509));
    (str "YT", (64.2823, -135)) ].

(** [NAME_TO_CODE] (lines 24-40) *)
Definition NAME_TO_CODE : object value :=
  [ (str "alberta", VString (str "AB"));
    (str "british columbia", VString (str "BC"));
    (str "manitoba", VString (str "MB"));
    (str "new brunswick", VString (str "NB"));
    (str "newfoundland and labrador", VString (str "NL"));
    (str "newfoundland & labrador", VString (str "NL"));
    (str "nova scotia", VString (str "NS"));
    (str "northwest territories", VString (str "NT"));
    (str "nunavut", VString (str "NU"));
    (str "ontario", VString (str "ON"));
    (str "prince edward island", VString (str "PE"));
    (str "quebec", VString (str "QC"));
    (str "saskatchewan", VString (str "SK"));
    (str "yukon", VString (str "YT"));
    (str "pei", VString (str "PE")) ].

(** [s.replace(/[, ]+/g, "")]: every comma and every space is removed. *)
Definition is_separator (c : char) : bool := (N.eqb c 0x2C || N.eqb c 0x20)%N.

Definition stripSeparators (s : jsstring) : jsstring :=
  filter (fun c => negb (is_separator c)) s.

(** [toNum] (lines 43-46) *)
Definition toNum (v : value) : float :=
  let n := Conv.StringToNumber (stripSeparators (ToString (coalesce v (VString [])))) in
  if Num.isFinite n then n else nan.

(** [normName] (lines 47-52) *)
Definition normName (s : value) : jsstring :=
  trim (Unicode.toLowerCase
          (Unicode.stripDiacritics
             (Unicode.normalizeNFD (ToString (coalesce s (VString [])))))).

(** The region of a row, as [parseCSV] computes it from the raw cell
    (lines 85-90).  When the table lookup yields an inherited function or
    object, [region.toUpperCase] is not callable and the row throws. *)
Definition parseCSV_region (regionRaw : value) : completion jsstring :=
  let region := trim (ToString (or regionRaw (VString []))) in
  let region :=
    if (2 <? Z.of_nat (List.length region))%Z then
      let code := get NAME_TO_CODE (normName (VString region)) in
      if ToBoolean code then code else VString region
    else VString region in
  match region with
  | VString r => Normal (Unicode.toUpperCase r)
  | _ => Throw (str "TypeError: region.toUpperCase is not a function")
  end.

(** A row as [parseCSV] builds it (line 92). *)
Record row := { region : jsstring; area_ha : value; year : value }.

(** The row of one line, from its three raw cells (lines 81-92). *)
Definition parseCSV_row (regionRaw areaRaw yearRaw : value) : completion row :=
  match parseCSV_region regionRaw with
  | Normal r =>
      Normal {| region := r; area_ha := VNumber (toNum areaRaw);
                year := VNumber (toNum yearRaw) |}
  | Throw e => Throw e
  end.

(** One iteration of the loop of [aggregateByProvince] (lines 100-103). *)
Definition aggregate_step (totals : object value) (r : row) : object value :=
  if negb (ToBoolean (VString (region r))) || negb (has (region r) CENTROIDS) then totals
  else
    let val := toNum (area_ha r) in
    if negb (Num.isFinite val) then totals
    else set totals (region r) (add (or (get totals (region r)) (VNumber 0)) (VNumber val)).

(** [aggregateByProvince] (lines 97-106) *)
Definition aggregateByProvince (rows : list row) : object value :=
  fold_left aggregate_step rows [].

(** The grand total (line 211):
    [Object.values(totals).reduce((a, b) => a + b, 0)]. *)
Definition grandTotal (totals : object value) : value :=
  fold_left add (values totals) (VNumber 0).

(** [radiusFor] (lines 122-126) *)
Definition radiusFor (areaHa maxArea : float) : float :=
  if negb (Num.truthy maxArea) || negb (Num.isFinite areaHa) then 6
  else
    let t := Num.max 0 (Num.min 1 (sqrt (areaHa / maxArea))) in
    6 + t * 16.

(** [WAF] (line 129) *)
Definition WAF : object value :=
  [ (str "grass", VNumber 0.7); (str "shrub", VNumber 0.5); (str "forest", VNumber 0.3) ].

(** [mod360], [toRad], [toDeg] (lines 130-132) *)
Definition mod360 (d : float) : float := Num.rem (Num.rem d 360 + 360) 360.
Definition toRad (d : float) : float := d * Num.PI / 180.
Definition toDeg (r : float) : float := r * 180 / Num.PI.

Definition dirs : list jsstring :=
  map str [ "N"; "NNE"; "NE"; "ENE"; "E"; "ESE"; "SE"; "SSE";
            "S"; "SSW"; "SW"; "WSW"; "W"; "WNW"; "NW"; "NNW" ]%string.

(** [compassFromDeg] (lines 133-136) *)
Definition compassFromDeg (deg : float) : value :=
  index dirs (Num.rem (Num.round (mod360 deg / 22.5)) 16).

Record heading := { headingDeg : float; compass : value }.

(** The key under which [detectColumns] compares a header cell with the
    aliases: [x.toLowerCase().replace(/\s+|_/g, "")] (line 57). *)
Definition header_key (x : jsstring) : jsstring :=
  filter (fun c => negb (is_whitespace c || N.eqb c 0x5F%N)) (Unicode.toLowerCase x).

Definition year_aliases : list jsstring := map str ["year"; "yr"]%string.

Definition region_aliases : list jsstring :=
  map str [ "regioncode"; "province"; "prov"; "region"; "territory";
            "provinceterritory"; "provincecode"; "name"; "nameen"; "prname";
            "prename" ]%string.

Definition area_aliases : list jsstring :=
  map str [ "area"; "area_ha"; "areaha"; "burnedarea"; "burned_area"; "areaburned";
            "totalarea"; "totalburned"; "areahectares"; "hectares" ]%string.

(** [findOne] (lines 58-61): the trimmed header cell at the first index whose
    key is one of the aliases, or [null]. *)
Definition findOne (h norm aliases : list jsstring) : value :=
  let i := findIndex (fun k => mem k aliases) norm in
  if (0 <=? i)%Z then element h i else VNull.

Record columns := { yearCol : value; regionCol : value; areaCol : value }.

(** [detectColumns] (lines 55-67) *)
Definition detectColumns (headerCells : list jsstring) : columns :=
  let h := map trim headerCells in
  let norm := map header_key h in
  {| yearCol := findOne h norm year_aliases;
     regionCol := findOne h norm region_aliases;
     areaCol := findOne h norm area_aliases |}.

(** [header.forEach((key, i) => (obj[key] = cells[i]))] (line 79): a later
    cell overwrites an earlier one under the same header, and a missing cell
    is stored as [undefined]. *)
Fixpoint fill (obj : object value) (header cells : list jsstring) : object value :=
  match header with
  | [] => obj
  | key :: hs =>
      fill (set obj key (match cells with c :: _ => VString c | [] => VUndefined end))
           hs (tl cells)
  end.

(** The three raw cells of a line (lines 81-83). *)
Definition raw_cells (obj : object value) (cols : columns) : value * value * value :=
  let regionRaw :=
    coalesce
      (coalesce
         (coalesce
            (coalesce
               (coalesce
                  (coalesce
                     (coalesce (get obj (ToString (regionCol cols)))
                               (get obj (str "RegionCode")))
                     (get obj (str "Province")))
                  (get obj (str "Region")))
               (get obj (str "PRNAME")))
            (get obj (str "PRENAME")))
         (get obj (str "name")))
      (get obj (str "NAME")) in
  let areaRaw :=
    coalesce
      (coalesce
         (coalesce (get obj (ToString (areaCol cols))) (get obj (str "Area_ha")))
         (get obj (str "Area")))
      (get obj (str "BurnedArea")) in
  let yearRaw :=
    coalesce (coalesce (get obj (ToString (yearCol cols))) (get obj (str "YEAR")))
             (get obj (str "Year")) in
  (regionRaw, areaRaw, yearRaw).

(** The callback of [lines.slice(1).map] (lines 77-93). *)
Definition parse_line (header : list jsstring) (cols : columns) (line : jsstring)
    : completion row :=
  let cells := split 0x2C%N line in
  let obj := fill [] header cells in
  let '(regionRaw, areaRaw, yearRaw) := raw_cells obj cols in
  parseCSV_row regionRaw areaRaw yearRaw.

(** The non-empty lines of a text (line 71). *)
Definition lines_of (text : jsstring) : list jsstring :=
  filter (fun l => ToBoolean (VString l))
         (split 0x0A%N (filter (fun c => negb (N.eqb c 0x0D%N)) text)).

(** [parseCSV] (lines 70-94) *)
Definition parseCSV (text : jsstring) : completion (list row) :=
  match lines_of text with
  | [] => Normal []
  | first :: rest =>
      let header := split 0x2C%N first in
      map_completion (parse_line header (detectColumns header)) rest
  end.

(** A GeoJSON point feature as [totalsToGeoJSON] builds it (lines 112-116);
    the coordinates are longitude first. *)
Record feature :=
  { coordinates : float * float; province : jsstring; total_burned_ha : float }.

(** The callback of [Object.entries(totals).map] (lines 110-117).  The
    destructuring of [CENTROIDS[code]] throws when that is not an array. *)
Definition feature_of (entry : jsstring * value) : completion feature :=
  let '(code, area) := entry in
  match own code CENTROIDS with
  | Some (lat, lon) =>
      Normal {| coordinates := (lon, lat); province := code;
                total_burned_ha := Num.round (ToNumber area) |}
  | None => Throw (str "TypeError: CENTROIDS[code] is not iterable")
  end.

(** [totalsToGeoJSON] (lines 109-119): the features of the collection. *)
Definition totalsToGeoJSON (totals : object value) : completion (list feature) :=
  map_completion feature_of totals.

(** The largest total, as the marker layer computes it (line 378):
    [features.map(f => f.properties.total_burned_ha || 0)
       .reduce((a, b) => Math.max(a, b), 0)]. *)
Definition maxTotal (features : list feature) : float :=
  fold_left Num.max
    (map (fun f => if Num.truthy (total_burned_ha f) then total_burned_ha f else 0)
         features)
    0.

(** The radius of the marker of a feature (lines 376-379). *)
Definition markerRadius (features : list feature) (f : feature) : float :=
  radiusFor (total_burned_ha f) (maxTotal features).

(** [Number(s) || 0], as the wind form reads a box (lines 232, 240). *)
Definition number_or_zero (s : jsstring) : float :=
  let n := Conv.StringToNumber s in if Num.truthy n then n else 0.

(** The length of the shaft of the arrow, in km (line 240), and of its
    head (line 242). *)
Definition shaftLength (speed : jsstring) : float :=
  Num.max 5 (Num.min 25 (number_or_zero speed * 0.8)).

Definition headLength (lengthKm : float) : float := Num.max 2 (lengthKm * 0.35).

(** The state of the wind form (lines 194-200): the text of each box. *)
Record windForm :=
  { speed : jsstring; dirFrom : jsstring; env : jsstring;
    slopePct : jsstring; slopeDirTo : jsstring }.

(** A slope box (lines 229-230): NaN when it is empty. *)
Definition slopeVal (s : jsstring) : float :=
  if eqb s [] then nan else Conv.StringToNumber s.

Section WithMath.

Variable M : MathLib.

(** The spread vector [(u, v)] of [predictHeading] (lines 139-152). *)
Definition spreadVector (speedKmh dirFromDeg : float) (env : jsstring)
    (slopePct slopeDirTo : float) : float * float :=
  let headingTo := mod360 (dirFromDeg + 180) in
  let speedMs := speedKmh / 3.6 in
  let waf := ToNumber (coalesce (get WAF env) (VNumber 0.7)) in
  let u := waf * speedMs * cos M (toRad headingTo) in
  let v := waf * speedMs * sin M (toRad headingTo) in
  if Num.isFinite slopePct && Num.isFinite slopeDirTo then
    let push := 0.02 * (slopePct / 10) in
    (u + push * cos M (toRad slopeDirTo), v + push * sin M (toRad slopeDirTo))
  else (u, v).

(** [predictHeading] (lines 137-156) *)
Definition predictHeading (speedKmh dirFromDeg : float) (env : jsstring)
    (slopePct slopeDirTo : float) : heading :=
  let '(u, v) := spreadVector speedKmh dirFromDeg env slopePct slopeDirTo in
  let heading := mod360 (toDeg (atan2 M v u)) in
  {| headingDeg := heading; compass := compassFromDeg heading |}.

(** [destPoint] (lines 159-167) *)
Definition destPoint (lat lon bearingDeg distanceKm : float) : float * float :=
  let R := 6371 in
  let brng := toRad bearingDeg in
  let phi1 := toRad lat in
  let lambda1 := toRad lon in
  let dR := distanceKm / R in
  let phi2 := asin M (sin M phi1 * cos M dR + cos M phi1 * sin M dR * cos M brng) in
  let lambda2 :=
    lambda1 + atan2 M (sin M brng * sin M dR * cos M phi1)
                      (cos M dR - sin M phi1 * sin M phi2) in
  (phi2 * 180 / Num.PI, Num.rem (lambda2 * 180 / Num.PI + 540) 360 - 180).

(** The heading shown for the wind form (lines 231-233): none while the
    speed or the direction box is empty. *)
Definition windResult (w : windForm) : option heading :=
  if negb (eqb (speed w) []) && negb (eqb (dirFrom w) [])
  then Some (predictHeading (number_or_zero (speed w)) (number_or_zero (dirFrom w))
                            (env w) (slopeVal (slopePct w)) (slopeVal (slopeDirTo w)))
  else None.

(** The arrow over the home point (lines 236-245): its start, its end and
    the ends of its two barbs, each as latitude and longitude. *)
Record arrow :=
  { arrow_start : float * float; arrow_end : float * float;
    arrow_left : float * float; arrow_right : float * float }.

Definition arrowLine (home : float * float) (res : heading) (speed : jsstring) : arrow :=
  let '(lat, lon) := home in
  let lengthKm := shaftLength speed in
  let tip := destPoint lat lon (headingDeg res) lengthKm in
  let head := headLength lengthKm in
  {| arrow_start := (lat, lon);
     arrow_end := tip;
     arrow_left := destPoint (fst tip) (snd tip) (headingDeg res - 155) head;
     arrow_right := destPoint (fst tip) (snd tip) (headingDeg res + 155) head |}.

End WithMath.

End App.

(** ** A reference [Math] library

    Every function evaluates its series in fixed point with [W] fractional
    bits, far below half a unit in the last place of a Number, keeps the
    result inside the range of the function and rounds it once.  The special
    values are the ones ECMAScript prescribes. *)

Module RefMath.

Local Open Scope Z_scope.

(** Fractional bits of the series, and of the constant used to reduce
    arguments as large as [2^1024]. *)
Definition W : Z := 320.
Definition P : Z := 1408.

(** [atan (1/n) * 2^P'] by its alternating series; [pw] is [2^P' / n^(2k+1)]. *)
Fixpoint atan_inv (fuel : nat) (n2 pw k : Z) (neg : bool) : Z :=
  match fuel with
  | O => 0
  | S f =>
      let t := pw / (2 * k + 1) in
      (if neg then - t else t) + atan_inv f n2 (pw / n2) (k + 1) (negb neg)
  end.

(** [π * 2^P], by Machin's formula with 64 guard bits. *)
Definition pi_P : Z :=
  Eval vm_compute in
    (let one := 2 ^ (P + 64) in
     (16 * atan_inv 340 25 (one / 5) 0 false
      - 4 * atan_inv 100 (239 * 239) (one / 239) 0 false) / 2 ^ 64).

Definition pi_W : Z := pi_P / 2 ^ (P - W).
Definition one_W : Z := 2 ^ W.

(** Round a fixed-point value with [W] fractional bits to a Number. *)
Definition of_fixed (z : Z) : float := Num.of_dyadic z (- W) false.

Definition clamp (lo hi z : Z) : Z := Z.max lo (Z.min hi z).

(** The series of sine ([t] starts as [r], [n] as 1) and of cosine ([t]
    starts as 1, [n] as 0): the term after [t] is [- t r^2 / ((n+1)(n+2))]. *)
Fixpoint series (fuel : nat) (r2 t n : Z) : Z :=
  match fuel with
  | O => 0
  | S f => t + series f r2 (- (t * r2 / one_W) / ((n + 1) * (n + 2))) (n + 2)
  end.

Definition sin_fx (r : Z) : Z := series 48 (r * r / one_W) r 1.
Definition cos_fx (r : Z) : Z := series 48 (r * r / one_W) one_W 0.

(** The argument [x = v * 2^e] reduced to [r] in [-π/4, π/4] with its
    quadrant: [x = r + k π/2]. *)
Definition reduce (v e : Z) : Z * Z :=
  let X := Z.shiftl v (e + P) in
  let hp := pi_P / 2 in
  let k := (X + hp / 2) / hp in
  ((X - k * hp) / 2 ^ (P - W), k mod 4).

Definition tiny (m : positive) (e : Z) : bool := Z.log2 (Zpos m) + 1 + e <? -27.

Definition signed (s : bool) (m : positive) : Z := if s then Zneg m else Zpos m.

Definition ref_sin (x : float) : float :=
  match Prim2SF x with
  | S754_zero _ => x
  | S754_finite s m e =>
      if tiny m e then x
      else
        let '(r, q) := reduce (signed s m) e in
        let y := if q =? 0 then sin_fx r
                 else if q =? 1 then cos_fx r
                 else if q =? 2 then - sin_fx r
                 else - cos_fx r in
        of_fixed (clamp (- one_W) one_W y)
  | _ => nan
  end.

Definition ref_cos (x : float) : float :=
  match Prim2SF x with
  | S754_zero _ => 1%float
  | S754_finite s m e =>
      if tiny m e then 1%float
      else
        let '(r, q) := reduce (signed s m) e in
        let y := if q =? 0 then cos_fx r
                 else if q =? 1 then - sin_fx r
                 else if q =? 2 then - cos_fx r
                 else sin_fx r in
        of_fixed (clamp (- one_W) one_W y)
  | _ => nan
  end.

(** [atan t * 2^W] for [0 <= t <= 1] in fixed point: the argument is halved
    six times by [atan t = 2 atan (t / (1 + sqrt (1 + t^2)))], then the
    series is summed. *)
Definition halve (t : Z) : Z :=
  t * one_W / (one_W + Z.sqrt ((one_W + t * t / one_W) * one_W)).

Fixpoint atan_series (fuel : nat) (t2 pw k : Z) (neg : bool) : Z :=
  match fuel with
  | O => 0
  | S f =>
      let t := pw / (2 * k + 1) in
      (if neg then - t else t) + atan_series f t2 (pw * t2 / one_W) (k + 1) (negb neg)
  end.

Definition atan_fx (t : Z) : Z :=
  let t6 := halve (halve (halve (halve (halve (halve t))))) in
  64 * atan_series 40 (t6 * t6 / one_W) t6 0 false.

(** [atan (n / d) * 2^W] for non-negative [n] and positive [d]. *)
Definition atan_ratio (n d : Z) : Z :=
  if n <=? d then atan_fx (n * one_W / d)
  else pi_W / 2 - atan_fx (d * one_W / n).

(** The angle in [0, π] of the point [(x, |y|)], both finite and non-zero. *)
Definition angle (my : positive) (ey : Z) (sx : bool) (mx : positive) (ex : Z) : float :=
  let e := Z.min ey ex in
  let n := Z.shiftl (Zpos my) (ey - e) in
  let d := Z.shiftl (Zpos mx) (ex - e) in
  if negb sx && (n * 2 ^ 60 <? d) then Num.of_ratio false (Z.to_pos n) (Z.to_pos d)
  else
    let a := atan_ratio n d in
    of_fixed (clamp 0 pi_W (if sx then pi_W - a else a)).

Definition ref_atan2 (y x : float) : float :=
  let with_sign (s : bool) (a : float) := if s then (- a)%float else a in
  match Prim2SF y, Prim2SF x with
  | S754_nan, _ | _, S754_nan => nan
  | S754_zero sy, (S754_zero sx | S754_finite sx _ _ | S754_infinity sx) =>
      with_sign sy (if sx then of_fixed pi_W else PrimFloat.zero)
  | S754_infinity sy, S754_infinity sx =>
      with_sign sy (of_fixed (if sx then 3 * pi_W / 4 else pi_W / 4))
  | S754_infinity sy, _ => with_sign sy (of_fixed (pi_W / 2))
  | S754_finite sy _ _, S754_zero _ => with_sign sy (of_fixed (pi_W / 2))
  | S754_finite sy _ _, S754_infinity sx =>
      with_sign sy (if sx then of_fixed pi_W else PrimFloat.zero)
  | S754_finite sy my ey, S754_finite sx mx ex => with_sign sy (angle my ey sx mx ex)
  end.

Definition ref_asin (x : float) : float :=
  match Prim2SF x with
  | S754_zero _ => x
  | S754_finite s m e =>
      if tiny m e then x
      else if 0 <? Z.log2 (Zpos m) + 1 + e then
        (* 1 <= |x| *)
        if (abs x =? 1)%float then (if s then - of_fixed (pi_W / 2) else of_fixed (pi_W / 2))%float
        else nan
      else
        let xf := Z.shiftl (Zpos m) (e + W) in
        let c := Z.sqrt (one_W * one_W - xf * xf) in
        let a := if c =? 0 then pi_W / 2 else atan_ratio xf c in
        let r := of_fixed (clamp 0 (pi_W / 2) a) in
        if s then (- r)%float else r
  | _ => nan
  end.

Definition lib : MathLib :=
  {| cos := ref_cos; sin := ref_sin; atan2 := ref_atan2; asin := ref_asin |}.

End RefMath.

(** ** Vocabulary of the statements *)

Module Spec.

Import Str JS.

(** The thirteen canonical region codes. *)
Definition codes : list jsstring := map fst App.CENTROIDS.

(** A character that the normalisation of a name drops: every code point
    of its canonical decomposition has the [Diacritic] property. *)
Definition is_accent (c : N) : bool :=
  forallb Unicode.is_diacritic (Unicode.decompose c).

(** The code point [c] writes the key character [k]: it is [k] in either
    case, or a precomposed letter whose base letter is [k] in either case. *)
Definition spells_char (k c : N) : bool :=
  Str.eqb (Unicode.lower_point (hd c (Unicode.decompose c))) [k].

Fixpoint forall2b {A B} (f : A -> B -> bool) (l : list A) (l' : list B) : bool :=
  match l, l' with
  | [], [] => true
  | a :: r, b :: r' => f a b && forall2b f r r'
  | _, _ => false
  end.

(** [s] is a spelling of [key] up to letter case and diacritics: once the
    accents are dropped, its code points write the characters of [key] one
    for one. *)
Definition spells (key s : jsstring) : bool :=
  forall2b spells_char key
           (filter (fun c => negb (is_accent c)) (Unicode.code_points s)).

(** The values ECMAScript prescribes for [Math.atan2] at the zeros. *)
Definition atan2_at_zeros (M : MathLib) : Prop :=
  atan2 M PrimFloat.zero PrimFloat.zero = PrimFloat.zero
  /\ atan2 M neg_zero PrimFloat.zero = neg_zero
  /\ atan2 M PrimFloat.zero neg_zero = Num.PI
  /\ atan2 M neg_zero neg_zero = (- Num.PI)%float.

(** How the tests on a Number determine its specification. *)
Inductive classified (x : float) : spec_float -> Prop :=
| classified_nan : is_nan x = true -> classified x S754_nan
| classified_zero :
    is_nan x = false -> is_zero x = true -> classified x (S754_zero (get_sign x))
| classified_infinity :
    is_nan x = false -> is_zero x = false -> is_infinity x = true ->
    classified x (S754_infinity (get_sign x))
| classified_finite m e :
    is_nan x = false -> is_zero x = false -> is_infinity x = false ->
    classified x (S754_finite (get_sign x) m e).

(** *** What the heading computation assumes of [Math] *)

(** [lo <= x <= hi] on Numbers; it fails when [x] is NaN. *)
Definition within (lo hi x : float) : Prop :=
  (lo <=? x)%float = true /\ (x <=? hi)%float = true.

(** What the heading computation needs of the host's [Math]: cosines and
    sines of finite arguments lie in [[-1, 1]], and [Math.atan2] is a Number
    for Numbers and lies in [[-π, π]] whenever it is not NaN. *)
Definition math_ok (M : MathLib) : Prop :=
  (forall x, is_finite x = true -> within (-1) 1 (cos M x))
  /\ (forall x, is_finite x = true -> within (-1) 1 (sin M x))
  /\ (forall y x, is_nan y = false -> is_nan x = false -> is_nan (atan2 M y x) = false)
  /\ (forall y x, is_nan (atan2 M y x) = false ->
                  within (- Num.PI) Num.PI (atan2 M y x)).

(** *** The destination point, as the specification words it *)

Local Open Scope float_scope.

(** A longitude in degrees brought back to one turn around zero. *)
Definition normalize_longitude (deg : float) : float := Num.rem (deg + 540) 360 - 180.

(** The destination on a sphere of radius 6371 km, by the forward formula
    of the spherical law of cosines: angles in degrees at the boundary and
    in radians inside. *)
Definition forward_geodesic (M : MathLib) (lat lon bearing distance : float)
    : float * float :=
  let phi1 := lat * Num.PI / 180 in
  let lambda1 := lon * Num.PI / 180 in
  let theta := bearing * Num.PI / 180 in
  let delta := distance / 6371 in
  let phi2 :=
    asin M (sin M phi1 * cos M delta + cos M phi1 * sin M delta * cos M theta) in
  let lambda2 :=
    lambda1 + atan2 M (sin M theta * sin M delta * cos M phi1)
                      (cos M delta - sin M phi1 * sin M phi2) in
  (phi2 * 180 / Num.PI, normalize_longitude (lambda2 * 180 / Num.PI)).

Local Close Scope float_scope.

(** *** The aggregation, as the specification words it *)

(** A record is included when its region is one of the thirteen codes and
    its area is a finite Number. *)
Definition included (r : App.row) : bool :=
  mem (App.region r) codes && Num.isFinite (App.toNum (App.area_ha r)).

(** The included areas of region [k], in input order. *)
Definition areas_of (k : jsstring) (rows : list App.row) : list float :=
  map (fun r => App.toNum (App.area_ha r))
      (filter (fun r => eqb (App.region r) k && included r) rows).

(** Summation from the left, starting at [+0]. *)
Definition float_sum (xs : list float) : float := fold_left PrimFloat.add xs PrimFloat.zero.

(** The regions that have an included record, in order of first occurrence. *)
Definition regions_of (rows : list App.row) : list jsstring :=
  fold_left (fun ks r => if included r && negb (mem (App.region r) ks)
                         then ks ++ [App.region r] else ks) rows [].

Definition totals_spec (rows : list App.row) : object value :=
  map (fun k => (k, VNumber (float_sum (areas_of k rows)))) (regions_of rows).

(** The total of region [k]: absent when no record of [k] is included. *)
Definition total_of (k : jsstring) (rows : list App.row) : option value :=
  match areas_of k rows with
  | [] => None
  | xs => Some (VNumber (float_sum xs))
  end.

(** The arithmetic sum of areas that are whole numbers. *)
Definition whole_sum (xs : list float) : Z :=
  fold_right (fun v acc => match as_index v with Some z => z + acc | None => acc end) 0 xs.

(** Every area is a whole number that is at least zero. *)
Definition all_whole (xs : list float) : Prop :=
  Forall (fun v => as_index v <> None) xs.

(** The record that [parseCSV] builds for a line with the region cell [k],
    the area cell [area] and no year. *)
Definition record (k area : string) : App.row :=
  match App.parseCSV_row (VString (str k)) (VString (str area)) VUndefined with
  | Normal r => r
  | Throw _ => {| App.region := []; App.area_ha := VUndefined; App.year := VUndefined |}
  end.

(** *** Tests over the character tables, used by the proofs *)

Import Unicode.
Local Open Scope N_scope.

(** Code units from [lo] upwards, [n] of them. *)
Fixpoint chars_from (lo : N) (n : nat) : list N :=
  match n with
  | O => []
  | S k => lo :: chars_from (N.succ lo) k
  end.

(** The white space code units, listed. *)
Definition whitespace_chars : list N :=
  chars_from 0x09 5 ++ [0x20; 0xA0; 0x1680] ++ chars_from 0x2000 11
  ++ [0x2028; 0x2029; 0x202F; 0x205F; 0x3000; 0xFEFF].

(** A character of a key of the name table: Basic Latin, no diacritic. *)
Definition key_char_ok (k : N) : bool := (k <? 128) && negb (is_diacritic k).

(** A code point that is not a surrogate. *)
Definition is_scalar (p : N) : bool := ((p <? 0xD800) || (0xDFFF <? p)) && (p <? 0x110000).

(** What the proof needs of a canonical decomposition [d], as a test: when
    its first code point writes a character of a key, that code point is a
    starter of Basic Latin and no diacritic, and the others are diacritics. *)
Definition decomposition_ok (d : list N) : bool :=
  match lower_point (hd 0 d) with
  | [k] => implb (key_char_ok k)
                 (key_char_ok (hd 0 d) && (ccc (hd 0 d) =? 0) && forallb is_diacritic (tl d))
  | _ => true
  end.

(** Of a lower-case mapping: only Basic Latin and the Kelvin sign map to a
    character of Basic Latin, and no mapping holds a capital of Basic Latin. *)
Definition lower_entry_ok (e : N * list N) : bool :=
  match snd e with
  | [k] => implb (k <? 128) ((fst e <? 128) || (fst e =? 0x212A))
  | _ => true
  end
  && forallb (fun x => negb (in_range 0x41 0x5A x)) (snd e).

(** Of an upper-case mapping: it holds no small letter of Basic Latin. *)
Definition upper_entry_ok (e : N * list N) : bool :=
  forallb (fun x => negb (in_range 0x61 0x7A x)) (snd e).

(** Of a white space character: it is no accent, and the key character it
    writes, if any, is white space. *)
Definition whitespace_ok (c : N) : bool :=
  negb (is_accent c) && negb (is_lead c) && negb (is_trail c)
  && match lower_point (hd c (decompose c)) with
     | [k] => is_whitespace k
     | _ => true
     end.

(** A code point of a decomposed spelling: a mark is a diacritic; every
    code point is a diacritic or a character of a key. *)
Definition mark_ok (d : N) : bool := implb (negb (ccc d =? 0)) (is_diacritic d).
Definition plain_ok (d : N) : bool := is_diacritic d || key_char_ok d.

(** What the proof needs of one entry of [NAME_TO_CODE], as a test. *)
Definition entry_ok (kv : jsstring * value) : bool :=
  let key := fst kv in
  forallb key_char_ok key
  && negb (is_whitespace (hd 0 key)) && negb (is_whitespace (last key 0))
  && (2 <? N.of_nat (List.length key))
  && Str.eqb (trim key) key
  && match snd kv, get App.NAME_TO_CODE key with
     | VString code, VString code' =>
         Str.eqb code code' && Str.eqb (toUpperCase code) code
         && negb (Str.eqb code [])
     | _, _ => false
     end.

End Spec.

(** ** Vocabulary of rounding

    The value of a Number as a real, the position of a real between two
    neighbouring multiples of a power of two, and what it means for an
    operation to return the correctly rounded result. *)

Module Round.

Local Open Scope R_scope.

Definition bpow (e : Z) : R := powerRZ 2 e.

(** Where the real [v] lies in [[m * 2^e, (m + 1) * 2^e)]. *)
Definition located (v : R) (m e : Z) (l : location) : Prop :=
  match l with
  | loc_Exact => v = IZR m * bpow e
  | loc_Inexact Lt => IZR m * bpow e < v < (IZR m + / 2) * bpow e
  | loc_Inexact Eq => v = (IZR m + / 2) * bpow e
  | loc_Inexact Gt => (IZR m + / 2) * bpow e < v < (IZR m + 1) * bpow e
  end.

Abbreviation emin := (-1074)%Z.

(** The grid on which a value is rounded: exponent at least [emin], fewer
    than 54 bits, and 53 bits unless the exponent is [emin]. *)
Definition canonical (m e : Z) : Prop :=
  (emin <= e)%Z /\ (0 <= m < 9007199254740992)%Z
  /\ (e = emin \/ 4503599627370496 <= m)%Z.

(** [v] rounds to [r]: [v] sits at a canonical position whose mantissa,
    rounded to nearest with ties to even, gives [r]. *)
Definition rounds_to (v r : R) : Prop :=
  exists m e l,
    canonical m e /\ located v m e l /\ r = IZR (round_nearest_even m l) * bpow e.

Definition sgn (s : bool) : R := if s then -1 else 1.

(** The value of a Number; an infinity counts as [2^1024], which is larger
    than every finite Number, so that the order of Numbers is the order of
    their values. *)
Definition SFval (x : spec_float) : R :=
  match x with
  | S754_zero _ | S754_nan => 0
  | S754_infinity s => sgn s * bpow 1024
  | S754_finite s m e => sgn s * (IZR (Zpos m) * bpow e)
  end.

Definition has_sign (s : bool) (x : spec_float) : Prop :=
  match x with
  | S754_zero s' | S754_infinity s' | S754_finite s' _ _ => s' = s
  | S754_nan => False
  end.

Definition rounds (v r : R) : Prop :=
  (0 <= v /\ rounds_to v r) \/ (v <= 0 /\ rounds_to (- v) (- r)).

(** Overflow: a magnitude of [2^1024] or more becomes an infinity. *)
Definition clip (r : R) : R := Rmax (- bpow 1024) (Rmin r (bpow 1024)).

Definition finite_sf (x : spec_float) : Prop :=
  match x with
  | S754_zero _ | S754_finite _ _ _ => True
  | _ => False
  end.

(** What an operation returns for the exact result [v]: the Number whose
    value is [v] rounded, or an infinity when that overflows. *)
Definition returns (v : R) (x : spec_float) : Prop :=
  exists r, rounds v r /\ SFval x = clip r /\ valid_binary x = true /\ x <> S754_nan.

(** The value of a Number. *)
Definition FV (x : float) : R := SFval (Prim2SF x).

(** The Number [x] is what an operation returns for the exact result [v]. *)
Definition yields (v : R) (x : float) : Prop := returns v (Prim2SF x).

Definition finiteF (x : float) : Prop := finite_sf (Prim2SF x).

End Round.

(** ** The accuracy of [Math] along the axes *)

Module Accuracy.
Import Round.
Local Open Scope R_scope.

End Accuracy.

(** * Properties *)

Import Str JS.

Import Spec.

Section Rounding.

Import Round.
Local Open Scope R_scope.

(** ** Rounding to a binary64 Number, over the reals *)

Lemma bpow_gt_0 e : 0 < bpow e.
Proof. apply powerRZ_lt. lra. Qed.

Lemma bpow_plus a b : bpow (a + b) = bpow a * bpow b.
Proof. apply powerRZ_add. lra. Qed.

Lemma bpow_succ e : bpow (e + 1) = 2 * bpow e.
Proof. rewrite bpow_plus. unfold bpow at 2. simpl. lra. Qed.

Lemma bpow_0 : bpow 0 = 1.
Proof. reflexivity. Qed.

Lemma bpow_IZR k : (0 <= k)%Z -> bpow k = IZR (2 ^ k).
Proof.
  intros Hk. rewrite <- (Z2Nat.id k Hk). unfold bpow.
  rewrite <- pow_powerRZ, <- pow_IZR. reflexivity.
Qed.

Lemma bpow_ge_1 k : (0 <= k)%Z -> 1 <= bpow k.
Proof.
  intros Hk. rewrite bpow_IZR by exact Hk. apply IZR_le.
  pose proof (Z.pow_pos_nonneg 2 k). lia.
Qed.

Lemma bpow_le a b : (a <= b)%Z -> bpow a <= bpow b.
Proof.
  intros H. replace b with (a + (b - a))%Z by lia. rewrite bpow_plus.
  pose proof (bpow_gt_0 a). pose proof (bpow_ge_1 (b - a) ltac:(lia)). nra.
Qed.

Lemma bpow_lt a b : (a < b)%Z -> bpow a < bpow b.
Proof.
  intros H. pose proof (bpow_le (a + 1) b ltac:(lia)) as L.
  rewrite bpow_succ in L. pose proof (bpow_gt_0 a). lra.
Qed.

Lemma digits2_bounds p :
  (2 ^ (Zpos (digits2_pos p) - 1) <= Zpos p < 2 ^ Zpos (digits2_pos p))%Z.
Proof.
  induction p as [p IH|p IH|]; cbn [digits2_pos].
  - rewrite Pos2Z.inj_succ, (Pos2Z.inj_xI p).
    replace (Z.succ (Zpos (digits2_pos p)) - 1)%Z with (Z.succ (Zpos (digits2_pos p) - 1)) by lia.
    rewrite !Z.pow_succ_r by lia.
    generalize dependent (2 ^ (Zpos (digits2_pos p) - 1))%Z.
    generalize (2 ^ Zpos (digits2_pos p))%Z. intros; lia.
  - rewrite Pos2Z.inj_succ, (Pos2Z.inj_xO p).
    replace (Z.succ (Zpos (digits2_pos p)) - 1)%Z with (Z.succ (Zpos (digits2_pos p) - 1)) by lia.
    rewrite !Z.pow_succ_r by lia.
    generalize dependent (2 ^ (Zpos (digits2_pos p) - 1))%Z.
    generalize (2 ^ Zpos (digits2_pos p))%Z. intros; lia.
  - simpl. lia.
Qed.

Lemma Zdigits2_bounds m :
  (0 < m)%Z -> (2 ^ (Zdigits2 m - 1) <= m < 2 ^ Zdigits2 m)%Z.
Proof. destruct m; try lia. intros _. apply digits2_bounds. Qed.

Lemma Zdigits2_nonneg m : (0 <= Zdigits2 m)%Z.
Proof. destruct m; simpl; lia. Qed.

(** *** Locations *)

Lemma located_bounds v m e l :
  located v m e l -> IZR m * bpow e <= v < (IZR m + 1) * bpow e.
Proof.
  pose proof (bpow_gt_0 e). destruct l as [|[]]; simpl; intros; nra.
Qed.

Lemma loc_of_shr_record_of_loc m l :
  loc_of_shr_record (shr_record_of_loc m l) = l /\ shr_m (shr_record_of_loc m l) = m.
Proof. destruct l as [|[]]; now split. Qed.

(** One step of the sticky right shift keeps the location of [v]. *)
Lemma shr_1_located v mrs e :
  (0 <= shr_m mrs)%Z ->
  located v (shr_m mrs) e (loc_of_shr_record mrs) ->
  located v (shr_m (shr_1 mrs)) (e + 1) (loc_of_shr_record (shr_1 mrs))
  /\ shr_m (shr_1 mrs) = (shr_m mrs / 2)%Z.
Proof.
  destruct mrs as [m r s]. cbn [shr_m]. intros Hm H.
  pose proof (bpow_gt_0 e) as Hb. pose proof (bpow_succ e) as Hs.
  destruct m as [|p|p]; [| |lia].
  - split; [|reflexivity].
    destruct r, s; cbn [shr_1 loc_of_shr_record shr_m orb located] in *;
      rewrite ?Hs; lra.
  - destruct p as [p|p|].
    + split.
      * pose proof (IZR_POS_xI p) as E.
        destruct r, s; cbn [shr_1 loc_of_shr_record shr_m orb located] in *;
          rewrite ?Hs; rewrite ?E in H; nra.
      * cbn [shr_1 shr_m]. rewrite (Pos2Z.inj_xI p).
        apply Z.div_unique with 1%Z; lia.
    + split.
      * pose proof (IZR_POS_xO p) as E.
        destruct r, s; cbn [shr_1 loc_of_shr_record shr_m orb located] in *;
          rewrite ?Hs; rewrite ?E in H; nra.
      * cbn [shr_1 shr_m]. rewrite (Pos2Z.inj_xO p).
        apply Z.div_unique with 0%Z; lia.
    + split; [|reflexivity].
      destruct r, s; cbn [shr_1 loc_of_shr_record shr_m orb located] in *;
        rewrite ?Hs; lra.
Qed.

Lemma iter_shr_located v p : forall mrs e,
  (0 <= shr_m mrs)%Z ->
  located v (shr_m mrs) e (loc_of_shr_record mrs) ->
  located v (shr_m (SpecFloat.iter_pos shr_1 p mrs)) (e + Zpos p)
          (loc_of_shr_record (SpecFloat.iter_pos shr_1 p mrs))
  /\ shr_m (SpecFloat.iter_pos shr_1 p mrs) = (shr_m mrs / 2 ^ Zpos p)%Z.
Proof.
  assert (D : forall a b c, (0 < b -> 0 < c -> a / b / c = a / (b * c))%Z).
  { intros. apply Z.div_div; lia. }
  assert (P : forall q, (0 < 2 ^ Zpos q)%Z) by (intros; apply Z.pow_pos_nonneg; lia).
  induction p as [p IH|p IH|]; intros mrs e Hm H; cbn [SpecFloat.iter_pos].
  - destruct (shr_1_located v mrs e Hm H) as [H1 E1].
    assert (Hm1 : (0 <= shr_m (shr_1 mrs))%Z) by (rewrite E1; apply Z.div_pos; lia).
    destruct (IH _ _ Hm1 H1) as [H2 E2].
    assert (Hm2 : (0 <= shr_m (SpecFloat.iter_pos shr_1 p (shr_1 mrs)))%Z).
    { rewrite E2. apply Z.div_pos; [exact Hm1 | apply P]. }
    destruct (IH _ _ Hm2 H2) as [H3 E3]. split.
    + replace (e + Zpos p~1)%Z with (e + 1 + Zpos p + Zpos p)%Z by lia. exact H3.
    + rewrite E3, E2, E1, !D by (try apply P; lia). f_equal.
      replace (Zpos p~1) with (1 + Zpos p + Zpos p)%Z by lia.
      rewrite !Z.pow_add_r by lia. change (2 ^ 1)%Z with 2%Z. ring.
  - destruct (IH _ _ Hm H) as [H2 E2].
    assert (Hm2 : (0 <= shr_m (SpecFloat.iter_pos shr_1 p mrs))%Z).
    { rewrite E2. apply Z.div_pos; [exact Hm | apply P]. }
    destruct (IH _ _ Hm2 H2) as [H3 E3]. split.
    + replace (e + Zpos p~0)%Z with (e + Zpos p + Zpos p)%Z by lia. exact H3.
    + rewrite E3, E2, !D by (try apply P; lia). f_equal.
      replace (Zpos p~0) with (Zpos p + Zpos p)%Z by lia.
      rewrite !Z.pow_add_r by lia. ring.
  - destruct (shr_1_located v mrs e Hm H) as [H1 E1]. split; [exact H1|].
    rewrite E1. reflexivity.
Qed.

Lemma shr_located v mrs e n :
  (0 <= shr_m mrs)%Z ->
  located v (shr_m mrs) e (loc_of_shr_record mrs) ->
  located v (shr_m (fst (shr mrs e n))) (snd (shr mrs e n))
          (loc_of_shr_record (fst (shr mrs e n)))
  /\ snd (shr mrs e n) = (e + Z.max 0 n)%Z
  /\ shr_m (fst (shr mrs e n)) = (shr_m mrs / 2 ^ Z.max 0 n)%Z.
Proof.
  intros Hm H. destruct n as [|p|p]; cbn [shr fst snd].
  - rewrite Z.add_0_r. repeat split; [exact H|]. cbn. now rewrite Z.div_1_r.
  - destruct (iter_shr_located v p mrs e Hm H) as [H1 E1].
    rewrite Z.max_r by lia. now repeat split.
  - rewrite Z.max_l by lia. rewrite Z.add_0_r. repeat split; [exact H|].
    cbn. now rewrite Z.div_1_r.
Qed.

(** *** Canonical positions of binary64 *)

Lemma fexp_eq e : fexp prec emax e = Z.max (e - 53) emin.
Proof. reflexivity. Qed.

Lemma two53 : (2 ^ 53 = 9007199254740992)%Z.
Proof. reflexivity. Qed.

Lemma two52 : (2 ^ 52 = 4503599627370496)%Z.
Proof. reflexivity. Qed.

Lemma pow2_lt a b : (0 <= a < b -> 2 ^ a < 2 ^ b)%Z.
Proof. intros. apply Z.pow_lt_mono_r; lia. Qed.

Lemma pow2_le a b : (0 <= a <= b -> 2 ^ a <= 2 ^ b)%Z.
Proof. intros. apply Z.pow_le_mono_r; lia. Qed.

Lemma shr_fexp_canonical v m e l :
  (0 <= m)%Z -> (e <= fexp prec emax (Zdigits2 m + e))%Z ->
  located v m e l ->
  let mrs := fst (shr_fexp prec emax m e l) in
  let e' := snd (shr_fexp prec emax m e l) in
  located v (shr_m mrs) e' (loc_of_shr_record mrs) /\ canonical (shr_m mrs) e'.
Proof.
  intros Hm He H. unfold shr_fexp.
  destruct (loc_of_shr_record_of_loc m l) as [L1 L2].
  set (r0 := shr_record_of_loc m l) in *.
  set (n := (fexp prec emax (Zdigits2 m + e) - e)%Z).
  assert (H0 : located v (shr_m r0) e (loc_of_shr_record r0)) by now rewrite L1, L2.
  destruct (shr_located v r0 e n ltac:(lia) H0) as (H1 & E1 & E2).
  cbv zeta. split; [exact H1|].
  rewrite E1, E2, L2. rewrite Z.max_r by (unfold n; lia).
  subst n. rewrite !fexp_eq in *.
  set (d := Zdigits2 m) in *.
  set (e' := Z.max (d + e - 53) emin) in *.
  replace (e + (e' - e))%Z with e' by lia.
  assert (P : (0 < 2 ^ (e' - e))%Z) by (apply Z.pow_pos_nonneg; lia).
  destruct (Z.eq_dec m 0) as [->|Hm0].
  - rewrite Zdiv_0_l. unfold canonical.
    assert (He' : e' = emin) by (subst e' d; cbn [Zdigits2] in *; lia).
    lia.
  - destruct (Zdigits2_bounds m ltac:(lia)) as [B1 B2]. fold d in B1, B2.
    pose proof (Zdigits2_nonneg m) as Hd. fold d in Hd.
    assert (Hd1 : (1 <= d)%Z).
    { destruct (Z.eq_dec d 0) as [E0|]; [|lia]. rewrite E0 in B2. simpl in B2. lia. }
    unfold canonical. split; [subst e'; lia|]. split; [split|].
    + apply Z.div_pos; lia.
    + apply Z.div_lt_upper_bound; [exact P|].
      rewrite <- two53, <- Z.pow_add_r by lia.
      apply Z.lt_le_trans with (1 := B2). apply pow2_le. subst e'. lia.
    + destruct (Z.eq_dec e' emin) as [|Hne]; [now left|right].
      assert (E : (e' - e = d - 53)%Z) by (subst e'; lia).
      rewrite E in *. apply Z.div_le_lower_bound; [exact P|].
      rewrite <- two52, <- Z.pow_add_r by lia.
      replace (d - 53 + 52)%Z with (d - 1)%Z by lia. exact B1.
Qed.

(** *** The rounded value *)

Lemma round_nearest_even_cases m l :
  (round_nearest_even m l = m
   /\ (l = loc_Exact \/ l = loc_Inexact Lt \/ (l = loc_Inexact Eq /\ Z.even m = true)))
  \/ (round_nearest_even m l = (m + 1)%Z
      /\ (l = loc_Inexact Gt \/ (l = loc_Inexact Eq /\ Z.even m = false))).
Proof.
  destruct l as [|[]]; cbn [round_nearest_even]; auto.
  destruct (Z.even m); auto 6.
Qed.

Lemma rounds_to_nonneg v r : rounds_to v r -> 0 <= v /\ 0 <= r.
Proof.
  intros (m & e & l & (_ & Hm & _) & H & ->).
  pose proof (bpow_gt_0 e). pose proof (located_bounds _ _ _ _ H).
  assert (0 <= IZR m) by (apply IZR_le; lia).
  assert (0 <= IZR (round_nearest_even m l)).
  { apply IZR_le. destruct (round_nearest_even_cases m l) as [[-> _]|[-> _]]; lia. }
  split; nra.
Qed.

Lemma rounds_to_exact m e : canonical m e -> rounds_to (IZR m * bpow e) (IZR m * bpow e).
Proof. intros H. exists m, e, loc_Exact. repeat split; try apply H; reflexivity. Qed.

Lemma bpow_53 : bpow 53 = IZR 9007199254740992.
Proof. rewrite bpow_IZR by lia. reflexivity. Qed.

Lemma bpow_52 : bpow 52 = IZR 4503599627370496.
Proof. rewrite bpow_IZR by lia. reflexivity. Qed.

(** Rounding is monotone. *)
Theorem rounds_to_mono v1 v2 r1 r2 :
  rounds_to v1 r1 -> rounds_to v2 r2 -> v1 <= v2 -> r1 <= r2.
Proof.
  intros (m1 & e1 & l1 & (He1 & Hm1 & Hc1) & H1 & ->)
         (m2 & e2 & l2 & (He2 & Hm2 & Hc2) & H2 & ->) Hv.
  pose proof (located_bounds _ _ _ _ H1) as B1.
  pose proof (located_bounds _ _ _ _ H2) as B2.
  pose proof (bpow_gt_0 e1) as P1. pose proof (bpow_gt_0 e2) as P2.
  assert (R1 : IZR m1 <= IZR (round_nearest_even m1 l1) <= IZR m1 + 1).
  { destruct (round_nearest_even_cases m1 l1) as [[-> _]|[-> _]];
      rewrite ?plus_IZR; lra. }
  assert (R2 : IZR m2 <= IZR (round_nearest_even m2 l2) <= IZR m2 + 1).
  { destruct (round_nearest_even_cases m2 l2) as [[-> _]|[-> _]];
      rewrite ?plus_IZR; lra. }
  assert (U1 : IZR m1 + 1 <= bpow 53).
  { rewrite bpow_53, <- plus_IZR. apply IZR_le. lia. }
  assert (U2 : IZR m2 + 1 <= bpow 53).
  { rewrite bpow_53, <- plus_IZR. apply IZR_le. lia. }
  destruct (Z.lt_trichotomy e1 e2) as [Hlt|[Heq|Hgt]].
  - (* the second value is in a higher binade *)
    assert (L2 : bpow 52 <= IZR m2).
    { rewrite bpow_52. apply IZR_le. lia. }
    pose proof (bpow_le (53 + e1) (52 + e2) ltac:(lia)) as Hb.
    rewrite !bpow_plus in Hb. nra.
  - subst e2.
    assert (Hm : (m1 <= m2)%Z).
    { apply Z.lt_succ_r. apply lt_IZR. rewrite succ_IZR. nra. }
    destruct (Z.eq_dec m1 m2) as [->|Hne].
    + destruct (round_nearest_even_cases m2 l1) as [[-> C1]|[-> C1]];
      destruct (round_nearest_even_cases m2 l2) as [[-> C2]|[-> C2]];
        rewrite ?plus_IZR; try nra.
      exfalso.
      destruct C1 as [->|[-> E1]]; destruct C2 as [->|[->|[-> E2]]];
        cbn [located] in H1, H2; try nra; congruence.
    + assert (IZR m1 + 1 <= IZR m2).
      { rewrite <- succ_IZR. apply IZR_le. lia. }
      nra.
  - exfalso.
    assert (L1 : bpow 52 <= IZR m1).
    { rewrite bpow_52. apply IZR_le. lia. }
    pose proof (bpow_le (53 + e2) (52 + e1) ltac:(lia)) as Hb.
    rewrite !bpow_plus in Hb. nra.
Qed.

Lemma rounds_to_unique v r1 r2 : rounds_to v r1 -> rounds_to v r2 -> r1 = r2.
Proof.
  intros H1 H2. apply Rle_antisym; eapply rounds_to_mono; eauto; lra.
Qed.

(** *** [binary_round_aux] *)

Lemma Zdigits2_le_53 m : (0 <= m < 9007199254740992)%Z -> (Zdigits2 m <= 53)%Z.
Proof.
  intros H. destruct (Z.eq_dec m 0) as [->|]; [simpl; lia|].
  destruct (Zdigits2_bounds m ltac:(lia)) as [B _].
  destruct (Z_le_gt_dec (Zdigits2 m) 53) as [|G]; [assumption|exfalso].
  pose proof (pow2_le 53 (Zdigits2 m - 1) ltac:(lia)). rewrite two53 in *. lia.
Qed.

Lemma Zdigits2_ge_53 m : (4503599627370496 <= m)%Z -> (53 <= Zdigits2 m)%Z.
Proof.
  intros H. destruct (Zdigits2_bounds m ltac:(lia)) as [_ B].
  pose proof (Zdigits2_nonneg m).
  destruct (Z_le_gt_dec 53 (Zdigits2 m)) as [|G]; [assumption|exfalso].
  pose proof (pow2_le (Zdigits2 m) 52 ltac:(lia)). rewrite two52 in *. lia.
Qed.

Lemma bounded_canonical p e :
  canonical (Zpos p) e -> (e <= 971)%Z -> SpecFloat.bounded prec emax p e = true.
Proof.
  intros (He & Hm & Hc) Hle. unfold SpecFloat.bounded, canonical_mantissa.
  apply andb_true_iff. split; [|apply Z.leb_le; exact Hle].
  apply Z.eqb_eq. rewrite fexp_eq.
  pose proof (Zdigits2_le_53 (Zpos p) Hm) as D1. cbn [Zdigits2] in D1.
  destruct Hc as [->|Hc]; [lia|].
  pose proof (Zdigits2_ge_53 (Zpos p) Hc) as D2. cbn [Zdigits2] in D2. lia.
Qed.

Lemma shr_fexp_exact_small m e :
  (emin <= e)%Z -> (0 <= m < 9007199254740992)%Z ->
  shr_fexp prec emax m e loc_Exact = (Build_shr_record m false false, e).
Proof.
  intros He Hm. unfold shr_fexp, shr_record_of_loc. rewrite fexp_eq.
  pose proof (Zdigits2_le_53 m Hm).
  destruct (Z.max (Zdigits2 m + e - 53) emin - e)%Z eqn:E; try reflexivity. lia.
Qed.

Lemma shr_fexp_exact_carry e :
  (emin <= e)%Z ->
  shr_fexp prec emax 9007199254740992 e loc_Exact
  = (Build_shr_record 4503599627370496 false false, (e + 1)%Z).
Proof.
  intros He. unfold shr_fexp, shr_record_of_loc. rewrite fexp_eq.
  change (Zdigits2 9007199254740992) with 54%Z.
  replace (Z.max (54 + e - 53) emin - e)%Z with 1%Z by lia. reflexivity.
Qed.

Lemma bpow_1024_split : bpow 1024 = bpow 53 * bpow 971.
Proof. rewrite <- bpow_plus. reflexivity. Qed.

Theorem binary_round_aux_spec s v m e l :
  (0 <= m)%Z -> (e <= fexp prec emax (Zdigits2 m + e))%Z -> located v m e l ->
  exists r,
    rounds_to v r
    /\ SFval (binary_round_aux prec emax s m e l) = sgn s * Rmin r (bpow 1024)
    /\ valid_binary (binary_round_aux prec emax s m e l) = true
    /\ has_sign s (binary_round_aux prec emax s m e l).
Proof.
  intros Hm He H.
  destruct (shr_fexp_canonical v m e l Hm He H) as [H1 C1].
  unfold binary_round_aux.
  destruct (shr_fexp prec emax m e l) as [mrs' e'] eqn:E1.
  cbn [fst snd] in H1, C1.
  set (m' := shr_m mrs') in *. set (l' := loc_of_shr_record mrs') in *.
  set (m1 := round_nearest_even m' l').
  exists (IZR m1 * bpow e'). split; [now exists m', e', l'|].
  destruct C1 as (Ce & Cm & Cc).
  assert (Hm1 : (m' <= m1 <= m' + 1)%Z).
  { subst m1. destruct (round_nearest_even_cases m' l') as [[-> _]|[-> _]]; lia. }
  pose proof (bpow_gt_0 e') as Pe.
  pose proof bpow_1024_split as S1024. pose proof bpow_53 as B53.
  destruct (Z.eq_dec m1 9007199254740992) as [Ec|Hnc].
  - (* the mantissa carries to the next binade *)
    rewrite Ec, shr_fexp_exact_carry by exact Ce. cbn [shr_m].
    pose proof (bpow_succ e') as Bs.
    destruct (Z.leb_spec (e' + 1) (emax - prec)) as [Hle|Hgt];
      change (emax - prec)%Z with 971%Z in *.
    + cbn [SFval valid_binary has_sign]. repeat split.
      * rewrite Rmin_left.
        -- rewrite Bs. rewrite <- bpow_52.
           replace (bpow 52 * (2 * bpow e')) with (bpow 53 * bpow e').
           ++ rewrite B53. reflexivity.
           ++ change 53%Z with (52 + 1)%Z. rewrite bpow_succ. ring.
        -- pose proof (bpow_le e' 970 ltac:(lia)) as L.
           pose proof (bpow_succ 970) as L'. change (970 + 1)%Z with 971%Z in L'.
           pose proof (bpow_gt_0 53). rewrite S1024, <- B53. nra.
      * apply bounded_canonical; [|lia]. unfold canonical. lia.
    + cbn [SFval valid_binary has_sign]. repeat split.
      rewrite Rmin_right; [reflexivity|].
      pose proof (bpow_le 971 e' ltac:(lia)) as L.
      pose proof (bpow_gt_0 53). rewrite S1024, <- B53. nra.
  - rewrite shr_fexp_exact_small by lia. cbn [shr_m].
    destruct m1 as [|p|p] eqn:Em1; [| |lia].
    + cbn [SFval valid_binary has_sign]. repeat split.
      rewrite Rmult_0_l, Rmin_left; [ring|].
      pose proof (bpow_gt_0 1024). lra.
    + assert (Cp : canonical (Zpos p) e') by (unfold canonical; lia).
      assert (Up : IZR (Zpos p) + 1 <= bpow 53).
      { rewrite B53, <- plus_IZR. apply IZR_le. lia. }
      assert (Lp : 0 < IZR (Zpos p)) by (apply IZR_lt; lia).
      destruct (Z.leb_spec e' (emax - prec)) as [Hle|Hgt];
        change (emax - prec)%Z with 971%Z in *.
      * cbn [SFval valid_binary has_sign]. repeat split.
        -- rewrite Rmin_left; [reflexivity|].
           pose proof (bpow_le e' 971 Hle). rewrite S1024. nra.
        -- now apply bounded_canonical.
      * cbn [SFval valid_binary has_sign]. repeat split.
        rewrite Rmin_right; [reflexivity|].
        assert (L52 : bpow 52 <= IZR (Zpos p)).
        { rewrite bpow_52. apply IZR_le. lia. }
        pose proof (bpow_le 972 e' ltac:(lia)) as L.
        replace (bpow 1024) with (bpow 52 * bpow 972)
          by (rewrite <- bpow_plus; reflexivity).
        pose proof (bpow_gt_0 52). pose proof (bpow_gt_0 972). nra.
Qed.

(** *** Order *)

Lemma sgn_cases s : (s = true /\ sgn s = -1) \/ (s = false /\ sgn s = 1).
Proof. destruct s; auto. Qed.

Lemma bounded_inv p e :
  SpecFloat.bounded prec emax p e = true -> canonical (Zpos p) e /\ (e <= 971)%Z.
Proof.
  unfold SpecFloat.bounded, canonical_mantissa. intros H.
  apply andb_true_iff in H as [H1 H2]. apply Z.eqb_eq in H1. apply Z.leb_le in H2.
  change (emax - prec)%Z with 971%Z in H2. rewrite fexp_eq in H1.
  change (Zpos (digits2_pos p)) with (Zdigits2 (Zpos p)) in H1.
  destruct (Zdigits2_bounds (Zpos p) ltac:(lia)) as [B1 B2].
  pose proof (Zdigits2_nonneg (Zpos p)) as Hd.
  set (d := Zdigits2 (Zpos p)) in *.
  split; [|exact H2]. unfold canonical. split; [lia|]. split; [split; [lia|]|].
  - apply Z.lt_le_trans with (1 := B2). rewrite <- two53. apply pow2_le. lia.
  - destruct (Z.eq_dec e emin) as [|Hne]; [now left|right].
    assert (d = 53%Z) by lia. subst d. rewrite H in B1. exact B1.
Qed.

(** The finite Numbers are below [2^1024] in magnitude and, when they are
    not zero, at least [2^emin]. *)
Lemma finite_val_bounds p e :
  SpecFloat.bounded prec emax p e = true ->
  bpow emin <= IZR (Zpos p) * bpow e < bpow 1024.
Proof.
  intros H. apply bounded_inv in H as ((He & Hm & _) & Hle).
  pose proof (bpow_gt_0 e). pose proof (bpow_le e 971 Hle).
  pose proof (bpow_le emin e He). pose proof (bpow_gt_0 emin).
  assert (1 <= IZR (Zpos p)) by (apply IZR_le; lia).
  assert (IZR (Zpos p) + 1 <= bpow 53).
  { rewrite bpow_53, <- plus_IZR. apply IZR_le. lia. }
  rewrite bpow_1024_split. split; nra.
Qed.

Lemma canonical_lt m1 e1 m2 e2 :
  canonical m1 e1 -> canonical m2 e2 -> (e1 < e2)%Z ->
  IZR m1 * bpow e1 < IZR m2 * bpow e2.
Proof.
  intros (He1 & Hm1 & _) (He2 & Hm2 & Hc2) Hlt.
  assert (L2 : bpow 52 <= IZR m2).
  { rewrite bpow_52. apply IZR_le. lia. }
  assert (U1 : IZR m1 + 1 <= bpow 53).
  { rewrite bpow_53, <- plus_IZR. apply IZR_le. lia. }
  pose proof (bpow_le (53 + e1) (52 + e2) ltac:(lia)) as Hb.
  rewrite !bpow_plus in Hb.
  pose proof (bpow_gt_0 e1). pose proof (bpow_gt_0 e2). nra.
Qed.

(** The comparison of two valid Numbers is the comparison of their values. *)
Lemma SFcompare_val x y :
  valid_binary x = true -> valid_binary y = true ->
  match SFcompare x y with
  | Some Lt => SFval x < SFval y
  | Some Eq => SFval x = SFval y
  | Some Gt => SFval y < SFval x
  | None => x = S754_nan \/ y = S754_nan
  end.
Proof.
  intros Vx Vy. pose proof (bpow_gt_0 1024) as P.
  destruct x as [sx|sx| |sx mx ex], y as [sy|sy| |sy my ey];
    cbn [SFcompare SFval]; auto;
    try (pose proof (finite_val_bounds _ _ Vx) as Bx);
    try (pose proof (finite_val_bounds _ _ Vy) as By);
    try (pose proof (bpow_gt_0 emin) as Pm);
    try (destruct sx; cbn [sgn]; try lra; destruct sy; cbn [sgn]; lra);
    try (destruct sy; cbn [sgn]; lra).
  cbn [valid_binary] in Vx, Vy.
  apply bounded_inv in Vx as [Cx _]. apply bounded_inv in Vy as [Cy _].
  pose proof (bpow_gt_0 ex). pose proof (bpow_gt_0 ey).
  assert (M : forall a b : positive, (a < b)%positive -> IZR (Zpos a) < IZR (Zpos b)).
  { intros a b Hab. apply IZR_lt. now apply Pos2Z.pos_lt_pos. }
  destruct sx, sy; cbn [sgn]; try lra.
  - destruct (Z.compare_spec ex ey) as [->|Hlt|Hgt].
    + rewrite Pos.compare_cont_spec.
      destruct (Pos.compare_spec mx my) as [->|Hm|Hm]; cbn [Pos.switch_Eq CompOpp].
      * reflexivity.
      * apply M in Hm. nra.
      * apply M in Hm. nra.
    + pose proof (canonical_lt _ _ _ _ Cx Cy Hlt). lra.
    + pose proof (canonical_lt _ _ _ _ Cy Cx Hgt). lra.
  - destruct (Z.compare_spec ex ey) as [->|Hlt|Hgt].
    + rewrite Pos.compare_cont_spec.
      destruct (Pos.compare_spec mx my) as [->|Hm|Hm]; cbn [Pos.switch_Eq].
      * reflexivity.
      * apply M in Hm. nra.
      * apply M in Hm. nra.
    + pose proof (canonical_lt _ _ _ _ Cx Cy Hlt). lra.
    + pose proof (canonical_lt _ _ _ _ Cy Cx Hgt). lra.
Qed.

(** *** Signed rounding *)

Lemma clip_mono a b : a <= b -> clip a <= clip b.
Proof.
  intros H. unfold clip, Rmax, Rmin.
  repeat destruct (Rle_dec _ _); lra.
Qed.

Lemma clip_pos r : 0 <= r -> clip r = Rmin r (bpow 1024).
Proof.
  intros H. pose proof (bpow_gt_0 1024). unfold clip, Rmax, Rmin.
  repeat destruct (Rle_dec _ _); lra.
Qed.

Lemma clip_neg r : 0 <= r -> clip (- r) = - Rmin r (bpow 1024).
Proof.
  intros H. pose proof (bpow_gt_0 1024). unfold clip, Rmax, Rmin.
  repeat destruct (Rle_dec _ _); lra.
Qed.

Lemma clip_small r : - bpow 1024 < r < bpow 1024 -> clip r = r.
Proof.
  intros H. unfold clip, Rmax, Rmin. repeat destruct (Rle_dec _ _); lra.
Qed.

Lemma canonical_zero : canonical 0 emin.
Proof. unfold canonical. lia. Qed.

Lemma rounds_to_zero r : rounds_to 0 r -> r = 0.
Proof.
  intros H. apply (rounds_to_unique 0); [exact H|].
  replace 0 with (IZR 0 * bpow emin) by ring.
  apply rounds_to_exact, canonical_zero.
Qed.

Lemma rounds_mono v1 v2 r1 r2 : rounds v1 r1 -> rounds v2 r2 -> v1 <= v2 -> r1 <= r2.
Proof.
  intros [[P1 H1]|[N1 H1]] [[P2 H2]|[N2 H2]] Hv.
  - eapply rounds_to_mono; eauto.
  - assert (v1 = 0) by lra. assert (v2 = 0) by lra. subst.
    rewrite Ropp_0 in H2. apply rounds_to_zero in H1, H2. lra.
  - apply rounds_to_nonneg in H1, H2. lra.
  - assert (- r2 <= - r1) by (eapply rounds_to_mono; eauto; lra). lra.
Qed.

Lemma rounds_unique v r1 r2 : rounds v r1 -> rounds v r2 -> r1 = r2.
Proof. intros H1 H2. apply Rle_antisym; eapply rounds_mono; eauto; lra. Qed.

Lemma rounds_opp v r : rounds v r -> rounds (- v) (- r).
Proof.
  intros [[P H]|[N H]]; [right|left]; (split; [lra|]).
  - now rewrite !Ropp_involutive.
  - exact H.
Qed.

Lemma rounds_zero : rounds 0 0.
Proof.
  left. split; [lra|]. replace 0 with (IZR 0 * bpow emin) by ring.
  apply rounds_to_exact, canonical_zero.
Qed.

Lemma rounds_signed s v r : rounds_to v r -> rounds (sgn s * v) (sgn s * r).
Proof.
  intros H. pose proof (rounds_to_nonneg _ _ H) as [Hv Hr].
  destruct s; cbn [sgn].
  - right. split; [lra|]. replace (- (-1 * v)) with v by ring.
    replace (- (-1 * r)) with r by ring. exact H.
  - left. split; [lra|]. now rewrite !Rmult_1_l.
Qed.

Lemma clip_signed s r : 0 <= r -> clip (sgn s * r) = sgn s * Rmin r (bpow 1024).
Proof.
  intros H. destruct s; cbn [sgn].
  - replace (-1 * r) with (- r) by ring. rewrite clip_neg by exact H. ring.
  - rewrite !Rmult_1_l. now apply clip_pos.
Qed.

(** The value of a valid finite Number rounds to itself. *)
Lemma rounds_finite s p e :
  SpecFloat.bounded prec emax p e = true ->
  rounds (SFval (S754_finite s p e)) (SFval (S754_finite s p e)).
Proof.
  intros H. apply bounded_inv in H as [C _]. cbn [SFval].
  apply rounds_signed, rounds_to_exact, C.
Qed.

(** *** [binary_round] and [binary_normalize] *)

Lemma digits2_unique p k :
  (2 ^ (k - 1) <= Zpos p < 2 ^ k)%Z -> (0 < k)%Z -> Zpos (digits2_pos p) = k.
Proof.
  intros [B1 B2] Hk. destruct (digits2_bounds p) as [D1 D2].
  set (d := Zpos (digits2_pos p)) in *. assert (Hd : (0 < d)%Z) by (subst d; lia).
  destruct (Z.lt_trichotomy d k) as [L|[E|G]]; [exfalso|exact E|exfalso].
  - pose proof (pow2_le d (k - 1) ltac:(lia)). lia.
  - pose proof (pow2_le k (d - 1) ltac:(lia)). lia.
Qed.

Lemma iter_xO p d : Zpos (Pos.iter xO p d) = (Zpos p * 2 ^ Zpos d)%Z.
Proof.
  induction d as [|d IH] using Pos.peano_ind.
  - cbn [Pos.iter]. rewrite (Pos2Z.inj_xO p). change (2 ^ 1)%Z with 2%Z. ring.
  - rewrite Pos.iter_succ, (Pos2Z.inj_xO (Pos.iter xO p d)), IH, Pos2Z.inj_succ.
    rewrite Z.pow_succ_r by lia. ring.
Qed.

Lemma shl_align_spec p e e' :
  let mz := fst (shl_align p e e') in
  let ez := snd (shl_align p e e') in
  ez = Z.min e e' /\ Zpos mz = (Zpos p * 2 ^ (e - ez))%Z
  /\ IZR (Zpos mz) * bpow ez = IZR (Zpos p) * bpow e.
Proof.
  unfold shl_align. destruct (e' - e)%Z as [|d|d] eqn:E; cbn [fst snd].
  - replace (Z.min e e') with e by lia. rewrite Z.sub_diag.
    repeat split. change (2 ^ 0)%Z with 1%Z. lia.
  - replace (Z.min e e') with e by lia. rewrite Z.sub_diag.
    repeat split. change (2 ^ 0)%Z with 1%Z. lia.
  - assert (Ee : (e - e' = Zpos d)%Z) by lia.
    replace (Z.min e e') with e' by lia. rewrite Ee, iter_xO.
    repeat split.
    assert (Eb : bpow e = bpow (Zpos d) * bpow e').
    { rewrite <- bpow_plus. f_equal. lia. }
    rewrite mult_IZR, <- bpow_IZR, Eb by lia. ring.
Qed.

Theorem binary_round_spec s p e :
  exists r,
    rounds_to (IZR (Zpos p) * bpow e) r
    /\ SFval (binary_round prec emax s p e) = sgn s * Rmin r (bpow 1024)
    /\ valid_binary (binary_round prec emax s p e) = true
    /\ has_sign s (binary_round prec emax s p e).
Proof.
  unfold binary_round.
  set (f := fexp prec emax (Zpos (digits2_pos p) + e)).
  destruct (shl_align_spec p e f) as (Ez & Em & Ev).
  destruct (shl_align p e f) as [mz ez]. cbn [fst snd] in Ez, Em, Ev.
  rewrite <- Ev. apply binary_round_aux_spec; [lia| |reflexivity].
  destruct (digits2_bounds p) as [D1 D2].
  set (d := Zpos (digits2_pos p)) in *. assert (Hd : (0 < d)%Z) by (subst d; lia).
  destruct (Z_le_gt_dec e f) as [Hle|Hgt].
  - replace ez with e in * by lia. rewrite Z.sub_diag in Em.
    change (2 ^ 0)%Z with 1%Z in Em. rewrite Z.mul_1_r in Em.
    injection Em as ->. fold d. fold f. exact Hle.
  - replace ez with f in * by lia.
    assert (Zdigits2 (Zpos mz) = d + (e - f))%Z as ->.
    { cbn [Zdigits2]. apply digits2_unique; [|lia]. rewrite Em.
      replace (d + (e - f) - 1)%Z with ((d - 1) + (e - f))%Z by lia.
      rewrite !Z.pow_add_r by lia.
      assert (0 < 2 ^ (e - f))%Z by (apply Z.pow_pos_nonneg; lia). nia. }
    replace (d + (e - f) + f)%Z with (d + e)%Z by lia. fold f. lia.
Qed.

Theorem binary_normalize_spec z e sz :
  exists r,
    rounds (IZR z * bpow e) r
    /\ SFval (binary_normalize prec emax z e sz) = clip r
    /\ valid_binary (binary_normalize prec emax z e sz) = true
    /\ binary_normalize prec emax z e sz <> S754_nan.
Proof.
  destruct z as [|p|p]; cbn [binary_normalize].
  - exists 0. rewrite Rmult_0_l. repeat split; [apply rounds_zero| |discriminate].
    cbn [SFval]. pose proof (bpow_gt_0 1024). rewrite clip_small; lra.
  - destruct (binary_round_spec false p e) as (r & H1 & H2 & H3 & H4).
    exists r. pose proof (rounds_to_nonneg _ _ H1) as [_ Hr].
    repeat split; [left; split; [apply rounds_to_nonneg in H1; lra|exact H1]| |exact H3|].
    + rewrite H2. cbn [sgn]. rewrite clip_pos by exact Hr. ring.
    + intros E. rewrite E in H4. exact H4.
  - destruct (binary_round_spec true p e) as (r & H1 & H2 & H3 & H4).
    exists (- r). pose proof (rounds_to_nonneg _ _ H1) as [Hv Hr].
    assert (Ez : IZR (Zneg p) = - IZR (Zpos p)) by (apply IZR_NEG).
    repeat split; [right; split| |exact H3|].
    + rewrite Ez. lra.
    + rewrite Ez. replace (- (- IZR (Zpos p) * bpow e)) with (IZR (Zpos p) * bpow e) by ring.
      now rewrite Ropp_involutive.
    + rewrite H2. cbn [sgn]. rewrite clip_neg by exact Hr. ring.
    + intros E. rewrite E in H4. exact H4.
Qed.

(** *** The arithmetic operations on finite Numbers *)

Lemma returns_zero s : returns 0 (S754_zero s).
Proof.
  exists 0. repeat split; [apply rounds_zero| |discriminate].
  cbn [SFval]. pose proof (bpow_gt_0 1024). rewrite clip_small; lra.
Qed.

Lemma returns_finite s p e :
  valid_binary (S754_finite s p e) = true ->
  returns (SFval (S754_finite s p e)) (S754_finite s p e).
Proof.
  intros V. exists (SFval (S754_finite s p e)).
  repeat split; [now apply rounds_finite| |exact V|discriminate].
  cbn [valid_binary] in V. pose proof (finite_val_bounds _ _ V) as B.
  pose proof (bpow_gt_0 emin). cbn [SFval].
  rewrite clip_small; [reflexivity|]. destruct s; cbn [sgn]; lra.
Qed.

Lemma returns_self x :
  valid_binary x = true -> finite_sf x -> returns (SFval x) x.
Proof.
  destruct x; cbn [finite_sf]; try easy; intros V _.
  - apply returns_zero.
  - now apply returns_finite.
Qed.

Lemma returns_round_aux s v m e l :
  (0 <= m)%Z -> (e <= fexp prec emax (Zdigits2 m + e))%Z -> located v m e l ->
  returns (sgn s * v) (binary_round_aux prec emax s m e l).
Proof.
  intros Hm He H.
  destruct (binary_round_aux_spec s v m e l Hm He H) as (r & H1 & H2 & H3 & H4).
  exists (sgn s * r). repeat split; [now apply rounds_signed| |exact H3|].
  - rewrite H2. symmetry. apply clip_signed. now apply rounds_to_nonneg in H1.
  - intros E. rewrite E in H4. exact H4.
Qed.

Lemma returns_normalize z e sz :
  returns (IZR z * bpow e) (binary_normalize prec emax z e sz).
Proof. apply binary_normalize_spec. Qed.

Lemma sgn_xorb a b : sgn (xorb a b) = sgn a * sgn b.
Proof. destruct a, b; cbn [xorb sgn]; ring. Qed.

Theorem SFmul_spec x y :
  valid_binary x = true -> valid_binary y = true -> finite_sf x -> finite_sf y ->
  returns (SFval x * SFval y) (SFmul prec emax x y).
Proof.
  intros Vx Vy Fx Fy.
  destruct x as [sx|sx| |sx mx ex], y as [sy|sy| |sy my ey];
    cbn [finite_sf] in Fx, Fy; try easy; cbn [SFmul SFval];
    rewrite ?Rmult_0_l, ?Rmult_0_r; try apply returns_zero.
  cbn [valid_binary] in Vx, Vy.
  apply bounded_inv in Vx as [(Hex & Hmx & Hcx) _].
  apply bounded_inv in Vy as [(Hey & Hmy & Hcy) _].
  replace (sgn sx * (IZR (Zpos mx) * bpow ex) * (sgn sy * (IZR (Zpos my) * bpow ey)))
    with (sgn (xorb sx sy) * (IZR (Zpos (mx * my)) * bpow (ex + ey))).
  2:{ rewrite sgn_xorb, Pos2Z.inj_mul, mult_IZR, bpow_plus. ring. }
  apply returns_round_aux; [lia| |reflexivity].
  rewrite fexp_eq.
  destruct Hcx as [->|Hcx].
  - destruct Hcy as [->|Hcy]; [lia|].
    assert (4503599627370496 <= Zpos (mx * my))%Z by (rewrite Pos2Z.inj_mul; nia).
    pose proof (Zdigits2_ge_53 _ H). lia.
  - assert (4503599627370496 <= Zpos (mx * my))%Z by (rewrite Pos2Z.inj_mul; nia).
    pose proof (Zdigits2_ge_53 _ H). lia.
Qed.

Lemma cond_Zopp_IZR s z : IZR (cond_Zopp s z) = sgn s * IZR z.
Proof. destruct s; cbn [cond_Zopp sgn]; rewrite ?opp_IZR; ring. Qed.

Lemma aligned_value s m e e' :
  (e' <= e)%Z ->
  IZR (cond_Zopp s (Zpos (fst (shl_align m e e')))) * bpow e'
  = sgn s * (IZR (Zpos m) * bpow e).
Proof.
  intros H. destruct (shl_align_spec m e e') as (Ez & _ & Ev).
  rewrite cond_Zopp_IZR. rewrite Z.min_r in Ez by exact H. rewrite Ez in Ev.
  rewrite <- Ev. ring.
Qed.

Theorem SFadd_spec x y :
  valid_binary x = true -> valid_binary y = true -> finite_sf x -> finite_sf y ->
  returns (SFval x + SFval y) (SFadd prec emax x y).
Proof.
  intros Vx Vy Fx Fy.
  destruct x as [sx|sx| |sx mx ex], y as [sy|sy| |sy my ey];
    cbn [finite_sf] in Fx, Fy; try easy; cbn [SFadd].
  - cbn [SFval]. rewrite Rplus_0_l. destruct sx, sy; apply returns_zero.
  - cbn [SFval]. rewrite Rplus_0_l. now apply returns_finite.
  - cbn [SFval]. rewrite Rplus_0_r. now apply returns_finite.
  - cbn [SFval].
    rewrite <- (aligned_value sx mx ex (Z.min ex ey)) by lia.
    rewrite <- (aligned_value sy my ey (Z.min ex ey)) by lia.
    rewrite <- Rmult_plus_distr_r, <- plus_IZR. apply returns_normalize.
Qed.

Theorem SFsub_spec x y :
  valid_binary x = true -> valid_binary y = true -> finite_sf x -> finite_sf y ->
  returns (SFval x - SFval y) (SFsub prec emax x y).
Proof.
  intros Vx Vy Fx Fy.
  destruct x as [sx|sx| |sx mx ex], y as [sy|sy| |sy my ey];
    cbn [finite_sf] in Fx, Fy; try easy; cbn [SFsub].
  - cbn [SFval]. rewrite Rminus_0_r. destruct sx, sy; apply returns_zero.
  - replace (SFval (S754_zero sx) - SFval (S754_finite sy my ey))
      with (SFval (S754_finite (negb sy) my ey))
      by (cbn [SFval]; destruct sy; cbn [negb sgn]; ring).
    now apply returns_finite.
  - cbn [SFval]. rewrite Rminus_0_r. now apply returns_finite.
  - cbn [SFval].
    rewrite <- (aligned_value sx mx ex (Z.min ex ey)) by lia.
    rewrite <- (aligned_value sy my ey (Z.min ex ey)) by lia.
    rewrite <- Rmult_minus_distr_r, <- minus_IZR. apply returns_normalize.
Qed.

(** *** Division *)

Lemma new_location_spec m2 r :
  (0 <= r < m2)%Z ->
  match new_location m2 r with
  | loc_Exact => r = 0%Z
  | loc_Inexact Lt => (0 < r /\ 2 * r < m2)%Z
  | loc_Inexact Eq => (2 * r = m2)%Z
  | loc_Inexact Gt => (m2 < 2 * r)%Z
  end.
Proof.
  intros H. unfold new_location, new_location_even, new_location_odd.
  destruct (Z.even m2) eqn:Ev.
  - destruct (Z.eqb_spec r 0) as [|Hr]; [assumption|].
    destruct (Z.compare_spec (2 * r) m2); lia.
  - destruct (Z.eqb_spec r 0) as [|Hr]; [assumption|].
    assert (2 * r <> m2)%Z.
    { intros <-. rewrite Z.even_mul in Ev. discriminate. }
    destruct (Z.compare_spec (2 * r + 1) m2); lia.
Qed.

Lemma div_core_spec m1 e1 m2 e2 :
  (0 < m1)%Z -> (0 < m2)%Z ->
  let '(q, e', l) := SFdiv_core_binary prec emax m1 e1 m2 e2 in
  (0 <= q)%Z /\ (e' <= fexp prec emax (Zdigits2 q + e'))%Z
  /\ located (IZR m1 * bpow e1 / (IZR m2 * bpow e2)) q e' l.
Proof.
  intros H1 H2. unfold SFdiv_core_binary.
  set (d1 := Zdigits2 m1). set (d2 := Zdigits2 m2).
  set (e' := Z.min (fexp prec emax (d1 + e1 - (d2 + e2))) (e1 - e2)).
  set (s := (e1 - e2 - e')%Z).
  assert (Hs : (0 <= s)%Z) by (subst s e'; lia).
  set (m' := match s with Zpos _ => Z.shiftl m1 s | Z0 => m1 | Zneg _ => 0%Z end).
  assert (Em : m' = (m1 * 2 ^ s)%Z).
  { subst m'. destruct s as [|p|p] eqn:Es; [|apply Z.shiftl_mul_pow2|]; lia. }
  clearbody m'.
  pose proof (Z_div_mod m' m2 ltac:(lia)) as DM.
  destruct (Z.div_eucl m' m2) as [q r]. destruct DM as [Eq Hr].
  assert (Ps : (0 < 2 ^ s)%Z) by (apply Z.pow_pos_nonneg; lia).
  assert (Hq : (0 <= q)%Z) by nia.
  split; [exact Hq|]. split.
  - rewrite fexp_eq. destruct (Z_le_gt_dec e' emin) as [|Hgt]; [lia|].
    assert (He' : (e' <= d1 + e1 - (d2 + e2) - 53)%Z).
    { subst e'. rewrite fexp_eq in *. lia. }
    destruct (Zdigits2_bounds m1 H1) as [B1 _].
    destruct (Zdigits2_bounds m2 H2) as [_ B2].
    fold d1 in B1. fold d2 in B2.
    pose proof (Zdigits2_nonneg m2) as Hd2. fold d2 in Hd2.
    assert (Hd1 : (1 <= d1)%Z).
    { pose proof (Zdigits2_nonneg m1) as Hd. fold d1 in Hd.
      destruct (Z.eq_dec d1 0) as [E0|]; [|lia].
      pose proof (Zdigits2_bounds m1 H1) as [_ B]. fold d1 in B.
      rewrite E0 in B. simpl in B. lia. }
    set (k := (d1 - 1 + s - d2)%Z).
    assert (Hk : (52 <= k)%Z) by (subst k s; lia).
    assert (L : (2 ^ k <= q)%Z).
    { assert (m2 * 2 ^ k <= m')%Z.
      { rewrite Em.
        assert (2 ^ d2 * 2 ^ k = 2 ^ (d1 - 1) * 2 ^ s)%Z.
        { rewrite <- !Z.pow_add_r by lia. f_equal. subst k. lia. }
        assert (0 < 2 ^ k)%Z by (apply Z.pow_pos_nonneg; lia).
        nia. }
      assert (0 < 2 ^ k)%Z by (apply Z.pow_pos_nonneg; lia).
      destruct (Z_le_gt_dec (2 ^ k) q) as [|G]; [assumption|exfalso].
      assert (q + 1 <= 2 ^ k)%Z by lia. nia. }
    pose proof (pow2_le 52 k ltac:(lia)) as L52. rewrite two52 in L52.
    pose proof (Zdigits2_ge_53 q ltac:(lia)). lia.
  - pose proof (new_location_spec m2 r Hr) as NL.
    assert (Hv : IZR m1 * bpow e1 / (IZR m2 * bpow e2) * IZR m2
                 = (IZR q * IZR m2 + IZR r) * bpow e').
    { assert (IZR m' = IZR m2 * IZR q + IZR r)
        by (rewrite <- mult_IZR, <- plus_IZR; now f_equal).
      assert (Em' : IZR m' = IZR m1 * bpow s)
        by (rewrite Em, mult_IZR, bpow_IZR by lia; reflexivity).
      assert (Eb : bpow e1 = bpow s * bpow e' * bpow e2).
      { rewrite <- !bpow_plus. f_equal. subst s. lia. }
      pose proof (bpow_gt_0 e2). assert (0 < IZR m2) by (apply IZR_lt; lia).
      replace (IZR q * IZR m2 + IZR r) with (IZR m1 * bpow s) by lra.
      rewrite Eb. field. split; lra. }
    set (v := IZR m1 * bpow e1 / (IZR m2 * bpow e2)) in *. clearbody v.
    assert (P2 : 0 < IZR m2) by (apply IZR_lt; lia).
    pose proof (bpow_gt_0 e') as Pe.
    assert (R0 : 0 <= IZR r) by (apply IZR_le; lia).
    destruct (new_location m2 r) as [|[]]; cbn [located].
    + subst r. rewrite Rplus_0_r in Hv. nra.
    + apply (f_equal IZR) in NL. rewrite mult_IZR in NL. nra.
    + destruct NL as [N1 N2]. apply IZR_lt in N1, N2.
      rewrite mult_IZR in N2. nra.
    + apply IZR_lt in NL. rewrite mult_IZR in NL.
      assert (IZR r < IZR m2) by (apply IZR_lt; lia). nra.
Qed.

Theorem SFdiv_spec x y :
  valid_binary x = true -> valid_binary y = true -> finite_sf x ->
  (exists s m e, y = S754_finite s m e) ->
  returns (SFval x / SFval y) (SFdiv prec emax x y).
Proof.
  intros Vx Vy Fx (sy & my & ey & ->).
  assert (Py : 0 < IZR (Zpos my) * bpow ey).
  { pose proof (bpow_gt_0 ey). assert (0 < IZR (Zpos my)) by (apply IZR_lt; lia). nra. }
  destruct x as [sx|sx| |sx mx ex]; cbn [finite_sf] in Fx; try easy; cbn [SFdiv SFval].
  - unfold Rdiv. rewrite Rmult_0_l. apply returns_zero.
  - pose proof (div_core_spec (Zpos mx) ex (Zpos my) ey ltac:(lia) ltac:(lia)) as C.
    destruct (SFdiv_core_binary prec emax (Zpos mx) ex (Zpos my) ey) as [[q e'] l].
    destruct C as (Hq & He & Hl).
    replace (sgn sx * (IZR (Zpos mx) * bpow ex) / (sgn sy * (IZR (Zpos my) * bpow ey)))
      with (sgn (xorb sx sy) * (IZR (Zpos mx) * bpow ex / (IZR (Zpos my) * bpow ey))).
    + now apply returns_round_aux.
    + rewrite sgn_xorb.
      pose proof (bpow_gt_0 ey). assert (0 < IZR (Zpos my)) by (apply IZR_lt; lia).
      destruct sx, sy; cbn [sgn]; field; repeat split; lra.
Qed.

(** *** Square root *)

Lemma sqrt_core_spec m e :
  (0 < m)%Z ->
  let '(q, e', l) := SFsqrt_core_binary prec emax m e in
  (0 <= q)%Z /\ (e' <= fexp prec emax (Zdigits2 q + e'))%Z
  /\ located (R_sqrt.sqrt (IZR m * bpow e)) q e' l.
Proof.
  intros Hm. unfold SFsqrt_core_binary.
  set (d := Zdigits2 m).
  set (e' := Z.min (fexp prec emax (Z.div2 (d + e + 1))) (Z.div2 e)).
  set (s := (e - 2 * e')%Z).
  assert (D2 : forall a, (2 * Z.div2 a <= a <= 2 * Z.div2 a + 1)%Z).
  { intros a. rewrite (Z.div2_odd a) at 2 3. destruct (Z.odd a); simpl; lia. }
  assert (Hs : (0 <= s)%Z) by (subst s e'; pose proof (D2 e); lia).
  set (m' := match s with Zpos _ => Z.shiftl m s | Z0 => m | Zneg _ => 0%Z end).
  assert (Em : m' = (m * 2 ^ s)%Z).
  { subst m'. destruct s as [|p|p] eqn:Es; [|apply Z.shiftl_mul_pow2|]; lia. }
  clearbody m'.
  assert (Ps : (0 < 2 ^ s)%Z) by (apply Z.pow_pos_nonneg; lia).
  pose proof (Z.sqrtrem_spec m' ltac:(nia)) as SR.
  destruct (Z.sqrtrem m') as [q r]. destruct SR as [Eq Hr].
  assert (Hq : (0 <= q)%Z) by lia.
  split; [exact Hq|]. split.
  - rewrite fexp_eq. destruct (Z_le_gt_dec e' emin) as [|Hgt]; [lia|].
    assert (He' : (e' <= Z.div2 (d + e + 1) - 53)%Z).
    { subst e'. rewrite fexp_eq in *. lia. }
    destruct (Zdigits2_bounds m Hm) as [B1 _]. fold d in B1.
    assert (Hd1 : (1 <= d)%Z).
    { pose proof (Zdigits2_nonneg m) as Hd. fold d in Hd.
      destruct (Z.eq_dec d 0) as [E0|]; [|lia].
      pose proof (Zdigits2_bounds m Hm) as [_ B]. fold d in B.
      rewrite E0 in B. simpl in B. lia. }
    assert (L : (2 ^ 104 <= m')%Z).
    { rewrite Em. pose proof (D2 (d + e + 1)%Z).
      apply Z.le_trans with (2 ^ (d - 1) * 2 ^ s)%Z; [|nia].
      rewrite <- Z.pow_add_r by lia. apply pow2_le. subst s. lia. }
    assert (4503599627370496 <= q)%Z.
    { destruct (Z_le_gt_dec 4503599627370496 q) as [|G]; [assumption|exfalso].
      change (2 ^ 104)%Z with (4503599627370496 * 4503599627370496)%Z in L. nia. }
    pose proof (Zdigits2_ge_53 q ltac:(lia)). lia.
  - assert (Ev : R_sqrt.sqrt (IZR m * bpow e) = R_sqrt.sqrt (IZR m') * bpow e').
    { pose proof (bpow_gt_0 e') as Pe.
      assert (Eb : bpow e = bpow s * (bpow e' * bpow e')).
      { rewrite <- !bpow_plus. f_equal. subst s. lia. }
      rewrite Eb, Em, mult_IZR, <- bpow_IZR by lia.
      rewrite <- Rmult_assoc, sqrt_mult, sqrt_square; try lra.
      - pose proof (bpow_gt_0 s). assert (0 < IZR m) by (apply IZR_lt; lia). nra.
      - nra. }
    rewrite Ev.
    assert (E2 : R_sqrt.sqrt (IZR m') * R_sqrt.sqrt (IZR m') = IZR q * IZR q + IZR r).
    { rewrite sqrt_sqrt by (apply IZR_le; nia).
      rewrite <- mult_IZR, <- plus_IZR. now f_equal. }
    pose proof (R_sqrt.sqrt_pos (IZR m')) as S0.
    set (S := R_sqrt.sqrt (IZR m')) in *. clearbody S.
    assert (Q0 : 0 <= IZR q) by (apply IZR_le; lia).
    assert (R0 : 0 <= IZR r) by (apply IZR_le; lia).
    pose proof (bpow_gt_0 e') as Pe.
    destruct (Z.eqb_spec r 0) as [Er|Hne]; cbn [located].
    + subst r. rewrite Rplus_0_r in E2.
      assert (S = IZR q) by nra. now subst S.
    + assert (R1 : 1 <= IZR r) by (apply IZR_le; lia).
      destruct (Z.leb_spec r q) as [Hle|Hgt]; cbn [located].
      * apply IZR_le in Hle.
        assert (IZR q < S) by nra. assert (S < IZR q + / 2) by nra. nra.
      * assert (IZR q + 1 <= IZR r) by (rewrite <- plus_IZR; apply IZR_le; lia).
        assert (IZR r <= 2 * IZR q) by (rewrite <- mult_IZR; apply IZR_le; lia).
        assert (IZR q + / 2 < S) by nra. assert (S < IZR q + 1) by nra. nra.
Qed.

Theorem SFsqrt_spec x :
  valid_binary x = true ->
  (exists s, x = S754_zero s) \/ (exists m e, x = S754_finite false m e) ->
  returns (R_sqrt.sqrt (SFval x)) (SFsqrt prec emax x).
Proof.
  intros V [[s ->]|(m & e & ->)]; cbn [SFsqrt SFval].
  - rewrite sqrt_0. apply returns_zero.
  - cbn [sgn]. rewrite Rmult_1_l.
    pose proof (sqrt_core_spec (Zpos m) e ltac:(lia)) as C.
    destruct (SFsqrt_core_binary prec emax (Zpos m) e) as [[q e'] l].
    destruct C as (Hq & He & Hl).
    replace (R_sqrt.sqrt (IZR (Zpos m) * bpow e))
      with (sgn false * R_sqrt.sqrt (IZR (Zpos m) * bpow e)) by (cbn [sgn]; ring).
    now apply returns_round_aux.
Qed.

(** *** Primitive Numbers *)

Lemma yields_mono v1 v2 x1 x2 : yields v1 x1 -> yields v2 x2 -> v1 <= v2 -> FV x1 <= FV x2.
Proof.
  intros (r1 & R1 & E1 & _) (r2 & R2 & E2 & _) H. unfold FV. rewrite E1, E2.
  apply clip_mono. eapply rounds_mono; eauto.
Qed.

Lemma yields_not_nan v x : yields v x -> Prim2SF x <> S754_nan.
Proof. now intros (_ & _ & _ & _ & H). Qed.

Lemma yields_self x : finiteF x -> yields (FV x) x.
Proof. intros H. apply returns_self; [apply Prim2SF_valid | exact H]. Qed.

Lemma FV_bounds x : - bpow 1024 <= FV x <= bpow 1024.
Proof.
  unfold FV. pose proof (Prim2SF_valid x) as V. pose proof (bpow_gt_0 1024) as P.
  destruct (Prim2SF x) as [s|s| |s m e]; cbn [SFval]; try lra.
  - destruct s; cbn [sgn]; lra.
  - pose proof (finite_val_bounds _ _ V). pose proof (bpow_gt_0 (-1074)).
    destruct s; cbn [sgn]; lra.
Qed.

(** A valid Number that is not NaN and whose value is below [2^1024] in
    magnitude is finite. *)
Lemma finite_of_bounds x :
  Prim2SF x <> S754_nan -> - bpow 1024 < FV x < bpow 1024 -> finiteF x.
Proof.
  unfold FV, finiteF. destruct (Prim2SF x) as [s|s| |s m e]; cbn [SFval finite_sf]; auto.
  - destruct s; cbn [sgn]; lra.
Qed.

Lemma finiteF_bounds x : finiteF x -> - bpow 1024 < FV x < bpow 1024.
Proof.
  unfold FV, finiteF. pose proof (Prim2SF_valid x) as V. pose proof (bpow_gt_0 1024) as P.
  destruct (Prim2SF x) as [s|s| |s m e]; cbn [SFval finite_sf]; try easy; intros _; try lra.
  pose proof (finite_val_bounds _ _ V). pose proof (bpow_gt_0 (-1074)).
  destruct s; cbn [sgn]; lra.
Qed.

Lemma yields_finite v x a b :
  yields v x -> finiteF a -> finiteF b -> FV a <= v <= FV b ->
  finiteF x /\ FV a <= FV x <= FV b.
Proof.
  intros Hx Ha Hb [H1 H2].
  pose proof (yields_mono _ _ _ _ (yields_self a Ha) Hx H1).
  pose proof (yields_mono _ _ _ _ Hx (yields_self b Hb) H2).
  pose proof (finiteF_bounds a Ha). pose proof (finiteF_bounds b Hb).
  split; [|lra]. apply finite_of_bounds; [eapply yields_not_nan; eauto | lra].
Qed.

(** **** Tests *)

Lemma is_nan_spec x : is_nan x = true <-> Prim2SF x = S754_nan.
Proof.
  unfold is_nan. rewrite eqb_spec. unfold SFeqb.
  pose proof (Prim2SF_valid x) as V.
  pose proof (SFcompare_val _ _ V V) as C.
  destruct (SFcompare (Prim2SF x) (Prim2SF x)) as [[]|] eqn:E; cbn [negb].
  - split; [discriminate|]. intros H. rewrite H in E. discriminate.
  - lra.
  - lra.
  - split; [|reflexivity]. intros _. tauto.
Qed.

Lemma not_nan_spec x : is_nan x = false <-> Prim2SF x <> S754_nan.
Proof.
  rewrite <- is_nan_spec. destruct (is_nan x); split; congruence.
Qed.

Lemma ltb_FV x y :
  Prim2SF x <> S754_nan -> Prim2SF y <> S754_nan ->
  ((x <? y)%float = true <-> FV x < FV y).
Proof.
  intros Nx Ny. rewrite ltb_spec. unfold SFltb, FV.
  pose proof (SFcompare_val _ _ (Prim2SF_valid x) (Prim2SF_valid y)) as C.
  destruct (SFcompare (Prim2SF x) (Prim2SF y)) as [[]|];
    split; intros H; try discriminate; try reflexivity; try lra; tauto.
Qed.

Lemma leb_FV x y :
  Prim2SF x <> S754_nan -> Prim2SF y <> S754_nan ->
  ((x <=? y)%float = true <-> FV x <= FV y).
Proof.
  intros Nx Ny. rewrite leb_spec. unfold SFleb, FV.
  pose proof (SFcompare_val _ _ (Prim2SF_valid x) (Prim2SF_valid y)) as C.
  destruct (SFcompare (Prim2SF x) (Prim2SF y)) as [[]|];
    split; intros H; try discriminate; try reflexivity; try lra; tauto.
Qed.

Lemma eqb_FV x y :
  Prim2SF x <> S754_nan -> Prim2SF y <> S754_nan ->
  ((x =? y)%float = true <-> FV x = FV y).
Proof.
  intros Nx Ny. rewrite eqb_spec. unfold SFeqb, FV.
  pose proof (SFcompare_val _ _ (Prim2SF_valid x) (Prim2SF_valid y)) as C.
  destruct (SFcompare (Prim2SF x) (Prim2SF y)) as [[]|];
    split; intros H; try discriminate; try reflexivity; try lra; tauto.
Qed.

Lemma leb_not_nan x y : (x <=? y)%float = true -> Prim2SF x <> S754_nan /\ Prim2SF y <> S754_nan.
Proof.
  rewrite leb_spec. unfold SFleb.
  destruct (Prim2SF x), (Prim2SF y); cbn [SFcompare]; try discriminate;
    intros _; split; discriminate.
Qed.

Lemma ltb_not_nan x y : (x <? y)%float = true -> Prim2SF x <> S754_nan /\ Prim2SF y <> S754_nan.
Proof.
  rewrite ltb_spec. unfold SFltb.
  destruct (Prim2SF x), (Prim2SF y); cbn [SFcompare]; try discriminate;
    intros _; split; discriminate.
Qed.

Lemma is_finite_spec x : is_finite x = true <-> finiteF x.
Proof.
  unfold finiteF, is_finite, is_infinity.
  rewrite negb_true_iff, orb_false_iff.
  assert (A : Prim2SF (abs x) = SFabs (Prim2SF x)) by apply abs_spec.
  split.
  - intros [Hn Hi]. apply not_nan_spec in Hn.
    destruct (Prim2SF x) as [s|s| |s m e] eqn:E; cbn [finite_sf]; auto.
    rewrite eqb_spec, A in Hi. cbn in Hi. discriminate.
  - intros F. destruct (Prim2SF x) as [s|s| |s m e] eqn:E; cbn [finite_sf] in F; try easy.
    + split; [apply not_nan_spec; congruence|]. rewrite eqb_spec, A. reflexivity.
    + split; [apply not_nan_spec; congruence|]. rewrite eqb_spec, A. reflexivity.
Qed.

(** **** Operations on finite Numbers *)

Lemma mul_yields x y : finiteF x -> finiteF y -> yields (FV x * FV y) (x * y)%float.
Proof.
  intros Fx Fy. unfold yields. rewrite mul_spec.
  apply SFmul_spec; auto using Prim2SF_valid.
Qed.

Lemma add_yields x y : finiteF x -> finiteF y -> yields (FV x + FV y) (x + y)%float.
Proof.
  intros Fx Fy. unfold yields. rewrite add_spec.
  apply SFadd_spec; auto using Prim2SF_valid.
Qed.

Lemma sub_yields x y : finiteF x -> finiteF y -> yields (FV x - FV y) (x - y)%float.
Proof.
  intros Fx Fy. unfold yields. rewrite sub_spec.
  apply SFsub_spec; auto using Prim2SF_valid.
Qed.

Lemma div_yields x y :
  finiteF x -> finiteF y -> FV y <> 0 -> yields (FV x / FV y) (x / y)%float.
Proof.
  intros Fx Fy Hy. unfold yields. rewrite div_spec.
  apply SFdiv_spec; auto using Prim2SF_valid.
  unfold finiteF, FV in *. destruct (Prim2SF y); cbn in *; try easy; eauto.
Qed.

Lemma sqrt_yields x :
  finiteF x -> 0 <= FV x -> yields (R_sqrt.sqrt (FV x)) (PrimFloat.sqrt x).
Proof.
  intros Fx Hx. unfold yields. rewrite sqrt_spec.
  apply SFsqrt_spec; [apply Prim2SF_valid|].
  unfold finiteF, FV in *. destruct (Prim2SF x) as [s|s| |s m e]; cbn in *; try easy; eauto.
  right. destruct s; eauto. exfalso. cbn [sgn] in Hx.
  pose proof (bpow_gt_0 e). assert (0 < IZR (Zpos m)) by (apply IZR_lt; lia). nra.
Qed.

End Rounding.

(** ** Arithmetic on Numbers *)

Section Arithmetic.

Import Round.
Local Open Scope R_scope.

(** *** Conversions and the exact operations of [Num] *)

Lemma SFdiv_finite sx mx ex sy my ey :
  returns (SFval (S754_finite sx mx ex) / SFval (S754_finite sy my ey))
          (SFdiv prec emax (S754_finite sx mx ex) (S754_finite sy my ey)).
Proof.
  cbn [SFdiv SFval].
  pose proof (div_core_spec (Zpos mx) ex (Zpos my) ey ltac:(lia) ltac:(lia)) as C.
  destruct (SFdiv_core_binary prec emax (Zpos mx) ex (Zpos my) ey) as [[q e'] l].
  destruct C as (Hq & He & Hl).
  replace (sgn sx * (IZR (Zpos mx) * bpow ex) / (sgn sy * (IZR (Zpos my) * bpow ey)))
    with (sgn (xorb sx sy) * (IZR (Zpos mx) * bpow ex / (IZR (Zpos my) * bpow ey))).
  - now apply returns_round_aux.
  - rewrite sgn_xorb.
    pose proof (bpow_gt_0 ey). assert (0 < IZR (Zpos my)) by (apply IZR_lt; lia).
    destruct sx, sy; cbn [sgn]; field; repeat split; lra.
Qed.

Lemma yields_SF2Prim v x : returns v x -> yields v (SF2Prim x).
Proof.
  intros H. unfold yields. rewrite Prim2SF_SF2Prim; [exact H|].
  now destruct H as (_ & _ & _ & V & _).
Qed.

Lemma of_dyadic_yields z e sz : yields (IZR z * bpow e) (Num.of_dyadic z e sz).
Proof. apply yields_SF2Prim, returns_normalize. Qed.

Lemma of_Z_yields z : yields (IZR z) (Num.of_Z z).
Proof.
  replace (IZR z) with (IZR z * bpow 0) by (rewrite bpow_0; ring).
  apply of_dyadic_yields.
Qed.

Lemma of_ratio_yields s n d :
  yields (sgn s * (IZR (Zpos n) / IZR (Zpos d))) (Num.of_ratio s n d).
Proof.
  apply yields_SF2Prim.
  replace (sgn s * (IZR (Zpos n) / IZR (Zpos d)))
    with (SFval (S754_finite s n 0) / SFval (S754_finite false d 0)).
  - apply SFdiv_finite.
  - cbn [SFval sgn]. rewrite bpow_0.
    assert (0 < IZR (Zpos d)) by (apply IZR_lt; lia). field. lra.
Qed.

(** A dyadic value with fewer than 54 bits and an exponent of at least
    [emin] is a Number: it rounds to itself. *)
Lemma rounds_to_representable z e :
  (0 <= z < 9007199254740992)%Z -> (-1074 <= e)%Z ->
  rounds_to (IZR z * bpow e) (IZR z * bpow e).
Proof.
  intros Hz He. destruct (Z.eq_dec z 0) as [->|Hz0].
  - rewrite Rmult_0_l. replace 0 with (IZR 0 * bpow (-1074)) by ring.
    apply rounds_to_exact, canonical_zero.
  - destruct (Zdigits2_bounds z ltac:(lia)) as [B1 B2].
    pose proof (Zdigits2_le_53 z Hz) as D53.
    pose proof (Zdigits2_nonneg z) as D0.
    set (d := Zdigits2 z) in *.
    assert (Hd1 : (1 <= d)%Z).
    { destruct (Z.eq_dec d 0) as [E0|]; [|lia]. rewrite E0 in B2. simpl in B2. lia. }
    set (ec := Z.max (d + e - 53) (-1074)).
    assert (Hec : (ec <= e)%Z) by (subst ec; lia).
    assert (P : (0 < 2 ^ (e - ec))%Z) by (apply Z.pow_pos_nonneg; lia).
    replace (IZR z * bpow e) with (IZR (z * 2 ^ (e - ec)) * bpow ec).
    + apply rounds_to_exact. unfold canonical. split; [subst ec; lia|]. split; [split; [nia|]|].
      * apply Z.lt_le_trans with (2 ^ d * 2 ^ (e - ec))%Z; [nia|].
        rewrite <- Z.pow_add_r, <- two53 by lia. apply pow2_le. subst ec. lia.
      * destruct (Z.eq_dec ec (-1074)) as [|Hne]; [now left|right].
        assert (E : (e - ec = 53 - d)%Z) by (subst ec; lia). rewrite E in *.
        apply Z.le_trans with (2 ^ (d - 1) * 2 ^ (53 - d))%Z; [|nia].
        rewrite <- Z.pow_add_r, <- two52 by lia. apply pow2_le. lia.
    + assert (Eb : bpow e = bpow (e - ec) * bpow ec).
      { rewrite <- bpow_plus. f_equal. lia. }
      rewrite mult_IZR, <- bpow_IZR, Eb by lia. ring.
Qed.

Lemma rounds_representable z e :
  (Z.abs z < 9007199254740992)%Z -> (-1074 <= e)%Z ->
  rounds (IZR z * bpow e) (IZR z * bpow e).
Proof.
  intros Hz He. pose proof (bpow_gt_0 e) as P. destruct (Z_le_gt_dec 0 z) as [Hp|Hn].
  - left. split.
    + assert (0 <= IZR z) by (apply IZR_le; lia). nra.
    + apply rounds_to_representable; lia.
  - right. split.
    + assert (IZR z <= 0) by (apply IZR_le; lia). nra.
    + replace (- (IZR z * bpow e)) with (IZR (- z) * bpow e) by (rewrite opp_IZR; ring).
      apply rounds_to_representable; lia.
Qed.

(** Such a value is converted exactly. *)
Lemma of_dyadic_exact z e sz :
  (Z.abs z < 9007199254740992)%Z -> (-1074 <= e <= 971)%Z ->
  FV (Num.of_dyadic z e sz) = IZR z * bpow e /\ finiteF (Num.of_dyadic z e sz).
Proof.
  intros Hz He. pose proof (of_dyadic_yields z e sz) as Y.
  destruct Y as (r & R1 & E1 & V & N).
  pose proof (rounds_unique _ _ _ R1 (rounds_representable z e Hz ltac:(lia))) as ->.
  assert (B : - bpow 1024 < IZR z * bpow e < bpow 1024).
  { assert (Hz' : - bpow 53 < IZR z < bpow 53).
    { rewrite bpow_53. split; [rewrite <- opp_IZR|]; apply IZR_lt; lia. }
    pose proof (bpow_le e 971 ltac:(lia)). pose proof (bpow_gt_0 e).
    pose proof (bpow_gt_0 53). rewrite bpow_1024_split. split; nra. }
  rewrite clip_small in E1 by exact B. split; [exact E1|].
  apply finite_of_bounds; [exact N|]. unfold FV. rewrite E1. exact B.
Qed.

(** **** Monotonicity of the operations *)

Lemma mul_le_mono a a' c :
  finiteF a -> finiteF a' -> finiteF c -> 0 <= FV c -> FV a <= FV a' ->
  FV (a * c)%float <= FV (a' * c)%float.
Proof.
  intros Fa Fa' Fc Hc H.
  apply (yields_mono _ _ _ _ (mul_yields a c Fa Fc) (mul_yields a' c Fa' Fc)). nra.
Qed.

Lemma div_le_mono a a' c :
  finiteF a -> finiteF a' -> finiteF c -> 0 < FV c -> FV a <= FV a' ->
  FV (a / c)%float <= FV (a' / c)%float.
Proof.
  intros Fa Fa' Fc Hc H.
  apply (yields_mono _ _ _ _ (div_yields a c Fa Fc ltac:(lra))
                             (div_yields a' c Fa' Fc ltac:(lra))).
  unfold Rdiv. apply Rmult_le_compat_r; [|exact H].
  apply Rlt_le, Rinv_0_lt_compat, Hc.
Qed.

Lemma add_le_mono a a' c c' :
  finiteF a -> finiteF a' -> finiteF c -> finiteF c' ->
  FV a <= FV a' -> FV c <= FV c' ->
  FV (a + c)%float <= FV (a' + c')%float.
Proof.
  intros Fa Fa' Fc Fc' H H'.
  apply (yields_mono _ _ _ _ (add_yields a c Fa Fc) (add_yields a' c' Fa' Fc')). lra.
Qed.

Lemma sub_le_mono a a' c :
  finiteF a -> finiteF a' -> finiteF c -> FV a <= FV a' ->
  FV (a - c)%float <= FV (a' - c)%float.
Proof.
  intros Fa Fa' Fc H.
  apply (yields_mono _ _ _ _ (sub_yields a c Fa Fc) (sub_yields a' c Fa' Fc)). lra.
Qed.

Lemma sqrt_le_mono a a' :
  finiteF a -> finiteF a' -> 0 <= FV a -> FV a <= FV a' ->
  FV (PrimFloat.sqrt a) <= FV (PrimFloat.sqrt a').
Proof.
  intros Fa Fa' H0 H.
  apply (yields_mono _ _ _ _ (sqrt_yields a Fa H0) (sqrt_yields a' Fa' ltac:(lra))).
  now apply sqrt_le_1_alt.
Qed.

(** **** [Math.max] and [Math.min] *)

Lemma max_spec a b :
  Prim2SF a <> S754_nan -> Prim2SF b <> S754_nan ->
  (Num.max a b = a \/ Num.max a b = b) /\ FV (Num.max a b) = Rmax (FV a) (FV b).
Proof.
  intros Na Nb. unfold Num.max.
  rewrite (proj2 (not_nan_spec a) Na), (proj2 (not_nan_spec b) Nb). cbn [orb].
  pose proof (ltb_FV a b Na Nb) as L1. pose proof (ltb_FV b a Nb Na) as L2.
  unfold Rmax. destruct (a <? b)%float.
  - split; [now right|]. destruct (Rle_dec (FV a) (FV b)); [reflexivity|].
    pose proof (proj1 L1 eq_refl). lra.
  - destruct (b <? a)%float.
    + split; [now left|]. destruct (Rle_dec (FV a) (FV b)); [|reflexivity].
      pose proof (proj1 L2 eq_refl). lra.
    + assert (E : FV a = FV b).
      { apply Rle_antisym; apply Rnot_lt_le; intros H;
          [apply L2 in H | apply L1 in H]; discriminate. }
      destruct (is_zero a); [destruct (get_sign a)|];
        (split; [auto|]); destruct (Rle_dec (FV a) (FV b)); lra.
Qed.

Lemma min_spec a b :
  Prim2SF a <> S754_nan -> Prim2SF b <> S754_nan ->
  (Num.min a b = a \/ Num.min a b = b) /\ FV (Num.min a b) = Rmin (FV a) (FV b).
Proof.
  intros Na Nb. unfold Num.min.
  rewrite (proj2 (not_nan_spec a) Na), (proj2 (not_nan_spec b) Nb). cbn [orb].
  pose proof (ltb_FV a b Na Nb) as L1. pose proof (ltb_FV b a Nb Na) as L2.
  unfold Rmin. destruct (a <? b)%float.
  - split; [now left|]. destruct (Rle_dec (FV a) (FV b)); [reflexivity|].
    pose proof (proj1 L1 eq_refl). lra.
  - destruct (b <? a)%float.
    + split; [now right|]. destruct (Rle_dec (FV a) (FV b)); [|reflexivity].
      pose proof (proj1 L2 eq_refl). lra.
    + assert (E : FV a = FV b).
      { apply Rle_antisym; apply Rnot_lt_le; intros H;
          [apply L2 in H | apply L1 in H]; discriminate. }
      destruct (is_zero a); [destruct (get_sign a)|];
        (split; [auto|]); destruct (Rle_dec (FV a) (FV b)); lra.
Qed.

(** **** Values of literals *)

Lemma SFval_finite_neg s m e :
  (e < 0)%Z -> SFval (S754_finite s m e) = sgn s * (IZR (Zpos m) / IZR (2 ^ (- e))).
Proof.
  intros H. cbn [SFval]. f_equal. unfold Rdiv. f_equal.
  rewrite <- bpow_IZR by lia.
  assert (E : bpow e * bpow (- e) = 1).
  { rewrite <- bpow_plus. replace (e + - e)%Z with 0%Z by lia. apply bpow_0. }
  pose proof (bpow_gt_0 (- e)). apply Rmult_eq_reg_r with (bpow (- e)); [|lra].
  rewrite E. field. lra.
Qed.

Lemma SFval_finite_pos s m e :
  (0 <= e)%Z -> SFval (S754_finite s m e) = sgn s * IZR (Zpos m * 2 ^ e).
Proof.
  intros H. cbn [SFval]. rewrite mult_IZR, <- bpow_IZR by lia. reflexivity.
Qed.

End Arithmetic.

(** Compute the value of a literal Number as a fraction. *)
Ltac fv_literal c :=
  unfold Round.FV;
  let v := eval vm_compute in (Prim2SF c) in
  change (Prim2SF c) with v;
  first [ rewrite SFval_finite_neg by lia | rewrite SFval_finite_pos by lia | cbn [Round.SFval] ];
  cbn [Round.sgn];
  repeat match goal with
  | |- context [IZR ?z] =>
      lazymatch z with
      | context [Z.pow] => let p := eval vm_compute in z in change z with p
      | context [Z.mul] => let p := eval vm_compute in z in change z with p
      | context [Z.opp] => let p := eval vm_compute in z in change z with p
      end
  end.

Ltac finite_literal := apply is_finite_spec; vm_compute; reflexivity.

Section Literals.

Import Round.
Local Open Scope R_scope.

Lemma FV_0 : FV 0 = 0.
Proof. fv_literal 0%float. reflexivity. Qed.

Lemma FV_1 : FV 1 = 1.
Proof. fv_literal 1%float. lra. Qed.

Lemma FV_6 : FV 6 = 6.
Proof. fv_literal 6%float. lra. Qed.

Lemma FV_16 : FV 16 = 16.
Proof. fv_literal 16%float. lra. Qed.

Lemma FV_180 : FV 180 = 180.
Proof. fv_literal 180%float. lra. Qed.

Lemma FV_360 : FV 360 = 360.
Proof. fv_literal 360%float. lra. Qed.

Lemma FV_540 : FV 540 = 540.
Proof. fv_literal 540%float. lra. Qed.

Lemma FV_720 : FV 720 = 720.
Proof. fv_literal 720%float. lra. Qed.

Lemma FV_22 : FV 22 = 22.
Proof. fv_literal 22%float. lra. Qed.

Lemma FV_22_5 : FV 22.5 = 45 / 2.
Proof. fv_literal 22.5%float. lra. Qed.

Lemma FV_PI : 3 < FV Num.PI < 4.
Proof. fv_literal Num.PI. lra. Qed.

End Literals.

(** ** Numbers and their bit-level specification *)

Lemma Prim2SF_classified x : classified x (Prim2SF x).
Proof.
  pose proof (SF2Prim_Prim2SF x) as Hx. revert Hx. unfold Prim2SF.
  destruct (is_nan x) eqn:Hn; [intros _; now constructor|].
  destruct (is_zero x) eqn:Hz; [intros _; now constructor|].
  destruct (is_infinity x) eqn:Hi; [intros _; now constructor|].
  destruct (Z.frexp x) as [r ex].
  destruct (shr_fexp _ _ _ _ _) as [mrs e'].
  destruct (shr_m mrs) as [|p|p]; intros Hx.
  - rewrite <- Hx in Hz. discriminate.
  - now constructor.
  - rewrite <- Hx in Hz. discriminate.
Qed.

(** The sign of the product of [+0] and a finite Number is the sign of that
    Number. *)
Lemma zero_mul_finite c :
  is_finite c = true ->
  (PrimFloat.zero * c)%float = if get_sign c then neg_zero else PrimFloat.zero.
Proof.
  intros H. apply Prim2SF_inj. rewrite mul_spec.
  unfold is_finite in H. apply negb_true_iff, orb_false_iff in H as [Hn Hi].
  change (Prim2SF PrimFloat.zero) with (S754_zero false).
  destruct (Prim2SF_classified c); try congruence;
    destruct (get_sign c); reflexivity.
Qed.

(** ** Numeric coercion *)

Lemma is_finite_not_nan x : is_finite x = true -> is_nan x = false.
Proof.
  unfold is_finite. destruct (is_nan x); [discriminate | reflexivity].
Qed.

Lemma stripSeparators_idem s :
  App.stripSeparators (App.stripSeparators s) = App.stripSeparators s.
Proof.
  unfold App.stripSeparators. induction s as [|c s IH]; simpl; [reflexivity|].
  destruct (App.is_separator c) eqn:E; simpl; [exact IH|].
  rewrite E. simpl. now rewrite IH.
Qed.

Lemma stripSeparators_all s :
  forallb App.is_separator s = true -> App.stripSeparators s = [].
Proof.
  unfold App.stripSeparators. induction s as [|c s IH]; simpl; [reflexivity|].
  intros H. apply andb_true_iff in H as [Hc Hs]. rewrite Hc. simpl. auto.
Qed.

Lemma toNum_of_text v :
  App.stripSeparators (ToString (coalesce v (VString []))) = [] ->
  App.toNum v = PrimFloat.zero.
Proof.
  intros H. unfold App.toNum. rewrite H. reflexivity.
Qed.

(** C1, as the code has it.  [toNum] is a total function of the value: it
    removes every comma and space from the text of the value (the empty
    string for [null] and [undefined]), reads what is left as a
    StringNumericLiteral, and returns that Number when it is finite and NaN
    otherwise.  Its result is therefore finite or NaN, commas and spaces
    never matter, and an absent, empty or separator-only input gives [+0],
    the value of the empty literal. *)
Theorem toNum_coercion :
  forall v,
    let text := App.stripSeparators (ToString (coalesce v (VString []))) in
    (App.toNum v = if is_finite (Conv.StringToNumber text)
                   then Conv.StringToNumber text else nan)
    /\ (is_finite (App.toNum v) = true \/ is_nan (App.toNum v) = true)
    /\ (forall s, App.toNum (VString (App.stripSeparators s)) = App.toNum (VString s))
    /\ (forall s, forallb App.is_separator s = true ->
                  App.toNum (VString s) = PrimFloat.zero)
    /\ App.toNum VUndefined = PrimFloat.zero
    /\ App.toNum VNull = PrimFloat.zero
    /\ App.toNum (VString []) = PrimFloat.zero.
Proof.
  intros v text. repeat split; try reflexivity.
  - unfold App.toNum, Num.isFinite. fold text.
    destruct (is_finite (Conv.StringToNumber text)) eqn:E; [left; exact E | right; reflexivity].
  - intros s. unfold App.toNum. simpl. now rewrite stripSeparators_idem.
  - intros s Hs. apply toNum_of_text. simpl. now apply stripSeparators_all.
Qed.

(** C1, the claim as stated fails: the empty string is coerced to [+0],
    which is not NaN. *)
Lemma toNum_empty_not_nan :
  App.toNum (VString []) = PrimFloat.zero /\ is_nan (App.toNum (VString [])) = false.
Proof. split; reflexivity. Qed.

(** ** Region names *)

Section RegionNames.

Import Unicode Spec.
Local Open Scope N_scope.

Lemma char_eqb_eq a b : char_eqb a b = true <-> a = b.
Proof. apply N.eqb_eq. Qed.

Lemma eqb_eq s t : Str.eqb s t = true <-> s = t.
Proof.
  revert t. induction s as [|a s IH]; intros [|b t]; simpl; split; try easy.
  - intros H. apply andb_true_iff in H as [H1 H2].
    apply char_eqb_eq in H1. apply IH in H2. now subst.
  - intros H. injection H as -> ->. apply andb_true_iff. split.
    + now apply char_eqb_eq.
    + now apply IH.
Qed.

Lemma eqb_refl s : Str.eqb s s = true.
Proof. now apply eqb_eq. Qed.

Lemma chars_from_In lo n c :
  lo <= c < lo + N.of_nat n -> In c (chars_from lo n).
Proof.
  revert lo. induction n as [|n IH]; intros lo H; simpl.
  - lia.
  - destruct (N.eq_dec lo c) as [->|Hne]; [now left|right].
    apply IH. lia.
Qed.

(** *** Code points and code units *)

Lemma assoc_In {A} c (l : list (N * A)) v : assoc c l = Some v -> In (c, v) l.
Proof.
  induction l as [|[k w] l IH]; cbn [assoc]; [discriminate|].
  destruct (N.eqb_spec k c) as [->|_].
  - intros H. injection H as ->. now left.
  - intros H. right. now apply IH.
Qed.

Lemma in_ranges_In c l :
  in_ranges c l = true -> exists r, In r l /\ fst r <= c <= snd r.
Proof.
  unfold in_ranges. intros H. apply existsb_exists in H as (r & Hr & B).
  apply andb_true_iff in B as [B1 B2]. apply N.leb_le in B1, B2. now exists r.
Qed.

Lemma code_points_two c d r :
  code_points (c :: d :: r)
  = if is_lead c && is_trail d
    then (0x10000 + (c - 0xD800) * 0x400 + (d - 0xDC00)) :: code_points r
    else c :: code_points (d :: r).
Proof. reflexivity. Qed.

Lemma code_points_cons c s : is_lead c = false -> code_points (c :: s) = c :: code_points s.
Proof.
  intros H. destruct s as [|d r]; [reflexivity|]. now rewrite code_points_two, H.
Qed.

(** A string without leading surrogates is the list of its code points. *)
Lemma code_points_plain s :
  forallb (fun c => negb (is_lead c)) s = true -> code_points s = s.
Proof.
  induction s as [|c s IH]; [reflexivity|]. cbn [forallb]. intros H.
  apply andb_true_iff in H as [Hc Hs]. apply negb_true_iff in Hc.
  now rewrite code_points_cons, IH.
Qed.

Lemma code_points_length s : (List.length (code_points s) <= List.length s)%nat.
Proof.
  assert (G : forall n s, (List.length s <= n)%nat ->
                          (List.length (code_points s) <= List.length s)%nat).
  { clear s. induction n as [|n IH]; intros s Hn.
    - destruct s; [cbn; lia|cbn in Hn; lia].
    - destruct s as [|c [|d r]]; [cbn; lia|cbn; lia|].
      rewrite code_points_two. cbn [List.length] in Hn |- *.
      destruct (is_lead c && is_trail d).
      + cbn [List.length]. specialize (IH r ltac:(lia)). lia.
      + cbn [List.length]. specialize (IH (d :: r) ltac:(cbn [List.length]; lia)).
        cbn [List.length] in IH. lia. }
  now apply (G (List.length s)).
Qed.

Lemma encode_scalar p :
  is_scalar p = true ->
  (p < 0x10000 /\ encode p = [p] /\ is_lead p = false /\ is_trail p = false)
  \/ exists hi lo, encode p = [hi; lo] /\ is_lead hi = true /\ is_trail lo = true
                   /\ 0x10000 + (hi - 0xD800) * 0x400 + (lo - 0xDC00) = p.
Proof.
  unfold is_scalar, encode, is_lead, is_trail, in_range. intros H.
  apply andb_true_iff in H as [H1 H2]. apply N.ltb_lt in H2.
  destruct (N.ltb_spec p 0x10000) as [L|L].
  - left. repeat split; [exact L| |].
    + apply orb_true_iff in H1 as [H1|H1]; apply N.ltb_lt in H1.
      * apply andb_false_iff. left. apply N.leb_gt. lia.
      * apply andb_false_iff. right. apply N.leb_gt. lia.
    + apply orb_true_iff in H1 as [H1|H1]; apply N.ltb_lt in H1.
      * apply andb_false_iff. left. apply N.leb_gt. lia.
      * apply andb_false_iff. right. apply N.leb_gt. lia.
  - right. remember (p - 0x10000) as q eqn:Eq.
    assert (Q : q < 0x100000) by lia.
    pose proof (N.div_mod q 0x400 ltac:(lia)) as D.
    pose proof (N.mod_lt q 0x400 ltac:(lia)) as M.
    assert (Dv : q / 0x400 < 0x400) by (apply N.Div0.div_lt_upper_bound; lia).
    clear H1. remember (q / 0x400) as a eqn:Ea. remember (q mod 0x400) as b eqn:Eb.
    exists (0xD800 + a), (0xDC00 + b). split; [reflexivity|]. repeat split.
    + apply andb_true_iff. split; apply N.leb_le; lia.
    + apply andb_true_iff. split; apply N.leb_le; lia.
    + lia.
Qed.

(** Decoding the code units of code points that are no surrogates gives
    the code points back. *)
Lemma code_points_utf16 l :
  forallb is_scalar l = true -> code_points (utf16 l) = l.
Proof.
  induction l as [|p l IH]; [reflexivity|]. cbn [forallb utf16 flat_map]. intros H.
  apply andb_true_iff in H as [Hp Hl]. fold (utf16 l). specialize (IH Hl).
  destruct (encode_scalar p Hp) as [(_ & E & L & _)|(hi & lo & E & L & T & V)]; rewrite E.
  - cbn [app]. now rewrite code_points_cons, IH.
  - cbn [app]. now rewrite code_points_two, L, T, V, IH.
Qed.

Lemma utf16_plain l : forallb (fun p => p <? 0x10000) l = true -> utf16 l = l.
Proof.
  induction l as [|p l IH]; [reflexivity|]. cbn [forallb utf16 flat_map]. intros H.
  apply andb_true_iff in H as [Hp Hl]. fold (utf16 l). rewrite (IH Hl).
  unfold encode. now rewrite Hp.
Qed.

Lemma utf16_app l l' : utf16 (l ++ l') = utf16 l ++ utf16 l'.
Proof. apply flat_map_app. Qed.

(** Without a capital sigma the lower case is taken code point by code
    point. *)
Lemma lower_points_plain l : forall before,
  forallb (fun c => negb (c =? 0x3A3)) l = true ->
  lower_points before l = flat_map lower_point l.
Proof.
  induction l as [|c l IH]; intros before H; [reflexivity|].
  cbn [forallb] in H. apply andb_true_iff in H as [Hc Hl]. apply negb_true_iff in Hc.
  cbn [lower_points flat_map]. now rewrite Hc, IH.
Qed.

(** *** What is checked on the tables *)

Lemma decompositions_checked :
  forallb (fun e => decomposition_ok (snd e) && negb (Str.eqb (snd e) [])) decompositions
  = true.
Proof. vm_compute. reflexivity. Qed.

Lemma jamo_checked :
  forallb (fun j => match lower_point j with
                    | [k] => negb (key_char_ok k)
                    | _ => true
                    end) (chars_from 0x1100 19) = true.
Proof. vm_compute. reflexivity. Qed.

Lemma lowercase_checked :
  forallb lower_entry_ok lowercase = true
  /\ forallb (fun c => match assoc c lowercase with Some _ => true | None => false end)
             (chars_from 0x41 26) = true.
Proof. split; vm_compute; reflexivity. Qed.

Lemma uppercase_checked :
  forallb upper_entry_ok uppercase = true
  /\ forallb (fun c => match assoc c uppercase with Some _ => true | None => false end)
             (chars_from 0x61 26) = true.
Proof. split; vm_compute; reflexivity. Qed.

Lemma kelvin_decomposes : assoc 0x212A decompositions = Some [0x4B].
Proof. vm_compute. reflexivity. Qed.

Lemma basic_latin_checked :
  forallb (fun c => (ccc c =? 0) && is_scalar c && negb (c =? 0x3A3)) (chars_from 0 128)
  = true.
Proof. vm_compute. reflexivity. Qed.

Lemma whitespace_checked : forallb whitespace_ok whitespace_chars = true.
Proof. vm_compute. reflexivity. Qed.

Lemma diacritic_ranges_checked :
  forallb (fun r => ((snd r <? 0xD800) || (0xDFFF <? fst r)) && (snd r <? 0x110000))
          diacritic_ranges = true.
Proof. vm_compute. reflexivity. Qed.

(** *** Single code points *)

Lemma whitespace_In c : is_whitespace c = true -> In c whitespace_chars.
Proof.
  unfold is_whitespace, whitespace_chars, in_range. intros H.
  repeat (apply orb_true_iff in H as [H|H]);
    lazymatch type of H with
    | (_ =? _) = true => apply N.eqb_eq in H; subst c; vm_compute; tauto
    | _ => apply andb_true_iff in H as [L U]; apply N.leb_le in L, U
    end.
  - apply in_or_app. left. apply chars_from_In. cbn. lia.
  - apply in_or_app. right. apply in_or_app. right. apply in_or_app. left.
    apply chars_from_In. cbn. lia.
Qed.

Lemma whitespace_facts c :
  is_whitespace c = true ->
  is_accent c = false /\ is_lead c = false /\ is_trail c = false
  /\ forall k, spells_char k c = true -> is_whitespace k = true.
Proof.
  intros H. apply whitespace_In in H.
  pose proof whitespace_checked as T. rewrite forallb_forall in T. specialize (T c H).
  unfold whitespace_ok in T.
  apply andb_true_iff in T as [T T4]. apply andb_true_iff in T as [T T3].
  apply andb_true_iff in T as [T1 T2]. apply negb_true_iff in T1, T2, T3.
  repeat split; try assumption.
  intros k Hk. unfold spells_char in Hk. apply eqb_eq in Hk.
  rewrite Hk in T4. exact T4.
Qed.

Lemma key_char_scalar b : key_char_ok b = true -> b < 128 /\ is_diacritic b = false.
Proof.
  unfold key_char_ok. intros H. apply andb_true_iff in H as [H1 H2].
  apply N.ltb_lt in H1. apply negb_true_iff in H2. now split.
Qed.

Lemma basic_latin_facts b :
  b < 128 -> ccc b = 0 /\ is_scalar b = true /\ b <> 0x3A3 /\ b < 0x10000.
Proof.
  intros H. pose proof basic_latin_checked as T. rewrite forallb_forall in T.
  specialize (T b (chars_from_In 0 128 b ltac:(cbn; lia))).
  apply andb_true_iff in T as [T T3]. apply andb_true_iff in T as [T1 T2].
  apply N.eqb_eq in T1. apply negb_true_iff, N.eqb_neq in T3.
  repeat split; try assumption. lia.
Qed.

Lemma diacritic_scalar c : is_diacritic c = true -> is_scalar c = true.
Proof.
  intros H. apply in_ranges_In in H as (r & Hr & B).
  pose proof diacritic_ranges_checked as T. rewrite forallb_forall in T.
  specialize (T r Hr). apply andb_true_iff in T as [T1 T2]. apply N.ltb_lt in T2.
  unfold is_scalar. apply andb_true_iff. split; [|apply N.ltb_lt; lia].
  apply orb_true_iff in T1 as [T1|T1]; apply N.ltb_lt in T1; apply orb_true_iff;
    [left|right]; apply N.ltb_lt; lia.
Qed.

Lemma decompose_cases c :
  (in_range 0xAC00 0xD7A3 c = true /\ decompose c = hangul c)
  \/ (exists d, In (c, d) decompositions /\ decompose c = d)
  \/ (assoc c decompositions = None /\ decompose c = [c]).
Proof.
  unfold decompose. destruct (in_range 0xAC00 0xD7A3 c); [now left|right].
  destruct (assoc c decompositions) as [d|] eqn:E; [left|right; now split].
  exists d. split; [now apply assoc_In|reflexivity].
Qed.

Lemma lower_to_key c k :
  lower_point c = [k] -> k < 128 -> c < 128 \/ c = 0x212A.
Proof.
  unfold lower_point. intros H Hk.
  destruct (assoc c lowercase) as [l|] eqn:E.
  - subst l. apply assoc_In in E.
    pose proof (proj1 lowercase_checked) as T. rewrite forallb_forall in T.
    specialize (T _ E). unfold lower_entry_ok in T. cbn [fst snd] in T.
    apply andb_true_iff in T as [T _].
    rewrite (proj2 (N.ltb_lt k 128) Hk) in T. cbn [implb] in T.
    apply orb_true_iff in T as [T|T]; [left; now apply N.ltb_lt|right; now apply N.eqb_eq].
  - injection H as ->. now left.
Qed.


Lemma all_diacritic l :
  forallb is_diacritic l = true ->
  filter (fun x => negb (is_diacritic x)) l = []
  /\ forallb mark_ok l = true /\ forallb plain_ok l = true.
Proof.
  induction l as [|x l IH]; cbn [forallb filter]; [now repeat split|].
  intros H. apply andb_true_iff in H as [Hx Hl]. destruct (IH Hl) as (I1 & I2 & I3).
  unfold mark_ok at 1, plain_ok at 1. rewrite Hx, I1, I2, I3. cbn [negb orb andb].
  repeat split. now destruct (negb (ccc x =? 0)).
Qed.

(** A code point that writes a key character: once decomposed, it is one
    character of Basic Latin followed by diacritics. *)
Lemma letter_facts k c :
  key_char_ok k = true -> spells_char k c = true -> is_accent c = false ->
  exists b,
    filter (fun x => negb (is_diacritic x)) (decompose c) = [b]
    /\ key_char_ok b = true /\ lower_point b = [k]
    /\ forallb mark_ok (decompose c) = true
    /\ forallb plain_ok (decompose c) = true.
Proof.
  intros Hk Hs Ha. unfold spells_char in Hs. apply eqb_eq in Hs. unfold is_accent in Ha.
  destruct (key_char_scalar k Hk) as [Lk Dk].
  destruct (decompose_cases c) as [[Hh E]|[(d & Hd & E)|[Hn E]]]; rewrite E in *.
  - exfalso. unfold in_range in Hh. apply andb_true_iff in Hh as [L U].
    apply N.leb_le in L, U.
    set (j := 0x1100 + (c - 0xAC00) / 588).
    assert (Hj : hd c (hangul c) = j).
    { unfold hangul. cbv zeta. now destruct (_ =? 0). }
    rewrite Hj in Hs.
    assert (In j (chars_from 0x1100 19)).
    { apply chars_from_In. change (N.of_nat 19) with 19. unfold j.
      assert (A : (c - 0xAC00) / 588 < 19) by (apply N.Div0.div_lt_upper_bound; lia).
      remember ((c - 0xAC00) / 588) as a. lia. }
    pose proof jamo_checked as T. rewrite forallb_forall in T. specialize (T j H).
    rewrite Hs, Hk in T. discriminate.
  - pose proof decompositions_checked as T. rewrite forallb_forall in T.
    specialize (T _ Hd). cbn [snd] in T. apply andb_true_iff in T as [T N].
    destruct d as [|b d]; [discriminate N|]. cbn [hd] in *.
    unfold decomposition_ok in T. cbn [hd tl] in T. rewrite Hs, Hk in T. cbn [implb] in T.
    apply andb_true_iff in T as [T T3]. apply andb_true_iff in T as [T1 T2].
    destruct (key_char_scalar b T1) as [_ Db]. destruct (all_diacritic d T3) as (A1 & A2 & A3).
    exists b. cbn [filter forallb]. unfold mark_ok at 1, plain_ok at 1.
    rewrite Db, A1, A2, A3, T1, T2. cbn. auto.
  - cbn [hd forallb] in *. rewrite andb_true_r in Ha.
    destruct (lower_to_key c k Hs Lk) as [Lc|Kc];
      [|subst c; rewrite kelvin_decomposes in Hn; discriminate].
    destruct (basic_latin_facts c Lc) as (C0 & _).
    assert (Kc : key_char_ok c = true).
    { unfold key_char_ok. rewrite Ha. now rewrite (proj2 (N.ltb_lt c 128) Lc). }
    exists c. cbn [filter forallb]. unfold mark_ok, plain_ok.
    rewrite Ha, Kc, C0. cbn. auto.
Qed.

Lemma accent_facts c :
  is_accent c = true ->
  filter (fun x => negb (is_diacritic x)) (decompose c) = []
  /\ forallb mark_ok (decompose c) = true
  /\ forallb plain_ok (decompose c) = true
  /\ is_whitespace c = false.
Proof.
  intros Ha. destruct (all_diacritic _ Ha) as (A1 & A2 & A3).
  repeat split; try assumption.
  destruct (is_whitespace c) eqn:W; [|reflexivity].
  destruct (whitespace_facts c W) as (N & _). congruence.
Qed.

(** *** Canonical ordering *)

Lemma filter_insert_mark c run :
  is_diacritic c = true ->
  filter (fun x => negb (is_diacritic x)) (insert_mark c run)
  = filter (fun x => negb (is_diacritic x)) run.
Proof.
  intros Hc. induction run as [|d r IH]; cbn [insert_mark filter].
  - now rewrite Hc.
  - destruct (ccc c <? ccc d); cbn [filter].
    + now rewrite Hc.
    + now rewrite IH.
Qed.

(** Canonical reordering only moves marks; when every mark is a diacritic
    it is invisible once the diacritics are removed. *)
Lemma filter_reorder s : forall run,
  forallb mark_ok s = true ->
  filter (fun x => negb (is_diacritic x)) (reorder s run)
  = filter (fun x => negb (is_diacritic x)) run
    ++ filter (fun x => negb (is_diacritic x)) s.
Proof.
  induction s as [|c s IH]; intros run H; cbn [reorder].
  - cbn [filter]. now rewrite app_nil_r.
  - cbn [forallb] in H. apply andb_true_iff in H as [Hc Hs].
    destruct (ccc c =? 0) eqn:E.
    + rewrite filter_app. cbn [filter]. rewrite (IH [] Hs). cbn [filter app].
      now destruct (negb (is_diacritic c)).
    + unfold mark_ok in Hc. rewrite E in Hc. cbn in Hc.
      rewrite (IH _ Hs), filter_insert_mark by exact Hc. cbn [filter].
      now rewrite Hc.
Qed.

Lemma forallb_insert_mark (P : N -> bool) c run :
  P c = true -> forallb P run = true -> forallb P (insert_mark c run) = true.
Proof.
  intros Hc. induction run as [|d r IH]; cbn [insert_mark forallb]; intros H.
  - now rewrite Hc.
  - apply andb_true_iff in H as [Hd Hr]. destruct (ccc c <? ccc d); cbn [forallb].
    + now rewrite Hc, Hd, Hr.
    + now rewrite Hd, IH.
Qed.

Lemma forallb_reorder (P : N -> bool) s : forall run,
  forallb P s = true -> forallb P run = true -> forallb P (reorder s run) = true.
Proof.
  induction s as [|c s IH]; intros run Hs Hr; cbn [reorder]; [exact Hr|].
  cbn [forallb] in Hs. apply andb_true_iff in Hs as [Hc Hs].
  destruct (ccc c =? 0).
  - rewrite forallb_app. cbn [forallb]. rewrite Hr, Hc. cbn. now apply IH.
  - apply IH; [exact Hs|]. now apply forallb_insert_mark.
Qed.

(** *** Spellings *)

(** The decomposition of a spelling of [key]. *)
Lemma spelled_decomposition points : forall key,
  forallb key_char_ok key = true ->
  forall2b spells_char key (filter (fun c => negb (is_accent c)) points) = true ->
  let D := flat_map decompose points in
  let B := filter (fun x => negb (is_diacritic x)) D in
  flat_map lower_point B = key
  /\ forallb key_char_ok B = true
  /\ forallb mark_ok D = true
  /\ forallb plain_ok D = true.
Proof.
  cbv zeta. induction points as [|c points IH]; intros key Hkey Hs.
  - destruct key; [now repeat split|discriminate].
  - cbn [flat_map filter] in *. rewrite filter_app, !forallb_app, flat_map_app.
    destruct (is_accent c) eqn:Ha; cbn [negb] in Hs.
    + destruct (accent_facts c Ha) as (A1 & A2 & A3 & _).
      destruct (IH key Hkey Hs) as (I1 & I2 & I3 & I4).
      rewrite A1, A2, A3, I3, I4. cbn [app flat_map forallb]. now repeat split.
    + destruct key as [|k key]; [discriminate|].
      cbn [forall2b forallb] in Hs, Hkey.
      apply andb_true_iff in Hs as [Hc Hs]. apply andb_true_iff in Hkey as [Hk Hkey].
      destruct (letter_facts k c Hk Hc Ha) as (b & L1 & L2 & L3 & L4 & L5).
      destruct (IH key Hkey Hs) as (I1 & I2 & I3 & I4).
      rewrite L1, L4, L5, I3, I4. cbn [app flat_map forallb].
      rewrite L3, L2, I1, I2. now repeat split.
Qed.

Lemma key_chars_plain l :
  forallb key_char_ok l = true ->
  forallb is_scalar l = true
  /\ forallb (fun p => p <? 0x10000) l = true
  /\ forallb (fun c => negb (c =? 0x3A3)) l = true.
Proof.
  induction l as [|b l IH]; cbn [forallb]; [now repeat split|].
  intros H. apply andb_true_iff in H as [Hb Hl]. destruct (IH Hl) as (I1 & I2 & I3).
  destruct (key_char_scalar b Hb) as [Lb _].
  destruct (basic_latin_facts b Lb) as (_ & S & N & U).
  rewrite S, I1, I2, I3, (proj2 (N.ltb_lt _ _) U), (proj2 (N.eqb_neq _ _) N).
  now repeat split.
Qed.

Lemma plain_scalar l : forallb plain_ok l = true -> forallb is_scalar l = true.
Proof.
  induction l as [|b l IH]; cbn [forallb]; [reflexivity|].
  intros H. apply andb_true_iff in H as [Hb Hl]. rewrite (IH Hl), andb_true_r.
  unfold plain_ok in Hb. apply orb_true_iff in Hb as [Hb|Hb].
  - now apply diacritic_scalar.
  - destruct (key_char_scalar b Hb) as [Lb _]. now destruct (basic_latin_facts b Lb) as (_ & S & _).
Qed.

(** What [normName] computes before trimming, for a spelling of [key]. *)
Lemma normalized_spelling key core :
  forallb key_char_ok key = true -> spells key core = true ->
  toLowerCase (stripDiacritics (normalizeNFD core)) = key.
Proof.
  intros Hkey Hs.
  destruct (spelled_decomposition (code_points core) key Hkey Hs) as (H1 & H2 & H3 & H4).
  cbv zeta in *.
  set (D := flat_map decompose (code_points core)) in *.
  unfold normalizeNFD, stripDiacritics, toLowerCase. fold D.
  rewrite (code_points_utf16 (reorder D []))
    by (apply plain_scalar, forallb_reorder; [exact H4|reflexivity]).
  rewrite filter_reorder by exact H3. cbn [filter app].
  destruct (key_chars_plain _ H2) as (S & U & N).
  rewrite code_points_utf16 by exact S.
  rewrite lower_points_plain by exact N. rewrite H1.
  apply utf16_plain. now destruct (key_chars_plain _ Hkey) as (_ & ? & _).
Qed.

Lemma forall2b_length {A B} (f : A -> B -> bool) l : forall l',
  forall2b f l l' = true -> List.length l = List.length l'.
Proof.
  induction l as [|a l IH]; intros [|b l'] H; simpl in *; try discriminate; auto.
  apply andb_true_iff in H as [_ H]. f_equal. now apply IH.
Qed.

Lemma spelled_length key core :
  spells key core = true -> (List.length key <= List.length core)%nat.
Proof.
  unfold spells. intros H. apply forall2b_length in H.
  pose proof (filter_length_le (fun c => negb (is_accent c)) (code_points core)).
  pose proof (code_points_length core). unfold jsstring, char in *. lia.
Qed.

Lemma spelled_first key core :
  spells key core = true -> is_whitespace (hd 0 key) = false ->
  drop_while is_whitespace core = core.
Proof.
  unfold spells. intros Hs Hw. destruct core as [|u r]; [reflexivity|].
  cbn [drop_while]. destruct (is_whitespace u) eqn:W; [exfalso|reflexivity].
  destruct (whitespace_facts u W) as (Na & Nl & _ & F).
  rewrite code_points_cons in Hs by exact Nl. cbn [filter] in Hs. rewrite Na in Hs.
  cbn [negb] in Hs. destruct key as [|k key]; [discriminate|].
  cbn [forall2b hd] in *. apply andb_true_iff in Hs as [Hk _].
  rewrite (F k Hk) in Hw. discriminate.
Qed.

(** The last code unit of a string is its last code point, unless it is a
    trailing surrogate. *)
Lemma code_points_last s :
  s <> [] -> is_trail (last s 0) = false ->
  exists ps, code_points s = ps ++ [last s 0].
Proof.
  assert (G : forall n s, (List.length s <= n)%nat -> s <> [] ->
                          is_trail (last s 0) = false ->
                          exists ps, code_points s = ps ++ [last s 0]).
  { clear s. induction n as [|n IH]; intros s Hn Hne Ht.
    - destruct s; [contradiction|cbn in Hn; lia].
    - destruct s as [|c [|d r]]; [contradiction|now exists []|].
      rewrite code_points_two. cbn [List.length] in Hn.
      change (last (c :: d :: r) 0) with (last (d :: r) 0) in *.
      destruct (is_lead c && is_trail d) eqn:P.
      + destruct r as [|e r].
        * apply andb_true_iff in P as [_ P]. cbn [last] in Ht. congruence.
        * change (last (d :: e :: r) 0) with (last (e :: r) 0) in *.
          destruct (IH (e :: r) ltac:(cbn [List.length] in *; lia) ltac:(discriminate) Ht)
            as [ps E].
          exists (0x10000 + (c - 0xD800) * 0x400 + (d - 0xDC00) :: ps).
          cbn [app]. f_equal. exact E.
      + destruct (IH (d :: r) ltac:(cbn [List.length] in *; lia) ltac:(discriminate) Ht)
          as [ps E].
        exists (c :: ps). cbn [app]. f_equal. exact E. }
  now apply (G (List.length s)).
Qed.

Lemma forall2b_last {A B} (f : A -> B -> bool) l' x : forall l,
  forall2b f l (l' ++ [x]) = true -> exists l0 a, l = l0 ++ [a] /\ f a x = true.
Proof.
  induction l' as [|y l' IH]; intros l H.
  - destruct l as [|a [|? ?]]; cbn in H; try discriminate.
    + exists [], a. split; [reflexivity|]. now rewrite andb_true_r in H.
    + apply andb_true_iff in H as [_ H]. discriminate.
  - destruct l as [|a l]; [discriminate|]. cbn [app forall2b] in H.
    apply andb_true_iff in H as [_ H]. destruct (IH l H) as (l0 & b & -> & Hb).
    now exists (a :: l0), b.
Qed.

Lemma spelled_last key core :
  spells key core = true -> core <> [] -> is_whitespace (last key 0) = false ->
  is_whitespace (last core 0) = false.
Proof.
  unfold spells. intros Hs Hne Hw. unfold jsstring, char in *.
  destruct (is_whitespace (last core 0)) eqn:W; [exfalso|reflexivity].
  destruct (whitespace_facts _ W) as (Na & _ & Nt & F).
  destruct (code_points_last core Hne Nt) as [ps E]. rewrite E in Hs.
  rewrite filter_app in Hs. cbn [filter] in Hs. rewrite Na in Hs. cbn [negb] in Hs.
  apply forall2b_last in Hs as (l0 & a & -> & Ha).
  rewrite last_last in Hw. rewrite (F a Ha) in Hw. discriminate.
Qed.

Lemma drop_while_rev s :
  s <> [] -> is_whitespace (last s 0) = false ->
  drop_while is_whitespace (rev s) = rev s.
Proof.
  intros Hne Hw. destruct (exists_last Hne) as (s' & a & ->).
  rewrite last_last in Hw. rewrite rev_app_distr. simpl. now rewrite Hw.
Qed.

Lemma spelled_trim key core :
  spells key core = true -> key <> [] ->
  is_whitespace (hd 0 key) = false -> is_whitespace (last key 0) = false ->
  trim core = core.
Proof.
  intros Hs Hne Hf Hl. unfold trim.
  rewrite (spelled_first key core Hs Hf).
  assert (Hc : core <> []).
  { intros ->. destruct key; [easy | discriminate]. }
  rewrite drop_while_rev; [apply rev_involutive | exact Hc |].
  now apply (spelled_last key).
Qed.

Lemma entries_checked : forallb entry_ok App.NAME_TO_CODE = true.
Proof. vm_compute. reflexivity. Qed.

(** C6.  Every name of the table, in any spelling that differs from the
    table's by letter case and diacritics only (including the alternate
    spelling of Newfoundland and Labrador and the abbreviation PEI),
    resolves to the code the table gives it.  A spelling may write a letter
    in either case, or as any letter of Unicode whose canonical
    decomposition is that letter followed by diacritics, and may hold
    diacritics of its own anywhere. *)
Theorem region_resolver_correct :
  forall key code core,
    In (key, VString code) App.NAME_TO_CODE ->
    spells key core = true ->
    App.parseCSV_region (VString core) = Normal code.
Proof.
  intros key code core Hin Hs.
  pose proof entries_checked as E. rewrite forallb_forall in E.
  specialize (E _ Hin). unfold entry_ok in E. cbn [fst snd] in E.
  repeat (apply andb_true_iff in E as [E ?]).
  destruct (get App.NAME_TO_CODE key) as [| |code'| |] eqn:G; try discriminate.
  repeat match goal with H : _ && _ = true |- _ => apply andb_true_iff in H as [H ?] end.
  repeat match goal with H : negb _ = true |- _ => apply negb_true_iff in H end.
  repeat match goal with H : Str.eqb _ _ = true |- _ => apply eqb_eq in H end.
  subst code'.
  assert (Hne : key <> []) by (intros ->; discriminate).
  assert (Ht : trim core = core) by (apply (spelled_trim key); assumption).
  assert (Hc : core <> []).
  { intros ->. destruct key; [easy | discriminate]. }
  assert (Hlen : (2 <? Z.of_nat (List.length core))%Z = true).
  { apply Z.ltb_lt. pose proof (spelled_length key core Hs).
    match goal with H : (2 <? _) = true |- _ => apply N.ltb_lt in H end. lia. }
  unfold App.parseCSV_region, or.
  replace (ToBoolean (VString core)) with true by (destruct core; easy).
  cbn [ToString]. rewrite Ht, Hlen.
  unfold App.normName. cbn [coalesce ToString].
  rewrite (normalized_spelling key core) by assumption.
  match goal with H : trim key = key |- _ => rewrite H end.
  rewrite G. replace (ToBoolean (VString code)) with true.
  - congruence.
  - destruct code; [|reflexivity].
    match goal with H : Str.eqb [] [] = false |- _ => discriminate H end.
Qed.

Lemma region_resolver_examples :
  App.parseCSV_region (VString (str "Qu" ++ [0xE9] ++ str "bec")) = Normal (str "QC")
  /\ App.parseCSV_region (VString (str "PEI")) = Normal (str "PE")
  /\ App.parseCSV_region (VString ([0x100] ++ str "lberta")) = Normal (str "AB")
  /\ App.parseCSV_region (VString (str "Qu" ++ [0x119] ++ str "bec")) = Normal (str "QC")
  /\ App.parseCSV_region (VString (str "YU" ++ [0x212A] ++ str "ON")) = Normal (str "YT").
Proof.
  refine (conj _ (conj _ (conj _ (conj _ _)))).
  - apply (region_resolver_correct (str "quebec")).
    + simpl. do 11 right. left. reflexivity.
    + vm_compute. reflexivity.
  - apply (region_resolver_correct (str "pei")).
    + simpl. do 14 right. left. reflexivity.
    + vm_compute. reflexivity.
  - apply (region_resolver_correct (str "alberta")).
    + simpl. left. reflexivity.
    + vm_compute. reflexivity.
  - apply (region_resolver_correct (str "quebec")).
    + simpl. do 11 right. left. reflexivity.
    + vm_compute. reflexivity.
  - apply (region_resolver_correct (str "yukon")).
    + simpl. do 13 right. left. reflexivity.
    + vm_compute. reflexivity.
Defined.

End RegionNames.

(** ** Case conversion *)

Section CaseConversion.

Import Unicode Spec.
Local Open Scope N_scope.

(** The code units of code points hold no character of a range of the
    Basic Multilingual Plane below the surrogates that the code points
    avoid. *)
Lemma utf16_avoids lo hi l :
  hi < 0xD800 ->
  forallb (fun x : N => negb (in_range lo hi x)) l = true ->
  existsb (in_range lo hi) (utf16 l) = false.
Proof.
  intros Hh. induction l as [|p l IH]; [reflexivity|]. cbn [forallb utf16 flat_map].
  intros H. apply andb_true_iff in H as [Hp Hl]. apply negb_true_iff in Hp.
  fold (utf16 l). rewrite existsb_app, (IH Hl), orb_false_r.
  unfold encode. destruct (p <? 0x10000); cbn [existsb]; [now rewrite Hp|].
  remember ((p - 0x10000) / 0x400) as a. remember ((p - 0x10000) mod 0x400) as b.
  unfold in_range.
  rewrite (proj2 (N.leb_gt (0xD800 + a) hi)), (proj2 (N.leb_gt (0xDC00 + b) hi)) by lia.
  now rewrite !andb_false_r.
Qed.

Lemma upper_point_no_small c :
  forallb (fun x : N => negb (in_range 0x61 0x7A x)) (upper_point c) = true.
Proof.
  unfold upper_point. destruct (assoc c uppercase) as [l|] eqn:E.
  - apply assoc_In in E. pose proof (proj1 uppercase_checked) as T.
    rewrite forallb_forall in T. exact (T _ E).
  - cbn [forallb]. rewrite andb_true_r. apply negb_true_iff.
    destruct (in_range 0x61 0x7A c) eqn:R; [exfalso|reflexivity].
    unfold in_range in R. apply andb_true_iff in R as [L U]. apply N.leb_le in L, U.
    pose proof (proj2 uppercase_checked) as T. rewrite forallb_forall in T.
    specialize (T c (chars_from_In 0x61 26 c ltac:(cbn; lia))). now rewrite E in T.
Qed.

Lemma lower_point_no_capital c :
  forallb (fun x : N => negb (in_range 0x41 0x5A x)) (lower_point c) = true.
Proof.
  unfold lower_point. destruct (assoc c lowercase) as [l|] eqn:E.
  - apply assoc_In in E. pose proof (proj1 lowercase_checked) as T.
    rewrite forallb_forall in T. specialize (T _ E). unfold lower_entry_ok in T.
    now apply andb_true_iff in T as [_ T].
  - cbn [forallb]. rewrite andb_true_r. apply negb_true_iff.
    destruct (in_range 0x41 0x5A c) eqn:R; [exfalso|reflexivity].
    unfold in_range in R. apply andb_true_iff in R as [L U]. apply N.leb_le in L, U.
    pose proof (proj2 lowercase_checked) as T. rewrite forallb_forall in T.
    specialize (T c (chars_from_In 0x41 26 c ltac:(cbn; lia))). now rewrite E in T.
Qed.

Lemma lower_points_no_capital l : forall before,
  forallb (fun x : N => negb (in_range 0x41 0x5A x)) (lower_points before l) = true.
Proof.
  induction l as [|c l IH]; intros before; [reflexivity|].
  cbn [lower_points]. rewrite forallb_app. apply andb_true_iff. split; [|apply IH].
  destruct ((c =? 0x3A3) && cased_next before && negb (cased_next l));
    [reflexivity|apply lower_point_no_capital].
Qed.

(** An upper-cased string has no small letter of Basic Latin. *)
Lemma toUpperCase_no_lower s :
  existsb (in_range 0x61 0x7A) (Unicode.toUpperCase s) = false.
Proof.
  unfold toUpperCase. apply utf16_avoids; [reflexivity|].
  induction (code_points s) as [|c l IH]; [reflexivity|].
  cbn [flat_map]. rewrite forallb_app. apply andb_true_iff.
  split; [apply upper_point_no_small|exact IH].
Qed.

(** A lower-cased string has no capital letter of Basic Latin. *)
Lemma toLowerCase_no_upper s :
  existsb (in_range 0x41 0x5A) (Unicode.toLowerCase s) = false.
Proof.
  unfold toLowerCase. apply utf16_avoids; [reflexivity|apply lower_points_no_capital].
Qed.

End CaseConversion.

(** ** Wind heading *)

Section Heading.

Import App.
Local Open Scope float_scope.

Lemma waf_cases env :
  inherited env = false ->
  let waf := ToNumber (coalesce (get WAF env) (VNumber 0.7)) in
  waf = 0.7 \/ waf = 0.5 \/ waf = 0.3.
Proof.
  intros Hi. unfold get, WAF, own. unfold inherited in Hi.
  destruct (Str.eqb env (str "grass")); [now left|].
  destruct (Str.eqb env (str "shrub")); [now right; left|].
  destruct (Str.eqb env (str "forest")); [now right; right|].
  fold (@own value env Object_prototype).
  destruct (own env Object_prototype); [discriminate|]. now left.
Qed.

(** C10, as the code has it.  With no wind and no slope both components
    of the spread vector are zeros whose signs are the signs of the cosine
    and the sine of the TO-heading, and [Math.atan2] tells a negative zero
    from a positive one: the heading is 0 (N) when the cosine is not
    negative and 180 (S) when it is. *)
Theorem calm_heading :
  forall M dirFromDeg env,
    atan2_at_zeros M ->
    inherited env = false ->
    let a := toRad (mod360 (dirFromDeg + 180)) in
    is_finite (cos M a) = true ->
    is_finite (sin M a) = true ->
    predictHeading M 0 dirFromDeg env nan nan =
      if get_sign (cos M a)
      then {| headingDeg := 180; compass := VString (str "S") |}
      else {| headingDeg := 0; compass := VString (str "N") |}.
Proof.
  intros M d env (A1 & A2 & A3 & A4) Hi a Hc Hs.
  unfold predictHeading, spreadVector. fold a.
  change (Num.isFinite nan && Num.isFinite nan) with false. cbv iota.
  assert (W : (ToNumber (coalesce (get WAF env) (VNumber 0.7)) * (0 / 3.6)) = PrimFloat.zero).
  { destruct (waf_cases env Hi) as [-> | [-> | ->]]; reflexivity. }
  rewrite W, !zero_mul_finite by assumption.
  destruct (get_sign (cos M a)), (get_sign (sin M a));
    rewrite ?A1, ?A2, ?A3, ?A4; vm_compute; reflexivity.
Qed.

Lemma calm_heading_example :
  predictHeading RefMath.lib 0 0 (str "grass") nan nan
  = {| headingDeg := 180; compass := VString (str "S") |}.
Proof.
  rewrite (calm_heading RefMath.lib 0 (str "grass")).
  - vm_compute. reflexivity.
  - repeat split; vm_compute; reflexivity.
  - vm_compute. reflexivity.
  - vm_compute. reflexivity.
  - vm_compute. reflexivity.
Defined.

(** C10, the claim as stated fails: wind FROM 0 at speed 0 gives the
    heading 180 and the label S. *)
Lemma calm_heading_south :
  headingDeg (predictHeading RefMath.lib 0 0 (str "grass") nan nan) = 180
  /\ compass (predictHeading RefMath.lib 0 0 (str "grass") nan nan) = VString (str "S").
Proof. split; vm_compute; reflexivity. Qed.

(** C4, as the code has it.  When both slope inputs are finite the vector
    [0.02 * (slopePct / 10)] times the cosine and the sine of the
    slope-to direction is added component-wise to the wind vector, and
    nothing is added otherwise. *)
Theorem slope_push :
  forall M speedKmh dirFromDeg env slopePct slopeDirTo,
    spreadVector M speedKmh dirFromDeg env slopePct slopeDirTo =
      let '(u, v) := spreadVector M speedKmh dirFromDeg env nan nan in
      if Num.isFinite slopePct && Num.isFinite slopeDirTo
      then (u + 0.02 * (slopePct / 10) * cos M (toRad slopeDirTo),
            v + 0.02 * (slopePct / 10) * sin M (toRad slopeDirTo))
      else (u, v).
Proof.
  intros. unfold spreadVector.
  change (Num.isFinite nan && Num.isFinite nan) with false. cbv iota.
  reflexivity.
Qed.

(** C4, the claim as stated fails: for a slope of 7 percent the factor is
    0.013999999999999999, which is not 0.002 * 7 = 0.014. *)
Lemma slope_push_inexact :
  spreadVector RefMath.lib 0 180 (str "grass") 7 0 = (0.013999999999999999, 0)
  /\ 0.002 * 7 = 0.014
  /\ (0.013999999999999999 =? 0.014) = false.
Proof. repeat split; vm_compute; reflexivity. Qed.

End Heading.

(** ** The aggregation *)

Section Aggregation.

Import Round.

Lemma own_put_eq {A} (o : object A) k v : own k (put o k v) = Some v.
Proof.
  induction o as [|[k' v'] o IH]; simpl.
  - now rewrite eqb_refl.
  - destruct (eqb k k') eqn:E; simpl; rewrite E; [reflexivity | exact IH].
Qed.

Lemma own_put_ne {A} (o : object A) k k' v :
  eqb k k' = false -> own k (put o k' v) = own k o.
Proof.
  intros N. induction o as [|[k1 v1] o IH]; simpl.
  - now rewrite N.
  - destruct (eqb k' k1) eqn:E; simpl.
    + apply eqb_eq in E. subst k1. now rewrite N.
    + now rewrite IH.
Qed.

Lemma eqb_sym s t : eqb s t = eqb t s.
Proof.
  destruct (eqb s t) eqn:E.
  - apply eqb_eq in E. subst. symmetry. apply eqb_refl.
  - destruct (eqb t s) eqn:E'; [|reflexivity].
    apply eqb_eq in E'. subst. now rewrite eqb_refl in E.
Qed.

Lemma has_CENTROIDS k : has k App.CENTROIDS = mem k codes || inherited k.
Proof.
  unfold has, codes, mem. cbn [App.CENTROIDS map fst existsb own].
  repeat match goal with
  | |- context [eqb k ?c] => destruct (eqb k c) eqn:?; cbn [orb]; [reflexivity|]
  end.
  reflexivity.
Qed.

(** Sums with infinities. *)
Lemma leb_zero_cases y :
  (0 <=? y)%float = true ->
  (exists s, Prim2SF y = S754_zero s) \/ (exists m e, Prim2SF y = S754_finite false m e)
  \/ Prim2SF y = S754_infinity false.
Proof.
  rewrite leb_spec. change (Prim2SF 0) with (S754_zero false).
  destruct (Prim2SF y) as [s|[]| |[] m e]; cbn; try discriminate; eauto.
Qed.

Lemma add_nonneg x y :
  (0 <=? x)%float = true -> (0 <=? y)%float = true -> (0 <=? x + y)%float = true.
Proof.
  intros Hx Hy.
  destruct (is_finite x) eqn:Fx; [destruct (is_finite y) eqn:Fy|].
  - apply is_finite_spec in Fx, Fy.
    pose proof (add_yields x y Fx Fy) as Y.
    pose proof (leb_not_nan _ _ Hx) as [N0 Nx]. pose proof (leb_not_nan _ _ Hy) as [_ Ny].
    apply (leb_FV 0 x N0 Nx) in Hx. apply (leb_FV 0 y N0 Ny) in Hy.
    apply (leb_FV 0 (x + y) N0 (yields_not_nan _ _ Y)).
    assert (Y0 : yields (FV 0) 0) by (apply yields_self; exact I).
    apply (yields_mono _ _ _ _ Y0 Y). pose proof FV_0. lra.
  - rewrite leb_spec, add_spec. change (Prim2SF 0) with (S754_zero false).
    apply leb_zero_cases in Hx as [[s Ex]|[(m & e & Ex)|Ex]];
    apply leb_zero_cases in Hy as [[s' Ey]|[(m' & e' & Ey)|Ey]];
    rewrite ?Ex, ?Ey; try reflexivity;
    assert (is_finite y = true)
      by (apply is_finite_spec; unfold finiteF; rewrite Ey; exact I); congruence.
  - rewrite leb_spec, add_spec. change (Prim2SF 0) with (S754_zero false).
    apply leb_zero_cases in Hx as [[s Ex]|[(m & e & Ex)|Ex]];
    apply leb_zero_cases in Hy as [[s' Ey]|[(m' & e' & Ey)|Ey]];
    rewrite ?Ex, ?Ey; try reflexivity;
    assert (is_finite x = true)
      by (apply is_finite_spec; unfold finiteF; rewrite Ex; exact I); congruence.
Qed.


Local Open Scope R_scope.

Lemma rounds_away_from_zero v r :
  rounds v r -> bpow emin <= Rabs v -> bpow emin <= Rabs (clip r).
Proof.
  intros Hr Hv.
  pose proof (bpow_gt_0 emin) as P0.
  pose proof (bpow_lt emin 1024 ltac:(lia)) as P1.
  pose proof (rounds_representable 1 emin ltac:(cbn; lia) ltac:(lia)) as R1.
  pose proof (rounds_representable (-1) emin ltac:(cbn; lia) ltac:(lia)) as R2.
  rewrite Rmult_1_l in R1.
  replace (IZR (-1) * bpow emin) with (- bpow emin) in R2 by (simpl; lra).
  destruct (Rle_dec 0 v) as [Hp|Hn].
  - rewrite Rabs_pos_eq in Hv by exact Hp.
    pose proof (rounds_mono _ _ _ _ R1 Hr Hv) as L.
    pose proof (clip_mono _ _ L) as C. rewrite clip_small in C by lra.
    rewrite Rabs_pos_eq; lra.
  - rewrite Rabs_left in Hv by lra.
    pose proof (rounds_mono _ _ _ _ Hr R2 ltac:(lra)) as L.
    pose proof (clip_mono _ _ L) as C. rewrite (clip_small (- bpow emin)) in C by lra.
    rewrite Rabs_left; lra.
Qed.

Lemma SFadd_finite_sign sx mx ex sy my ey :
  valid_binary (S754_finite sx mx ex) = true ->
  valid_binary (S754_finite sy my ey) = true ->
  SFadd prec emax (S754_finite sx mx ex) (S754_finite sy my ey) <> S754_zero true
  /\ SFadd prec emax (S754_finite sx mx ex) (S754_finite sy my ey) <> S754_nan.
Proof.
  intros Vx Vy. cbn [SFadd].
  set (ez := Z.min ex ey).
  set (z := (cond_Zopp sx (Zpos (fst (shl_align mx ex ez)))
             + cond_Zopp sy (Zpos (fst (shl_align my ey ez))))%Z).
  destruct (binary_normalize_spec z ez false) as (r & Hr & Hv & _ & Hn).
  split; [|exact Hn]. intros E. rewrite E in Hv. cbn [SFval] in Hv.
  cbn [valid_binary] in Vx, Vy.
  apply bounded_inv in Vx as [[Ex _] _]. apply bounded_inv in Vy as [[Ey _] _].
  assert (Ez : (emin <= ez)%Z) by (unfold ez; lia).
  destruct (Z.eq_dec z 0) as [Z0|Zn].
  - rewrite Z0 in E. discriminate E.
  - assert (B : bpow emin <= Rabs (IZR z * bpow ez)).
    { rewrite Rabs_mult, (Rabs_pos_eq (bpow ez)) by (apply Rlt_le, bpow_gt_0).
      rewrite <- abs_IZR.
      assert (1 <= IZR (Z.abs z)) by (apply IZR_le; lia).
      pose proof (bpow_le emin ez Ez). pose proof (bpow_gt_0 emin). nra. }
    pose proof (rounds_away_from_zero _ _ Hr B) as C.
    rewrite <- Hv, Rabs_R0 in C. pose proof (bpow_gt_0 emin). lra.
Qed.

(** A sum of finite areas started at [+0] is never [NaN] and never [-0]. *)
Lemma add_keeps_plain s v :
  Prim2SF s <> S754_nan -> Prim2SF s <> S754_zero true -> is_finite v = true ->
  Prim2SF (s + v)%float <> S754_nan /\ Prim2SF (s + v)%float <> S754_zero true.
Proof.
  intros Hn Hz Fv. apply is_finite_spec in Fv. unfold finiteF in Fv.
  rewrite add_spec.
  pose proof (Prim2SF_valid s) as Vs. pose proof (Prim2SF_valid v) as Vv.
  destruct (Prim2SF s) as [[]|ss| |ss ms es]; try congruence;
    destruct (Prim2SF v) as [sv|sv| |sv mv ev]; try contradiction;
    try (cbn; split; discriminate);
    try (destruct sv; cbn; split; discriminate);
    try (destruct ss; cbn; split; discriminate).
  destruct (SFadd_finite_sign ss ms es sv mv ev Vs Vv) as [A B]. split; assumption.
Qed.

Lemma float_sum_snoc xs v : float_sum (xs ++ [v]) = (float_sum xs + v)%float.
Proof. unfold float_sum. now rewrite fold_left_app. Qed.

Lemma float_sum_plain xs :
  Forall (fun v => is_finite v = true) xs ->
  Prim2SF (float_sum xs) <> S754_nan /\ Prim2SF (float_sum xs) <> S754_zero true.
Proof.
  induction xs as [|v xs IH] using rev_ind; intros H.
  - cbn. split; discriminate.
  - apply Forall_app in H as [H1 H2]. inversion H2; subst.
    rewrite float_sum_snoc. destruct (IH H1). now apply add_keeps_plain.
Qed.

Lemma plain_or s :
  Prim2SF s <> S754_nan -> Prim2SF s <> S754_zero true ->
  or (VNumber s) (VNumber 0%float) = VNumber s.
Proof.
  intros Hn Hz. unfold or. cbn [ToBoolean]. unfold Num.truthy.
  pose proof (Prim2SF_classified s) as C.
  destruct (is_nan s) eqn:N.
  { apply is_nan_spec in N. contradiction. }
  rewrite orb_false_r. destruct (is_zero s) eqn:Z; cbn [negb]; [|reflexivity].
  inversion C as [ |? ? E| | ]; try congruence.
  destruct (get_sign s); [congruence|].
  f_equal. apply Prim2SF_inj. now rewrite <- E.
Qed.


Local Open Scope Z_scope.

Lemma code_facts k :
  mem k codes = true -> ToBoolean (VString k) = true /\ inherited k = false.
Proof.
  unfold mem. intros H. apply existsb_exists in H as (c & Hc & E).
  apply eqb_eq in E. subst c. cbn in Hc.
  repeat (destruct Hc as [<-|Hc]; [split; reflexivity|]). contradiction.
Qed.

Lemma not_inherited_proto k : inherited k = false -> eqb k (str "__proto__") = false.
Proof.
  intros H. destruct (eqb k (str "__proto__")) eqn:E; [|reflexivity].
  apply eqb_eq in E. subst k. vm_compute in H. discriminate.
Qed.

Lemma aggregate_step_spec T r :
  inherited (App.region r) = false ->
  App.aggregate_step T r
  = if included r
    then put T (App.region r)
             (add (or (get T (App.region r)) (VNumber 0%float))
                  (VNumber (App.toNum (App.area_ha r))))
    else T.
Proof.
  intros H. unfold App.aggregate_step, included.
  rewrite has_CENTROIDS, H, orb_false_r.
  destruct (mem (App.region r) codes) eqn:M.
  - destruct (code_facts _ M) as [-> _]. cbn [negb orb andb].
    destruct (Num.isFinite _); cbn [negb]; [|reflexivity].
    unfold set. now rewrite not_inherited_proto.
  - now rewrite orb_true_r.
Qed.

Lemma own_step_other T r k :
  eqb k (App.region r) = false -> own k (App.aggregate_step T r) = own k T.
Proof.
  intros E. unfold App.aggregate_step.
  destruct (negb _ || negb _); [reflexivity|].
  destruct (negb (Num.isFinite _)); [reflexivity|].
  unfold set. destruct (eqb (App.region r) (str "__proto__")); [reflexivity|].
  now apply own_put_ne.
Qed.

Lemma get_own T k :
  inherited k = false ->
  get T k = match own k T with Some v => v | None => VUndefined end.
Proof.
  unfold get, inherited. intros H.
  destruct (own k T); [reflexivity|]. destruct (own k Object_prototype); [discriminate|reflexivity].
Qed.

Lemma areas_of_snoc k rows r :
  areas_of k (rows ++ [r])
  = (areas_of k rows
     ++ if eqb (App.region r) k && included r then [App.toNum (App.area_ha r)] else [])%list.
Proof.
  unfold areas_of. rewrite filter_app, map_app. cbn [filter].
  now destruct (eqb (App.region r) k && included r).
Qed.

Lemma areas_finite k rows : Forall (fun v => is_finite v = true) (areas_of k rows).
Proof.
  unfold areas_of. apply Forall_forall. intros v Hv.
  apply in_map_iff in Hv as (r & <- & Hr). apply filter_In in Hr as [_ Hr].
  apply andb_true_iff in Hr as [_ Hr]. unfold included in Hr.
  now apply andb_true_iff in Hr as [_ Hr].
Qed.

Lemma aggregate_snoc rows r :
  App.aggregateByProvince (rows ++ [r])
  = App.aggregate_step (App.aggregateByProvince rows) r.
Proof. unfold App.aggregateByProvince. now rewrite fold_left_app. Qed.

(** The total stored under a key that is not an inherited name. *)
Lemma own_aggregate rows k :
  inherited k = false -> own k (App.aggregateByProvince rows) = total_of k rows.
Proof.
  intros H. induction rows as [|r rows IH] using rev_ind; [reflexivity|].
  rewrite aggregate_snoc. unfold total_of. rewrite areas_of_snoc.
  destruct (eqb k (App.region r)) eqn:E.
  - apply eqb_eq in E. subst k. rewrite aggregate_step_spec by exact H.
    rewrite eqb_refl. cbn [andb]. destruct (included r) eqn:I.
    + rewrite own_put_eq, get_own, IH by exact H. unfold total_of.
      pose proof (areas_finite (App.region r) rows) as F.
      destruct (areas_of (App.region r) rows) as [|x xs] eqn:A; [reflexivity|].
      destruct (float_sum_plain _ F) as [P1 P2].
      rewrite plain_or by assumption. cbn [app add ToNumber].
      f_equal. f_equal. change (x :: (xs ++ [App.toNum (App.area_ha r)])%list)
        with ((x :: xs) ++ [App.toNum (App.area_ha r)])%list.
      now rewrite float_sum_snoc.
    + rewrite app_nil_r. exact IH.
  - rewrite own_step_other by exact E. rewrite eqb_sym, E. cbn [andb].
    rewrite app_nil_r. exact IH.
Qed.

Lemma float_sum_nonneg xs :
  Forall (fun v => (0 <=? v)%float = true) xs -> (0 <=? float_sum xs)%float = true.
Proof.
  induction xs as [|v xs IH] using rev_ind; intros H; [reflexivity|].
  apply Forall_app in H as [H1 H2]. inversion H2; subst.
  rewrite float_sum_snoc. apply add_nonneg; auto.
Qed.

(** C9, as the code has it.  When every area that parses to a finite
    Number is at least zero, the total stored under a key that is not an
    inherited property name (every region code is such a key) is a Number
    that is at least zero; it can be [+Infinity] when the sum overflows. *)
Theorem totals_nonnegative rows k v :
  (forall r, In r rows -> Num.isFinite (App.toNum (App.area_ha r)) = true ->
             (0 <=? App.toNum (App.area_ha r))%float = true) ->
  inherited k = false ->
  own k (App.aggregateByProvince rows) = Some v ->
  exists x, v = VNumber x /\ (0 <=? x)%float = true.
Proof.
  intros Hpos Hk Hv. rewrite own_aggregate in Hv by exact Hk. unfold total_of in Hv.
  assert (P : (0 <=? float_sum (areas_of k rows))%float = true).
  { apply float_sum_nonneg, Forall_forall. intros x Hx. unfold areas_of in Hx.
    apply in_map_iff in Hx as (r & <- & Hr). apply filter_In in Hr as [Hin Hr].
    apply andb_true_iff in Hr as [_ Hr]. unfold included in Hr.
    apply andb_true_iff in Hr as [_ Hr]. now apply Hpos. }
  destruct (areas_of k rows); [discriminate|]. injection Hv as <-. eauto.
Qed.

Lemma totals_nonnegative_example :
  exists x, VNumber 1244%float = VNumber x /\ (0 <=? x)%float = true.
Proof.
  apply (totals_nonnegative [record "Alberta" "1,234"; record "AB" "10"] (str "AB")).
  - intros r [<-|[<-|[]]] _; reflexivity.
  - reflexivity.
  - reflexivity.
Defined.

(** C9, the claim as stated fails: a negative area is finite, so it is
    included, and the total of the region is negative. *)
Lemma totals_negative_example :
  own (str "ON") (App.aggregateByProvince [record "Ontario" "-5"]) = Some (VNumber (-5)%float)
  /\ (0 <=? -5)%float = false.
Proof. split; vm_compute; reflexivity. Qed.


Lemma mem_In k ks : mem k ks = true <-> In k ks.
Proof.
  unfold mem. rewrite existsb_exists. split.
  - intros (c & Hc & E). apply eqb_eq in E. now subst.
  - intros H. exists k. split; [exact H | apply eqb_refl].
Qed.

Lemma keys_put {A} (o : object A) k v :
  map fst (put o k v) = if mem k (map fst o) then map fst o else (map fst o ++ [k])%list.
Proof.
  induction o as [|[k' v'] o IH]; [reflexivity|].
  cbn [put map fst]. unfold mem in *. cbn [existsb].
  destruct (eqb k k'); cbn [orb map fst]; [reflexivity|].
  rewrite IH. now destruct (existsb (eqb k) (map fst o)).
Qed.

Lemma keys_step T r :
  inherited (App.region r) = false ->
  map fst (App.aggregate_step T r)
  = if included r && negb (mem (App.region r) (map fst T))
    then (map fst T ++ [App.region r])%list else map fst T.
Proof.
  intros H. rewrite aggregate_step_spec by exact H.
  destruct (included r); cbn [andb]; [|reflexivity].
  rewrite keys_put. now destruct (mem (App.region r) (map fst T)).
Qed.

Lemma keys_fold rows : forall T,
  Forall (fun r => inherited (App.region r) = false) rows ->
  map fst (fold_left App.aggregate_step rows T)
  = fold_left (fun ks r => if included r && negb (mem (App.region r) ks)
                           then (ks ++ [App.region r])%list else ks) rows (map fst T).
Proof.
  induction rows as [|r rows IH]; intros T H; [reflexivity|].
  inversion H; subst. cbn [fold_left]. rewrite IH by assumption.
  rewrite keys_step by assumption. reflexivity.
Qed.

Lemma keys_aggregate rows :
  Forall (fun r => inherited (App.region r) = false) rows ->
  map fst (App.aggregateByProvince rows) = regions_of rows.
Proof. apply keys_fold. Qed.

Lemma regions_fold_NoDup rows : forall ks,
  NoDup ks ->
  NoDup (fold_left (fun ks r => if included r && negb (mem (App.region r) ks)
                                then (ks ++ [App.region r])%list else ks) rows ks).
Proof.
  induction rows as [|r rows IH]; intros ks H; [exact H|].
  cbn [fold_left]. apply IH.
  destruct (included r); cbn [andb]; [|exact H].
  destruct (mem (App.region r) ks) eqn:M; cbn [negb]; [exact H|].
  apply NoDup_app; [exact H | repeat constructor; intros [] |].
  intros a Ha [<-|[]]. apply mem_In in Ha. congruence.
Qed.

Lemma regions_fold_codes rows : forall ks k,
  In k (fold_left (fun ks r => if included r && negb (mem (App.region r) ks)
                               then (ks ++ [App.region r])%list else ks) rows ks) ->
  In k ks \/ mem k codes = true.
Proof.
  induction rows as [|r rows IH]; intros ks k H; [now left|].
  cbn [fold_left] in H. apply IH in H as [H|H]; [|now right].
  destruct (included r) eqn:I; cbn [andb] in H; [|now left].
  destruct (negb _); [|now left].
  apply in_app_or in H as [H|[<-|[]]]; [now left|right].
  unfold included in I. now apply andb_true_iff in I as [I _].
Qed.

Lemma own_key {A} (o : object A) k : In k (map fst o) -> exists v, own k o = Some v.
Proof.
  induction o as [|[k' v'] o IH]; intros H; [destruct H|].
  cbn [own]. destruct (eqb k k') eqn:E; [eauto|].
  destruct H as [H|H]; [|auto]. cbn in H. subst. now rewrite eqb_refl in E.
Qed.

Lemma object_by_keys {A} (o : object A) (f : jsstring -> A) :
  NoDup (map fst o) ->
  (forall k, In k (map fst o) -> own k o = Some (f k)) ->
  o = map (fun k => (k, f k)) (map fst o).
Proof.
  induction o as [|[k1 v1] o IH]; intros N H; [reflexivity|].
  cbn [map fst] in *. inversion N as [|? ? N1 N2]; subst.
  pose proof (H k1 (or_introl eq_refl)) as H1. cbn [own] in H1.
  rewrite eqb_refl in H1. injection H1 as ->. f_equal.
  apply IH; [exact N2|]. intros k Hk.
  specialize (H k (or_intror Hk)). cbn [own] in H.
  destruct (eqb k k1) eqn:E; [|exact H].
  apply eqb_eq in E. subst. contradiction.
Qed.

Lemma add_numbers xs : forall acc,
  fold_left add (map VNumber xs) (VNumber acc) = VNumber (fold_left PrimFloat.add xs acc).
Proof.
  induction xs as [|x xs IH]; intros acc; [reflexivity|].
  cbn [map fold_left]. apply IH.
Qed.

Lemma aggregate_object rows :
  Forall (fun r => inherited (App.region r) = false) rows ->
  App.aggregateByProvince rows = totals_spec rows.
Proof.
  intros H. unfold totals_spec. rewrite <- (keys_aggregate rows H).
  apply object_by_keys.
  - rewrite keys_aggregate by exact H. apply regions_fold_NoDup. constructor.
  - intros k Hk. pose proof (own_key _ _ Hk) as [v Hv].
    rewrite keys_aggregate in Hk by exact H.
    apply regions_fold_codes in Hk as [[]|Hk].
    apply code_facts in Hk as [_ Hk].
    rewrite own_aggregate in * by exact Hk. unfold total_of in *.
    destruct (areas_of k rows); [discriminate|reflexivity].
Qed.

End Aggregation.

(** ** The marker radius *)

Section Marker.

Import Round.
Local Open Scope R_scope.

Lemma zero_or_neg_zero x s : Prim2SF x = S754_zero s -> x = PrimFloat.zero \/ x = neg_zero.
Proof.
  intros H. destruct s; [right|left]; apply Prim2SF_inj; rewrite H; reflexivity.
Qed.

Lemma FV_nonneg_infinite x :
  Prim2SF x <> S754_nan -> ~ finiteF x -> 0 <= FV x -> Prim2SF x = S754_infinity false.
Proof.
  unfold finiteF, FV. intros N F P.
  destruct (Prim2SF x) as [s|[]| |s m e]; cbn [SFval sgn finite_sf] in *; try tauto.
  exfalso. pose proof (bpow_gt_0 1024). lra.
Qed.

Lemma FV_infinity x : Prim2SF x = S754_infinity false -> FV x = bpow 1024.
Proof. unfold FV. intros ->. cbn. lra. Qed.

Lemma finite_dec x : finiteF x \/ ~ finiteF x.
Proof. unfold finiteF. destruct (Prim2SF x); cbn; tauto. Qed.

(** The square root of a Number that is at least zero, [+Infinity] included. *)
Lemma sqrt_nonneg x :
  Prim2SF x <> S754_nan -> 0 <= FV x ->
  Prim2SF (PrimFloat.sqrt x) <> S754_nan /\ 0 <= FV (PrimFloat.sqrt x).
Proof.
  intros N P. destruct (finite_dec x) as [F|F].
  - pose proof (sqrt_yields x F P) as Y. split; [exact (yields_not_nan _ _ Y)|].
    assert (Y0 : yields (FV 0) 0) by (apply yields_self; exact I).
    rewrite <- FV_0. apply (yields_mono _ _ _ _ Y0 Y). rewrite FV_0. apply sqrt_pos.
  - pose proof (FV_nonneg_infinite x N F P) as E.
    assert (E' : Prim2SF (PrimFloat.sqrt x) = S754_infinity false)
      by (rewrite sqrt_spec, E; reflexivity).
    split; [rewrite E'; discriminate|]. rewrite (FV_infinity _ E').
    apply Rlt_le, bpow_gt_0.
Qed.

Lemma sqrt_mono x y :
  Prim2SF x <> S754_nan -> Prim2SF y <> S754_nan -> 0 <= FV x -> FV x <= FV y ->
  FV (PrimFloat.sqrt x) <= FV (PrimFloat.sqrt y).
Proof.
  intros Nx Ny P L. destruct (finite_dec y) as [Fy|Fy].
  - assert (Fx : finiteF x).
    { apply finite_of_bounds; [exact Nx|]. pose proof (finiteF_bounds y Fy).
      pose proof (bpow_gt_0 1024). lra. }
    now apply sqrt_le_mono.
  - pose proof (FV_nonneg_infinite y Ny Fy ltac:(lra)) as E.
    assert (E' : Prim2SF (PrimFloat.sqrt y) = S754_infinity false)
      by (rewrite sqrt_spec, E; reflexivity).
    rewrite (FV_infinity _ E'). apply FV_bounds.
Qed.

(** The clamp of [radiusFor]: a Number between 0 and 1. *)
Lemma clamp_spec s :
  Prim2SF s <> S754_nan ->
  finiteF (Num.max 0 (Num.min 1 s))
  /\ FV (Num.max 0 (Num.min 1 s)) = Rmax 0 (Rmin 1 (FV s)).
Proof.
  intros N.
  assert (N1 : Prim2SF 1 <> S754_nan) by (vm_compute; discriminate).
  assert (N0 : Prim2SF 0 <> S754_nan) by (vm_compute; discriminate).
  destruct (min_spec 1 s N1 N) as [Hm Em].
  assert (Nm : Prim2SF (Num.min 1 s) <> S754_nan) by (destruct Hm as [->| ->]; assumption).
  destruct (max_spec 0 (Num.min 1 s) N0 Nm) as [Hx Ex].
  assert (Nx : Prim2SF (Num.max 0 (Num.min 1 s)) <> S754_nan)
    by (destruct Hx as [->| ->]; assumption).
  rewrite Em, FV_0, FV_1 in Ex. split; [|exact Ex].
  apply finite_of_bounds; [exact Nx|]. rewrite Ex.
  pose proof (bpow_ge_1 1024 ltac:(lia)). pose proof (bpow_lt 0 1024 ltac:(lia)) as B.
  rewrite bpow_0 in B.
  unfold Rmax, Rmin. repeat destruct (Rle_dec _ _); lra.
Qed.

Lemma scale_spec t :
  finiteF t -> 0 <= FV t <= 1 ->
  finiteF (t * 16)%float /\ 0 <= FV (t * 16)%float <= 16
  /\ finiteF (6 + t * 16)%float /\ 6 <= FV (6 + t * 16)%float <= 22.
Proof.
  intros F B.
  assert (F16 : finiteF 16) by exact I. assert (F0 : finiteF 0) by exact I.
  assert (F6 : finiteF 6) by exact I. assert (F22 : finiteF 22) by exact I.
  pose proof (mul_yields t 16 F F16) as Y.
  destruct (yields_finite _ _ 0 16 Y F0 F16) as [Fp Bp].
  { rewrite FV_0, FV_16. nra. }
  rewrite FV_0, FV_16 in Bp.
  pose proof (add_yields 6 _ F6 Fp) as Y'.
  destruct (yields_finite _ _ 6 22 Y' F6 F22) as [Fs Bs].
  { rewrite FV_6, FV_22. lra. }
  rewrite FV_6, FV_22 in Bs. tauto.
Qed.

(** [radiusFor] on a zero area. *)
Lemma radius_zero_area area maxArea :
  is_zero area = true -> App.radiusFor area maxArea = 6%float.
Proof.
  intros Z. unfold App.radiusFor.
  destruct (negb (Num.truthy maxArea) || negb (Num.isFinite area)) eqn:G; [reflexivity|].
  apply orb_false_iff in G as [G _]. apply negb_false_iff in G.
  unfold Num.truthy in G. apply negb_true_iff, orb_false_iff in G as [Gz Gn].
  assert (E : exists s, Prim2SF (area / maxArea)%float = S754_zero s).
  { rewrite div_spec.
    pose proof (Prim2SF_classified area) as Ca. pose proof (Prim2SF_classified maxArea) as Cm.
    inversion Ca as [ |? ? Ea| | ]; try congruence.
    - pose proof (is_finite_not_nan area). unfold is_zero in Z.
      exfalso. revert Z. rewrite eqb_spec.
      assert (Prim2SF area = S754_nan) by now apply is_nan_spec.
      rewrite H2. cbn. discriminate.
    - inversion Cm; try congruence; cbn; eauto. }
  destruct E as [s E]. apply zero_or_neg_zero in E as [-> | ->]; reflexivity.
Qed.

Lemma radius_infinite_max area :
  is_finite area = true -> App.radiusFor area infinity = 6%float.
Proof.
  intros F. unfold App.radiusFor, Num.isFinite. rewrite F. cbn [negb orb].
  change (Num.truthy infinity) with true. cbn [negb].
  assert (E : exists s, Prim2SF (area / infinity)%float = S754_zero s).
  { rewrite div_spec. apply is_finite_spec in F. unfold finiteF in F.
    destruct (Prim2SF area); cbn in *; try contradiction; eauto. }
  destruct E as [s E]. apply zero_or_neg_zero in E as [-> | ->]; reflexivity.
Qed.

Lemma radius_monotone a1 a2 maxArea :
  (0 <? maxArea)%float = true -> (0 <=? a1)%float = true -> (a1 <=? a2)%float = true ->
  is_finite a2 = true ->
  (App.radiusFor a1 maxArea <=? App.radiusFor a2 maxArea)%float = true.
Proof.
  intros Hm H1 H12 F2.
  destruct (ltb_not_nan _ _ Hm) as [N0 Nm]. destruct (leb_not_nan _ _ H12) as [N1 N2].
  apply (ltb_FV _ _ N0 Nm) in Hm. apply (leb_FV _ _ N0 N1) in H1.
  apply (leb_FV _ _ N1 N2) in H12. rewrite FV_0 in *.
  assert (F2' := proj1 (is_finite_spec a2) F2).
  assert (F1' : finiteF a1).
  { apply finite_of_bounds; [exact N1|]. pose proof (finiteF_bounds a2 F2').
    pose proof (bpow_gt_0 1024). lra. }
  assert (F1 := proj2 (is_finite_spec a1) F1').
  destruct (finite_dec maxArea) as [Fm|Fm].
  - unfold App.radiusFor, Num.isFinite. rewrite F1, F2. cbn [negb orb].
    assert (T : Num.truthy maxArea = true).
    { unfold Num.truthy. rewrite (proj2 (not_nan_spec maxArea) Nm), orb_false_r.
      apply negb_true_iff. destruct (is_zero maxArea) eqn:E; [|reflexivity].
      apply (eqb_FV maxArea 0 Nm N0) in E. rewrite FV_0 in E. lra. }
    rewrite T. cbn [negb orb].
    pose proof (div_yields a1 maxArea F1' Fm ltac:(lra)) as Y1.
    pose proof (div_yields a2 maxArea F2' Fm ltac:(lra)) as Y2.
    assert (Y0 : yields (FV 0) 0) by (apply yields_self; exact I).
    assert (Q1 : 0 <= FV (a1 / maxArea)%float).
    { rewrite <- FV_0. apply (yields_mono _ _ _ _ Y0 Y1). rewrite FV_0.
      apply Rmult_le_pos; [lra|]. apply Rlt_le, Rinv_0_lt_compat, Hm. }
    assert (Q12 : FV (a1 / maxArea)%float <= FV (a2 / maxArea)%float).
    { apply (yields_mono _ _ _ _ Y1 Y2). unfold Rdiv.
      apply Rmult_le_compat_r; [|lra]. apply Rlt_le, Rinv_0_lt_compat, Hm. }
    pose proof (yields_not_nan _ _ Y1) as Nq1. pose proof (yields_not_nan _ _ Y2) as Nq2.
    destruct (sqrt_nonneg _ Nq1 Q1) as [Ns1 S1].
    destruct (sqrt_nonneg _ Nq2 ltac:(lra)) as [Ns2 S2].
    pose proof (sqrt_mono _ _ Nq1 Nq2 Q1 Q12) as S12.
    destruct (clamp_spec _ Ns1) as [Ft1 Et1]. destruct (clamp_spec _ Ns2) as [Ft2 Et2].
    set (t1 := Num.max 0 (Num.min 1 (PrimFloat.sqrt (a1 / maxArea)))) in *.
    set (t2 := Num.max 0 (Num.min 1 (PrimFloat.sqrt (a2 / maxArea)))) in *.
    assert (B1 : 0 <= FV t1 <= 1)
      by (rewrite Et1; unfold Rmax, Rmin; repeat destruct (Rle_dec _ _); lra).
    assert (B2 : 0 <= FV t2 <= 1)
      by (rewrite Et2; unfold Rmax, Rmin; repeat destruct (Rle_dec _ _); lra).
    assert (T12 : FV t1 <= FV t2)
      by (rewrite Et1, Et2; unfold Rmax, Rmin; repeat destruct (Rle_dec _ _); lra).
    destruct (scale_spec t1 Ft1 B1) as (Fp1 & _ & Fr1 & _).
    destruct (scale_spec t2 Ft2 B2) as (Fp2 & _ & Fr2 & _).
    assert (F16 : finiteF 16) by exact I. assert (F6 : finiteF 6) by exact I.
    pose proof (mul_le_mono t1 t2 16 Ft1 Ft2 F16 ltac:(rewrite FV_16; lra) T12) as P12.
    pose proof (add_le_mono 6 6 _ _ F6 F6 Fp1 Fp2 ltac:(lra) P12) as R12.
    apply leb_FV; [| |exact R12].
    + unfold finiteF in Fr1. intros E. now rewrite E in Fr1.
    + unfold finiteF in Fr2. intros E. now rewrite E in Fr2.
  - pose proof (FV_nonneg_infinite maxArea Nm Fm ltac:(lra)) as E.
    assert (maxArea = infinity) as -> by (apply Prim2SF_inj; rewrite E; reflexivity).
    rewrite !radius_infinite_max by assumption. reflexivity.
Qed.


Lemma radius_range area maxArea :
  (0 <? maxArea)%float = true -> (0 <=? area)%float = true ->
  (6 <=? App.radiusFor area maxArea)%float = true
  /\ (App.radiusFor area maxArea <=? 22)%float = true.
Proof.
  intros Hm Ha. unfold App.radiusFor.
  destruct (negb (Num.truthy maxArea) || negb (Num.isFinite area)) eqn:G;
    [split; reflexivity|].
  apply orb_false_iff in G as [_ G]. apply negb_false_iff in G.
  apply is_finite_spec in G.
  destruct (ltb_not_nan _ _ Hm) as [N0 Nm]. destruct (leb_not_nan _ _ Ha) as [_ Na].
  apply (ltb_FV _ _ N0 Nm) in Hm. apply (leb_FV _ _ N0 Na) in Ha. rewrite FV_0 in *.
  assert (Ns : Prim2SF (PrimFloat.sqrt (area / maxArea)) <> S754_nan).
  { destruct (finite_dec maxArea) as [Fm|Fm].
    - pose proof (div_yields area maxArea G Fm ltac:(lra)) as Y.
      assert (Y0 : yields (FV 0) 0) by (apply yields_self; exact I).
      apply sqrt_nonneg; [exact (yields_not_nan _ _ Y)|].
      rewrite <- FV_0. apply (yields_mono _ _ _ _ Y0 Y). rewrite FV_0.
      apply Rmult_le_pos; [lra|]. apply Rlt_le, Rinv_0_lt_compat, Hm.
    - pose proof (FV_nonneg_infinite maxArea Nm Fm ltac:(lra)) as E.
      rewrite sqrt_spec, div_spec, E. unfold finiteF in G.
      destruct (Prim2SF area) as [[]|?| |? ? ?]; cbn in *; try contradiction; discriminate. }
  destruct (clamp_spec _ Ns) as [Ft Et].
  set (t := Num.max 0 (Num.min 1 (PrimFloat.sqrt (area / maxArea)))) in *.
  assert (B : 0 <= FV t <= 1)
    by (rewrite Et; unfold Rmax, Rmin; repeat destruct (Rle_dec _ _); lra).
  destruct (scale_spec t Ft B) as (_ & _ & Fr & Br).
  assert (Nr : Prim2SF (6 + t * 16)%float <> S754_nan)
    by (unfold finiteF in Fr; intros E; now rewrite E in Fr).
  split; apply leb_FV; try assumption; try (vm_compute; discriminate).
  - rewrite FV_6. tauto.
  - rewrite FV_22. tauto.
Qed.

(** The radius where the scale is defined.  For a [maxArea] that is neither
    zero nor NaN and a finite area the radius is
    [6 + clamp(sqrt(area / maxArea), 0, 1) * 16];
    it is 6 when [maxArea] is zero or NaN, when the area is not finite and
    when the area is zero.  For a positive [maxArea] the radius does not
    decrease when a non-negative area grows to a larger finite area, and it
    lies between 6 and 22. *)
Theorem radius_scale :
  (forall area maxArea,
     Num.truthy maxArea = true -> Num.isFinite area = true ->
     App.radiusFor area maxArea
     = (6 + Num.max 0 (Num.min 1 (PrimFloat.sqrt (area / maxArea))) * 16)%float)
  /\ (forall area maxArea,
        Num.truthy maxArea = false \/ Num.isFinite area = false \/ is_zero area = true ->
        App.radiusFor area maxArea = 6%float)
  /\ (forall a1 a2 maxArea,
        (0 <? maxArea)%float = true -> (0 <=? a1)%float = true ->
        (a1 <=? a2)%float = true -> Num.isFinite a2 = true ->
        (App.radiusFor a1 maxArea <=? App.radiusFor a2 maxArea)%float = true)
  /\ (forall area maxArea,
        (0 <? maxArea)%float = true -> (0 <=? area)%float = true ->
        (6 <=? App.radiusFor area maxArea)%float = true
        /\ (App.radiusFor area maxArea <=? 22)%float = true).
Proof.
  repeat split.
  - intros area maxArea T F. unfold App.radiusFor. now rewrite T, F.
  - intros area maxArea [T|[F|Z]].
    + unfold App.radiusFor. now rewrite T.
    + unfold App.radiusFor. rewrite F. now rewrite orb_true_r.
    + now apply radius_zero_area.
  - intros. now apply radius_monotone.
  - now apply radius_range.
  - now apply radius_range.
Qed.

Lemma radius_scale_example :
  (App.radiusFor 25 100 <=? App.radiusFor 50 100)%float = true.
Proof.
  apply (proj1 (proj2 (proj2 radius_scale)) 25 50 100)%float; reflexivity.
Defined.

(** C7.  The code does not keep the radius within the 6..22 px of its own
    comment: a negative total is finite, so it passes the guard that returns
    6 for an area that is not finite, the square root of the negative ratio
    is NaN, and the clamp lets the NaN through.  The totals -5 and 100, as
    aggregated from two rows, give the marker radii NaN and 22. *)
Theorem radius_negative_area :
  let fs :=
    [ {| App.coordinates := (-85.3232, 51.2538)%float; App.province := str "ON";
         App.total_burned_ha := -5 |};
      {| App.coordinates := (-73.5491, 52.9399)%float; App.province := str "QC";
         App.total_burned_ha := 100 |} ] in
  App.totalsToGeoJSON
    (App.aggregateByProvince [record "Ontario" "-5"; record "Quebec" "100"])
  = Normal fs
  /\ map (App.markerRadius fs) fs = [nan; 22%float]
  /\ App.radiusFor (-5) 100 = nan
  /\ (6 <=? App.radiusFor (-5) 100)%float = false
  /\ App.radiusFor neg_infinity 100 = 6%float
  /\ App.radiusFor 0 100 = 6%float.
Proof. repeat split; vm_compute; reflexivity. Qed.

End Marker.

(** ** Directions and headings *)

Section Directions.

Import Round.
Local Open Scope R_scope.

Lemma FV_opp x : FV (- x)%float = - FV x.
Proof.
  unfold FV. rewrite opp_spec.
  destruct (Prim2SF x) as [s|s| |s m e]; cbn [SFopp SFval]; try lra;
    destruct s; cbn [negb sgn]; lra.
Qed.

Lemma finiteF_opp x : finiteF x -> finiteF (- x)%float.
Proof.
  unfold finiteF. rewrite opp_spec. now destruct (Prim2SF x).
Qed.

Lemma finiteF_not_nan x : finiteF x -> Prim2SF x <> S754_nan.
Proof. unfold finiteF. intros F E. now rewrite E in F. Qed.

(** A result whose exact value is bounded in magnitude by a finite Number. *)
Lemma yields_bounded v x b :
  yields v x -> finiteF b -> Rabs v <= FV b -> finiteF x /\ Rabs (FV x) <= FV b.
Proof.
  intros Y Fb B.
  destruct (yields_finite v x (- b)%float b Y (finiteF_opp b Fb) Fb) as [F H].
  { rewrite FV_opp. split; [pose proof (Rle_abs (- v)); rewrite Rabs_Ropp in *; lra
                           | pose proof (Rle_abs v); lra]. }
  split; [exact F|]. rewrite FV_opp in H. apply Rabs_le. lra.
Qed.

(** The magnitude of a finite Number is a finite Number. *)
Lemma magnitude x : finiteF x -> exists b, finiteF b /\ FV b = Rabs (FV x).
Proof.
  intros F. destruct (Rle_dec 0 (FV x)).
  - exists x. split; [exact F|]. now rewrite Rabs_pos_eq.
  - exists (- x)%float. split; [now apply finiteF_opp|].
    rewrite FV_opp, Rabs_left; lra.
Qed.

Lemma shiftl_IZR m k : (0 <= k)%Z -> IZR (Z.shiftl m k) = IZR m * bpow k.
Proof.
  intros H. rewrite Z.shiftl_mul_pow2 by exact H. rewrite mult_IZR, bpow_IZR by exact H.
  reflexivity.
Qed.

(** [n % d] for finite [n] and finite non-zero [d] is exact: it is [n] minus
    a multiple of [d], smaller than [d] in magnitude, with the sign of [n]. *)
Lemma rem_spec n d :
  finiteF n -> finiteF d -> FV d <> 0 ->
  finiteF (Num.rem n d)
  /\ Rabs (FV (Num.rem n d)) < Rabs (FV d)
  /\ Rabs (FV (Num.rem n d)) <= Rabs (FV n)
  /\ (0 <= FV n -> 0 <= FV (Num.rem n d))
  /\ (FV n <= 0 -> FV (Num.rem n d) <= 0)
  /\ exists k : Z, FV (Num.rem n d) = FV n - IZR k * FV d.
Proof.
  intros Fn Fd Nd. unfold Num.rem.
  pose proof (Prim2SF_valid n) as Vn. pose proof (Prim2SF_valid d) as Vd.
  assert (Hn : FV n = SFval (Prim2SF n)) by reflexivity.
  assert (Hd : FV d = SFval (Prim2SF d)) by reflexivity.
  assert (Fn' := Fn). unfold finiteF in Fn, Fd.
  destruct (Prim2SF n) as [sn|sn| |sn mn en] eqn:En; try contradiction;
    destruct (Prim2SF d) as [sd|sd| |sd md ed] eqn:Ed; try contradiction;
    cbn [SFval] in Hn, Hd; try lra.
  - (* zero dividend *)
    rewrite Hn, Rabs_R0. assert (0 < Rabs (FV d)) by (apply Rabs_pos_lt; exact Nd).
    repeat split; try lra; try exact Fn'. exists 0%Z. lra.
  - (* finite operands *)
    cbn [valid_binary] in Vn, Vd.
    apply bounded_inv in Vn as [[Bn1 [Bn2 _]] Bn3]. apply bounded_inv in Vd as [[Bd1 [Bd2 _]] Bd3].
    set (e := Z.min en ed).
    set (N := Z.shiftl (Zpos mn) (en - e)). set (D := Z.shiftl (Zpos md) (ed - e)).
    assert (HN : IZR N * bpow e = IZR (Zpos mn) * bpow en).
    { unfold N. rewrite shiftl_IZR by (unfold e; lia). rewrite Rmult_assoc, <- bpow_plus.
      f_equal. f_equal. lia. }
    assert (HD : IZR D * bpow e = IZR (Zpos md) * bpow ed).
    { unfold D. rewrite shiftl_IZR by (unfold e; lia). rewrite Rmult_assoc, <- bpow_plus.
      f_equal. f_equal. lia. }
    assert (PN : (0 < N)%Z).
    { unfold N. rewrite Z.shiftl_mul_pow2 by (unfold e; lia).
      apply Z.mul_pos_pos; [lia|]. apply Z.pow_pos_nonneg; unfold e; lia. }
    assert (PD : (0 < D)%Z).
    { unfold D. rewrite Z.shiftl_mul_pow2 by (unfold e; lia).
      apply Z.mul_pos_pos; [lia|]. apply Z.pow_pos_nonneg; unfold e; lia. }
    pose proof (Z.rem_bound_pos N D ltac:(lia) PD) as RB.
    pose proof (Z.rem_le N D ltac:(lia) PD) as RL.
    pose proof (Z.quot_rem' N D) as QR.
    set (R := Z.rem N D) in *. set (Q := Z.quot N D) in *.
    assert (R53 : (R < 9007199254740992)%Z).
    { destruct (Z.le_ge_cases en ed) as [L|L].
      - assert (N = Zpos mn) as EN.
        { unfold N, e. rewrite Z.min_l by exact L. now rewrite Z.sub_diag. }
        lia.
      - assert (D = Zpos md) as ED.
        { unfold D, e. rewrite Z.min_r by lia. now rewrite Z.sub_diag. }
        lia. }
    pose proof (bpow_gt_0 e) as Pe.
    assert (AD : Rabs (FV d) = IZR D * bpow e).
    { rewrite Hd, <- HD. rewrite Rabs_mult.
      replace (Rabs (sgn sd)) with 1 by (destruct sd; cbn; [rewrite Rabs_left|rewrite Rabs_pos_eq]; lra).
      rewrite Rmult_1_l. apply Rabs_pos_eq. apply Rmult_le_pos; [apply IZR_le; lia|lra]. }
    assert (AN : Rabs (FV n) = IZR N * bpow e).
    { rewrite Hn, <- HN. rewrite Rabs_mult.
      replace (Rabs (sgn sn)) with 1 by (destruct sn; cbn; [rewrite Rabs_left|rewrite Rabs_pos_eq]; lra).
      rewrite Rmult_1_l. apply Rabs_pos_eq. apply Rmult_le_pos; [apply IZR_le; lia|lra]. }
    rewrite AD, AN, Hn, Hd. rewrite <- HN, <- HD.
    assert (IR : IZR R = IZR N - IZR D * IZR Q).
    { rewrite <- mult_IZR, <- minus_IZR. f_equal. lia. }
    assert (LR : IZR R < IZR D) by (apply IZR_lt; lia).
    assert (LR' : IZR R <= IZR N) by (apply IZR_le; lia).
    assert (PR : 0 <= IZR R) by (apply IZR_le; lia).
    destruct (Z.eqb_spec R 0) as [R0|R0].
    + assert (Z : forall z, Prim2SF z = S754_zero sn -> finiteF z /\ FV z = 0).
      { intros z Hz. unfold finiteF, FV. rewrite Hz. now split. }
      destruct (Z (if sn then neg_zero else PrimFloat.zero)) as [F0 V0];
        [now destruct sn|].
      rewrite V0, Rabs_R0. rewrite R0 in IR.
      assert (0 < IZR D * bpow e) by (apply Rmult_lt_0_compat; [apply IZR_lt; lia|lra]).
      assert (0 <= IZR N * bpow e) by (apply Rmult_le_pos; [apply IZR_le; lia|lra]).
      repeat split; try lra; try exact F0.
      exists (if sn then (if sd then Q else - Q) else (if sd then - Q else Q))%Z.
      destruct sn, sd; cbn [sgn]; rewrite ?opp_IZR; nra.
    + destruct (of_dyadic_exact (if sn then - R else R)%Z e false) as [V F].
      { destruct sn; lia. }
      { unfold e. lia. }
      rewrite V.
      assert (PR' : 0 < IZR R) by (apply IZR_lt; lia).
      assert (PRe : 0 < IZR R * bpow e) by (apply Rmult_lt_0_compat; lra).
      assert (AR : Rabs (IZR (if sn then (- R)%Z else R) * bpow e) = IZR R * bpow e).
      { destruct sn; [rewrite opp_IZR, Rabs_left; lra | rewrite Rabs_pos_eq; lra]. }
      rewrite AR.
      repeat split; try exact F; try nra.
      * intros H. destruct sn; cbn [sgn] in H; [|nra].
        assert (0 < IZR N * bpow e) by (apply Rmult_lt_0_compat; [apply IZR_lt; lia|lra]).
        lra.
      * intros H. destruct sn; cbn [sgn] in H; [rewrite opp_IZR; nra|].
        assert (0 < IZR N * bpow e) by (apply Rmult_lt_0_compat; [apply IZR_lt; lia|lra]).
        lra.
      * exists (if sn then (if sd then Q else - Q) else (if sd then - Q else Q))%Z.
        destruct sn, sd; cbn [sgn]; rewrite ?opp_IZR; nra.
Qed.


Lemma mod360_spec d :
  finiteF d -> finiteF (App.mod360 d) /\ 0 <= FV (App.mod360 d) < 360.
Proof.
  intros F. unfold App.mod360.
  assert (F360 : finiteF 360) by exact I. assert (F0 : finiteF 0) by exact I.
  assert (F720 : finiteF 720) by exact I.
  pose proof FV_360 as E360.
  destruct (rem_spec d 360 F F360 ltac:(lra)) as (F1 & B1 & _).
  rewrite E360, (Rabs_pos_eq 360) in B1 by lra. apply Rabs_def2 in B1.
  pose proof (add_yields _ 360 F1 F360) as Y.
  destruct (yields_finite _ _ 0 720 Y F0 F720) as [F2 B2].
  { rewrite FV_0, FV_720, E360. lra. }
  rewrite FV_0 in B2.
  destruct (rem_spec _ 360 F2 F360 ltac:(lra)) as (F3 & B3 & _ & P3 & _).
  rewrite E360, (Rabs_pos_eq 360) in B3 by lra. apply Rabs_def2 in B3.
  split; [exact F3|]. split; [apply P3; lra | lra].
Qed.

(** [Math.round] of a Number between 0 and 16 is a zero or one of the
    integers 1 to 16. *)
Lemma round_small x :
  finiteF x -> 0 <= FV x <= 16 ->
  In (Num.round x)
     (PrimFloat.zero :: neg_zero
      :: map Num.of_Z [1; 2; 3; 4; 5; 6; 7; 8; 9; 10; 11; 12; 13; 14; 15; 16]%Z).
Proof.
  intros F B. unfold Num.round.
  pose proof (Prim2SF_valid x) as V.
  assert (Hx : FV x = SFval (Prim2SF x)) by reflexivity.
  unfold finiteF in F.
  destruct (Prim2SF x) as [s|s| |s m e] eqn:E; try contradiction.
  - destruct (zero_or_neg_zero x s E) as [-> | ->]; cbn; auto.
  - cbn [SFval] in Hx. cbn [valid_binary] in V.
    apply bounded_inv in V as [(C1 & C2 & C3) C4].
    pose proof (bpow_gt_0 e) as Pe.
    assert (Pm : 0 < IZR (Zpos m) * bpow e)
      by (apply Rmult_lt_0_compat; [apply IZR_lt; lia|lra]).
    destruct s; cbn [sgn] in Hx; [lra|]. rewrite Rmult_1_l in Hx.
    destruct (Z.leb_spec 0 e) as [L|L].
    + exfalso. destruct C3 as [C3|C3]; [lia|].
      assert (4503599627370496 <= IZR (Zpos m)) by (apply IZR_le; lia).
      pose proof (bpow_ge_1 e L). nra.
    + set (k := (- e)%Z). assert (Hk : (0 < k)%Z) by (unfold k; lia).
      assert (Bm : (Zpos m <= 16 * 2 ^ k)%Z).
      { apply le_IZR. rewrite mult_IZR, <- bpow_IZR by lia.
        assert (Ek : bpow e * bpow k = 1).
        { rewrite <- bpow_plus. replace (e + k)%Z with 0%Z by (unfold k; lia). apply bpow_0. }
        pose proof (bpow_gt_0 k). nra. }
      assert (P2 : (0 < 2 ^ k)%Z) by (apply Z.pow_pos_nonneg; lia).
      replace (1 - e)%Z with (k + 1)%Z by (unfold k; lia).
      rewrite Z.shiftr_div_pow2 by lia. rewrite Z.pow_add_r, Z.pow_1_r by lia.
      set (n := ((2 * Zpos m + 2 ^ k) / (2 ^ k * 2))%Z).
      assert (Bn : (0 <= n < 17)%Z).
      { unfold n. split.
        - apply Z.div_pos; lia.
        - apply Z.div_lt_upper_bound; lia. }
      destruct (Z.eqb_spec n 0) as [N0|N0]; [cbn; auto|].
      right. right. apply in_map.
      assert (n = 1 \/ n = 2 \/ n = 3 \/ n = 4 \/ n = 5 \/ n = 6 \/ n = 7 \/ n = 8
              \/ n = 9 \/ n = 10 \/ n = 11 \/ n = 12 \/ n = 13 \/ n = 14 \/ n = 15
              \/ n = 16)%Z as H by lia.
      cbn [In]. intuition.
Qed.

Lemma labels_checked :
  forallb (fun c => match index App.dirs (Num.rem c 16) with
                    | VString l => mem l App.dirs
                    | _ => false
                    end)
          (PrimFloat.zero :: neg_zero
           :: map Num.of_Z [1; 2; 3; 4; 5; 6; 7; 8; 9; 10; 11; 12; 13; 14; 15; 16]%Z)
  = true.
Proof. vm_compute. reflexivity. Qed.

(** The label of a finite heading is one of the sixteen. *)
Lemma compass_label h :
  finiteF h -> exists l, App.compassFromDeg h = VString l /\ In l App.dirs.
Proof.
  intros F. unfold App.compassFromDeg.
  destruct (mod360_spec h F) as [Fm Bm].
  assert (F225 : finiteF 22.5) by exact I.
  assert (F0 : finiteF 0) by exact I. assert (F16 : finiteF 16) by exact I.
  pose proof (div_yields _ 22.5 Fm F225 ltac:(rewrite FV_22_5; lra)) as Y.
  destruct (yields_finite _ _ 0 16 Y F0 F16) as [Fq Bq].
  { rewrite FV_0, FV_16, FV_22_5. lra. }
  rewrite FV_0, FV_16 in Bq.
  pose proof (round_small _ Fq Bq) as R.
  pose proof labels_checked as L. rewrite forallb_forall in L.
  specialize (L _ R).
  destruct (index App.dirs _) as [| |l| |]; try discriminate.
  exists l. split; [reflexivity|]. unfold mem in L.
  apply existsb_exists in L as (l' & Hl & E). apply eqb_eq in E. now subst.
Qed.


Lemma within_FV lo hi x :
  finiteF lo -> finiteF hi -> within lo hi x -> finiteF x /\ FV lo <= FV x <= FV hi.
Proof.
  intros Fl Fh [H1 H2].
  destruct (leb_not_nan _ _ H1) as [Nl Nx]. destruct (leb_not_nan _ _ H2) as [_ Nh].
  apply (leb_FV _ _ Nl Nx) in H1. apply (leb_FV _ _ Nx Nh) in H2.
  split; [|lra]. apply finite_of_bounds; [exact Nx|].
  pose proof (finiteF_bounds lo Fl). pose proof (finiteF_bounds hi Fh). lra.
Qed.

Lemma FV_within lo hi x :
  finiteF lo -> finiteF hi -> finiteF x -> FV lo <= FV x <= FV hi -> within lo hi x.
Proof.
  intros Fl Fh Fx B. split; apply leb_FV; try (now apply finiteF_not_nan); lra.
Qed.

Lemma FV_m1 : FV (-1) = -1.
Proof. fv_literal (-1)%float. lra. Qed.

Lemma FV_3_6 : 3 < FV 3.6 < 4.
Proof. fv_literal 3.6%float. lra. Qed.

Lemma FV_10 : FV 10 = 10.
Proof. fv_literal 10%float. lra. Qed.

Lemma FV_0_02 : 0 < FV 0.02 < 1.
Proof. fv_literal 0.02%float. lra. Qed.

Lemma FV_2880 : FV 2880 = 2880.
Proof. fv_literal 2880%float. lra. Qed.

Lemma FV_2p1023 : FV 0x1p1023 = 4 * bpow 1021.
Proof.
  unfold FV. change (Prim2SF 0x1p1023) with (S754_finite false 4503599627370496 971).
  cbn [SFval sgn]. replace (bpow 1021) with (bpow 50 * bpow 971)
    by (rewrite <- bpow_plus; reflexivity).
  rewrite (bpow_IZR 50) by lia. change (2 ^ 50)%Z with 1125899906842624%Z. lra.
Qed.

Lemma FV_2p1021 : FV 0x1p1021 = bpow 1021.
Proof.
  unfold FV. change (Prim2SF 0x1p1021) with (S754_finite false 4503599627370496 969).
  cbn [SFval sgn]. replace (bpow 1021) with (bpow 52 * bpow 969)
    by (rewrite <- bpow_plus; reflexivity).
  rewrite bpow_52. lra.
Qed.

Lemma FV_5p1021 : FV 0x1.4p1023 = 5 * bpow 1021.
Proof.
  unfold FV. change (Prim2SF 0x1.4p1023) with (S754_finite false 5629499534213120 971).
  cbn [SFval sgn]. replace (bpow 1021) with (bpow 50 * bpow 971)
    by (rewrite <- bpow_plus; reflexivity).
  rewrite (bpow_IZR 50) by lia. change (2 ^ 50)%Z with 1125899906842624%Z. lra.
Qed.

Lemma bpow_1024_1021 : bpow 1024 = 8 * bpow 1021.
Proof.
  replace (bpow 1024) with (bpow 3 * bpow 1021) by (rewrite <- bpow_plus; reflexivity).
  rewrite (bpow_IZR 3) by lia. reflexivity.
Qed.

(** [toRad] of a direction is finite. *)
Lemma toRad_finite d : finiteF d -> Rabs (FV d) <= 720 -> finiteF (App.toRad d).
Proof.
  intros F B. unfold App.toRad.
  assert (FPI : finiteF Num.PI) by exact I. pose proof FV_PI as EPI.
  assert (F2880 : finiteF 2880) by exact I. assert (F180 : finiteF 180) by exact I.
  pose proof (mul_yields d Num.PI F FPI) as Y.
  destruct (yields_bounded _ _ 2880 Y F2880) as [F1 B1].
  { rewrite FV_2880, Rabs_mult, (Rabs_pos_eq (FV Num.PI)) by lra.
    pose proof (Rabs_pos (FV d)). nra. }
  pose proof (div_yields _ 180 F1 F180 ltac:(rewrite FV_180; lra)) as Y'.
  destruct (yields_bounded _ _ 2880 Y' F2880) as [F2 _]; [|exact F2].
  rewrite FV_180. unfold Rdiv. rewrite Rabs_mult, (Rabs_pos_eq (/ 180)) by lra.
  pose proof (Rabs_pos (FV (d * Num.PI)%float)). lra.
Qed.

Lemma toDeg_finite a : within (- Num.PI) Num.PI a -> finiteF (App.toDeg a).
Proof.
  intros W. unfold App.toDeg.
  assert (FPI : finiteF Num.PI) by exact I. pose proof FV_PI as EPI.
  assert (F2880 : finiteF 2880) by exact I. assert (F180 : finiteF 180) by exact I.
  destruct (within_FV _ _ _ (finiteF_opp _ FPI) FPI W) as [F B].
  rewrite FV_opp in B.
  pose proof (mul_yields a 180 F F180) as Y.
  destruct (yields_bounded _ _ 2880 Y F2880) as [F1 B1].
  { rewrite FV_2880, FV_180, Rabs_mult, (Rabs_pos_eq 180) by lra.
    assert (Rabs (FV a) <= 4) by (apply Rabs_le; lra). lra. }
  rewrite FV_2880 in B1.
  pose proof (div_yields _ Num.PI F1 FPI ltac:(lra)) as Y'.
  destruct (yields_bounded _ _ 2880 Y' F2880) as [F2 _]; [|exact F2].
  rewrite FV_2880. unfold Rdiv. rewrite Rabs_mult, (Rabs_pos_eq (/ FV Num.PI)).
  - assert (/ FV Num.PI <= 1).
    { rewrite <- Rinv_1. apply Rinv_le_contravar; lra. }
    assert (0 < / FV Num.PI) by (apply Rinv_0_lt_compat; lra).
    pose proof (Rabs_pos (FV (a * 180)%float)). nra.
  - apply Rlt_le, Rinv_0_lt_compat. lra.
Qed.


Lemma waf_bounds env :
  inherited env = false ->
  let waf := ToNumber (coalesce (get App.WAF env) (VNumber 0.7)) in
  finiteF waf /\ 0 < FV waf < 1.
Proof.
  intros H. destruct (waf_cases env H) as [E|[E|E]]; cbv zeta; rewrite E;
    (split; [exact I|]).
  - fv_literal 0.7%float. lra.
  - fv_literal 0.5%float. lra.
  - fv_literal 0.3%float. lra.
Qed.

(** A product with a cosine or a sine is not larger than the other factor. *)
Lemma mul_unit x c b :
  finiteF x -> within (-1) 1 c -> finiteF b -> Rabs (FV x) <= FV b ->
  finiteF (x * c)%float /\ Rabs (FV (x * c)%float) <= FV b.
Proof.
  intros Fx W Fb B.
  destruct (within_FV (-1) 1 c I I W) as [Fc Bc]. rewrite FV_m1, FV_1 in Bc.
  apply (yields_bounded _ _ b (mul_yields x c Fx Fc) Fb).
  rewrite Rabs_mult. assert (Rabs (FV c) <= 1) by (apply Rabs_le; lra).
  pose proof (Rabs_pos (FV x)). nra.
Qed.

(** The wind vector of a wind of finite non-negative speed. *)
Lemma wind_component speed waf c :
  finiteF speed -> 0 <= FV speed -> finiteF waf -> 0 < FV waf < 1 -> within (-1) 1 c ->
  finiteF (waf * (speed / 3.6) * c)%float
  /\ Rabs (FV (waf * (speed / 3.6) * c)%float) <= 4 * bpow 1021.
Proof.
  intros Fs Ps Fw Bw W.
  pose proof FV_3_6 as E36. pose proof (bpow_gt_0 1021) as P21.
  assert (F36 : finiteF 3.6) by exact I. assert (Fb : finiteF 0x1p1023) by exact I.
  pose proof (finiteF_bounds speed Fs) as Bs. rewrite bpow_1024_1021 in Bs.
  pose proof (div_yields speed 3.6 Fs F36 ltac:(lra)) as Y.
  assert (Q : 0 <= FV speed / FV 3.6 <= 4 * bpow 1021).
  { assert (0 < / FV 3.6 < / 2) as [? ?].
    { split; [apply Rinv_0_lt_compat; lra | apply Rinv_lt_contravar; lra]. }
    unfold Rdiv. split; nra. }
  destruct (yields_bounded _ _ 0x1p1023 Y Fb) as [F1 B1].
  { rewrite FV_2p1023, Rabs_pos_eq; lra. }
  rewrite FV_2p1023 in B1.
  pose proof (mul_yields waf _ Fw F1) as Y2.
  destruct (yields_bounded _ _ 0x1p1023 Y2 Fb) as [F2 B2].
  { rewrite FV_2p1023, Rabs_mult, (Rabs_pos_eq (FV waf)) by lra.
    pose proof (Rabs_pos (FV (speed / 3.6)%float)). nra. }
  rewrite <- FV_2p1023. apply mul_unit; assumption.
Qed.

(** The slope push of a finite slope. *)
Lemma push_component slopePct c :
  finiteF slopePct -> within (-1) 1 c ->
  finiteF (0.02 * (slopePct / 10) * c)%float
  /\ Rabs (FV (0.02 * (slopePct / 10) * c)%float) <= bpow 1021.
Proof.
  intros Fs W.
  pose proof FV_0_02 as E02. pose proof (bpow_gt_0 1021) as P21.
  assert (F10 : finiteF 10) by exact I. assert (F02 : finiteF 0.02) by exact I.
  assert (Fb : finiteF 0x1p1021) by exact I.
  pose proof (finiteF_bounds slopePct Fs) as Bs. rewrite bpow_1024_1021 in Bs.
  pose proof (div_yields slopePct 10 Fs F10 ltac:(rewrite FV_10; lra)) as Y.
  destruct (yields_bounded _ _ 0x1p1021 Y Fb) as [F1 B1].
  { rewrite FV_2p1021, FV_10. unfold Rdiv. rewrite Rabs_mult, (Rabs_pos_eq (/ 10)) by lra.
    assert (Rabs (FV slopePct) <= 8 * bpow 1021) by (apply Rabs_le; lra). lra. }
  pose proof (mul_yields 0.02 _ F02 F1) as Y2.
  destruct (yields_bounded _ _ 0x1p1021 Y2 Fb) as [F2 B2].
  { rewrite Rabs_mult, (Rabs_pos_eq (FV 0.02)) by lra.
    pose proof (Rabs_pos (FV (slopePct / 10)%float)). nra. }
  rewrite <- FV_2p1021. apply mul_unit; assumption.
Qed.

Lemma heading_to_finite dir :
  (0 <=? dir)%float = true -> (dir <? 360)%float = true ->
  is_finite (App.toRad (App.mod360 (dir + 180))) = true.
Proof.
  intros H1 H2.
  destruct (leb_not_nan _ _ H1) as [N0 Nd]. destruct (ltb_not_nan _ _ H2) as [_ N360].
  apply (leb_FV _ _ N0 Nd) in H1. apply (ltb_FV _ _ Nd N360) in H2.
  rewrite FV_0 in H1. rewrite FV_360 in H2.
  assert (Fd : finiteF dir).
  { apply finite_of_bounds; [exact Nd|]. pose proof (bpow_ge_1 1024 ltac:(lia)).
    pose proof (bpow_lt 9 1024 ltac:(lia)) as B. rewrite (bpow_IZR 9) in B by lia.
    change (2 ^ 9)%Z with 512%Z in B. lra. }
  assert (F180 : finiteF 180) by exact I.
  pose proof (add_yields dir 180 Fd F180) as Y.
  destruct (yields_finite _ _ 0 720 Y I I) as [F1 _].
  { rewrite FV_0, FV_720, FV_180. lra. }
  destruct (mod360_spec _ F1) as [F2 B2].
  apply is_finite_spec, toRad_finite; [exact F2|]. apply Rabs_le. lra.
Qed.

Lemma slope_to_finite d :
  (0 <=? d)%float = true -> (d <? 360)%float = true -> is_finite (App.toRad d) = true.
Proof.
  intros H1 H2.
  destruct (leb_not_nan _ _ H1) as [N0 Nd]. destruct (ltb_not_nan _ _ H2) as [_ N360].
  apply (leb_FV _ _ N0 Nd) in H1. apply (ltb_FV _ _ Nd N360) in H2.
  rewrite FV_0 in H1. rewrite FV_360 in H2.
  assert (Fd : finiteF d).
  { apply finite_of_bounds; [exact Nd|]. pose proof (bpow_ge_1 1024 ltac:(lia)).
    pose proof (bpow_lt 9 1024 ltac:(lia)) as B. rewrite (bpow_IZR 9) in B by lia.
    change (2 ^ 9)%Z with 512%Z in B. lra. }
  apply is_finite_spec, toRad_finite; [exact Fd|]. apply Rabs_le. lra.
Qed.

(** Both components of the spread vector are finite. *)
Lemma spread_finite M speed dir env slopePct slopeDirTo :
  math_ok M -> inherited env = false ->
  is_finite speed = true -> (0 <=? speed)%float = true ->
  (0 <=? dir)%float = true -> (dir <? 360)%float = true ->
  (is_finite slopePct = true -> is_finite slopeDirTo = true ->
   (0 <=? slopeDirTo)%float = true /\ (slopeDirTo <? 360)%float = true) ->
  finiteF (fst (App.spreadVector M speed dir env slopePct slopeDirTo))
  /\ finiteF (snd (App.spreadVector M speed dir env slopePct slopeDirTo)).
Proof.
  intros (Mc & Ms & _) Hi Fs Ps H1 H2 Hslope.
  destruct (leb_not_nan _ _ Ps) as [N0 Nsp].
  apply (leb_FV _ _ N0 Nsp) in Ps. rewrite FV_0 in Ps.
  apply is_finite_spec in Fs.
  pose proof (heading_to_finite dir H1 H2) as Fh.
  destruct (waf_bounds env Hi) as [Fw Bw].
  pose proof (wind_component speed _ _ Fs Ps Fw Bw (Mc _ Fh)) as [Fu Bu].
  pose proof (wind_component speed _ _ Fs Ps Fw Bw (Ms _ Fh)) as [Fv Bv].
  unfold App.spreadVector, Num.isFinite.
  destruct (is_finite slopePct) eqn:F1; [destruct (is_finite slopeDirTo) eqn:F2|];
    cbn [andb fst snd]; try (split; assumption).
  destruct (Hslope eq_refl eq_refl) as [S1 S2].
  pose proof (slope_to_finite _ S1 S2) as Fr.
  apply is_finite_spec in F1.
  pose proof (push_component slopePct _ F1 (Mc _ Fr)) as [Fpu Bpu].
  pose proof (push_component slopePct _ F1 (Ms _ Fr)) as [Fpv Bpv].
  assert (Fb : finiteF 0x1.4p1023) by exact I.
  split.
  - apply (yields_bounded _ _ 0x1.4p1023 (add_yields _ _ Fu Fpu) Fb).
    rewrite FV_5p1021. eapply Rle_trans; [apply Rabs_triang|]. lra.
  - apply (yields_bounded _ _ 0x1.4p1023 (add_yields _ _ Fv Fpv) Fb).
    rewrite FV_5p1021. eapply Rle_trans; [apply Rabs_triang|]. lra.
Qed.

(** C8.  For a [Math] whose cosines and sines lie in [[-1, 1]] and whose
    [atan2] lies in [[-π, π]], a fuel environment that is not an inherited
    property name, a finite wind speed that is at least zero, a FROM
    direction in [[0, 360)] and, when both slope inputs are finite, a slope
    direction in [[0, 360)]: the heading that [predictHeading] returns is a
    Number in [[0, 360)] and its compass label is one of the sixteen labels
    of the table, so the index [Math.round(mod360(deg) / 22.5) % 16] is
    within bounds. *)
Theorem heading_in_range M speedKmh dirFromDeg env slopePct slopeDirTo :
  math_ok M -> inherited env = false ->
  is_finite speedKmh = true -> (0 <=? speedKmh)%float = true ->
  (0 <=? dirFromDeg)%float = true -> (dirFromDeg <? 360)%float = true ->
  (is_finite slopePct = true -> is_finite slopeDirTo = true ->
   (0 <=? slopeDirTo)%float = true /\ (slopeDirTo <? 360)%float = true) ->
  let h := App.predictHeading M speedKmh dirFromDeg env slopePct slopeDirTo in
  (0 <=? App.headingDeg h)%float = true
  /\ (App.headingDeg h <? 360)%float = true
  /\ exists l, App.compass h = VString l /\ In l App.dirs.
Proof.
  intros HM Hi Fs Ps H1 H2 Hslope h.
  destruct (spread_finite M speedKmh dirFromDeg env slopePct slopeDirTo
              HM Hi Fs Ps H1 H2 Hslope) as [Fu Fv].
  unfold h, App.predictHeading.
  destruct (App.spreadVector M speedKmh dirFromDeg env slopePct slopeDirTo) as [u v].
  cbn [fst snd] in Fu, Fv. cbn [App.headingDeg App.compass].
  destruct HM as (_ & _ & Ma & Mr).
  assert (Na : is_nan (atan2 M v u) = false).
  { apply Ma; apply not_nan_spec, finiteF_not_nan; assumption. }
  pose proof (toDeg_finite _ (Mr _ _ Na)) as Fd.
  destruct (mod360_spec _ Fd) as [Fh Bh].
  pose proof (finiteF_not_nan _ Fh) as Nh.
  split; [|split].
  - apply leb_FV; [vm_compute; discriminate | exact Nh | rewrite FV_0; lra].
  - apply ltb_FV; [exact Nh | vm_compute; discriminate | rewrite FV_360; lra].
  - now apply compass_label.
Qed.

End Directions.

(** ** The reference [Math] *)

Section Reference.

Import Round.
Local Open Scope R_scope.

Lemma of_fixed_between lo hi z :
  (lo <= z <= hi)%Z -> finiteF (RefMath.of_fixed lo) -> finiteF (RefMath.of_fixed hi) ->
  within (RefMath.of_fixed lo) (RefMath.of_fixed hi) (RefMath.of_fixed z).
Proof.
  intros B Fl Fh. unfold RefMath.of_fixed in *.
  pose proof (of_dyadic_yields lo (- RefMath.W) false) as Yl.
  pose proof (of_dyadic_yields z (- RefMath.W) false) as Yz.
  pose proof (of_dyadic_yields hi (- RefMath.W) false) as Yh.
  pose proof (bpow_gt_0 (- RefMath.W)) as P.
  assert (L1 : IZR lo * bpow (- RefMath.W) <= IZR z * bpow (- RefMath.W)).
  { apply Rmult_le_compat_r; [lra|]. apply IZR_le. lia. }
  assert (L2 : IZR z * bpow (- RefMath.W) <= IZR hi * bpow (- RefMath.W)).
  { apply Rmult_le_compat_r; [lra|]. apply IZR_le. lia. }
  pose proof (yields_mono _ _ _ _ Yl Yz L1). pose proof (yields_mono _ _ _ _ Yz Yh L2).
  split; apply leb_FV; try assumption;
    try (now apply finiteF_not_nan); exact (yields_not_nan _ _ Yz).
Qed.

Lemma clamp_bounds lo hi z :
  (lo <= hi)%Z -> (lo <= RefMath.clamp lo hi z <= hi)%Z.
Proof. unfold RefMath.clamp. lia. Qed.

Lemma fixed_values :
  RefMath.of_fixed (- RefMath.one_W) = (-1)%float
  /\ RefMath.of_fixed RefMath.one_W = 1%float
  /\ RefMath.of_fixed 0 = 0%float
  /\ RefMath.of_fixed RefMath.pi_W = Num.PI.
Proof. repeat split; vm_compute; reflexivity. Qed.

Lemma unit_fixed y :
  within (-1) 1 (RefMath.of_fixed (RefMath.clamp (- RefMath.one_W) RefMath.one_W y)).
Proof.
  destruct fixed_values as (E1 & E2 & _).
  rewrite <- E1 at 1. rewrite <- E2 at 1.
  apply of_fixed_between; [|rewrite E1; exact I|rewrite E2; exact I].
  apply clamp_bounds. vm_compute. discriminate.
Qed.

Lemma tiny_small x s m e :
  Prim2SF x = S754_finite s m e -> RefMath.tiny m e = true -> within (-1) 1 x.
Proof.
  intros E T. unfold RefMath.tiny in T. apply Z.ltb_lt in T.
  assert (Fx : finiteF x) by (unfold finiteF; now rewrite E).
  apply FV_within; try exact I; [exact Fx|]. rewrite FV_m1, FV_1.
  unfold FV. rewrite E. cbn [SFval].
  pose proof (Z.log2_spec (Zpos m) ltac:(lia)) as [_ L].
  assert (Lm : IZR (Zpos m) < bpow (Z.succ (Z.log2 (Zpos m)))).
  { rewrite bpow_IZR by (pose proof (Z.log2_nonneg (Zpos m)); lia). now apply IZR_lt. }
  pose proof (bpow_gt_0 e) as Pe.
  assert (B : IZR (Zpos m) * bpow e < 1).
  { apply Rlt_le_trans with (bpow (Z.succ (Z.log2 (Zpos m))) * bpow e); [nra|].
    rewrite <- bpow_plus, <- bpow_0. apply bpow_le. lia. }
  assert (0 < IZR (Zpos m) * bpow e) by (apply Rmult_lt_0_compat; [apply IZR_lt; lia|lra]).
  destruct s; cbn [sgn]; lra.
Qed.

Lemma zero_within x s : Prim2SF x = S754_zero s -> within (-1) 1 x.
Proof.
  intros E. destruct (zero_or_neg_zero x s E) as [-> | ->]; split; reflexivity.
Qed.

Lemma ref_sin_bounded x : is_finite x = true -> within (-1) 1 (RefMath.ref_sin x).
Proof.
  intros F. apply is_finite_spec in F. unfold finiteF in F. unfold RefMath.ref_sin.
  destruct (Prim2SF x) as [s|s| |s m e] eqn:E; try contradiction.
  - now apply (zero_within x s).
  - destruct (RefMath.tiny m e) eqn:T; [now apply (tiny_small x s m e)|].
    destruct (RefMath.reduce _ _) as [r q]. apply unit_fixed.
Qed.

Lemma ref_cos_bounded x : is_finite x = true -> within (-1) 1 (RefMath.ref_cos x).
Proof.
  intros F. apply is_finite_spec in F. unfold finiteF in F. unfold RefMath.ref_cos.
  destruct (Prim2SF x) as [s|s| |s m e] eqn:E; try contradiction.
  - split; reflexivity.
  - destruct (RefMath.tiny m e) eqn:T; [split; reflexivity|].
    destruct (RefMath.reduce _ _) as [r q]. apply unit_fixed.
Qed.

Lemma with_sign_within (s : bool) a :
  within 0 Num.PI a -> within (- Num.PI) Num.PI (if s then (- a)%float else a).
Proof.
  intros W. assert (FPI : finiteF Num.PI) by exact I.
  destruct (within_FV 0 Num.PI a I FPI W) as [F B]. rewrite FV_0 in B.
  pose proof FV_PI.
  apply FV_within; try exact I.
  - destruct s; [now apply finiteF_opp | exact F].
  - change (FV (- Num.PI)) with (FV (- (Num.PI))%float). rewrite (FV_opp Num.PI).
    destruct s; [rewrite FV_opp|]; lra.
Qed.

Lemma angle_within my ey sx mx ex : within 0 Num.PI (RefMath.angle my ey sx mx ex).
Proof.
  unfold RefMath.angle.
  set (e := Z.min ey ex).
  set (n := Z.shiftl (Zpos my) (ey - e)). set (d := Z.shiftl (Zpos mx) (ex - e)).
  assert (Pn : (0 < n)%Z).
  { unfold n. rewrite Z.shiftl_mul_pow2 by (unfold e; lia).
    apply Z.mul_pos_pos; [lia|]. apply Z.pow_pos_nonneg; unfold e; lia. }
  destruct (negb sx && (n * 2 ^ 60 <? d)%Z) eqn:G.
  - apply andb_true_iff in G as [_ G]. apply Z.ltb_lt in G.
    assert (Ld : (n <= d)%Z) by lia.
    pose proof (of_ratio_yields false (Z.to_pos n) (Z.to_pos d)) as Y.
    rewrite !Z2Pos.id in Y by lia. cbn [sgn] in Y. rewrite Rmult_1_l in Y.
    assert (R : 0 <= IZR n / IZR d <= 1).
    { assert (0 < IZR n) by (apply IZR_lt; lia). assert (IZR n <= IZR d) by (apply IZR_le; lia).
      split.
      - apply Rmult_le_pos; [lra|]. apply Rlt_le, Rinv_0_lt_compat. lra.
      - apply Rmult_le_reg_r with (IZR d); [lra|]. unfold Rdiv.
        rewrite Rmult_assoc, Rinv_l by lra. lra. }
    destruct (yields_finite _ _ 0 1 Y I I) as [F B].
    { rewrite FV_0, FV_1. exact R. }
    rewrite FV_0, FV_1 in B. pose proof FV_PI.
    apply FV_within; try exact I; [exact F|]. rewrite FV_0. lra.
  - destruct fixed_values as (_ & _ & E3 & E4).
    rewrite <- E3 at 1. rewrite <- E4 at 1.
    apply of_fixed_between; [|rewrite E3; exact I|rewrite E4; exact I].
    apply clamp_bounds. vm_compute. discriminate.
Qed.

Lemma axis_angles (sy sx : bool) :
  let a := if sx then RefMath.of_fixed RefMath.pi_W else PrimFloat.zero in
  within (- Num.PI) Num.PI (if sy then (- a)%float else a).
Proof. destruct sy, sx; split; vm_compute; reflexivity. Qed.

Lemma diagonal_angles (sy sx : bool) :
  let a := RefMath.of_fixed (if sx then 3 * RefMath.pi_W / 4 else RefMath.pi_W / 4) in
  within (- Num.PI) Num.PI (if sy then (- a)%float else a).
Proof. destruct sy, sx; split; vm_compute; reflexivity. Qed.

Lemma right_angles (sy : bool) :
  let a := RefMath.of_fixed (RefMath.pi_W / 2) in
  within (- Num.PI) Num.PI (if sy then (- a)%float else a).
Proof. destruct sy; split; vm_compute; reflexivity. Qed.

Lemma ref_atan2_spec y x :
  RefMath.ref_atan2 y x = nan /\ (is_nan y = true \/ is_nan x = true)
  \/ within (- Num.PI) Num.PI (RefMath.ref_atan2 y x).
Proof.
  unfold RefMath.ref_atan2. cbv zeta.
  pose proof (is_nan_spec y) as Ny. pose proof (is_nan_spec x) as Nx.
  destruct (Prim2SF y) as [sy|sy| |sy my ey]; destruct (Prim2SF x) as [sx|sx| |sx mx ex];
    try (left; split; [reflexivity|]; (left; now apply Ny) || (right; now apply Nx));
    right.
  - exact (axis_angles sy sx).
  - exact (axis_angles sy sx).
  - exact (axis_angles sy sx).
  - exact (right_angles sy).
  - exact (diagonal_angles sy sx).
  - exact (right_angles sy).
  - exact (right_angles sy).
  - exact (axis_angles sy sx).
  - apply (with_sign_within sy), angle_within.
Qed.

Lemma within_not_nan lo hi x : within lo hi x -> is_nan x = false.
Proof. intros [H _]. apply not_nan_spec. now destruct (leb_not_nan _ _ H). Qed.

Theorem reference_math_ok : math_ok RefMath.lib.
Proof.
  repeat split.
  - now destruct (ref_cos_bounded x H).
  - now destruct (ref_cos_bounded x H).
  - now destruct (ref_sin_bounded x H).
  - now destruct (ref_sin_bounded x H).
  - intros y x Ny Nx. cbn [atan2 RefMath.lib].
    destruct (ref_atan2_spec y x) as [[_ [H|H]]|H]; try congruence.
    exact (within_not_nan _ _ _ H).
  - cbn [atan2 RefMath.lib] in *.
    destruct (ref_atan2_spec y x) as [[E _]|H']; [|now destruct H'].
    rewrite E in H. discriminate.
  - cbn [atan2 RefMath.lib] in *.
    destruct (ref_atan2_spec y x) as [[E _]|H']; [|now destruct H'].
    rewrite E in H. discriminate.
Qed.

Lemma heading_in_range_example :
  let h := App.predictHeading RefMath.lib 12.5 315 (str "shrub") 20 45 in
  (0 <=? App.headingDeg h)%float = true
  /\ (App.headingDeg h <? 360)%float = true
  /\ exists l, App.compass h = VString l /\ In l App.dirs.
Proof.
  apply (heading_in_range RefMath.lib 12.5 315 (str "shrub") 20 45 reference_math_ok);
    try reflexivity.
  intros _ _. split; reflexivity.
Defined.

End Reference.

(** ** The destination point *)

Section Geodesic.

Import Round.
Local Open Scope R_scope.

Lemma Rabs_le_inv x a : Rabs x <= a -> - a <= x <= a.
Proof.
  intros H. pose proof (Rle_abs x). pose proof (Rle_abs (- x)) as H'.
  rewrite Rabs_Ropp in H'. lra.
Qed.

(** An exact result that is representable is returned as it is. *)
Lemma yields_exact v x z e :
  yields v x -> v = IZR z * bpow e ->
  (Z.abs z < 9007199254740992)%Z -> (emin <= e <= 971)%Z -> FV x = v.
Proof.
  intros (r & Hr & Hv & _) -> Bz Be.
  pose proof (rounds_representable z e Bz ltac:(lia)) as R.
  rewrite (rounds_unique _ _ _ Hr R) in Hv. unfold FV. rewrite Hv.
  apply clip_small.
  assert (Rabs (IZR z * bpow e) < bpow 1024) as A; [|apply Rabs_def2 in A; lra].
  rewrite Rabs_mult, <- abs_IZR, (Rabs_pos_eq (bpow e)) by (apply Rlt_le, bpow_gt_0).
  rewrite bpow_1024_split, bpow_53.
  assert (IZR (Z.abs z) < IZR 9007199254740992) by now apply IZR_lt.
  assert (0 <= IZR (Z.abs z)) by (apply IZR_le; lia).
  pose proof (bpow_le e 971 ltac:(lia)). pose proof (bpow_gt_0 e). nra.
Qed.

(** Between 256 and 512 the Numbers are the multiples of [2^-44]. *)
Lemma grid_256 x :
  finiteF x -> 256 <= FV x < 512 -> exists k : Z, FV x = IZR k * bpow (-44).
Proof.
  intros F B. pose proof (Prim2SF_valid x) as V. unfold finiteF in F. unfold FV in *.
  destruct (Prim2SF x) as [s|s| |s m e]; try contradiction; cbn [SFval] in *; [lra|].
  cbn [valid_binary] in V. apply bounded_inv in V as [(C1 & C2 & C3) C4].
  pose proof (bpow_gt_0 e) as Pe.
  assert (Pm : 0 < IZR (Zpos m) * bpow e)
    by (apply Rmult_lt_0_compat; [apply IZR_lt; lia|lra]).
  destruct s; cbn [sgn] in *; [lra|]. rewrite Rmult_1_l in *.
  assert (B8 : bpow 8 = 256) by (rewrite bpow_IZR by lia; reflexivity).
  assert (B9 : bpow 9 = 512) by (rewrite bpow_IZR by lia; reflexivity).
  assert (Um : IZR (Zpos m) < bpow 53) by (rewrite bpow_53; apply IZR_lt; lia).
  assert (U : IZR (Zpos m) * bpow e < bpow (53 + e)) by (rewrite bpow_plus; nra).
  assert (E1 : (-45 < e)%Z).
  { destruct (Z_lt_le_dec (-45) e) as [H|H]; [exact H|exfalso].
    pose proof (bpow_le (53 + e) 8 ltac:(lia)). lra. }
  destruct C3 as [C3|C3]; [lia|].
  assert (Lm : bpow 52 <= IZR (Zpos m)) by (rewrite bpow_52; apply IZR_le; lia).
  assert (L : bpow (52 + e) <= IZR (Zpos m) * bpow e) by (rewrite bpow_plus; nra).
  assert (E2 : (e < -43)%Z).
  { destruct (Z_lt_le_dec e (-43)) as [H|H]; [exact H|exfalso].
    pose proof (bpow_le 9 (52 + e) ltac:(lia)). lra. }
  exists (Zpos m). f_equal. f_equal. lia.
Qed.

Lemma FV_76 : FV 76 = 76.
Proof. fv_literal 76%float. lra. Qed.

Lemma FV_m180 : FV (-180) = -180.
Proof. fv_literal (-180)%float. lra. Qed.

(** The last step of the normalisation: a Number of [[0, 360)] less 180 is
    a Number of [[-180, 180)]. *)
Lemma sub_180_range r :
  finiteF r -> 0 <= FV r < 360 ->
  finiteF (r - 180)%float /\ -180 <= FV (r - 180)%float < 180.
Proof.
  intros F B. assert (F180 : finiteF 180) by exact I.
  pose proof (sub_yields r 180 F F180) as Y. rewrite FV_180 in Y.
  destruct (yields_finite _ _ (-180) 180 Y I I) as [F1 B1].
  { rewrite FV_m180, FV_180. lra. }
  rewrite FV_m180 in B1. split; [exact F1|]. split; [lra|].
  destruct (Rlt_dec (FV r) 256) as [S|S].
  - destruct (yields_finite _ _ (-180) 76 Y I I) as [_ B2].
    { rewrite FV_m180, FV_76. lra. }
    rewrite FV_76 in B2. lra.
  - destruct (grid_256 r F ltac:(lra)) as [k Hk].
    assert (P : bpow (-44) * IZR 17592186044416 = 1).
    { replace (IZR 17592186044416) with (bpow 44) by (rewrite bpow_IZR by lia; reflexivity).
      rewrite <- bpow_plus. apply bpow_0. }
    pose proof (bpow_gt_0 (-44)) as P44.
    assert (Bk : (0 <= k < 360 * 17592186044416)%Z).
    { split; [apply le_IZR | apply lt_IZR; rewrite mult_IZR]; nra. }
    rewrite (yields_exact _ _ (k - 180 * 17592186044416) (-44) Y); [lra| |lia|lia].
    rewrite minus_IZR, mult_IZR. nra.
Qed.

Lemma nan_add x : (x + nan)%float = nan.
Proof.
  apply Prim2SF_inj. rewrite add_spec. change (Prim2SF nan) with S754_nan.
  now destruct (Prim2SF x) as [?|?| |? ? ?].
Qed.

Lemma is_nan_eq x : is_nan x = true -> x = nan.
Proof.
  intros H. apply is_nan_spec in H. apply Prim2SF_inj. now rewrite H.
Qed.

Lemma FV_literals :
  FV 4 = 4 /\ FV 8 = 8 /\ FV 1440 = 1440 /\ FV 480 = 480 /\ FV 1020 = 1020.
Proof.
  repeat split.
  - fv_literal 4%float. lra.
  - fv_literal 8%float. lra.
  - fv_literal 1440%float. lra.
  - fv_literal 480%float. lra.
  - fv_literal 1020%float. lra.
Qed.

(** The normalised longitude of an angle of at most 8 radians. *)
Lemma longitude_range l :
  finiteF l -> Rabs (FV l) <= 8 ->
  let lon := (Num.rem (l * 180 / Num.PI + 540) 360 - 180)%float in
  finiteF lon /\ -180 <= FV lon < 180.
Proof.
  intros F B lon. unfold lon.
  destruct FV_literals as (E4 & E8 & E1440 & E480 & E1020).
  pose proof FV_PI as EPI. assert (FPI : finiteF Num.PI) by exact I.
  destruct (yields_bounded _ _ 1440 (mul_yields l 180 F I) I) as [F1 B1].
  { rewrite E1440, FV_180, Rabs_mult, (Rabs_pos_eq 180) by lra. lra. }
  rewrite E1440 in B1.
  destruct (yields_bounded _ _ 480 (div_yields _ Num.PI F1 FPI ltac:(lra)) I) as [F2 B2].
  { rewrite E480. unfold Rdiv. rewrite Rabs_mult, (Rabs_pos_eq (/ FV Num.PI)).
    - assert (/ FV Num.PI < / 3) by (apply Rinv_lt_contravar; lra).
      assert (0 < / FV Num.PI) by (apply Rinv_0_lt_compat; lra).
      pose proof (Rabs_pos (FV (l * 180)%float)). nra.
    - apply Rlt_le, Rinv_0_lt_compat. lra. }
  rewrite E480 in B2. apply Rabs_le_inv in B2.
  destruct (yields_finite _ _ 0 1020 (add_yields _ 540 F2 I) I I) as [F3 B3].
  { rewrite FV_0, E1020, FV_540. lra. }
  rewrite FV_0 in B3.
  destruct (rem_spec _ 360 F3 I ltac:(rewrite FV_360; lra)) as (F4 & B4 & _ & P4 & _).
  rewrite FV_360, (Rabs_pos_eq 360) in B4 by lra. apply Rabs_def2 in B4.
  apply sub_180_range; [exact F4|]. split; [apply P4|]; lra.
Qed.

(** [toRad] of a longitude is at most 4 in magnitude. *)
Lemma toRad_longitude lon :
  (-180 <=? lon)%float = true -> (lon <=? 180)%float = true ->
  finiteF (App.toRad lon) /\ Rabs (FV (App.toRad lon)) <= 4.
Proof.
  intros H1 H2.
  destruct (within_FV (-180) 180 lon I I (conj H1 H2)) as [F B].
  rewrite FV_m180, FV_180 in B.
  destruct FV_literals as (E4 & _). pose proof FV_PI as EPI.
  unfold App.toRad.
  destruct (yields_bounded _ _ 720 (mul_yields lon Num.PI F I) I) as [F1 B1].
  { rewrite FV_720, Rabs_mult, (Rabs_pos_eq (FV Num.PI)) by lra.
    assert (Rabs (FV lon) <= 180) by (apply Rabs_le; lra).
    pose proof (Rabs_pos (FV lon)). nra. }
  rewrite FV_720 in B1. rewrite <- E4.
  apply (yields_bounded _ _ 4 (div_yields _ 180 F1 I ltac:(rewrite FV_180; lra)) I).
  rewrite E4, FV_180. unfold Rdiv. rewrite Rabs_mult, (Rabs_pos_eq (/ 180)) by lra. lra.
Qed.

(** C5, as the code has it.  [destPoint] is the forward formula of the
    spherical law of cosines on a sphere of radius 6371 km.  For a [Math]
    whose [atan2] lies in [[-π, π]] and an origin longitude in
    [[-180, 180]], the longitude it returns is NaN or a Number of
    [[-180, 180)]: the lower end is reached and the upper end is not. *)
Theorem dest_longitude M lat lon bearingDeg distanceKm :
  (forall y x, is_nan (atan2 M y x) = false -> within (- Num.PI) Num.PI (atan2 M y x)) ->
  (-180 <=? lon)%float = true -> (lon <=? 180)%float = true ->
  let p := App.destPoint M lat lon bearingDeg distanceKm in
  p = forward_geodesic M lat lon bearingDeg distanceKm
  /\ (is_nan (snd p) = true
      \/ (-180 <=? snd p)%float = true /\ (snd p <? 180)%float = true).
Proof.
  intros HM H1 H2 p. split; [reflexivity|].
  unfold p, App.destPoint. cbn [snd].
  set (a := atan2 M _ _).
  assert (HMa : is_nan a = false -> within (- Num.PI) Num.PI a) by apply HM.
  clearbody a. clear HM. rename HMa into HM.
  destruct (is_nan a) eqn:Na.
  - left. rewrite (is_nan_eq a Na), nan_add. reflexivity.
  - right. specialize (HM eq_refl).
    assert (FPI : finiteF Num.PI) by exact I. pose proof FV_PI as EPI.
    destruct (within_FV _ _ _ (finiteF_opp _ FPI) FPI HM) as [Fa Ba].
    rewrite FV_opp in Ba.
    destruct (toRad_longitude lon H1 H2) as [Fl Bl].
    destruct FV_literals as (_ & E8 & _).
    destruct (yields_bounded _ _ 8 (add_yields _ _ Fl Fa) I) as [F2 B2].
    { rewrite E8. eapply Rle_trans; [apply Rabs_triang|].
      assert (Rabs (FV a) <= 4) by (apply Rabs_le; lra). lra. }
    rewrite E8 in B2.
    destruct (longitude_range _ F2 B2) as [F B].
    pose proof (finiteF_not_nan _ F) as N.
    split.
    + apply leb_FV; [vm_compute; discriminate | exact N | rewrite FV_m180; lra].
    + apply ltb_FV; [exact N | vm_compute; discriminate | rewrite FV_180; lra].
Qed.

Lemma dest_longitude_example :
  let p := App.destPoint RefMath.lib 0 0 90 111.195 in
  p = forward_geodesic RefMath.lib 0 0 90 111.195
  /\ (is_nan (snd p) = true
      \/ (-180 <=? snd p)%float = true /\ (snd p <? 180)%float = true).
Proof.
  apply (dest_longitude RefMath.lib 0 0 90 111.195).
  - exact (proj2 (proj2 (proj2 reference_math_ok))).
  - reflexivity.
  - reflexivity.
Defined.

(** C5, the claim as stated fails: from longitude 180, due north, the
    longitude returned is -180, which is outside (-180, 180]. *)
Lemma dest_longitude_minus_180 :
  App.destPoint RefMath.lib 45 180 0 100 = (45.899321605918729, -180)%float
  /\ (-180 <? -180)%float = false.
Proof. split; vm_compute; reflexivity. Qed.

End Geodesic.

(** ** Headings along the axes *)

Section Axes.

Import Accuracy.

Import Round.
Local Open Scope R_scope.

Lemma sign_of x s : has_sign s (Prim2SF x) -> get_sign x = s.
Proof.
  intros H. pose proof (Prim2SF_classified x) as C.
  inversion C as [? E|? ? E|? ? ? E|m e ? ? ? E]; rewrite <- E in H; cbn in H;
    [contradiction|assumption..].
Qed.

Lemma has_sign_of x : Prim2SF x <> S754_nan -> has_sign (get_sign x) (Prim2SF x).
Proof.
  intros N. pose proof (Prim2SF_classified x) as C.
  inversion C as [? E|? ? E|? ? ? E|m e ? ? ? E]; try reflexivity.
  apply is_nan_spec in H. contradiction.
Qed.



(** Two finite Numbers with the same non-zero value are the same Number. *)
Lemma FV_inj x y : finiteF x -> finiteF y -> FV x = FV y -> FV x <> 0 -> x = y.
Proof.
  intros Fx Fy E N. apply Prim2SF_inj.
  pose proof (Prim2SF_valid x) as Vx. pose proof (Prim2SF_valid y) as Vy.
  unfold finiteF in Fx, Fy. unfold FV in E, N.
  destruct (Prim2SF x) as [sx|sx| |sx mx ex], (Prim2SF y) as [sy|sy| |sy my ey];
    try contradiction; cbn [SFval] in E, N;
    try (exfalso; apply N; reflexivity); try (exfalso; apply N; exact E).
  cbn [valid_binary] in Vx, Vy.
  apply bounded_inv in Vx as [Cx _]. apply bounded_inv in Vy as [Cy _].
  pose proof (bpow_gt_0 ex) as Px. pose proof (bpow_gt_0 ey) as Py.
  assert (Mx : 0 < IZR (Zpos mx) * bpow ex)
    by (apply Rmult_lt_0_compat; [apply IZR_lt; lia|lra]).
  assert (My : 0 < IZR (Zpos my) * bpow ey)
    by (apply Rmult_lt_0_compat; [apply IZR_lt; lia|lra]).
  assert (Es : sx = sy) by (destruct sx, sy; cbn [sgn] in E; try reflexivity; lra).
  subst sy.
  assert (Ev : IZR (Zpos mx) * bpow ex = IZR (Zpos my) * bpow ey)
    by (destruct sx; cbn [sgn] in E; lra).
  assert (Ee : ex = ey).
  { destruct (Z.lt_trichotomy ex ey) as [L|[L|L]]; [|exact L|].
    - pose proof (canonical_lt _ _ _ _ Cx Cy L). lra.
    - pose proof (canonical_lt _ _ _ _ Cy Cx L). lra. }
  subst ey. f_equal. apply Rmult_eq_reg_r in Ev; [|lra].
  apply eq_IZR in Ev. congruence.
Qed.


(** A finite Number is an integer of fewer than 54 bits times a power of two. *)
Lemma FV_repr x :
  finiteF x ->
  exists z e, FV x = IZR z * bpow e /\ (Z.abs z < 9007199254740992)%Z
              /\ (emin <= e <= 971)%Z.
Proof.
  intros F. pose proof (Prim2SF_valid x) as V. unfold finiteF in F. unfold FV.
  destruct (Prim2SF x) as [s|s| |s m e]; try contradiction; cbn [SFval].
  - exists 0%Z, 0%Z. split; [lra|lia].
  - cbn [valid_binary] in V. apply bounded_inv in V as [(C1 & C2 & _) C4].
    exists (if s then Zneg m else Zpos m), e. split; [|destruct s; lia].
    destruct s; cbn [sgn]; [change (Zneg m) with (- Zpos m)%Z; rewrite opp_IZR|]; lra.
Qed.



Lemma positive_sign x : finiteF x -> 0 < FV x -> get_sign x = false.
Proof.
  intros F P. pose proof (has_sign_of x (finiteF_not_nan x F)) as S.
  unfold finiteF in F. unfold FV in P.
  destruct (Prim2SF x) as [s|s| |s m e]; try contradiction; cbn [SFval has_sign] in *;
    [lra|].
  rewrite <- S. destruct s; [|reflexivity]. cbn [sgn] in P.
  pose proof (bpow_gt_0 e). assert (0 < IZR (Zpos m)) by (apply IZR_lt; lia). nra.
Qed.

Lemma positive_zero x : finiteF x -> get_sign x = false -> FV x = 0 -> x = PrimFloat.zero.
Proof.
  intros F S E. pose proof (has_sign_of x (finiteF_not_nan x F)) as H. rewrite S in H.
  apply Prim2SF_inj. unfold finiteF in F. unfold FV in E.
  destruct (Prim2SF x) as [s|s| |s m e]; try contradiction; cbn [SFval has_sign] in *.
  - now subst.
  - exfalso. pose proof (bpow_gt_0 e). assert (0 < IZR (Zpos m)) by (apply IZR_lt; lia).
    destruct s; cbn [sgn] in E; nra.
Qed.





(** The sign of a remainder is the sign of the dividend. *)
Lemma rem_sign n d :
  finiteF n -> finiteF d -> FV d <> 0 -> get_sign (Num.rem n d) = get_sign n.
Proof.
  intros Fn Fd Nd. unfold Num.rem.
  pose proof (has_sign_of n (finiteF_not_nan n Fn)) as Sn.
  assert (Hd : FV d = SFval (Prim2SF d)) by reflexivity.
  unfold finiteF in Fn, Fd.
  destruct (Prim2SF n) as [sn|sn| |sn mn en] eqn:En; try contradiction;
    destruct (Prim2SF d) as [sd|sd| |sd md ed] eqn:Ed; try contradiction;
    cbn [SFval] in Hd; try lra; try reflexivity.
  cbn [has_sign] in Sn.
  set (e := Z.min en ed).
  set (R := Z.rem (Z.shiftl (Zpos mn) (en - e)) (Z.shiftl (Zpos md) (ed - e))).
  assert (PR : (0 <= R)%Z).
  { unfold R. apply Z.rem_nonneg.
    - rewrite Z.shiftl_mul_pow2 by (unfold e; lia).
      assert (0 < 2 ^ (ed - e))%Z by (apply Z.pow_pos_nonneg; unfold e; lia). lia.
    - apply Z.shiftl_nonneg. lia. }
  destruct (Z.eqb_spec R 0) as [R0|R0].
  - rewrite <- Sn. now destruct sn.
  - rewrite <- Sn. apply sign_of. unfold Num.of_dyadic.
    assert (V : forall z, z <> 0%Z ->
              has_sign (Z.ltb z 0) (binary_normalize prec emax z e false)
              /\ valid_binary (binary_normalize prec emax z e false) = true).
    { intros z Hz. destruct z as [|p|p]; [contradiction| |]; cbn [binary_normalize Z.ltb];
        destruct (binary_round_spec false p e) as (r & _ & _ & V1 & S1);
        destruct (binary_round_spec true p e) as (r' & _ & _ & V2 & S2);
        cbn; auto. }
    destruct (V (if sn then (- R)%Z else R)) as [S Val]; [destruct sn; lia|].
    rewrite Prim2SF_SF2Prim by exact Val.
    replace (Z.ltb (if sn then (- R)%Z else R) 0) with sn in S; [exact S|].
    destruct sn; symmetry; [apply Z.ltb_lt|apply Z.ltb_ge]; lia.
Qed.



Lemma FV_max_float : FV 0x1.fffffffffffffp1023 = IZR 9007199254740991 * bpow 971.
Proof.
  unfold FV.
  change (Prim2SF 0x1.fffffffffffffp1023) with (S754_finite false 9007199254740991 971).
  cbn [SFval sgn]. lra.
Qed.

(** No finite Number exceeds the largest one. *)
Lemma finite_le_max x : finiteF x -> Rabs (FV x) <= FV 0x1.fffffffffffffp1023.
Proof.
  intros F. destruct (FV_repr x F) as (z & e & E & Bz & Be).
  rewrite E, FV_max_float, Rabs_mult, <- abs_IZR, (Rabs_pos_eq (bpow e))
    by (apply Rlt_le, bpow_gt_0).
  assert (IZR (Z.abs z) <= IZR 9007199254740991) by (apply IZR_le; lia).
  assert (0 <= IZR (Z.abs z)) by (apply IZR_le; lia).
  pose proof (bpow_le e 971 ltac:(lia)). pose proof (bpow_gt_0 e). nra.
Qed.

Lemma max_absorbs :
  (0x1.fffffffffffffp1023 + 180 = 0x1.fffffffffffffp1023)%float
  /\ (PrimFloat.opp 0x1.fffffffffffffp1023 + 180
      = PrimFloat.opp 0x1.fffffffffffffp1023)%float.
Proof. split; vm_compute; reflexivity. Qed.

(** The TO-heading of any finite FROM direction is finite. *)
Lemma turn_finite dir : finiteF dir -> finiteF (dir + 180)%float.
Proof.
  intros F. assert (Fm : finiteF 0x1.fffffffffffffp1023) by exact I.
  assert (Fn : finiteF (PrimFloat.opp 0x1.fffffffffffffp1023)) by exact I.
  assert (F180 : finiteF 180) by exact I.
  pose proof (finite_le_max dir F) as B. apply Rabs_le_inv in B.
  destruct max_absorbs as [E1 E2].
  pose proof (add_le_mono dir _ 180 180 F Fm F180 F180 (proj2 B) (Rle_refl _)) as U.
  pose proof (add_le_mono _ dir 180 180 Fn F F180 F180
                ltac:(rewrite FV_opp; exact (proj1 B))
                (Rle_refl _)) as L.
  rewrite E1 in U. rewrite E2 in L.
  apply finite_of_bounds; [exact (yields_not_nan _ _ (add_yields dir 180 F F180))|].
  pose proof (finiteF_bounds _ Fm). pose proof (finiteF_bounds _ Fn). lra.
Qed.








End Axes.

(** ** The reference [Math] along the axes *)

Section ReferenceAxes.

Import Accuracy.

Import Round.







Local Open Scope R_scope.








End ReferenceAxes.

(** ** The regions of parsed rows *)

Section Parsed.

Lemma inherited_has_lower k :
  inherited k = true -> existsb (in_range 0x61 0x7A)%N k = true.
Proof.
  unfold inherited, Object_prototype. cbn [own].
  repeat (destruct (eqb k _) eqn:E; [apply eqb_eq in E; subst k; reflexivity|clear E]).
  discriminate.
Qed.

(** X1.  The regions that [parseCSV] computes are upper-cased, so none is the
    name of an inherited property: on parsed rows the membership test of
    the aggregation accepts the thirteen codes and nothing else. *)
Theorem parsed_region_own raw k :
  App.parseCSV_region raw = Normal k ->
  inherited k = false /\ has k App.CENTROIDS = mem k codes.
Proof.
  intros H.
  assert (U : exists r, k = Unicode.toUpperCase r).
  { unfold App.parseCSV_region in H.
    destruct (if (2 <? Z.of_nat (List.length (trim (ToString (or raw (VString []))))))%Z
              then _ else _) as [| |r| |]; try discriminate.
    injection H as <-. now exists r. }
  destruct U as [r ->].
  assert (I : inherited (Unicode.toUpperCase r) = false).
  { destruct (inherited _) eqn:E; [|reflexivity].
    apply inherited_has_lower in E. now rewrite toUpperCase_no_lower in E. }
  split; [exact I|]. now rewrite has_CENTROIDS, I, orb_false_r.
Qed.

Lemma parsed_region_own_example :
  inherited (str "AB") = false /\ has (str "AB") App.CENTROIDS = mem (str "AB") codes.
Proof.
  apply (parsed_region_own (VString (str "Alberta"))). reflexivity.
Defined.

End Parsed.

(** ** Totals of whole areas, and the aggregation as a whole *)

Section WholeAreas.

Import Round.
Local Open Scope R_scope.

Lemma as_index_spec v z :
  as_index v = Some z -> finiteF v /\ FV v = IZR z /\ (0 <= z)%Z.
Proof.
  unfold as_index, finiteF, FV. intros H.
  destruct (Prim2SF v) as [s|s| |s m e]; try discriminate.
  - injection H as <-. cbn. repeat split; lia.
  - destruct s; [discriminate|]. cbn [SFval sgn finite_sf]. rewrite Rmult_1_l.
    destruct (Z.leb_spec 0 e) as [L|L].
    + assert (Ez : z = (Zpos m * 2 ^ e)%Z) by congruence. subst z. clear H.
      rewrite mult_IZR, <- bpow_IZR by lia.
      repeat split. apply Z.mul_nonneg_nonneg; [lia|]. apply Z.pow_nonneg. lia.
    + set (k := (- e)%Z) in *. assert (Hk : (0 < k)%Z) by (unfold k; lia).
      destruct (Z.eqb_spec (Z.land (Zpos m) (2 ^ k - 1)) 0) as [E|E]; [|discriminate].
      assert (Ez : z = Z.shiftr (Zpos m) k) by congruence. subst z. clear H.
      assert (P2 : (0 < 2 ^ k)%Z) by (apply Z.pow_pos_nonneg; lia).
      replace (2 ^ k - 1)%Z with (Z.ones k) in E by (rewrite Z.ones_equiv; lia).
      rewrite Z.land_ones in E by lia.
      rewrite Z.shiftr_div_pow2 by lia.
      pose proof (Z.div_mod (Zpos m) (2 ^ k) ltac:(lia)) as D. rewrite E in D.
      set (q := (Zpos m / 2 ^ k)%Z) in *.
      assert (Em : Zpos m = (q * 2 ^ k)%Z) by lia.
      repeat split; [|unfold q; apply Z.div_pos; lia].
      rewrite Em, mult_IZR, <- bpow_IZR by lia. rewrite Rmult_assoc, <- bpow_plus.
      replace (k + e)%Z with 0%Z by (unfold k; lia). rewrite bpow_0. lra.
Qed.

Lemma whole_sum_snoc xs v z :
  as_index v = Some z -> whole_sum (xs ++ [v]) = (whole_sum xs + z)%Z.
Proof.
  intros H. unfold whole_sum. induction xs as [|x xs IH]; cbn [app fold_right].
  - rewrite H. lia.
  - rewrite IH. destruct (as_index x); lia.
Qed.

Lemma whole_sum_nonneg xs : (0 <= whole_sum xs)%Z.
Proof.
  unfold whole_sum. induction xs as [|x xs IH]; cbn [fold_right]; [lia|].
  destruct (as_index x) as [z|] eqn:E; [|exact IH].
  apply as_index_spec in E. lia.
Qed.

(** A sum of whole areas below [2^53] is exact. *)
Lemma float_sum_exact xs :
  all_whole xs -> (whole_sum xs < 9007199254740992)%Z ->
  finiteF (float_sum xs) /\ FV (float_sum xs) = IZR (whole_sum xs).
Proof.
  unfold all_whole. induction xs as [|v xs IH] using rev_ind; intros W B.
  - split; [exact I|]. cbn. reflexivity.
  - apply Forall_app in W as [W1 W2]. inversion W2 as [|? ? Hv _]; subst.
    destruct (as_index v) as [z|] eqn:E; [|congruence].
    rewrite (whole_sum_snoc xs v z E) in *.
    destruct (as_index_spec v z E) as (Fv & Vv & Pz).
    pose proof (whole_sum_nonneg xs) as Ps.
    destruct (IH W1 ltac:(lia)) as [Fs Vs].
    rewrite float_sum_snoc.
    pose proof (add_yields _ _ Fs Fv) as Y.
    assert (Ev : FV (float_sum xs) + FV v = IZR (whole_sum xs + z) * bpow 0).
    { rewrite Vs, Vv, plus_IZR, bpow_0. lra. }
    pose proof (yields_exact _ _ (whole_sum xs + z) 0 Y Ev ltac:(lia) ltac:(lia)) as V.
    split.
    + apply finite_of_bounds; [exact (yields_not_nan _ _ Y)|]. rewrite V, Ev, bpow_0.
      rewrite Rmult_1_r.
      assert (0 <= IZR (whole_sum xs + z)) by (apply IZR_le; lia).
      assert (IZR (whole_sum xs + z) < IZR 9007199254740992) by (apply IZR_lt; lia).
      pose proof (bpow_lt 53 1024 ltac:(lia)) as L. rewrite bpow_53 in L.
      pose proof (bpow_gt_0 1024). lra.
    + rewrite V, Ev, bpow_0. lra.
Qed.

Lemma float_sum_of_Z xs :
  all_whole xs -> (whole_sum xs < 9007199254740992)%Z ->
  float_sum xs = Num.of_Z (whole_sum xs).
Proof.
  intros W B. destruct (float_sum_exact xs W B) as [F V].
  pose proof (whole_sum_nonneg xs) as P.
  destruct (of_dyadic_exact (whole_sum xs) 0 false ltac:(lia) ltac:(lia)) as [V' F'].
  rewrite bpow_0, Rmult_1_r in V'. fold (Num.of_Z (whole_sum xs)) in V', F'.
  destruct (Z.eq_dec (whole_sum xs) 0) as [E0|N0].
  - rewrite E0 in *. change (Num.of_Z 0) with PrimFloat.zero.
    assert (A : Forall (fun v => is_finite v = true) xs).
    { unfold all_whole in W. eapply Forall_impl; [|exact W]. intros v Hv.
      destruct (as_index v) as [z|] eqn:E; [|congruence].
      apply is_finite_spec. now destruct (as_index_spec v z E). }
    destruct (float_sum_plain xs A) as [_ Nz].
    apply Prim2SF_inj. unfold finiteF in F. unfold FV in V.
    destruct (Prim2SF (float_sum xs)) as [[]|?| |s m e]; try contradiction;
      try congruence; try reflexivity.
    exfalso. cbn [SFval] in V. pose proof (bpow_gt_0 e).
    assert (0 < IZR (Zpos m)) by (apply IZR_lt; lia).
    destruct s; cbn [sgn] in V; nra.
  - apply FV_inj; [exact F|exact F'|lra|]. rewrite V.
    intros H. apply eq_IZR in H. contradiction.
Qed.

Lemma areas_of_perm k rows rows' :
  Permutation rows rows' -> Permutation (areas_of k rows) (areas_of k rows').
Proof.
  intros P. unfold areas_of. apply Permutation_map.
  induction P as [|x l l' P IH|x y l|l l' l'' P1 IH1 P2 IH2]; cbn [filter].
  - constructor.
  - destruct (eqb (App.region x) k && included x); [now constructor|exact IH].
  - destruct (eqb (App.region x) k && included x), (eqb (App.region y) k && included y);
      try apply Permutation_refl; apply perm_swap.
  - now apply perm_trans with (filter (fun r => eqb (App.region r) k && included r) l').
Qed.

Lemma whole_sum_perm xs ys : Permutation xs ys -> whole_sum xs = whole_sum ys.
Proof.
  unfold whole_sum.
  induction 1 as [|x l l' P IH|x y l|l l' l'' P1 IH1 P2 IH2]; cbn [fold_right].
  - reflexivity.
  - rewrite IH. reflexivity.
  - destruct (as_index x), (as_index y); lia.
  - congruence.
Qed.

(** When the included areas of a region are whole numbers whose sum is
    below [2^53], its total is their arithmetic sum, and it is the same for
    every permutation of the records. *)
Lemma whole_totals rows k :
  inherited k = false -> all_whole (areas_of k rows) ->
  (whole_sum (areas_of k rows) < 9007199254740992)%Z ->
  own k (App.aggregateByProvince rows)
  = match areas_of k rows with
    | [] => None
    | _ => Some (VNumber (Num.of_Z (whole_sum (areas_of k rows))))
    end
  /\ forall rows', Permutation rows rows' ->
       own k (App.aggregateByProvince rows') = own k (App.aggregateByProvince rows).
Proof.
  intros Hk W B.
  assert (T : forall rows0, Permutation rows rows0 ->
            own k (App.aggregateByProvince rows0)
            = match areas_of k rows with
              | [] => None
              | _ => Some (VNumber (Num.of_Z (whole_sum (areas_of k rows))))
              end).
  { intros rows0 P. pose proof (areas_of_perm k rows rows0 P) as PA.
    rewrite own_aggregate by exact Hk. unfold total_of.
    assert (W0 : all_whole (areas_of k rows0)).
    { unfold all_whole in *. eapply Permutation_Forall; eassumption. }
    assert (E : float_sum (areas_of k rows0) = Num.of_Z (whole_sum (areas_of k rows))).
    { rewrite (whole_sum_perm _ _ PA). apply float_sum_of_Z; [exact W0|].
      rewrite <- (whole_sum_perm _ _ PA). exact B. }
    destruct (areas_of k rows0) as [|a0 l0] eqn:A0;
      destruct (areas_of k rows) as [|a l] eqn:A.
    - reflexivity.
    - apply Permutation_sym, Permutation_nil in PA. discriminate.
    - apply Permutation_nil in PA. discriminate.
    - now rewrite E. }
  split; [apply T, Permutation_refl|].
  intros rows' P. rewrite (T rows' P), (T rows (Permutation_refl _)). reflexivity.
Qed.

(** C2, as the code has it.  Under a key that is not an inherited property
    name the totals hold the sum, taken from the left in input order and
    rounded at each step, of the areas of the included records of that
    region, and nothing when there is none; that total depends only on the
    sequence of included areas of the region, so it is the same for two
    inputs that list them in the same order.  When no region is an
    inherited name the whole object is [totals_spec]: one entry per region
    with an included record, in order of first occurrence, and the grand
    total is the sum, from the left, of these totals in that order.  When
    the included areas of a region are whole numbers whose arithmetic sum
    is below [2^53], no addition rounds: the total is that arithmetic sum
    and it is the same for every permutation of the records. *)
Theorem aggregate_sums rows :
  (forall k, inherited k = false ->
     own k (App.aggregateByProvince rows) = total_of k rows)
  /\ (forall rows' k, inherited k = false -> areas_of k rows' = areas_of k rows ->
        own k (App.aggregateByProvince rows') = own k (App.aggregateByProvince rows))
  /\ (Forall (fun r => inherited (App.region r) = false) rows ->
        App.aggregateByProvince rows = totals_spec rows
        /\ App.grandTotal (App.aggregateByProvince rows)
           = VNumber (float_sum (map (fun k => float_sum (areas_of k rows))
                                     (regions_of rows))))
  /\ (forall k, inherited k = false -> all_whole (areas_of k rows) ->
        (whole_sum (areas_of k rows) < 9007199254740992)%Z ->
        own k (App.aggregateByProvince rows)
        = match areas_of k rows with
          | [] => None
          | _ => Some (VNumber (Num.of_Z (whole_sum (areas_of k rows))))
          end
        /\ forall rows', Permutation rows rows' ->
             own k (App.aggregateByProvince rows')
             = own k (App.aggregateByProvince rows)).
Proof.
  split; [|split; [|split]]; [| | |now apply whole_totals].
  - intros k Hk. now apply own_aggregate.
  - intros rows' k Hk E. rewrite !own_aggregate by exact Hk. unfold total_of. now rewrite E.
  - intros H. split; [now apply aggregate_object|].
    rewrite aggregate_object by exact H. unfold App.grandTotal, totals_spec, values.
    rewrite map_map. cbn [snd].
    rewrite <- (map_map (fun k => float_sum (areas_of k rows)) VNumber).
    apply add_numbers.
Qed.

Lemma aggregate_sums_example :
  own (str "AB")
      (App.aggregateByProvince
         [record "Alberta" "1,234"; record "Mordor" "7"; record "ab" "n/a";
          record "BC" "10"])
  = Some (VNumber 1234%float).
Proof.
  rewrite (proj1 (aggregate_sums _) (str "AB") eq_refl). reflexivity.
Defined.

(** C2, the claim as stated fails: the additions are rounded, so a total
    and the grand total depend on the order of the records:
    (0.1 + 0.2) + 0.3 is 0.6000000000000001 and (0.3 + 0.2) + 0.1 is 0.6. *)
Lemma aggregate_order_dependent :
  Permutation [record "AB" "0.1"; record "AB" "0.2"; record "AB" "0.3"]
              [record "AB" "0.3"; record "AB" "0.2"; record "AB" "0.1"]
  /\ own (str "AB") (App.aggregateByProvince
        [record "AB" "0.1"; record "AB" "0.2"; record "AB" "0.3"])
     = Some (VNumber 0.6000000000000001%float)
  /\ own (str "AB") (App.aggregateByProvince
        [record "AB" "0.3"; record "AB" "0.2"; record "AB" "0.1"])
     = Some (VNumber 0.6%float)
  /\ (0.6000000000000001 =? 0.6)%float = false
  /\ Permutation [record "AB" "0.1"; record "BC" "0.2"; record "ON" "0.3"]
                 [record "ON" "0.3"; record "BC" "0.2"; record "AB" "0.1"]
  /\ App.grandTotal (App.aggregateByProvince
        [record "AB" "0.1"; record "BC" "0.2"; record "ON" "0.3"])
     = VNumber 0.6000000000000001%float
  /\ App.grandTotal (App.aggregateByProvince
        [record "ON" "0.3"; record "BC" "0.2"; record "AB" "0.1"])
     = VNumber 0.6%float.
Proof.
  split; [exact (Permutation_rev [record "AB" "0.1"; record "AB" "0.2"; record "AB" "0.3"])|].
  split; [vm_compute; reflexivity|]. split; [vm_compute; reflexivity|].
  split; [vm_compute; reflexivity|].
  split; [exact (Permutation_rev [record "AB" "0.1"; record "BC" "0.2"; record "ON" "0.3"])|].
  split; vm_compute; reflexivity.
Qed.

End WholeAreas.

(** ** Angles brought into one turn *)

Section Normalisation.

Import Round.
Local Open Scope R_scope.

Lemma non_finite_cases x :
  is_finite x = false -> x = nan \/ x = infinity \/ x = neg_infinity.
Proof.
  intros H.
  assert (N : ~ finiteF x) by (intros F; apply is_finite_spec in F; congruence).
  unfold finiteF in N.
  destruct (Prim2SF x) as [s|[]| |s m e] eqn:E; cbn in N; try tauto.
  - right. right. apply Prim2SF_inj. now rewrite E.
  - right. left. apply Prim2SF_inj. now rewrite E.
  - left. apply Prim2SF_inj. now rewrite E.
Qed.

(** X2.  [compassFromDeg] returns one of the sixteen labels of the table for
    every finite angle, and [undefined] for NaN and the infinities. *)
Theorem compass_defined deg :
  (is_finite deg = true ->
     exists l, App.compassFromDeg deg = VString l /\ In l App.dirs)
  /\ (is_finite deg = false -> App.compassFromDeg deg = VUndefined).
Proof.
  split.
  - intros F. apply compass_label. now apply is_finite_spec.
  - intros F. destruct (non_finite_cases deg F) as [-> | [-> | ->]];
      vm_compute; reflexivity.
Qed.

(** X3.  [mod360] returns a Number of [[0, 360)] for every finite angle and
    NaN for NaN and the infinities. *)
Theorem mod360_range d :
  (is_finite d = true ->
     (0 <=? App.mod360 d)%float = true /\ (App.mod360 d <? 360)%float = true)
  /\ (is_finite d = false -> is_nan (App.mod360 d) = true).
Proof.
  split.
  - intros F. apply is_finite_spec in F. destruct (mod360_spec d F) as [Fm Bm].
    pose proof (finiteF_not_nan _ Fm) as N.
    split.
    + apply leb_FV; [vm_compute; discriminate | exact N | rewrite FV_0; lra].
    + apply ltb_FV; [exact N | vm_compute; discriminate | rewrite FV_360; lra].
  - intros F. destruct (non_finite_cases d F) as [-> | [-> | ->]];
      vm_compute; reflexivity.
Qed.

(** X4.  For a whole number of degrees below [2^53] in magnitude, [mod360]
    is exactly the residue modulo 360, a whole number of [[0, 360)]. *)
Theorem mod360_whole z :
  (Z.abs z < 9007199254740992)%Z ->
  App.mod360 (Num.of_Z z) = Num.of_Z (z mod 360).
Proof.
  intros Bz. unfold App.mod360.
  destruct (of_dyadic_exact z 0 false Bz ltac:(lia)) as [Vd Fd].
  rewrite bpow_0, Rmult_1_r in Vd. fold (Num.of_Z z) in Vd, Fd.
  assert (F360 : finiteF 360) by exact I. pose proof FV_360 as E360.
  destruct (rem_spec (Num.of_Z z) 360 Fd F360 ltac:(lra)) as (F1 & B1 & _ & _ & _ & k & K1).
  rewrite E360, (Rabs_pos_eq 360) in B1 by lra. apply Rabs_def2 in B1.
  rewrite Vd, E360 in K1.
  assert (V1 : FV (Num.rem (Num.of_Z z) 360) = IZR (z - k * 360))
    by (rewrite K1, minus_IZR, mult_IZR; reflexivity).
  assert (R1 : (-360 < z - k * 360 < 360)%Z).
  { rewrite V1 in B1. split; apply lt_IZR; lra. }
  set (r1 := Num.rem (Num.of_Z z) 360) in *.
  pose proof (add_yields r1 360 F1 F360) as Y.
  assert (V2 : FV (r1 + 360)%float = IZR (z - k * 360 + 360)).
  { rewrite (yields_exact _ _ (z - k * 360 + 360) 0 Y); [| |lia|lia];
      rewrite V1, E360, plus_IZR; [|rewrite bpow_0]; lra. }
  assert (F2 : finiteF (r1 + 360)%float).
  { apply finite_of_bounds; [exact (yields_not_nan _ _ Y)|]. rewrite V2.
    assert (0 < IZR (z - k * 360 + 360) < 720) as [? ?]
      by (split; [apply (IZR_lt 0)|apply (IZR_lt _ 720)]; lia).
    pose proof (bpow_lt 10 1024 ltac:(lia)) as L. rewrite (bpow_IZR 10) in L by lia.
    change (2 ^ 10)%Z with 1024%Z in L. lra. }
  destruct (rem_spec _ 360 F2 F360 ltac:(lra)) as (F3 & B3 & _ & P3 & _ & k' & K3).
  rewrite E360, (Rabs_pos_eq 360) in B3 by lra. apply Rabs_def2 in B3.
  rewrite V2, E360 in K3.
  assert (P2 : 0 < IZR (z - k * 360 + 360)) by (apply (IZR_lt 0); lia).
  specialize (P3 ltac:(rewrite V2; lra)).
  set (r2 := Num.rem (r1 + 360) 360) in *.
  assert (V3 : FV r2 = IZR (z - k * 360 + 360 - k' * 360))
    by (rewrite K3, minus_IZR, mult_IZR; reflexivity).
  assert (R3 : (0 <= z - k * 360 + 360 - k' * 360 < 360)%Z).
  { rewrite V3 in B3, P3. split; [apply le_IZR|apply lt_IZR]; lra. }
  assert (M : (z mod 360 = z - k * 360 + 360 - k' * 360)%Z).
  { symmetry. apply (Z.mod_unique z 360 (k - 1 + k')); [left; exact R3|lia]. }
  rewrite M.
  set (m := (z - k * 360 + 360 - k' * 360)%Z) in *.
  destruct (of_dyadic_exact m 0 false ltac:(lia) ltac:(lia)) as [Vm Fm].
  rewrite bpow_0, Rmult_1_r in Vm. fold (Num.of_Z m) in Vm, Fm.
  destruct (Z.eq_dec m 0) as [E0|N0].
  - rewrite E0 in *. change (Num.of_Z 0) with PrimFloat.zero.
    apply positive_zero; [exact F3| |exact V3].
    unfold r2. rewrite rem_sign by (assumption || lra).
    apply positive_sign; [exact F2|]. rewrite V2. exact P2.
  - apply FV_inj; [exact F3|exact Fm|lra|]. rewrite V3.
    intros H. apply eq_IZR in H. contradiction.
Qed.

Lemma mod360_whole_example :
  App.mod360 (Num.of_Z (-450)) = Num.of_Z ((-450) mod 360).
Proof. apply (mod360_whole (-450)). reflexivity. Defined.

End Normalisation.

(** ** The markers of a collection *)

Section MarkerLayer.

Import Round.
Local Open Scope R_scope.

Lemma truthy_positive m :
  Prim2SF m <> S754_nan -> 0 < FV m -> Num.truthy m = true.
Proof.
  intros Nm Hm. unfold Num.truthy.
  rewrite (proj2 (not_nan_spec m) Nm), orb_false_r.
  apply negb_true_iff. destruct (is_zero m) eqn:E; [|reflexivity].
  assert (N0 : Prim2SF 0 <> S754_nan) by (vm_compute; discriminate).
  apply (eqb_FV m 0 Nm N0) in E. rewrite FV_0 in E. lra.
Qed.

Lemma falsy_zero m :
  Prim2SF m <> S754_nan -> FV m = 0 -> Num.truthy m = false.
Proof.
  intros Nm Hm. unfold Num.truthy. apply negb_false_iff, orb_true_iff. left.
  assert (N0 : Prim2SF 0 <> S754_nan) by (vm_compute; discriminate).
  apply (eqb_FV m 0 Nm N0). now rewrite FV_0.
Qed.

(** An area that is at least a positive [maxArea] gets the full radius. *)
Lemma radius_saturates a m :
  (0 <? m)%float = true -> (m <=? a)%float = true -> is_finite a = true ->
  App.radiusFor a m = 22%float.
Proof.
  intros Hm Hma F.
  destruct (ltb_not_nan _ _ Hm) as [N0 Nm]. destruct (leb_not_nan _ _ Hma) as [_ Na].
  apply (ltb_FV _ _ N0 Nm) in Hm. apply (leb_FV _ _ Nm Na) in Hma. rewrite FV_0 in Hm.
  assert (Fa := proj1 (is_finite_spec a) F).
  assert (Fm : finiteF m).
  { apply finite_of_bounds; [exact Nm|]. pose proof (finiteF_bounds a Fa).
    pose proof (bpow_gt_0 1024). lra. }
  unfold App.radiusFor, Num.isFinite. rewrite F, (truthy_positive m Nm Hm).
  cbn [negb orb].
  pose proof (div_yields a m Fa Fm ltac:(lra)) as Y.
  assert (F1 : finiteF 1) by exact I.
  pose proof (yields_self 1 F1) as Y1.
  assert (Q : FV 1 <= FV (a / m)%float).
  { apply (yields_mono _ _ _ _ Y1 Y). rewrite FV_1.
    apply (Rmult_le_reg_r (FV m)); [exact Hm|]. unfold Rdiv.
    rewrite Rmult_assoc, Rinv_l by lra. lra. }
  pose proof (yields_not_nan _ _ Y) as Nq.
  assert (N1 : Prim2SF 1 <> S754_nan) by (vm_compute; discriminate).
  pose proof (sqrt_mono 1 _ N1 Nq ltac:(rewrite FV_1; lra) Q) as S.
  assert (E1 : PrimFloat.sqrt 1 = 1%float) by (vm_compute; reflexivity).
  rewrite E1, FV_1 in S.
  destruct (sqrt_nonneg _ Nq ltac:(rewrite FV_1 in Q; lra)) as [Ns _].
  destruct (min_spec 1 _ N1 Ns) as [D V].
  rewrite FV_1, Rmin_left in V by exact S.
  assert (E : Num.min 1 (PrimFloat.sqrt (a / m)) = 1%float).
  { destruct D as [D|D]; [exact D|]. rewrite D in V |- *.
    apply FV_inj; [|exact F1|rewrite FV_1; exact V|lra].
    apply finite_of_bounds; [exact Ns|]. rewrite V.
    pose proof (bpow_lt 0 1024 ltac:(lia)) as L. rewrite bpow_0 in L. lra. }
  rewrite E. vm_compute. reflexivity.
Qed.

Lemma fold_max_spec l : forall acc,
  (forall x, In x l -> Prim2SF x <> S754_nan) -> Prim2SF acc <> S754_nan ->
  Prim2SF (fold_left Num.max l acc) <> S754_nan
  /\ FV acc <= FV (fold_left Num.max l acc)
  /\ forall x, In x l -> FV x <= FV (fold_left Num.max l acc).
Proof.
  induction l as [|y l IH]; intros acc Hl Ha; cbn [fold_left].
  - repeat split; [exact Ha|lra|intros x []].
  - destruct (max_spec acc y Ha (Hl y (or_introl eq_refl))) as [D V].
    assert (Nm : Prim2SF (Num.max acc y) <> S754_nan).
    { destruct D as [-> | ->]; [exact Ha|apply Hl; now left]. }
    destruct (IH (Num.max acc y) (fun x H => Hl x (or_intror H)) Nm) as (N & A & B).
    rewrite V in A. pose proof (Rmax_l (FV acc) (FV y)). pose proof (Rmax_r (FV acc) (FV y)).
    repeat split; [exact N|lra|].
    intros x [<- | Hx]; [lra|now apply B].
Qed.

Lemma or_zero_spec t :
  let x := if Num.truthy t then t else 0%float in
  Prim2SF x <> S754_nan /\ (Prim2SF t <> S754_nan -> FV x = FV t).
Proof.
  cbv zeta. unfold Num.truthy.
  destruct (is_nan t) eqn:En.
  - rewrite orb_true_r. cbn [negb]. split; [vm_compute; discriminate|].
    intros N. apply not_nan_spec in N. congruence.
  - rewrite orb_false_r. apply not_nan_spec in En.
    destruct (is_zero t) eqn:Ez; cbn [negb].
    + split; [vm_compute; discriminate|]. intros _.
      assert (N0 : Prim2SF 0 <> S754_nan) by (vm_compute; discriminate).
      apply (eqb_FV t 0 En N0) in Ez. now rewrite Ez.
    + split; [exact En|reflexivity].
Qed.

Lemma maxTotal_spec fs :
  Prim2SF (App.maxTotal fs) <> S754_nan
  /\ 0 <= FV (App.maxTotal fs)
  /\ forall f, In f fs -> Prim2SF (App.total_burned_ha f) <> S754_nan ->
     FV (App.total_burned_ha f) <= FV (App.maxTotal fs).
Proof.
  unfold App.maxTotal.
  set (g := fun f : App.feature =>
              if Num.truthy (App.total_burned_ha f) then App.total_burned_ha f else 0%float).
  assert (N0 : Prim2SF 0 <> S754_nan) by (vm_compute; discriminate).
  destruct (fold_max_spec (map g fs) 0%float) as (N & A & B); [|exact N0|].
  { intros x H. apply in_map_iff in H as (f & <- & _).
    exact (proj1 (or_zero_spec (App.total_burned_ha f))). }
  rewrite FV_0 in A. repeat split; [exact N|exact A|].
  intros f H Nf. rewrite <- (proj2 (or_zero_spec (App.total_burned_ha f)) Nf).
  apply B. apply in_map_iff. now exists f.
Qed.

(** X5.  The marker layer (lines 376-379): the maximum that scales the markers is a
    Number that is at least zero and at least every total that is a Number;
    a marker of a total that is at least zero has a radius between 6 and 22,
    and a positive finite total that attains the maximum is drawn with
    radius 22. *)
Theorem marker_radii fs :
  (0 <=? App.maxTotal fs)%float = true
  /\ (forall f, In f fs -> is_nan (App.total_burned_ha f) = false ->
        (App.total_burned_ha f <=? App.maxTotal fs)%float = true)
  /\ (forall f, In f fs -> (0 <=? App.total_burned_ha f)%float = true ->
        within 6 22 (App.markerRadius fs f))
  /\ (forall f, In f fs -> (0 <? App.total_burned_ha f)%float = true ->
        is_finite (App.total_burned_ha f) = true ->
        (App.maxTotal fs <=? App.total_burned_ha f)%float = true ->
        App.markerRadius fs f = 22%float).
Proof.
  destruct (maxTotal_spec fs) as (Nm & Pm & Bm).
  assert (N0 : Prim2SF 0 <> S754_nan) by (vm_compute; discriminate).
  split; [|split; [|split]].
  - apply leb_FV; [exact N0|exact Nm|rewrite FV_0; exact Pm].
  - intros f H Nf. apply not_nan_spec in Nf.
    apply leb_FV; [exact Nf|exact Nm|now apply Bm].
  - intros f H Pf. unfold App.markerRadius.
    destruct (Rle_lt_or_eq_dec _ _ Pm) as [P|Z].
    + apply radius_range; [|exact Pf].
      apply ltb_FV; [exact N0|exact Nm|rewrite FV_0; exact P].
    + unfold App.radiusFor. rewrite (falsy_zero _ Nm (eq_sym Z)). cbn [negb orb].
      split; vm_compute; reflexivity.
  - intros f H Pf Ff Hf. unfold App.markerRadius.
    apply radius_saturates; [|exact Hf|exact Ff].
    destruct (ltb_not_nan _ _ Pf) as [_ Nf].
    apply (ltb_FV _ _ N0 Nf) in Pf. apply (leb_FV _ _ Nm Nf) in Hf.
    pose proof (Bm f H Nf).
    apply ltb_FV; [exact N0|exact Nm|]. lra.
Qed.

End MarkerLayer.

(** ** The lengths of the arrow *)

Section ArrowLengths.

Import Round.
Local Open Scope R_scope.

Lemma FV_arrow :
  FV 5 = 5 /\ FV 25 = 25 /\ FV 2 = 2 /\ FV 8.75 = 8.75 /\ 0.2 < FV 0.35 <= 0.35.
Proof.
  repeat split.
  - fv_literal 5%float. lra.
  - fv_literal 25%float. lra.
  - fv_literal 2%float. lra.
  - fv_literal 8.75%float. lra.
  - fv_literal 0.35%float. lra.
  - fv_literal 0.35%float. lra.
Qed.

(** A Number times a finite non-zero Number is a Number. *)
Lemma mul_not_nan x c :
  Prim2SF x <> S754_nan -> finiteF c -> FV c <> 0 ->
  Prim2SF (x * c)%float <> S754_nan.
Proof.
  intros Nx Fc Nc. destruct (finite_dec x) as [Fx|Fx].
  - exact (yields_not_nan _ _ (mul_yields x c Fx Fc)).
  - rewrite mul_spec. unfold finiteF in Fx, Fc. unfold FV in Nc.
    destruct (Prim2SF x) as [s|s| |s m e]; cbn in Fx; try tauto;
      destruct (Prim2SF c) as [s'|s'| |s' m' e']; cbn in Fc, Nc; try tauto;
      cbn; discriminate.
Qed.

Lemma number_or_zero_not_nan s : Prim2SF (App.number_or_zero s) <> S754_nan.
Proof.
  unfold App.number_or_zero, Num.truthy.
  destruct (is_nan (Conv.StringToNumber s)) eqn:En.
  - rewrite orb_true_r. cbn [negb]. vm_compute. discriminate.
  - apply not_nan_spec in En. destruct (is_zero _); cbn [orb negb];
      [vm_compute; discriminate|exact En].
Qed.

Lemma clip_spec lo hi y :
  finiteF lo -> finiteF hi -> FV lo <= FV hi -> Prim2SF y <> S754_nan ->
  finiteF (Num.max lo (Num.min hi y))
  /\ FV lo <= FV (Num.max lo (Num.min hi y)) <= FV hi.
Proof.
  intros Fl Fh L Ny.
  pose proof (finiteF_not_nan _ Fl) as Nl. pose proof (finiteF_not_nan _ Fh) as Nh.
  destruct (min_spec hi y Nh Ny) as [D V].
  assert (Nm : Prim2SF (Num.min hi y) <> S754_nan) by (destruct D as [-> | ->]; assumption).
  destruct (max_spec lo _ Nl Nm) as [D' V'].
  assert (Nr : Prim2SF (Num.max lo (Num.min hi y)) <> S754_nan)
    by (destruct D' as [-> | ->]; assumption).
  assert (B : FV lo <= FV (Num.max lo (Num.min hi y)) <= FV hi).
  { rewrite V', V. unfold Rmax, Rmin. repeat destruct (Rle_dec _ _); lra. }
  split; [|exact B]. apply finite_of_bounds; [exact Nr|].
  pose proof (finiteF_bounds _ Fl). pose proof (finiteF_bounds _ Fh). lra.
Qed.

(** X6.  The arrow's shaft is between 5 and 25 km and its head strokes between 2
    and 8.75 km long, whatever the text of the speed box. *)
Theorem arrow_lengths speed :
  within 5 25 (App.shaftLength speed)
  /\ within 2 8.75 (App.headLength (App.shaftLength speed)).
Proof.
  destruct FV_arrow as (E5 & E25 & E2 & E875 & E035).
  assert (F5 : finiteF 5) by exact I. assert (F25 : finiteF 25) by exact I.
  assert (F2 : finiteF 2) by exact I. assert (F875 : finiteF 8.75) by exact I.
  assert (F035 : finiteF 0.35) by exact I. assert (F08 : finiteF 0.8) by exact I.
  assert (N08 : FV 0.8 <> 0) by (fv_literal 0.8%float; lra).
  pose proof (mul_not_nan _ 0.8 (number_or_zero_not_nan speed) F08 N08) as Ny.
  destruct (clip_spec 5 25 _ F5 F25 ltac:(lra) Ny) as [FL BL].
  fold (App.shaftLength speed) in FL, BL. rewrite E5, E25 in BL.
  split; [apply FV_within; try assumption; lra|].
  unfold App.headLength.
  set (L := App.shaftLength speed) in *.
  pose proof (mul_yields L 0.35 FL F035) as Y.
  destruct (yields_finite _ _ 1 8.75 Y ltac:(exact I) F875) as [Fp Bp].
  { rewrite FV_1, E875. nra. }
  rewrite FV_1, E875 in Bp.
  pose proof (finiteF_not_nan _ Fp) as Np. pose proof (finiteF_not_nan _ F2) as N2.
  destruct (max_spec 2 _ N2 Np) as [D V].
  assert (Fr : finiteF (Num.max 2 (L * 0.35))) by (destruct D as [-> | ->]; assumption).
  apply FV_within; try assumption.
  rewrite V, E2, E875. unfold Rmax. destruct (Rle_dec _ _); lra.
Qed.

End ArrowLengths.

(** ** The points of the arrow *)

Section Arrow.

Import Round.
Local Open Scope R_scope.

Lemma FV_half_pi : 1 < FV (Num.PI / 2)%float < 2.
Proof. fv_literal (Num.PI / 2)%float. lra. Qed.

Lemma FV_90 : FV 90 = 90 /\ FV (-90) = -90.
Proof. split; [fv_literal 90%float|fv_literal (-90)%float]; lra. Qed.

Lemma quarter_turn :
  (Num.PI / 2 * 180 / Num.PI = 90)%float /\ (- (Num.PI / 2) * 180 / Num.PI = -90)%float.
Proof. split; vm_compute; reflexivity. Qed.

Lemma nan_first :
  (nan * 180 / Num.PI)%float = nan
  /\ (Num.rem (nan * 180 / Num.PI + 540) 360 - 180)%float = nan
  /\ App.toRad nan = nan.
Proof. repeat split; vm_compute; reflexivity. Qed.

Lemma add_nan x : (nan + x)%float = nan.
Proof.
  apply Prim2SF_inj. rewrite add_spec. change (Prim2SF nan) with S754_nan. reflexivity.
Qed.

(** The latitude of a destination, from the range of [Math.asin]. *)
Lemma latitude_range a :
  within (- (Num.PI / 2)) (Num.PI / 2) a -> within (-90) 90 (a * 180 / Num.PI).
Proof.
  intros W. pose proof FV_half_pi as H. pose proof FV_PI as EPI.
  destruct FV_90 as [E90 Em90]. destruct quarter_turn as [Q1 Q2].
  assert (Fh : finiteF (Num.PI / 2)) by exact I.
  assert (Fmh : finiteF (- (Num.PI / 2))) by exact I.
  assert (FPI : finiteF Num.PI) by exact I. assert (F180 : finiteF 180) by exact I.
  destruct (within_FV _ _ a Fmh Fh W) as [Fa Ba].
  assert (P180 : 0 <= FV 180) by (rewrite FV_180; lra).
  pose proof (mul_le_mono _ _ 180 Fmh Fa F180 P180 (proj1 Ba)) as L1.
  pose proof (mul_le_mono _ _ 180 Fa Fh F180 P180 (proj2 Ba)) as L2.
  assert (Fl : finiteF (- (Num.PI / 2) * 180)) by exact I.
  assert (Fu : finiteF (Num.PI / 2 * 180)) by exact I.
  assert (Fm : finiteF (a * 180)).
  { apply finite_of_bounds; [exact (yields_not_nan _ _ (mul_yields a 180 Fa F180))|].
    pose proof (finiteF_bounds _ Fl). pose proof (finiteF_bounds _ Fu). lra. }
  pose proof (div_le_mono _ _ Num.PI Fl Fm FPI ltac:(lra) L1) as D1.
  pose proof (div_le_mono _ _ Num.PI Fm Fu FPI ltac:(lra) L2) as D2.
  rewrite Q2, Em90 in D1. rewrite Q1, E90 in D2.
  pose proof (yields_not_nan _ _ (div_yields _ Num.PI Fm FPI ltac:(lra))) as N.
  apply FV_within; try exact I; [|rewrite E90, Em90; lra].
  apply finite_of_bounds; [exact N|].
  pose proof (bpow_lt 7 1024 ltac:(lia)) as L. rewrite (bpow_IZR 7) in L by lia.
  change (2 ^ 7)%Z with 128%Z in L. lra.
Qed.

(** The reference [Math.asin] stays in [[-π/2, π/2]]. *)
Lemma half_pi_fixed :
  RefMath.of_fixed (RefMath.pi_W / 2) = (Num.PI / 2)%float
  /\ RefMath.of_fixed 0 = 0%float.
Proof. split; vm_compute; reflexivity. Qed.

Lemma quarter_within (s : bool) a :
  within 0 (Num.PI / 2) a ->
  within (- (Num.PI / 2)) (Num.PI / 2) (if s then (- a)%float else a).
Proof.
  intros W. assert (Fh : finiteF (Num.PI / 2)) by exact I.
  destruct (within_FV 0 _ a I Fh W) as [F B]. rewrite FV_0 in B.
  pose proof FV_half_pi.
  apply FV_within; try exact I.
  - destruct s; [now apply finiteF_opp | exact F].
  - rewrite (FV_opp (Num.PI / 2)).
    destruct s; [rewrite FV_opp|]; lra.
Qed.

Lemma unit_quarter x : within (-1) 1 x -> within (- (Num.PI / 2)) (Num.PI / 2) x.
Proof.
  intros W. destruct (within_FV (-1) 1 x I I W) as [F B].
  rewrite FV_m1, FV_1 in B. pose proof FV_half_pi.
  apply FV_within; try exact I; [exact F|].
  rewrite (FV_opp (Num.PI / 2)). lra.
Qed.

Lemma ref_asin_range x :
  is_nan (RefMath.ref_asin x) = false ->
  within (- (Num.PI / 2)) (Num.PI / 2) (RefMath.ref_asin x).
Proof.
  destruct half_pi_fixed as [Eh E0].
  unfold RefMath.ref_asin.
  destruct (Prim2SF x) as [s|s| |s m e] eqn:E;
    [ | intros H; vm_compute in H; discriminate H
      | intros H; vm_compute in H; discriminate H | ].
  - intros _. apply unit_quarter. now apply (zero_within x s).
  - destruct (RefMath.tiny m e) eqn:T.
    { intros _. apply unit_quarter. now apply (tiny_small x s m e). }
    destruct (0 <? Z.log2 (Z.pos m) + 1 + e)%Z.
    + destruct (abs x =? 1)%float; [|intros H; vm_compute in H; discriminate H].
      intros _. rewrite Eh. destruct s; split; vm_compute; reflexivity.
    + intros _. apply quarter_within.
      set (a := if (_ =? 0)%Z then _ else _). clearbody a.
      rewrite <- E0 at 1. rewrite <- Eh at 1.
      apply of_fixed_between; [|rewrite E0; exact I|rewrite Eh; exact I].
      apply clamp_bounds. vm_compute. discriminate.
Qed.

(** X7.  [destPoint] returns a latitude that is NaN or between -90 and 90 as soon
    as [Math.asin] stays between [-π/2] and [π/2]. *)
Theorem dest_latitude M lat lon bearingDeg distanceKm :
  (forall x, is_nan (asin M x) = false ->
             within (- (Num.PI / 2)) (Num.PI / 2) (asin M x)) ->
  let p := App.destPoint M lat lon bearingDeg distanceKm in
  is_nan (fst p) = true \/ within (-90) 90 (fst p).
Proof.
  intros HM p. unfold p, App.destPoint. cbn [fst].
  set (a := asin M _).
  assert (Ha : is_nan a = false -> within (- (Num.PI / 2)) (Num.PI / 2) a) by apply HM.
  clearbody a. clear HM.
  destruct (is_nan a) eqn:Na.
  - left. rewrite (is_nan_eq a Na). vm_compute. reflexivity.
  - right. apply latitude_range. now apply Ha.
Qed.

Lemma dest_latitude_example :
  let p := App.destPoint RefMath.lib 45 (-75) 30 10 in
  is_nan (fst p) = true \/ within (-90) 90 (fst p).
Proof. apply (dest_latitude RefMath.lib 45 (-75) 30 10). exact ref_asin_range. Defined.

(** The longitude [destPoint] returns from an origin longitude that is NaN or
    in [[-180, 180]]. *)
Lemma dest_longitude_range M lat lon bearingDeg distanceKm :
  (forall y x, is_nan (atan2 M y x) = false -> within (- Num.PI) Num.PI (atan2 M y x)) ->
  is_nan lon = true \/ within (-180) 180 lon ->
  let l := snd (App.destPoint M lat lon bearingDeg distanceKm) in
  is_nan l = true \/ (-180 <=? l)%float = true /\ (l <? 180)%float = true.
Proof.
  intros HM Hl l. unfold l, App.destPoint. cbn [snd].
  set (a := atan2 M _ _).
  assert (HMa : is_nan a = false -> within (- Num.PI) Num.PI a) by apply HM.
  clearbody a. clear HM. rename HMa into HM.
  destruct nan_first as (_ & E2 & E3).
  destruct Hl as [Nl|[H1 H2]].
  - left. rewrite (is_nan_eq lon Nl), E3, add_nan, E2. reflexivity.
  - destruct (is_nan a) eqn:Na.
    + left. rewrite (is_nan_eq a Na), nan_add, E2. reflexivity.
    + right. specialize (HM eq_refl).
      assert (FPI : finiteF Num.PI) by exact I. pose proof FV_PI as EPI.
      destruct (within_FV _ _ _ (finiteF_opp _ FPI) FPI HM) as [Fa Ba].
      rewrite FV_opp in Ba.
      destruct (toRad_longitude lon H1 H2) as [Fl Bl].
      destruct FV_literals as (_ & E8 & _).
      destruct (yields_bounded _ _ 8 (add_yields _ _ Fl Fa) I) as [F2 B2].
      { rewrite E8. eapply Rle_trans; [apply Rabs_triang|].
        assert (Rabs (FV a) <= 4) by (apply Rabs_le; lra). lra. }
      rewrite E8 in B2.
      destruct (longitude_range _ F2 B2) as [F B].
      pose proof (finiteF_not_nan _ F) as N.
      split.
      * apply leb_FV; [vm_compute; discriminate | exact N | rewrite FV_m180; lra].
      * apply ltb_FV; [exact N | vm_compute; discriminate | rewrite FV_180; lra].
Qed.

Lemma range_weaken l :
  is_nan l = true \/ (-180 <=? l)%float = true /\ (l <? 180)%float = true ->
  is_nan l = true \/ within (-180) 180 l.
Proof.
  intros [H|[H1 H2]]; [now left|right]. split; [exact H1|].
  destruct (ltb_not_nan _ _ H2) as [N1 N2].
  apply (ltb_FV _ _ N1 N2) in H2. apply (leb_FV _ _ N1 N2). lra.
Qed.

(** X8.  The arrow over the home point: from a home longitude in [[-180, 180]]
    the tip and the ends of both barbs have a longitude that is NaN or in
    [[-180, 180)], the barbs being laid out from the tip. *)
Theorem arrow_longitudes M home res speed :
  (forall y x, is_nan (atan2 M y x) = false -> within (- Num.PI) Num.PI (atan2 M y x)) ->
  within (-180) 180 (snd home) ->
  let a := App.arrowLine M home res speed in
  Forall (fun p : float * float =>
            is_nan (snd p) = true
            \/ (-180 <=? snd p)%float = true /\ (snd p <? 180)%float = true)
         [App.arrow_end a; App.arrow_left a; App.arrow_right a].
Proof.
  intros HM Hh a. unfold a, App.arrowLine. destruct home as [lat lon].
  cbn [snd] in Hh. cbn [App.arrow_end App.arrow_left App.arrow_right].
  pose proof (dest_longitude_range M lat lon (App.headingDeg res) (App.shaftLength speed)
                HM (or_intror Hh)) as T.
  cbv zeta in T. apply range_weaken in T as T'.
  apply Forall_cons; [exact T|].
  apply Forall_cons; [exact (dest_longitude_range M _ _ _ _ HM T')|].
  apply Forall_cons; [exact (dest_longitude_range M _ _ _ _ HM T')|].
  apply Forall_nil.
Qed.

Lemma arrow_longitudes_example :
  let a := App.arrowLine RefMath.lib (45, -75)%float
             {| App.headingDeg := 90; App.compass := VString (str "E") |} (str "20") in
  Forall (fun p : float * float =>
            is_nan (snd p) = true
            \/ (-180 <=? snd p)%float = true /\ (snd p <? 180)%float = true)
         [App.arrow_end a; App.arrow_left a; App.arrow_right a].
Proof.
  apply (arrow_longitudes RefMath.lib (45, -75)%float
           {| App.headingDeg := 90; App.compass := VString (str "E") |} (str "20")).
  - exact (proj2 (proj2 (proj2 reference_math_ok))).
  - split; reflexivity.
Defined.

End Arrow.

(** ** The columns of a file *)

Section Columns.

Lemma findIndex_spec {A} (p : A -> bool) l :
  0 <= findIndex p l ->
  exists x, nth_error l (Z.to_nat (findIndex p l)) = Some x /\ p x = true.
Proof.
  induction l as [|a l IH]; cbn [findIndex]; [lia|].
  destruct (p a) eqn:Pa; [intros _; exists a; now split|].
  destruct (Z.ltb_spec (findIndex p l) 0) as [L|L]; [lia|]. intros _.
  destruct (IH L) as (x & Hx & Px). exists x. split; [|exact Px].
  replace (Z.to_nat (findIndex p l + 1)) with (S (Z.to_nat (findIndex p l))) by lia.
  exact Hx.
Qed.

(** What [findOne] returns is a trimmed header cell whose key is an alias. *)
Lemma findOne_spec h aliases x :
  App.findOne h (map App.header_key h) aliases = VString x ->
  In x h /\ mem (App.header_key x) aliases = true.
Proof.
  unfold App.findOne.
  set (i := findIndex _ _).
  destruct (Z.leb_spec 0 i) as [L|L]; [|discriminate].
  destruct (findIndex_spec _ _ L) as (k & Hk & Pk). fold i in Hk.
  unfold element. rewrite nth_error_map in Hk.
  destruct (nth_error h (Z.to_nat i)) as [y|] eqn:E; [|discriminate].
  cbn in Hk. intros H. assert (y = x) by congruence. subst y.
  split; [now apply nth_error_In in E|congruence].
Qed.

Lemma findIndex_first {A} (p : A -> bool) l : forall i k,
  nth_error l i = Some k -> p k = true -> existsb p (firstn i l) = false ->
  findIndex p l = Z.of_nat i.
Proof.
  induction l as [|a l IH]; intros i k H P N; [now destruct i|].
  destruct i as [|i]; cbn [nth_error firstn existsb findIndex] in *.
  - injection H as ->. now rewrite P.
  - apply orb_false_iff in N as [Na N]. rewrite Na, (IH i k H P N).
    destruct (Z.ltb_spec (Z.of_nat i) 0); lia.
Qed.

Lemma existsb_map {A B} (f : A -> B) (p : B -> bool) l :
  existsb p (map f l) = existsb (fun x => p (f x)) l.
Proof. induction l as [|a l IH]; [reflexivity|]. cbn [map existsb]. now rewrite IH. Qed.

Lemma findOne_first h aliases i x :
  nth_error h i = Some x -> mem (App.header_key x) aliases = true ->
  existsb (fun y => mem (App.header_key y) aliases) (firstn i h) = false ->
  App.findOne h (map App.header_key h) aliases = VString x.
Proof.
  intros H P N. unfold App.findOne.
  rewrite (findIndex_first _ (map App.header_key h) i (App.header_key x)).
  - destruct (Z.leb_spec 0 (Z.of_nat i)); [|lia].
    unfold element. now rewrite Nat2Z.id, H.
  - now rewrite nth_error_map, H.
  - exact P.
  - rewrite firstn_map, existsb_map. exact N.
Qed.

Lemma findOne_none h aliases :
  existsb (fun y => mem (App.header_key y) aliases) h = false ->
  App.findOne h (map App.header_key h) aliases = VNull.
Proof.
  intros N. unfold App.findOne.
  destruct (Z.leb_spec 0 (findIndex (fun k => mem k aliases) (map App.header_key h)))
    as [L|L]; [|reflexivity].
  destruct (findIndex_spec _ _ L) as (k & Hk & Pk).
  apply nth_error_In, in_map_iff in Hk as (y & <- & Hy).
  assert (existsb (fun y => mem (App.header_key y) aliases) h = true)
    by (apply existsb_exists; now exists y).
  congruence.
Qed.

(** X9.  [detectColumns] takes, for the region, the area and the year alike, the
    leftmost header cell whose key (trimmed, lower-cased, without white
    space and underscores) is one of the aliases, whatever the place of the
    alias in its list, and returns the cell trimmed; without such a cell
    the column is [null]. *)
Theorem leftmost_column_detected header :
  let cols := App.detectColumns header in
  let named aliases y := mem (App.header_key (trim y)) aliases in
  Forall (fun '(aliases, col) =>
            (forall i x,
               nth_error header i = Some x -> named aliases x = true ->
               existsb (named aliases) (firstn i header) = false ->
               col = VString (trim x))
            /\ (existsb (named aliases) header = false -> col = VNull))
         [ (App.region_aliases, App.regionCol cols);
           (App.area_aliases, App.areaCol cols);
           (App.year_aliases, App.yearCol cols) ].
Proof.
  cbv zeta.
  assert (G : forall aliases,
            (forall i x,
               nth_error header i = Some x ->
               mem (App.header_key (trim x)) aliases = true ->
               existsb (fun y => mem (App.header_key (trim y)) aliases) (firstn i header)
               = false ->
               App.findOne (map trim header) (map App.header_key (map trim header)) aliases
               = VString (trim x))
            /\ (existsb (fun y => mem (App.header_key (trim y)) aliases) header = false ->
                App.findOne (map trim header) (map App.header_key (map trim header)) aliases
                = VNull)).
  { intros aliases. split.
    - intros i x H P N. apply (findOne_first _ _ i).
      + now rewrite nth_error_map, H.
      + exact P.
      + rewrite firstn_map, existsb_map. exact N.
    - intros N. apply findOne_none. rewrite existsb_map. exact N. }
  unfold App.detectColumns. cbn [App.regionCol App.areaCol App.yearCol].
  repeat (apply Forall_cons; [apply G|]). apply Forall_nil.
Qed.

(** No alias is the key of an inherited property name. *)
Lemma alias_not_inherited x :
  mem (App.header_key x) (App.year_aliases ++ App.region_aliases ++ App.area_aliases) = true ->
  inherited x = false.
Proof.
  intros H. destruct (inherited x) eqn:I; [|reflexivity]. exfalso.
  unfold inherited, Object_prototype in I. cbn [own] in I.
  repeat (destruct (eqb x _) eqn:E;
          [apply eqb_eq in E; subst x; vm_compute in H; discriminate H|clear E]).
  discriminate.
Qed.

Lemma mem_app x l l' : mem x (l ++ l') = mem x l || mem x l'.
Proof. unfold mem. apply existsb_app. Qed.

Lemma detected_plain header x :
  (App.regionCol (App.detectColumns header) = VString x
   \/ App.areaCol (App.detectColumns header) = VString x
   \/ App.yearCol (App.detectColumns header) = VString x) ->
  inherited x = false /\ eqb x (str "__proto__") = false.
Proof.
  intros H.
  assert (I : inherited x = false).
  { apply alias_not_inherited. rewrite !mem_app.
    unfold App.detectColumns in H. cbn [App.regionCol App.areaCol App.yearCol] in H.
    destruct H as [H|[H|H]]; apply findOne_spec in H as [_ H]; rewrite H;
      now rewrite ?orb_true_r. }
  split; [exact I|]. destruct (eqb x (str "__proto__")) eqn:E; [|reflexivity].
  apply eqb_eq in E. subst x. discriminate I.
Qed.

Lemma own_set_ne (o : object value) k k' v :
  eqb k k' = false -> own k (set o k' v) = own k o.
Proof.
  intros N. unfold set. destruct (eqb k' _); [reflexivity|]. now apply own_put_ne.
Qed.

Lemma own_fill_notin header : forall obj cells k,
  mem k header = false -> own k (App.fill obj header cells) = own k obj.
Proof.
  induction header as [|key hs IH]; intros obj cells k N; cbn [App.fill]; [reflexivity|].
  unfold mem in N. cbn [existsb] in N. apply orb_false_iff in N as [N1 N2].
  rewrite IH by exact N2. now apply own_set_ne.
Qed.

(** The property a header cell leaves in the object of a line: the cell of
    the line at the last index that carries this header. *)
Lemma own_fill_at header : forall obj cells i k,
  nth_error header i = Some k -> mem k (skipn (S i) header) = false ->
  eqb k (str "__proto__") = false ->
  own k (App.fill obj header cells)
  = Some (match nth_error cells i with Some c => VString c | None => VUndefined end).
Proof.
  induction header as [|key hs IH]; intros obj cells i k H N P; [now destruct i|].
  destruct i as [|i]; cbn [nth_error skipn] in H, N; cbn [App.fill].
  - injection H as ->. rewrite own_fill_notin by exact N.
    unfold set. rewrite P, own_put_eq. now destruct cells.
  - rewrite (IH _ (tl cells) i k H N P). f_equal.
    destruct cells as [|c cells]; [now destruct i|reflexivity].
Qed.

Lemma get_fill_at header cells i k c :
  nth_error header i = Some k -> mem k (skipn (S i) header) = false ->
  eqb k (str "__proto__") = false -> nth_error cells i = Some c ->
  get (App.fill [] header cells) k = VString c.
Proof.
  intros H N P C. unfold get. now rewrite (own_fill_at header [] cells i k H N P), C.
Qed.

Lemma get_fill_notin header cells k :
  mem k header = false -> inherited k = false ->
  get (App.fill [] header cells) k = VUndefined.
Proof.
  intros N I. unfold get. rewrite own_fill_notin by exact N. cbn [own].
  unfold inherited in I. now destruct (own k Object_prototype).
Qed.

(** X10.  A line is read through the detected header names: when the name
    detected for the region, the area or the year is itself a header cell,
    not repeated further right, the raw value is the cell of the line in the
    column of that header. *)
Theorem detected_cells_read header line i x c :
  nth_error header i = Some x -> mem x (skipn (S i) header) = false ->
  nth_error (split 0x2C%N line) i = Some c ->
  let cols := App.detectColumns header in
  let raw := App.raw_cells (App.fill [] header (split 0x2C%N line)) cols in
  (App.regionCol cols = VString x -> fst (fst raw) = VString c)
  /\ (App.areaCol cols = VString x -> snd (fst raw) = VString c)
  /\ (App.yearCol cols = VString x -> snd raw = VString c).
Proof.
  intros H N C cols raw. unfold raw, App.raw_cells. cbn [fst snd].
  repeat split; intros D; rewrite D; cbn [ToString];
    (assert (P : eqb x (str "__proto__") = false)
       by (apply (detected_plain header x); tauto));
    rewrite (get_fill_at header _ i x c H N P C); reflexivity.
Qed.

Lemma detected_cells_read_example :
  let header := map str ["Province"; "Area_ha"; "Year"]%string in
  let line := str "Alberta,100,2020" in
  let cols := App.detectColumns header in
  let raw := App.raw_cells (App.fill [] header (split 0x2C%N line)) cols in
  (App.regionCol cols = VString (str "Area_ha") -> fst (fst raw) = VString (str "100"))
  /\ (App.areaCol cols = VString (str "Area_ha") -> snd (fst raw) = VString (str "100"))
  /\ (App.yearCol cols = VString (str "Area_ha") -> snd raw = VString (str "100")).
Proof.
  apply (detected_cells_read (map str ["Province"; "Area_ha"; "Year"]%string)
           (str "Alberta,100,2020") 1%nat (str "Area_ha") (str "100")); reflexivity.
Defined.

Lemma fallbacks_missing header cells (names : list string) :
  existsb (fun k => mem (str k) header) names = false ->
  forall k, In k names -> inherited (str k) = false ->
  get (App.fill [] header cells) (str k) = VUndefined.
Proof.
  intros E k Hk I. apply get_fill_notin; [|exact I].
  destruct (mem (str k) header) eqn:M; [|reflexivity].
  assert (existsb (fun k => mem (str k) header) names = true)
    by (apply existsb_exists; now exists k).
  congruence.
Qed.

Ltac missing F k :=
  rewrite (fallbacks_missing _ _ _ F k)
    by (first [reflexivity | cbn [In]; repeat (first [left; reflexivity | right])]).

(** X11.  A detected header name that is no header cell as written, such as a
    header with a space around it, is not read: without one of the literal
    fallback headers the region of every line is the empty string and its
    area is read as 0. *)
Theorem unmatched_header_lost header line x :
  mem x header = false ->
  let cols := App.detectColumns header in
  (App.regionCol cols = VString x ->
   existsb (fun k => mem (str k) header)
           ["RegionCode"; "Province"; "Region"; "PRNAME"; "PRENAME"; "name"; "NAME"]%string
   = false ->
   exists a y, App.parse_line header cols line
               = Normal {| App.region := []; App.area_ha := a; App.year := y |})
  /\ (App.areaCol cols = VString x ->
      existsb (fun k => mem (str k) header) ["Area_ha"; "Area"; "BurnedArea"]%string = false ->
      forall r, App.parse_line header cols line = Normal r ->
                App.area_ha r = VNumber 0).
Proof.
  intros N cols. split; intros D F.
  - unfold App.parse_line, App.raw_cells. rewrite D. cbn [ToString].
    destruct (detected_plain header x (or_introl D)) as [I _].
    rewrite (get_fill_notin header _ x N I).
    missing F "RegionCode"%string.
    missing F "Province"%string.
    missing F "Region"%string.
    missing F "PRNAME"%string.
    missing F "PRENAME"%string.
    missing F "name"%string.
    missing F "NAME"%string.
    cbn [coalesce]. eexists. eexists. reflexivity.
  - intros r. unfold App.parse_line, App.raw_cells. rewrite D. cbn [ToString].
    destruct (detected_plain header x (or_intror (or_introl D))) as [I _].
    rewrite (get_fill_notin header _ x N I).
    missing F "Area_ha"%string.
    missing F "Area"%string.
    missing F "BurnedArea"%string.
    cbn [coalesce]. unfold App.parseCSV_row.
    destruct (App.parseCSV_region _); [|discriminate].
    intros H. injection H as <-. reflexivity.
Qed.

Lemma unmatched_header_lost_example :
  let header := split 0x2C%N (str "Province, Area_ha") in
  let cols := App.detectColumns header in
  let line := str "Alberta,100" in
  (App.regionCol cols = VString (str "Area_ha") ->
   existsb (fun k => mem (str k) header)
           ["RegionCode"; "Province"; "Region"; "PRNAME"; "PRENAME"; "name"; "NAME"]%string
   = false ->
   exists a y, App.parse_line header cols line
               = Normal {| App.region := []; App.area_ha := a; App.year := y |})
  /\ (App.areaCol cols = VString (str "Area_ha") ->
      existsb (fun k => mem (str k) header) ["Area_ha"; "Area"; "BurnedArea"]%string = false ->
      forall r, App.parse_line header cols line = Normal r ->
                App.area_ha r = VNumber 0).
Proof.
  apply (unmatched_header_lost (split 0x2C%N (str "Province, Area_ha")) (str "Alberta,100")
           (str "Area_ha")).
  reflexivity.
Defined.

End Columns.

(** ** Loading a file *)

Section Loading.

Lemma map_completion_throws {A B} (f : A -> completion B) l :
  (exists e, map_completion f l = Throw e) <-> exists x, In x l /\ exists e, f x = Throw e.
Proof.
  induction l as [|a l IH]; cbn [map_completion].
  - split; [intros [e H]; discriminate|intros (x & [] & _)].
  - destruct (f a) as [y|e] eqn:Fa.
    + destruct (map_completion f l) as [ys|e'].
      * split; [intros [e H]; discriminate|].
        intros (x & [<-|Hx] & e & He); [congruence|].
        destruct (proj2 IH) as [e' H']; [now exists x; split; [|exists e]|discriminate].
      * split; [intros _|intros _; now exists e'].
        destruct (proj1 IH) as (x & Hx & He); [now exists e'|].
        exists x. split; [now right|exact He].
    + split; [intros _|intros _; now exists e].
      exists a. split; [now left|now exists e].
Qed.

Lemma map_completion_normal {A B} (f : A -> completion B) l : forall ys,
  map_completion f l = Normal ys -> Forall2 (fun x y => f x = Normal y) l ys.
Proof.
  induction l as [|a l IH]; cbn [map_completion]; intros ys H.
  - injection H as <-. constructor.
  - destruct (f a) as [y|e] eqn:Fa; [|discriminate].
    destruct (map_completion f l) as [ys'|e']; [|discriminate].
    injection H as <-. constructor; [exact Fa|now apply IH].
Qed.

Lemma In_drop_while p s c : In c (drop_while p s) -> In c s.
Proof.
  induction s as [|a s IH]; cbn [drop_while]; [tauto|].
  destruct (p a); [intros H; right; now apply IH|tauto].
Qed.

Lemma In_trim s c : In c (trim s) -> In c s.
Proof.
  unfold trim. intros H. apply in_rev in H. apply In_drop_while in H.
  apply in_rev in H. now apply In_drop_while in H.
Qed.

(** A normalised name has no capital letter of the basic alphabet. *)
Lemma normName_no_upper v : existsb (in_range 0x41%N 0x5A%N) (App.normName v) = false.
Proof.
  destruct (existsb _ _) eqn:E; [|reflexivity].
  apply existsb_exists in E as (c & Hc & U). unfold App.normName in Hc.
  apply In_trim in Hc.
  pose proof (toLowerCase_no_upper
                (Unicode.stripDiacritics
                   (Unicode.normalizeNFD (ToString (coalesce v (VString [])))))) as T.
  assert (T' : existsb (in_range 0x41%N 0x5A%N)
                 (Unicode.toLowerCase
                    (Unicode.stripDiacritics
                       (Unicode.normalizeNFD (ToString (coalesce v (VString []))))))
               = true) by (apply existsb_exists; now exists c).
  congruence.
Qed.

Lemma inherited_lower_names k v :
  own k Object_prototype = Some v -> existsb (in_range 0x41%N 0x5A%N) k = false ->
  (k = str "constructor" \/ k = str "__proto__") /\ exists t, v = VObject t.
Proof.
  unfold Object_prototype, native. cbn [own]. intros H U.
  repeat (destruct (eqb k _) eqn:E;
          [apply eqb_eq in E; subst k;
           first [discriminate U
                 | injection H as <-; split; [tauto|eexists; reflexivity]]
          |clear E]).
  discriminate.
Qed.

Lemma table_codes k v : own k App.NAME_TO_CODE = Some v -> exists a c, v = VString (a :: c).
Proof.
  unfold App.NAME_TO_CODE. cbn [own]. intros H.
  repeat (destruct (eqb k _); [injection H as <-; eexists; eexists; reflexivity|]).
  discriminate.
Qed.

(** When the region of a row throws: the trimmed cell is longer than two
    code units and normalises to [constructor] or [__proto__], which the
    name table inherits. *)
Lemma region_throws raw :
  (exists e, App.parseCSV_region raw = Throw e)
  <-> let region := trim (ToString (or raw (VString []))) in
      (2 < List.length region)%nat
      /\ (App.normName (VString region) = str "constructor"
          \/ App.normName (VString region) = str "__proto__").
Proof.
  cbv zeta. unfold App.parseCSV_region.
  set (region := trim (ToString (or raw (VString [])))).
  pose proof (normName_no_upper (VString region)) as U.
  set (k := App.normName (VString region)) in *. clearbody k.
  destruct (Z.ltb_spec 2 (Z.of_nat (List.length region))) as [L|L].
  - unfold get. destruct (own k App.NAME_TO_CODE) as [v|] eqn:O.
    + destruct (table_codes k v O) as (a & c & ->). cbn [ToBoolean].
      split; [intros [e H]; discriminate|].
      intros [_ [-> | ->]]; vm_compute in O; discriminate.
    + destruct (own k Object_prototype) as [v|] eqn:P.
      * destruct (inherited_lower_names k v P U) as [K [t ->]]. cbn [ToBoolean].
        split; [intros _; split; [lia|exact K]|intros _; eexists; reflexivity].
      * cbn [ToBoolean]. split; [intros [e H]; discriminate|].
        intros [_ [-> | ->]]; vm_compute in P; discriminate.
  - split; [intros [e H]; discriminate|]. intros [H _]. lia.
Qed.

Lemma parse_line_region header cols line :
  (exists e, App.parse_line header cols line = Throw e)
  <-> exists e, App.parseCSV_region
                  (fst (fst (App.raw_cells (App.fill [] header (split 0x2C%N line)) cols)))
                = Throw e.
Proof.
  unfold App.parse_line.
  destruct (App.raw_cells _ _) as [[r a] y]. cbn [fst]. unfold App.parseCSV_row.
  destruct (App.parseCSV_region r) as [k|e].
  - split; intros [e H]; discriminate.
  - split; intros _; now exists e.
Qed.

(** X12.  [parseCSV] throws exactly when the region cell of some data line, as it
    is looked up, is longer than two code units after trimming and
    normalises to [constructor] or [__proto__]; a text without data lines
    gives no rows. *)
Theorem parseCSV_throws text :
  ((exists e, App.parseCSV text = Throw e)
   <-> exists line, In line (tl (App.lines_of text))
       /\ let header := split 0x2C%N (hd [] (App.lines_of text)) in
          let raw := fst (fst (App.raw_cells (App.fill [] header (split 0x2C%N line))
                                             (App.detectColumns header))) in
          let region := trim (ToString (or raw (VString []))) in
          (2 < List.length region)%nat
          /\ (App.normName (VString region) = str "constructor"
              \/ App.normName (VString region) = str "__proto__"))
  /\ (tl (App.lines_of text) = [] -> App.parseCSV text = Normal []).
Proof.
  unfold App.parseCSV. destruct (App.lines_of text) as [|first rest]; cbn [hd tl].
  - split; [|reflexivity]. split; [intros [e H]; discriminate|intros (l & [] & _)].
  - split; [|intros ->; reflexivity].
    rewrite map_completion_throws. split.
    + intros (l & Hl & He). exists l. split; [exact Hl|].
      apply parse_line_region in He. now apply region_throws in He.
    + intros (l & Hl & Hb). exists l. split; [exact Hl|].
      apply parse_line_region. now apply region_throws.
Qed.

Lemma region_not_inherited raw k :
  App.parseCSV_region raw = Normal k -> inherited k = false.
Proof.
  intros H.
  assert (U : exists r, k = Unicode.toUpperCase r).
  { unfold App.parseCSV_region in H.
    destruct (if (2 <? Z.of_nat (List.length (trim (ToString (or raw (VString []))))))%Z
              then _ else _) as [| |r| |]; try discriminate.
    injection H as <-. now exists r. }
  destruct U as [r ->].
  destruct (inherited _) eqn:E; [|reflexivity].
  apply inherited_has_lower in E. now rewrite toUpperCase_no_lower in E.
Qed.

Lemma parsed_rows_plain text rows :
  App.parseCSV text = Normal rows ->
  Forall (fun r => inherited (App.region r) = false) rows.
Proof.
  unfold App.parseCSV. destruct (App.lines_of text) as [|first rest].
  - intros H. injection H as <-. constructor.
  - intros H. apply map_completion_normal in H.
    induction H as [|l r ls rs H _ IH]; constructor; [|exact IH].
    unfold App.parse_line in H. destruct (App.raw_cells _ _) as [[a b] c].
    unfold App.parseCSV_row in H.
    destruct (App.parseCSV_region a) as [k|e] eqn:R; [|discriminate].
    injection H as <-. cbn [App.region]. exact (region_not_inherited a k R).
Qed.

Lemma own_code k :
  mem k codes = true -> exists lat lon, own k App.CENTROIDS = Some (lat, lon).
Proof.
  unfold codes, mem, App.CENTROIDS. cbn [map fst existsb own]. intros H.
  repeat (destruct (eqb k _); [eexists; eexists; reflexivity|]).
  discriminate.
Qed.

Lemma features_of_codes (f : jsstring -> float) ks :
  Forall (fun k => mem k codes = true) ks ->
  exists fs,
    App.totalsToGeoJSON (map (fun k => (k, VNumber (f k))) ks) = Normal fs
    /\ map App.province fs = ks
    /\ Forall (fun ft =>
                 own (App.province ft) App.CENTROIDS
                 = Some (snd (App.coordinates ft), fst (App.coordinates ft))
                 /\ App.total_burned_ha ft = Num.round (f (App.province ft))) fs.
Proof.
  unfold App.totalsToGeoJSON.
  induction 1 as [|k ks Hk _ (fs & E & P & Q)]; cbn [map map_completion].
  - exists []. repeat split. constructor.
  - destruct (own_code k Hk) as (lat & lon & O).
    unfold App.feature_of at 1. rewrite O, E.
    eexists. split; [reflexivity|]. cbn [map App.province]. split; [now rewrite P|].
    constructor; [|exact Q]. cbn [App.province App.coordinates App.total_burned_ha fst snd ToNumber].
    now split.
Qed.

(** The totals of the features built from parsed rows. *)
Lemma parsed_totals text rows fs :
  App.parseCSV text = Normal rows ->
  App.totalsToGeoJSON (App.aggregateByProvince rows) = Normal fs ->
  Forall (fun ft => App.total_burned_ha ft
                    = Num.round (float_sum (areas_of (App.province ft) rows))) fs.
Proof.
  intros H. rewrite (aggregate_object rows (parsed_rows_plain text rows H)).
  unfold totals_spec. intros E.
  destruct (features_of_codes (fun k => float_sum (areas_of k rows)) (regions_of rows))
    as (fs' & E' & _ & Q).
  { apply Forall_forall. intros k Hk. unfold regions_of in Hk.
    now apply regions_fold_codes in Hk as [[]|Hk]. }
  assert (fs' = fs) by congruence. subst fs'.
  eapply Forall_impl; [|exact Q]. intros ft [_ T]. exact T.
Qed.

(** X13.  Loading a file: whenever [parseCSV] returns, the aggregation of its
    rows and [totalsToGeoJSON] do not throw, and the collection has one
    feature per region with an included row, in order of first occurrence
    and at most thirteen in all, placed at the centroid of the region,
    longitude first, with the rounded total of the region. *)
Theorem loaded_features text rows :
  App.parseCSV text = Normal rows ->
  exists fs,
    App.totalsToGeoJSON (App.aggregateByProvince rows) = Normal fs
    /\ map App.province fs = regions_of rows
    /\ NoDup (regions_of rows)
    /\ (List.length fs <= 13)%nat
    /\ Forall (fun ft =>
                 own (App.province ft) App.CENTROIDS
                 = Some (snd (App.coordinates ft), fst (App.coordinates ft))
                 /\ App.total_burned_ha ft
                    = Num.round (float_sum (areas_of (App.province ft) rows))) fs.
Proof.
  intros H. rewrite (aggregate_object rows (parsed_rows_plain text rows H)).
  assert (C : Forall (fun k => mem k codes = true) (regions_of rows)).
  { apply Forall_forall. intros k Hk. unfold regions_of in Hk.
    now apply regions_fold_codes in Hk as [[]|Hk]. }
  assert (N : NoDup (regions_of rows)) by (apply regions_fold_NoDup; constructor).
  unfold totals_spec.
  destruct (features_of_codes (fun k => float_sum (areas_of k rows)) _ C) as (fs & E & P & Q).
  exists fs. repeat split; try assumption.
  rewrite <- (length_map App.province), P.
  change 13%nat with (List.length codes). apply NoDup_incl_length; [exact N|].
  intros k Hk. apply mem_In. rewrite Forall_forall in C. now apply C.
Qed.

Lemma loaded_features_example :
  let rows := [record "Alberta" "100"; record "AB" "50"; record "Quebec" "7"] in
  exists fs,
    App.totalsToGeoJSON (App.aggregateByProvince rows) = Normal fs
    /\ map App.province fs = regions_of rows
    /\ NoDup (regions_of rows)
    /\ (List.length fs <= 13)%nat
    /\ Forall (fun ft =>
                 own (App.province ft) App.CENTROIDS
                 = Some (snd (App.coordinates ft), fst (App.coordinates ft))
                 /\ App.total_burned_ha ft
                    = Num.round (float_sum (areas_of (App.province ft) rows))) fs.
Proof.
  apply (loaded_features (str "Province,Area_ha
Alberta,100
AB,50
Quebec,7")).
  vm_compute. reflexivity.
Defined.

End Loading.

(** ** From the file to the markers *)

Section LoadedMarkers.

Import Round.
Local Open Scope R_scope.

(** [Math.round] of a Number that is at least zero is at least zero. *)
Lemma round_nonneg x : (0 <=? x)%float = true -> (0 <=? Num.round x)%float = true.
Proof.
  intros H. destruct (leb_not_nan _ _ H) as [N0 Nx].
  pose proof (proj1 (leb_FV _ _ N0 Nx) H) as P. rewrite FV_0 in P.
  unfold Num.round. unfold FV in P.
  destruct (Prim2SF x) as [s|s| |s m e] eqn:E; try exact H.
  destruct (0 <=? e)%Z; [exact H|].
  assert (s = false) as ->.
  { destruct s; [|reflexivity]. cbn [SFval sgn] in P.
    pose proof (bpow_gt_0 e). assert (0 < IZR (Zpos m)) by (apply IZR_lt; lia). nra. }
  set (n := Z.shiftr _ _).
  destruct (Z.eqb_spec n 0) as [Z|Z]; [reflexivity|].
  assert (Pn : (0 <= n)%Z).
  { unfold n. apply Z.shiftr_nonneg.
    assert (0 <= 2 ^ (- e))%Z by (apply Z.pow_nonneg; lia). lia. }
  pose proof (of_Z_yields n) as Y.
  apply leb_FV; [exact N0|exact (yields_not_nan _ _ Y)|].
  apply (yields_mono _ _ _ _ (yields_self 0 I) Y). rewrite FV_0. apply IZR_le. exact Pn.
Qed.

Lemma marker_radius_range fs f :
  In f fs -> (0 <=? App.total_burned_ha f)%float = true ->
  within 6 22 (App.markerRadius fs f).
Proof.
  intros H Pf. destruct (maxTotal_spec fs) as (Nm & Pm & Bm).
  assert (N0 : Prim2SF 0 <> S754_nan) by (vm_compute; discriminate).
  unfold App.markerRadius.
  destruct (Rle_lt_or_eq_dec _ _ Pm) as [P|Z].
  - apply radius_range; [|exact Pf].
    apply ltb_FV; [exact N0|exact Nm|rewrite FV_0; exact P].
  - unfold App.radiusFor. rewrite (falsy_zero _ Nm (eq_sym Z)). cbn [negb orb].
    split; vm_compute; reflexivity.
Qed.

(** X14.  From the file to the map: when [parseCSV] returns and no area that
    parses to a finite Number is negative, every marker of the collection
    built from the totals has a radius between 6 and 22. *)
Theorem loaded_marker_radii text rows fs f :
  App.parseCSV text = Normal rows ->
  (forall r, In r rows -> Num.isFinite (App.toNum (App.area_ha r)) = true ->
             (0 <=? App.toNum (App.area_ha r))%float = true) ->
  App.totalsToGeoJSON (App.aggregateByProvince rows) = Normal fs ->
  In f fs ->
  within 6 22 (App.markerRadius fs f).
Proof.
  intros Hp Hpos Hf Hin.
  pose proof (parsed_totals text rows fs Hp Hf) as Q.
  rewrite Forall_forall in Q. pose proof (Q f Hin) as T.
  apply marker_radius_range; [exact Hin|]. rewrite T.
  apply round_nonneg, float_sum_nonneg, Forall_forall.
  intros x Hx. unfold areas_of in Hx.
  apply in_map_iff in Hx as (r & <- & Hr). apply filter_In in Hr as [Hr Hi].
  apply andb_true_iff in Hi as [_ Hi]. unfold included in Hi.
  apply andb_true_iff in Hi as [_ Hi]. now apply Hpos.
Qed.

Lemma loaded_marker_radii_example :
  let quebec := {| App.coordinates := (-73.5491, 52.9399)%float;
                   App.province := str "QC"; App.total_burned_ha := 7 |} in
  within 6 22
    (App.markerRadius
       [ {| App.coordinates := (-116.5765, 53.9333)%float;
            App.province := str "AB"; App.total_burned_ha := 150 |};
         quebec ]
       quebec).
Proof.
  apply (loaded_marker_radii
           (str "Province,Area_ha
Alberta,100
AB,50
Quebec,7")
           [record "Alberta" "100"; record "AB" "50"; record "Quebec" "7"]).
  - vm_compute. reflexivity.
  - intros r [<-|[<-|[<-|[]]]] _; reflexivity.
  - vm_compute. reflexivity.
  - right. left. reflexivity.
Defined.

End LoadedMarkers.

(** ** The wind panel *)

Section WindPanel.

Import Round.
Local Open Scope R_scope.

Lemma heading_to_finite_any dir :
  finiteF dir -> is_finite (App.toRad (App.mod360 (dir + 180))) = true.
Proof.
  intros F. destruct (mod360_spec _ (turn_finite dir F)) as [F2 B2].
  apply is_finite_spec, toRad_finite; [exact F2|]. apply Rabs_le. lra.
Qed.

(** The wind vector of a wind of any finite speed. *)
Lemma wind_component_any speed waf c :
  finiteF speed -> finiteF waf -> 0 < FV waf < 1 -> within (-1) 1 c ->
  finiteF (waf * (speed / 3.6) * c)%float
  /\ Rabs (FV (waf * (speed / 3.6) * c)%float) <= 4 * bpow 1021.
Proof.
  intros Fs Fw Bw W.
  pose proof FV_3_6 as E36. pose proof (bpow_gt_0 1021) as P21.
  assert (F36 : finiteF 3.6) by exact I. assert (Fb : finiteF 0x1p1023) by exact I.
  pose proof (finiteF_bounds speed Fs) as Bs. rewrite bpow_1024_1021 in Bs.
  pose proof (div_yields speed 3.6 Fs F36 ltac:(lra)) as Y.
  assert (Q : Rabs (FV speed / FV 3.6) <= 4 * bpow 1021).
  { assert (0 < / FV 3.6 < / 2) as [? ?].
    { split; [apply Rinv_0_lt_compat; lra | apply Rinv_lt_contravar; lra]. }
    unfold Rdiv. rewrite Rabs_mult, (Rabs_pos_eq (/ FV 3.6)) by lra.
    assert (Rabs (FV speed) <= 8 * bpow 1021) by (apply Rabs_le; lra).
    pose proof (Rabs_pos (FV speed)). nra. }
  destruct (yields_bounded _ _ 0x1p1023 Y Fb) as [F1 B1].
  { rewrite FV_2p1023. exact Q. }
  rewrite FV_2p1023 in B1.
  pose proof (mul_yields waf _ Fw F1) as Y2.
  destruct (yields_bounded _ _ 0x1p1023 Y2 Fb) as [F2 B2].
  { rewrite FV_2p1023, Rabs_mult, (Rabs_pos_eq (FV waf)) by lra.
    pose proof (Rabs_pos (FV (speed / 3.6)%float)). nra. }
  rewrite <- FV_2p1023. apply mul_unit; assumption.
Qed.

Lemma FV_720m : FV (-720) = -720.
Proof. fv_literal (-720)%float. lra. Qed.

Lemma spread_finite_any M speed dir env slopePct slopeDirTo :
  math_ok M -> inherited env = false ->
  is_finite speed = true -> is_finite dir = true ->
  (is_finite slopePct = true -> is_finite slopeDirTo = true ->
   within (-720) 720 slopeDirTo) ->
  finiteF (fst (App.spreadVector M speed dir env slopePct slopeDirTo))
  /\ finiteF (snd (App.spreadVector M speed dir env slopePct slopeDirTo)).
Proof.
  intros (Mc & Ms & _) Hi Fs Fd Hslope.
  apply is_finite_spec in Fs, Fd.
  pose proof (heading_to_finite_any dir Fd) as Fh.
  destruct (waf_bounds env Hi) as [Fw Bw].
  pose proof (wind_component_any speed _ _ Fs Fw Bw (Mc _ Fh)) as [Fu Bu].
  pose proof (wind_component_any speed _ _ Fs Fw Bw (Ms _ Fh)) as [Fv Bv].
  unfold App.spreadVector, Num.isFinite.
  destruct (is_finite slopePct) eqn:F1; [destruct (is_finite slopeDirTo) eqn:F2|];
    cbn [andb fst snd]; try (split; assumption).
  destruct (within_FV (-720) 720 slopeDirTo I I (Hslope eq_refl eq_refl)) as [Fsd Bsd].
  rewrite FV_720m, FV_720 in Bsd.
  assert (Fr : is_finite (App.toRad slopeDirTo) = true).
  { apply is_finite_spec, toRad_finite; [exact Fsd|]. apply Rabs_le. lra. }
  apply is_finite_spec in F1.
  pose proof (bpow_gt_0 1021) as P21.
  pose proof (push_component slopePct _ F1 (Mc _ Fr)) as [Fpu Bpu].
  pose proof (push_component slopePct _ F1 (Ms _ Fr)) as [Fpv Bpv].
  assert (Fb : finiteF 0x1.4p1023) by exact I.
  split.
  - apply (yields_bounded _ _ 0x1.4p1023 (add_yields _ _ Fu Fpu) Fb).
    rewrite FV_5p1021. eapply Rle_trans; [apply Rabs_triang|]. lra.
  - apply (yields_bounded _ _ 0x1.4p1023 (add_yields _ _ Fv Fpv) Fb).
    rewrite FV_5p1021. eapply Rle_trans; [apply Rabs_triang|]. lra.
Qed.

(** X15.  The wind panel: with both the speed and the direction box filled by
    texts that read as finite Numbers (a text that is no Number counts as
    0), whatever their sign and size, the panel shows a heading that is a
    Number of [[0, 360)] and one of the sixteen compass labels.  The slope
    boxes may be empty; when both hold finite Numbers the slope direction is
    taken between -720 and 720. *)
Theorem wind_panel M w :
  math_ok M -> inherited (App.env w) = false ->
  eqb (App.speed w) [] = false -> eqb (App.dirFrom w) [] = false ->
  is_finite (App.number_or_zero (App.speed w)) = true ->
  is_finite (App.number_or_zero (App.dirFrom w)) = true ->
  (is_finite (App.slopeVal (App.slopePct w)) = true ->
   is_finite (App.slopeVal (App.slopeDirTo w)) = true ->
   within (-720) 720 (App.slopeVal (App.slopeDirTo w))) ->
  exists h,
    App.windResult M w = Some h
    /\ (0 <=? App.headingDeg h)%float = true
    /\ (App.headingDeg h <? 360)%float = true
    /\ exists l, App.compass h = VString l /\ In l App.dirs.
Proof.
  intros HM Hi Es Ed Fs Fd Hslope.
  unfold App.windResult. rewrite Es, Ed. cbn [negb andb].
  eexists. split; [reflexivity|].
  destruct (spread_finite_any M _ _ (App.env w) _ _ HM Hi Fs Fd Hslope) as [Fu Fv].
  unfold App.predictHeading.
  destruct (App.spreadVector M _ _ _ _ _) as [u v].
  cbn [fst snd] in Fu, Fv. cbn [App.headingDeg App.compass].
  destruct HM as (_ & _ & Ma & Mr).
  assert (Na : is_nan (atan2 M v u) = false).
  { apply Ma; apply not_nan_spec, finiteF_not_nan; assumption. }
  pose proof (toDeg_finite _ (Mr _ _ Na)) as Fdg.
  destruct (mod360_spec _ Fdg) as [Fh Bh].
  pose proof (finiteF_not_nan _ Fh) as Nh.
  split; [|split].
  - apply leb_FV; [vm_compute; discriminate | exact Nh | rewrite FV_0; lra].
  - apply ltb_FV; [exact Nh | vm_compute; discriminate | rewrite FV_360; lra].
  - now apply compass_label.
Qed.

Lemma wind_panel_example :
  let w := {| App.speed := str "-20"; App.dirFrom := str "810"; App.env := str "shrub";
              App.slopePct := []; App.slopeDirTo := [] |} in
  exists h,
    App.windResult RefMath.lib w = Some h
    /\ (0 <=? App.headingDeg h)%float = true
    /\ (App.headingDeg h <? 360)%float = true
    /\ exists l, App.compass h = VString l /\ In l App.dirs.
Proof.
  apply (wind_panel RefMath.lib
           {| App.speed := str "-20"; App.dirFrom := str "810"; App.env := str "shrub";
              App.slopePct := []; App.slopeDirTo := [] |}).
  - exact reference_math_ok.
  - reflexivity.
  - reflexivity.
  - reflexivity.
  - vm_compute. reflexivity.
  - vm_compute. reflexivity.
  - intros H. vm_compute in H. discriminate H.
Defined.

End WindPanel.
